(** * Reliable UDP file transfer (rcopy / server): window store, replay
    buffer, sender and receiver engines, embedded from the C sources.

    Conventions of the embedding.
    - A [uint32_t] is a [Z] in [0, 2^32); every place where the C code
      computes in [uint32_t] the wrap-around is written out with [u32].
    - An [int] counter (retry counters, lengths) is an unbounded [Z]: the
      counters of the code stay far below [2^31].
    - A byte is a [Z] in [0, 256); a datagram or a PDU buffer is a [list Z].
    - An array of structs is a [list]; [slot w i] reads entry [i] and
      [set_slot w i p] writes it.  The code only ever indexes the array
      with a value reduced modulo [window_size]. *)

From stdpp Require Import base numbers list.
From Stdlib Require Import ZArith Lia.

Local Open Scope Z_scope.

(** ** Machine integers *)

Definition u32 (x : Z) : Z := x mod 2 ^ 32.
Definition u64 (x : Z) : Z := x mod 2 ^ 64.

(** ** protocol.h *)

Definition MAX_DATA_SIZE : Z := 1400.
Definition HEADER_SIZE : Z := 7.
Definition MAX_PDU_SIZE : Z := HEADER_SIZE + MAX_DATA_SIZE.
Definition INIT_BUF_SIZE : Z := 1024.
Definition MAX_RETRANSMIT : Z := 10.
Definition INIT_RETRY_LIMIT : Z := 10.
Definition DATA_TIMEOUT : Z := 10000.

Definition FLAG_RR : Z := 5.
Definition FLAG_SREJ : Z := 6.
Definition FLAG_FILENAME : Z := 8.
Definition FLAG_FILENAME_RESP : Z := 9.
Definition FLAG_EOF : Z := 10.
Definition FLAG_DATA : Z := 16.
Definition FLAG_RESENT_SREJ : Z := 17.
Definition FLAG_RESENT_TIMEOUT : Z := 18.

(** ** window.h, window.c *)

Record packet_t := Packet {
  seq_num : Z;                  (* uint32_t *)
  len : Z;                      (* int *)
  flag : Z;                     (* int *)
  data : option (list Z);       (* char *, [None] is NULL *)
  acknowledged : bool;
  retransmit_count : Z          (* int *)
}.

Record window_t := Window {
  packets : list packet_t;
  window_size : Z;              (* int *)
  base : Z;                     (* uint32_t *)
  next_seq : Z                  (* uint32_t, never written after init *)
}.

(** A slot as [calloc] and [window_slide] leave it. *)
Definition zero_packet : packet_t := Packet 0 0 0 None false 0.

Definition slot (w : window_t) (i : Z) : packet_t :=
  default zero_packet (packets w !! Z.to_nat i).

Definition set_slot (w : window_t) (i : Z) (p : packet_t) : window_t :=
  Window (<[Z.to_nat i := p]> (packets w)) (window_size w) (base w) (next_seq w).

Definition set_base (w : window_t) (b : Z) : window_t :=
  Window (packets w) (window_size w) b (next_seq w).

Definition has_data (p : packet_t) : bool :=
  match data p with Some _ => true | None => false end.

Definition set_acknowledged (p : packet_t) (a : bool) : packet_t :=
  Packet (seq_num p) (len p) (flag p) (data p) a (retransmit_count p).

Definition window_init (ws : Z) : window_t :=
  Window (replicate (Z.to_nat ws) zero_packet) ws 0 0.

(** [for (i = 0; i < n; i++) if (P ((index + i) % window_size)) break;]
    as the first offset [i] at which the test succeeds. *)
Definition scan_from (w : window_t) (index : Z) (P : packet_t -> bool) : option Z :=
  match List.find (fun i => P (slot w ((index + i) mod window_size w)))
                  (seqZ 0 (window_size w)) with
  | Some i => Some ((index + i) mod window_size w)
  | None => None
  end.

Definition window_add_packet (w : window_t) (seq : Z) (d : list Z) (l : Z) (fl : Z)
  : Z * window_t :=
  let index := seq mod window_size w in
  if seq >? u32 (base w + 2 * window_size w) then (-2, w)
  else
    let index :=
      if has_data (slot w index) && negb (seq_num (slot w index) =? seq) then
        if (seq >=? base w) && (seq <? u32 (base w + window_size w)) then
          match scan_from w index
                  (fun p => negb (has_data p) || acknowledged p) with
          | Some alt_index => alt_index
          | None => index
          end
        else index
      else index in
    (index,
     set_slot w index
       (Packet seq l fl (Some (take (Z.to_nat l) d)) false 0)).

(** The function-local [static] variables of the duplicate-ack branch of
    [window_mark_ack].  (The second pair of statics, declared in the
    "reset" block, is a distinct pair that is only ever written.) *)
Record mark_static := MarkStatic {
  last_repeated_ack : Z;        (* uint32_t *)
  repeat_count : Z              (* int *)
}.

Definition mark_static_init : mark_static := MarkStatic 0 0.

(** One iteration of the marking loop, for [seq = base + i]. *)
Definition mark_one (w : window_t) (i : Z) : window_t :=
  let seq := u32 (base w + i) in
  let index := seq mod window_size w in
  if seq_num (slot w index) =? seq then
    set_slot w index (set_acknowledged (slot w index) true)
  else
    match scan_from w index (fun p => seq_num p =? seq) with
    | Some alt_index =>
        set_slot w alt_index (set_acknowledged (slot w alt_index) true)
    | None => w
    end.

(** "Calculate how many packets this ack covers", then "ensure we don't
    ack more than window_size packets at once". *)
Definition packets_to_ack (w : window_t) (ack_seq : Z) : Z :=
  let packets_to_ack :=
    if ack_seq >=? base w then u32 (ack_seq - base w + 1)
    else u32 (4294967295 - base w + ack_seq + 1) in
  if packets_to_ack >? window_size w then window_size w else packets_to_ack.

Definition window_mark_ack (st : mark_static) (w : window_t) (ack_seq : Z)
  : mark_static * window_t :=
  if ack_seq =? u32 (base w - 1) then
    if last_repeated_ack st =? ack_seq then
      let st' := MarkStatic (last_repeated_ack st) (repeat_count st + 1) in
      if repeat_count st' >=? 3 then
        let missing_pkt_index := base w mod window_size w in
        if has_data (slot w missing_pkt_index)
           && (seq_num (slot w missing_pkt_index) =? base w)
        then (st', set_slot w missing_pkt_index
                     (set_acknowledged (slot w missing_pkt_index) false))
        else (st', w)
      else (st', w)
    else (MarkStatic ack_seq 1, w)
  else if (ack_seq <? base w) && (u32 (base w - ack_seq) >? 5) then (st, w)
  else (st, foldl mark_one w (seqZ 0 (packets_to_ack w ack_seq))).

Definition window_get_base (w : window_t) : Z := base w.

(** The result is the index of the slot the C function returns a pointer to. *)
Definition window_get_packet (w : window_t) (seq : Z) : option Z :=
  if (seq <? base w) && (u32 (base w - seq) >? window_size w) then None
  else if seq >=? u32 (base w + window_size w * 2) then None
  else
    let index := seq mod window_size w in
    if (seq_num (slot w index) =? seq) && has_data (slot w index) then Some index
    else scan_from w index (fun p => (seq_num p =? seq) && has_data p).

(** The body of the [while (true)] loop of [window_slide].  Every
    iteration that does not leave the loop increments [packets_slid], and
    the loop is left once [packets_slid >= window_size]: [fuel] counts the
    iterations that remain, [window_size - packets_slid]. *)
Fixpoint slide_loop (fuel : nat) (w : window_t) (packets_slid : Z) : window_t :=
  match fuel with
  | O => w
  | S fuel' =>
      let index := base w mod window_size w in
      let found :=
        if (seq_num (slot w index) =? base w) && acknowledged (slot w index)
        then Some index
        else scan_from w index
               (fun p => (seq_num p =? base w) && acknowledged p) in
      match found with
      | Some i =>
          let w' := set_base (set_slot w i zero_packet) (u32 (base w + 1)) in
          let packets_slid' := packets_slid + 1 in
          if packets_slid' >=? window_size w then w'
          else slide_loop fuel' w' packets_slid'
      | None => w
      end
  end.

Definition window_slide (w : window_t) : window_t :=
  slide_loop (Z.to_nat (window_size w)) w 0.

(** What the sender does with the window on an RR for [ack_seq]
    (server.c: [window_mark_ack (win, ack_seq); window_slide (win);]). *)
Definition ack_and_slide (st : mark_static) (w : window_t) (ack_seq : Z)
  : mark_static * window_t :=
  let '(st', w') := window_mark_ack st w ack_seq in (st', window_slide w').

(** ** circular_buffer.h, circular_buffer.c *)

Module CircularBuffer.

Record circular_buffer_t := CB {
  data : list Z;              (* char *, [size] bytes *)
  size : Z;                   (* size_t *)
  head : Z;                   (* size_t *)
  tail : Z;                   (* size_t *)
  bytes_stored : Z;           (* size_t *)
  start_seq : Z;              (* uint32_t *)
  end_seq : Z;                (* uint32_t *)
  buffer_size : Z             (* uint32_t *)
}.

(** [malloc] leaves the bytes undetermined; they are never read before
    they are written, and are taken to be zero here. *)
Definition circular_buffer_init (sz : Z) (bsz : Z) : circular_buffer_t :=
  CB (replicate (Z.to_nat sz) 0) sz 0 0 0 0 0 bsz.

(** [memcpy (buf + pos, src, |src|)] *)
Definition memcpy_at (buf : list Z) (pos : Z) (src : list Z) : list Z :=
  take (Z.to_nat pos) buf ++ src
    ++ drop (Z.to_nat pos + length src) buf.

(** The eviction loop of [circular_buffer_write].  [bytes_stored]
    decreases by [packet_size >= 1] at every iteration, so [fuel], the
    number of bytes stored on entry, bounds the iterations. *)
Fixpoint evict (fuel : nat) (cb : circular_buffer_t)
         (bytes_to_free : Z) (seqs_to_remove : Z) : circular_buffer_t * Z :=
  match fuel with
  | O => (cb, seqs_to_remove)
  | S fuel' =>
      if (bytes_to_free >? 0) && (bytes_stored cb >? 0) then
        let packet_size :=
          if seqs_to_remove =? 0
          then buffer_size cb - head cb mod buffer_size cb
          else buffer_size cb in
        let packet_size :=
          if packet_size >? bytes_stored cb then bytes_stored cb
          else packet_size in
        let cb' :=
          CB (data cb) (size cb) ((head cb + packet_size) mod size cb)
             (tail cb) (bytes_stored cb - packet_size)
             (start_seq cb) (end_seq cb) (buffer_size cb) in
        let bytes_to_free' :=
          bytes_to_free
          - (if bytes_to_free >? packet_size then packet_size
             else bytes_to_free) in
        evict fuel' cb' bytes_to_free' (u32 (seqs_to_remove + 1))
      else (cb, seqs_to_remove)
  end.

(** The result is the [int] the C function returns and the buffer after
    the call; [bytes] are the [len] bytes at [data]. *)
Definition circular_buffer_write (cb : circular_buffer_t) (bytes : list Z)
           (seq : Z) : Z * circular_buffer_t :=
  let len := Z.of_nat (length bytes) in
  let cb1 :=
    if bytes_stored cb + len >? size cb then
      let '(cb', seqs_to_remove) :=
        evict (Z.to_nat (bytes_stored cb)) cb len 0 in
      CB (data cb') (size cb') (head cb') (tail cb') (bytes_stored cb')
         (u32 (start_seq cb' + seqs_to_remove)) (end_seq cb') (buffer_size cb')
    else cb in
  if bytes_stored cb1 + len >? size cb1 then (-1, cb1)
  else
    let data' :=
      if tail cb1 + len <=? size cb1 then memcpy_at (data cb1) (tail cb1) bytes
      else
        let first_chunk := size cb1 - tail cb1 in
        memcpy_at
          (memcpy_at (data cb1) (tail cb1) (take (Z.to_nat first_chunk) bytes))
          0 (drop (Z.to_nat first_chunk) bytes) in
    (0, CB data' (size cb1) (head cb1) ((tail cb1 + len) mod size cb1)
           (bytes_stored cb1 + len) (start_seq cb1)
           (if seq >=? end_seq cb1 then u32 (seq + 1) else end_seq cb1)
           (buffer_size cb1)).

(** The result is the [int] the C function returns and the bytes it
    leaves in [buffer]. *)
Definition circular_buffer_read_seq (cb : circular_buffer_t) (max_len : Z)
           (seq : Z) : Z * list Z :=
  if (seq <? start_seq cb) || (seq >=? end_seq cb) then (-1, [])
  else
    let seq_offset := u32 (seq - start_seq cb) in
    let position := (head cb + u32 (seq_offset * buffer_size cb)) mod size cb in
    let len := buffer_size cb in
    let len := if len >? max_len then max_len else len in
    let len :=
      if (seq =? u32 (end_seq cb - 1))
         && (bytes_stored cb <? u32 ((seq_offset + 1) * buffer_size cb))
      then
        let bytes_in_last_packet :=
          u64 (bytes_stored cb - u32 (seq_offset * buffer_size cb)) in
        if bytes_in_last_packet <? len then bytes_in_last_packet else len
      else len in
    let out :=
      if position + len <=? size cb
      then take (Z.to_nat len) (drop (Z.to_nat position) (data cb))
      else
        let first_chunk := size cb - position in
        drop (Z.to_nat position) (data cb)
          ++ take (Z.to_nat (len - first_chunk)) (data cb) in
    (len, out).

End CircularBuffer.

(** ** The wire format (protocol.h, [pdu_header_t], packed) *)

(** Modelled from the spec: [in_cksum] of the course library (checksum.h is
    not part of the sources), "the 16-bit Internet checksum (the
    ones-complement sum used in IP/UDP) ... with one trailing zero byte
    appended for odd-length sums".  The 16-bit words are read as the host
    (little-endian) reads them. *)
Fixpoint sum16 (bytes : list Z) : Z :=
  match bytes with
  | b0 :: b1 :: rest => (b0 + 256 * b1) + sum16 rest
  | [b0] => b0
  | [] => 0
  end.

Definition in_cksum (bytes : list Z) : Z :=
  let sum := sum16 bytes in
  let sum := sum / 65536 + sum mod 65536 in
  let sum := sum + sum / 65536 in
  65535 - sum mod 65536.

Definition byte_at (d : list Z) (i : nat) : Z := default 0 (d !! i).

(** [htonl] followed by a [memcpy] of the four bytes, and back. *)
Definition be32 (x : Z) : list Z :=
  [x / 2 ^ 24 mod 256; x / 2 ^ 16 mod 256; x / 2 ^ 8 mod 256; x mod 256].

Definition get_be32 (d : list Z) (off : nat) : Z :=
  byte_at d off * 2 ^ 24 + byte_at d (off + 1) * 2 ^ 16
  + byte_at d (off + 2) * 2 ^ 8 + byte_at d (off + 3).

(** [ntohl (header->seq_num)], [header->checksum], [header->flag] of a
    buffer that starts with a [pdu_header_t]. *)
Definition hdr_seq_num (d : list Z) : Z := get_be32 d 0.
Definition hdr_checksum (d : list Z) : Z := byte_at d 4 + 256 * byte_at d 5.
Definition hdr_flag (d : list Z) : Z := byte_at d 6.

(** [header->checksum = c] and [header->flag = f], in place. *)
Definition set_hdr_checksum (d : list Z) (c : Z) : list Z :=
  <[5%nat := c / 256 mod 256]> (<[4%nat := c mod 256]> d).
Definition set_hdr_flag (d : list Z) (f : Z) : list Z :=
  <[6%nat := f mod 256]> d.

(** A header with [checksum = 0] followed by the payload, then the
    checksum of the whole PDU written into the header: the way every
    sender of the code builds a PDU. *)
Definition build_pdu (seq : Z) (fl : Z) (payload : list Z) : list Z :=
  let pdu := be32 seq ++ [0; 0] ++ [fl mod 256] ++ payload in
  set_hdr_checksum pdu (in_cksum pdu).

(** [recv_chk = header->checksum; header->checksum = 0;
     calc_chk = in_cksum (buf, recv_len); recv_chk == calc_chk] *)
Definition checksum_ok (d : list Z) : bool :=
  hdr_checksum d =? in_cksum (set_hdr_checksum d 0).

(** The payload of a received PDU, [buf + HEADER_SIZE]. *)
Definition pdu_payload (d : list Z) : list Z := drop (Z.to_nat HEADER_SIZE) d.

(** Modelled from the spec: the transport primitives (pollLib, safeUtil
    and the socket are not part of the sources).  [pollCall (timeout)]
    "waits up to a timeout for readable data": it is positive when a
    datagram can be read, and that datagram is what [safeRecvfrom] then
    returns; it is [0] on a timeout.  A receive into a buffer of [n] bytes
    keeps the first [n] bytes of the datagram. *)
Inductive poll_result :=
| Ready (datagram : list Z)
| Timeout.

Definition recvfrom (bufsize : Z) (datagram : list Z) : list Z :=
  take (Z.to_nat bufsize) datagram.

(** The polls of a run: the outcomes listed in [polls], in order, and a
    timeout for every poll after them. *)
Definition next_poll (polls : list poll_result) : poll_result * list poll_result :=
  match polls with
  | r :: polls' => (r, polls')
  | [] => (Timeout, [])
  end.

(** ** server.c: the sender engine *)

(** The [static] pair [last_rr_seq], [repeat_rr_count]; the code has two
    such pairs, one in [process_ack_packets] and one in
    [send_data_packets]. *)
Record rr_static := RrStatic {
  last_rr_seq : Z;              (* uint32_t *)
  repeat_rr_count : Z           (* int *)
}.

Definition rr_static_init : rr_static := RrStatic 0 0.

Definition set_data (p : packet_t) (d : list Z) : packet_t :=
  Packet (seq_num p) (len p) (flag p) (Some d) (acknowledged p)
         (retransmit_count p).

(** [pkt_header->flag = fl; pkt_header->checksum = 0;
     pkt_header->checksum = in_cksum (pkt->data, pkt->len);] *)
Definition refresh_pdu (d : list Z) (l : Z) (fl : Z) : list Z :=
  let d := set_hdr_flag d fl in
  let d := set_hdr_checksum d 0 in
  set_hdr_checksum d (in_cksum (take (Z.to_nat l) d)).

(** Re-send the packet of slot [i] with flag [fl]: the stored PDU is
    updated in place and [pkt->len] bytes of it are sent.  The callers
    pass a slot whose [data] is not NULL. *)
Definition resend_slot (w : window_t) (i : Z) (fl : Z)
  : window_t * list (list Z) :=
  match data (slot w i) with
  | Some d =>
      let d' := refresh_pdu d (len (slot w i)) fl in
      (set_slot w i (set_data (slot w i) d'),
       [take (Z.to_nat (len (slot w i))) d'])
  | None => (w, [])
  end.

(** "Find the packet at the window base": the expected index, then the
    whole window. *)
Definition find_base_pkt (w : window_t) : option Z :=
  let base_index := base w mod window_size w in
  if (seq_num (slot w base_index) =? base w) && has_data (slot w base_index)
  then Some base_index
  else scan_from w base_index
         (fun p => (seq_num p =? base w) && has_data p).

(** The RR branch, the same text in [process_ack_packets] and in the main
    loop of [send_data_packets]. *)
Definition on_rr (rs : rr_static) (ms : mark_static) (w : window_t) (ack_seq : Z)
  : rr_static * mark_static * window_t * list (list Z) :=
  let '(rs1, w1, out) :=
    if (last_rr_seq rs =? ack_seq) && (ack_seq =? u32 (base w - 1)) then
      let count := repeat_rr_count rs + 1 in
      if count >=? 3 then
        match find_base_pkt w with
        | Some i =>
            let '(w', out) := resend_slot w i FLAG_RESENT_TIMEOUT in
            (RrStatic (last_rr_seq rs) 0, w', out)
        | None => (RrStatic (last_rr_seq rs) 0, w, [])
        end
      else (RrStatic (last_rr_seq rs) count, w, [])
    else if negb (ack_seq =? last_rr_seq rs) then (RrStatic ack_seq 1, w, [])
    else (rs, w, []) in
  let '(ms1, w2) := ack_and_slide ms w1 ack_seq in
  (rs1, ms1, w2, out).

(** The SREJ branch, the same text in both places. *)
Definition on_srej (w : window_t) (srej_seq : Z) : window_t * list (list Z) :=
  match window_get_packet w srej_seq with
  | Some i => resend_slot w i FLAG_RESENT_SREJ
  | None => (w, [])
  end.

(** What the sender does with one received datagram: the body of the
    loop of [process_ack_packets] and the [poll_result > 0] branch of the
    main loop.  [ack_buf] has [HEADER_SIZE + 4] bytes. *)
Definition on_control (rs : rr_static) (ms : mark_static) (w : window_t)
           (datagram : list Z)
  : rr_static * mark_static * window_t * list (list Z) :=
  let ack_buf := recvfrom (HEADER_SIZE + 4) datagram in
  let recv_len := Z.of_nat (length ack_buf) in
  if recv_len >=? HEADER_SIZE + 4 then
    if negb (checksum_ok ack_buf) then (rs, ms, w, [])
    else if hdr_flag ack_buf =? FLAG_RR then
      on_rr rs ms w (get_be32 ack_buf 7)
    else if hdr_flag ack_buf =? FLAG_SREJ then
      let '(w', out) := on_srej w (get_be32 ack_buf 7) in (rs, ms, w', out)
    else (rs, ms, w, [])
  else (rs, ms, w, []).

(** The points of [send_data_packets] at which a state is observed: the
    test of the fill loop, the [pollCall (0)] of [process_ack_packets]
    (the packet [seq_num] is stored and sent, [seq_num] not yet
    incremented), the [pollCall (timeout)] of the main loop, the head of
    the loop of [send_eof_packet], its [pollCall (1000)], and the end. *)
Inductive sender_pc := PcFill | PcAcks | PcWait | PcEof | PcEofWait | PcDone.

Record sender_t := Sender {
  s_pc : sender_pc;
  s_win : window_t;                       (* win *)
  s_seq_num : Z;                          (* seq_num, uint32_t *)
  s_eof_reached : bool;                   (* eof_reached *)
  s_active : bool;                        (* active *)
  s_timeout_counter : Z;                  (* timeout_counter *)
  s_last_base : Z;                        (* last_base, uint32_t *)
  s_fp : list Z;                          (* the bytes of fp not yet read *)
  s_cb : CircularBuffer.circular_buffer_t; (* cb *)
  s_window_size : Z;                      (* window_size, uint32_t *)
  s_buffer_size : Z;                      (* buffer_size, uint32_t *)
  s_mark : mark_static;
  s_rr_acks : rr_static;                  (* statics of process_ack_packets *)
  s_rr_main : rr_static;                  (* statics of send_data_packets *)
  s_eof_retries : Z;                      (* eof_retries *)
  s_final_ack_received : bool             (* final_ack_received *)
}.

Definition send_data_packets_init (fp : list Z) (ws bs : Z) : sender_t :=
  Sender PcFill (window_init ws) 0 false true 0 0 fp
         (CircularBuffer.circular_buffer_init (u32 (u32 (2 * ws) * bs)) bs)
         ws bs mark_static_init rr_static_init rr_static_init 0 false.

Definition with_pc (s : sender_t) (pc : sender_pc) : sender_t :=
  Sender pc (s_win s) (s_seq_num s) (s_eof_reached s) (s_active s)
         (s_timeout_counter s) (s_last_base s) (s_fp s) (s_cb s)
         (s_window_size s) (s_buffer_size s) (s_mark s) (s_rr_acks s)
         (s_rr_main s) (s_eof_retries s) (s_final_ack_received s).

Definition with_win (s : sender_t) (w : window_t) : sender_t :=
  Sender (s_pc s) w (s_seq_num s) (s_eof_reached s) (s_active s)
         (s_timeout_counter s) (s_last_base s) (s_fp s) (s_cb s)
         (s_window_size s) (s_buffer_size s) (s_mark s) (s_rr_acks s)
         (s_rr_main s) (s_eof_retries s) (s_final_ack_received s).

Definition with_active (s : sender_t) (a : bool) : sender_t :=
  Sender (s_pc s) (s_win s) (s_seq_num s) (s_eof_reached s) a
         (s_timeout_counter s) (s_last_base s) (s_fp s) (s_cb s)
         (s_window_size s) (s_buffer_size s) (s_mark s) (s_rr_acks s)
         (s_rr_main s) (s_eof_retries s) (s_final_ack_received s).

Definition with_timeout_counter (s : sender_t) (tc lb : Z) : sender_t :=
  Sender (s_pc s) (s_win s) (s_seq_num s) (s_eof_reached s) (s_active s)
         tc lb (s_fp s) (s_cb s)
         (s_window_size s) (s_buffer_size s) (s_mark s) (s_rr_acks s)
         (s_rr_main s) (s_eof_retries s) (s_final_ack_received s).

(** The search loop of [handle_timeout] over [check_seq = base + i], left
    at the first sequence number that was not sent yet. *)
Fixpoint timeout_search (w : window_t) (seq : Z) (offsets : list Z) : option Z :=
  match offsets with
  | [] => None
  | i :: offsets' =>
      let check_seq := u32 (base w + i) in
      if check_seq >=? seq then None
      else
        let check_index := check_seq mod window_size w in
        if (seq_num (slot w check_index) =? check_seq)
           && has_data (slot w check_index)
           && negb (acknowledged (slot w check_index))
        then Some check_index
        else timeout_search w seq offsets'
  end.

Definition set_retransmit_count (p : packet_t) (c : Z) : packet_t :=
  Packet (seq_num p) (len p) (flag p) (data p) (acknowledged p) c.

(** [handle_timeout]: the state after the call (with [*active] and the
    window updated) and the datagrams sent. *)
Definition handle_timeout (s : sender_t) : sender_t * list (list Z) :=
  let win := s_win s in
  let base_seq := base win in
  let index := base_seq mod window_size win in
  let at_index :=
    (seq_num (slot win index) =? base_seq) && has_data (slot win index) in
  let pkt :=
    if at_index then Some index
    else timeout_search win (s_seq_num s) (seqZ 0 (s_window_size s)) in
  let done_after (w : window_t) :=
    if s_eof_reached s && (base w >=? s_seq_num s) then false
    else s_active s in
  match pkt with
  | Some i =>
      let '(win1, out) := resend_slot win i FLAG_RESENT_TIMEOUT in
      let count := retransmit_count (slot win1 i) + 1 in
      let win2 := set_slot win1 i (set_retransmit_count (slot win1 i) count) in
      if count >=? MAX_RETRANSMIT then
        let win3 :=
          window_slide
            (set_slot win2 i (set_acknowledged (slot win2 i) true)) in
        (with_active (with_win s win3) (done_after win3), out)
      else (with_win s win2, out)
  | None =>
      let '(bytes_read, data_buf) :=
        CircularBuffer.circular_buffer_read_seq (s_cb s) (s_buffer_size s)
          base_seq in
      if bytes_read >? 0 then
        let pdu_len := HEADER_SIZE + bytes_read in
        let new_pdu := build_pdu base_seq FLAG_RESENT_TIMEOUT data_buf in
        let win1 :=
          snd (window_add_packet win base_seq new_pdu pdu_len
                 FLAG_RESENT_TIMEOUT) in
        (with_win s win1, [new_pdu])
      else if s_timeout_counter s >? 10 then
        let idx := base_seq mod window_size win in
        let win1 :=
          window_slide
            (set_slot win idx (set_acknowledged (slot win idx) true)) in
        (with_active (with_win s win1) (done_after win1), [])
      else (s, [])
  end.

(** The end of an iteration of the main loop:
    [if (eof_reached && win->base >= seq_num) active = 0;] and the test
    [while (active)]. *)
Definition end_iteration (s : sender_t) : sender_t :=
  let s :=
    if s_eof_reached s && (base (s_win s) >=? s_seq_num s)
    then with_active s false else s in
  with_pc s (if s_active s then PcFill else PcEof).

Definition window_full (s : sender_t) : bool :=
  u32 (s_seq_num s - base (s_win s)) =? s_window_size s.

(** From the end of the fill loop to the [pollCall (timeout)] of the main
    loop, or, when the deadlock breaker fires, through [handle_timeout] to
    the end of the iteration. *)
Definition after_fill (s : sender_t) : sender_t * list (list Z) :=
  if s_eof_reached s && (base (s_win s) =? s_seq_num s) then
    (with_pc (with_active s false) PcEof, [])
  else
    let '(tc, lb, should_handle_timeout) :=
      if window_full s then
        if base (s_win s) =? s_last_base s then
          (s_timeout_counter s + 1, s_last_base s, s_timeout_counter s + 1 >=? 3)
        else (0, base (s_win s), false)
      else (s_timeout_counter s, s_last_base s, false) in
    let s := with_timeout_counter s tc lb in
    if should_handle_timeout then
      let '(s', out) := handle_timeout s in (end_iteration s', out)
    else (with_pc s PcWait, []).

(** One test of the fill loop and, when it succeeds and the file has
    bytes left, the body up to the call of [process_ack_packets]. *)
Definition fill_step (s : sender_t) : sender_t * list (list Z) :=
  if (u32 (s_seq_num s - base (s_win s)) <? s_window_size s)
     && negb (s_eof_reached s) then
    let data_buf := take (Z.to_nat (s_buffer_size s)) (s_fp s) in
    let bytes_read := Z.of_nat (length data_buf) in
    if bytes_read <=? 0 then
      after_fill
        (Sender (s_pc s) (s_win s) (s_seq_num s) true (s_active s)
           (s_timeout_counter s) (s_last_base s) (s_fp s) (s_cb s)
           (s_window_size s) (s_buffer_size s) (s_mark s) (s_rr_acks s)
           (s_rr_main s) (s_eof_retries s) (s_final_ack_received s))
    else
      let cb := snd (CircularBuffer.circular_buffer_write (s_cb s) data_buf
                       (s_seq_num s)) in
      let pdu_len := HEADER_SIZE + bytes_read in
      let pdu := build_pdu (s_seq_num s) FLAG_DATA data_buf in
      let win := snd (window_add_packet (s_win s) (s_seq_num s) pdu pdu_len
                        FLAG_DATA) in
      (Sender PcAcks win (s_seq_num s) (s_eof_reached s) (s_active s)
         (s_timeout_counter s) (s_last_base s)
         (drop (Z.to_nat (s_buffer_size s)) (s_fp s)) cb
         (s_window_size s) (s_buffer_size s) (s_mark s) (s_rr_acks s)
         (s_rr_main s) (s_eof_retries s) (s_final_ack_received s),
       [pdu])
  else after_fill s.

(** [process_ack_packets], one [pollCall (0)]: a datagram is processed
    and the loop polls again; with nothing to read the function returns
    and the fill loop does [seq_num++]. *)
Definition acks_step (s : sender_t) (r : poll_result) : sender_t * list (list Z) :=
  match r with
  | Ready d =>
      let '(rs, ms, w, out) := on_control (s_rr_acks s) (s_mark s) (s_win s) d in
      (Sender PcAcks w (s_seq_num s) (s_eof_reached s) (s_active s)
         (s_timeout_counter s) (s_last_base s) (s_fp s) (s_cb s)
         (s_window_size s) (s_buffer_size s) ms rs
         (s_rr_main s) (s_eof_retries s) (s_final_ack_received s), out)
  | Timeout =>
      (Sender PcFill (s_win s) (u32 (s_seq_num s + 1)) (s_eof_reached s)
         (s_active s) (s_timeout_counter s) (s_last_base s) (s_fp s) (s_cb s)
         (s_window_size s) (s_buffer_size s) (s_mark s) (s_rr_acks s)
         (s_rr_main s) (s_eof_retries s) (s_final_ack_received s), [])
  end.

(** The [pollCall (timeout)] of the main loop and the rest of the
    iteration. *)
Definition wait_step (s : sender_t) (r : poll_result) : sender_t * list (list Z) :=
  match r with
  | Ready d =>
      let '(rs, ms, w, out) := on_control (s_rr_main s) (s_mark s) (s_win s) d in
      (end_iteration
         (Sender (s_pc s) w (s_seq_num s) (s_eof_reached s) (s_active s)
            0 (s_last_base s) (s_fp s) (s_cb s)
            (s_window_size s) (s_buffer_size s) ms (s_rr_acks s)
            rs (s_eof_retries s) (s_final_ack_received s)), out)
  | Timeout =>
      if window_full s then
        let '(s', out) := handle_timeout s in (end_iteration s', out)
      else (end_iteration s, [])
  end.

(** [send_eof_packet]: the EOF PDU, the test of the retry loop with the
    send, and the rest of an iteration from its [pollCall (1000)]. *)
Definition eof_pdu (seq : Z) : list Z := build_pdu seq FLAG_EOF [].

Definition eof_continue (eof_retries : Z) (final_ack_received : bool) : bool :=
  (eof_retries <? MAX_RETRANSMIT) && negb final_ack_received.

(** The result is [(eof_retries, final_ack_received)] at the end of the
    iteration; every [break] of the code sets [final_ack_received]. *)
Definition eof_iteration (w : window_t) (eof_retries : Z) (r : poll_result)
  : Z * bool :=
  let count_attempt (retries : Z) := (retries + 1, retries + 1 >=? 5) in
  match r with
  | Ready d =>
      let final_ack := recvfrom (HEADER_SIZE + 4) d in
      let recv_len := Z.of_nat (length final_ack) in
      if recv_len >=? HEADER_SIZE + 4 then
        if negb (checksum_ok final_ack) then count_attempt eof_retries
        else if hdr_flag final_ack =? FLAG_RR then
          let ack_seq := get_be32 final_ack 7 in
          if (ack_seq >=? u32 (base w - 1)) || (eof_retries >=? 3)
          then (eof_retries, true)
          else count_attempt eof_retries
        else if hdr_flag final_ack =? FLAG_SREJ then
          if eof_retries >=? 3 then (eof_retries, true)
          else (eof_retries, false)
        else count_attempt eof_retries
      else count_attempt eof_retries
  | Timeout => count_attempt eof_retries
  end.



Definition eof_step (s : sender_t) : sender_t * list (list Z) :=
  if eof_continue (s_eof_retries s) (s_final_ack_received s)
  then (with_pc s PcEofWait, [eof_pdu (s_seq_num s)])
  else (with_pc s PcDone, []).

Definition eof_wait_step (s : sender_t) (r : poll_result)
  : sender_t * list (list Z) :=
  let '(retries, final) := eof_iteration (s_win s) (s_eof_retries s) r in
  (Sender PcEof (s_win s) (s_seq_num s) (s_eof_reached s) (s_active s)
     (s_timeout_counter s) (s_last_base s) (s_fp s) (s_cb s)
     (s_window_size s) (s_buffer_size s) (s_mark s) (s_rr_acks s)
     (s_rr_main s) retries final, []).

(** Whether the sender is at a [pollCall], and with which timeout. *)
Definition sender_poll (s : sender_t) : option Z :=
  match s_pc s with
  | PcAcks => Some 0
  | PcWait => Some (if window_full s then 1000 else 0)
  | PcEofWait => Some 1000
  | PcFill | PcEof | PcDone => None
  end.

(** One step of the sender; [r] is the outcome of the poll when the
    sender is at one. *)
Definition sender_step (s : sender_t) (r : poll_result)
  : sender_t * list (list Z) :=
  match s_pc s with
  | PcFill => fill_step s
  | PcAcks => acks_step s r
  | PcWait => wait_step s r
  | PcEof => eof_step s
  | PcEofWait => eof_wait_step s r
  | PcDone => (s, [])
  end.

(** [send_filename_response (msg, break_after, expect_ack)] against the
    polls [polls]: the FILENAME_RESP PDUs sent and [ack_received]. *)
Definition filename_resp_pdu (msg : list Z) : list Z :=
  build_pdu 0 FLAG_FILENAME_RESP (msg ++ [0]).

Fixpoint send_filename_response_loop (fuel : nat) (msg : list Z)
         (break_after : Z) (expect_ack : bool) (retries : Z)
         (polls : list poll_result) : bool * list (list Z) :=
  match fuel with
  | O => (false, [])
  | S fuel' =>
      if retries <? MAX_RETRANSMIT then
        let '(r, polls') := next_poll polls in
        let is_filename :=
          match r with
          | Ready d =>
              let retry_buf := recvfrom INIT_BUF_SIZE d in
              (Z.of_nat (length retry_buf) >=? HEADER_SIZE)
              && (hdr_flag retry_buf =? FLAG_FILENAME)
          | Timeout => false
          end in
        if is_filename then
          if expect_ack then (true, [filename_resp_pdu msg])
          else
            let '(ack, out) :=
              send_filename_response_loop fuel' msg break_after expect_ack
                retries polls' in
            (ack, filename_resp_pdu msg :: out)
        else if retries + 1 >=? break_after then (false, [filename_resp_pdu msg])
        else
          let '(ack, out) :=
            send_filename_response_loop fuel' msg break_after expect_ack
              (retries + 1) polls' in
          (ack, filename_resp_pdu msg :: out)
      else (false, [])
  end.

Definition send_filename_response (msg : list Z) (break_after : Z)
           (expect_ack : bool) (polls : list poll_result)
  : bool * list (list Z) :=
  send_filename_response_loop (Z.to_nat MAX_RETRANSMIT + length polls)
    msg break_after expect_ack 0 polls.

(** The two calls of [handle_client]: the file could not be opened, and
    the file was opened. *)
Definition msg_file_not_found : list Z :=
  [70; 105; 108; 101; 32; 110; 111; 116; 32; 102; 111; 117; 110; 100].
Definition msg_ok : list Z := [79; 75].

Definition handle_client_response (opened : bool) (polls : list poll_result)
  : bool * list (list Z) :=
  if opened then send_filename_response msg_ok 3 true polls
  else send_filename_response msg_file_not_found 3 false polls.

(** ** rcopy.c: the client handshake and the receiver engine *)

(** [send_rr_packet], [send_srej_packet]: the sequence number is in the
    header and, again in network order, in the four payload bytes. *)
Definition rr_pdu (seq : Z) : list Z := build_pdu seq FLAG_RR (be32 seq).
Definition srej_pdu (seq : Z) : list Z := build_pdu seq FLAG_SREJ (be32 seq).

(** [send_final_rr (seq, times)] *)
Definition send_final_rr (seq : Z) (times : nat) : list (list Z) :=
  replicate times (rr_pdu seq).

(** The bytes of a C string, up to its terminator; then the payload of
    the FILENAME request: [init_payload_t], zeroed, with
    [strncpy (filename, from_filename, 100)] and the two sizes in network
    order. *)
Fixpoint c_string (bytes : list Z) : list Z :=
  match bytes with
  | [] => []
  | b :: bytes' => if b =? 0 then [] else b :: c_string bytes'
  end.

Definition init_payload (from_filename : list Z) (ws bs : Z) : list Z :=
  let name := take 100 (c_string from_filename) in
  name ++ replicate (101 - length name) 0 ++ be32 ws ++ be32 bs.

Definition filename_pdu (from_filename : list Z) (ws bs : Z) : list Z :=
  build_pdu 0 FLAG_FILENAME (init_payload from_filename ws bs).

(** How [send_filename_request] ends: it returns (with [received] set or
    not), or the process exits with status 1 after one of the two
    messages. *)
Inductive handshake_end :=
| Returned (received : bool)
| ExitFileNotFound
| ExitFailedToInitialize.

(** The retry loop of [send_filename_request]: how it ends and the
    FILENAME PDUs sent.  Only an iteration that consumed a datagram (one
    with a wrong checksum) is followed by another one. *)
Fixpoint send_filename_request_loop (fuel : nat) (pdu : list Z) (retries : Z)
         (polls : list poll_result) : handshake_end * list (list Z) :=
  match fuel with
  | O => (Returned false, [])
  | S fuel' =>
      if retries <? INIT_RETRY_LIMIT then
        match next_poll polls with
        | (Ready d, polls') =>
            let resp_buf := recvfrom 1024 d in
            let recv_len := Z.of_nat (length resp_buf) in
            if recv_len >=? HEADER_SIZE then
              if negb (checksum_ok resp_buf) then
                let '(e, out) :=
                  send_filename_request_loop fuel' pdu (retries + 1) polls' in
                (e, pdu :: out)
              else if hdr_flag resp_buf =? FLAG_FILENAME_RESP then
                if (recv_len >? HEADER_SIZE)
                   && negb (bool_decide
                              (c_string (pdu_payload resp_buf ++ [0]) = msg_ok))
                then (ExitFileNotFound, [pdu])
                else (Returned true, [pdu])
              else (ExitFailedToInitialize, [pdu])
            else (ExitFailedToInitialize, [pdu])
        | (Timeout, _) => (ExitFailedToInitialize, [pdu])
        end
      else (Returned false, [])
  end.

Definition send_filename_request (from_filename : list Z) (ws bs : Z)
           (polls : list poll_result) : handshake_end * list (list Z) :=
  send_filename_request_loop (S (length polls))
    (filename_pdu from_filename ws bs) 0 polls.

(** A call of [fwrite] on the output file: the payload of a data frame
    or of an EOF frame.  [seq] is the sequence number in the header of the
    PDU the bytes are written from (the datagram just received, or the
    PDU stored in the window). *)
Inductive write_event :=
| WriteData (seq : Z) (bytes : list Z)
| WriteEof (seq : Z) (bytes : list Z).

Definition written_bytes (e : write_event) : list Z :=
  match e with WriteData _ bytes => bytes | WriteEof _ bytes => bytes end.

(** The contents of the output file after the writes [ws], oldest first. *)
Definition sink (writes : list write_event) : list Z :=
  concat (List.map written_bytes writes).

Record receiver_t := Receiver {
  r_expected_seq : Z;           (* expected_seq, uint32_t *)
  r_highest_received_seq : Z;   (* highest_received_seq, uint32_t *)
  r_eof_received : bool;        (* eof_received *)
  r_consecutive_timeouts : Z;   (* consecutive_timeouts *)
  r_finished : bool;            (* finished *)
  r_win : window_t;             (* win *)
  r_mark : mark_static;
  r_writes : list write_event   (* the calls of fwrite, oldest first *)
}.

Definition process_file_transfer_init (ws : Z) : receiver_t :=
  Receiver 0 0 false 0 false (window_init ws) mark_static_init [].

(** "Process any buffered packets that are now in order": the
    [while (true)] loop.  Each iteration finds a slot that holds the next
    sequence number, and the slots found are pairwise distinct, so the
    loop runs [window_size] times at most; [fuel] is [window_size + 1]. *)
Fixpoint drain_buffered (fuel : nat) (w : window_t) (ms : mark_static)
         (expected_seq : Z)
  : window_t * mark_static * Z * list write_event * list (list Z) :=
  match fuel with
  | O => (w, ms, expected_seq, [], [])
  | S fuel' =>
      match window_get_packet w expected_seq with
      | Some i =>
          let next_packet := slot w i in
          let next_data_len := len next_packet - HEADER_SIZE in
          let bytes :=
            take (Z.to_nat next_data_len)
              (pdu_payload (default [] (data next_packet))) in
          let '(ms1, w1) := window_mark_ack ms w expected_seq in
          let '(w2, ms2, e2, writes, out) :=
            drain_buffered fuel' w1 ms1 (u32 (expected_seq + 1)) in
          (w2, ms2, e2,
           WriteData (hdr_seq_num (default [] (data next_packet))) bytes
             :: writes,
           rr_pdu expected_seq :: out)
      | None => (w, ms, expected_seq, [], [])
      end
  end.

Definition is_data_flag (fl : Z) : bool :=
  (fl =? FLAG_DATA) || (fl =? FLAG_RESENT_SREJ) || (fl =? FLAG_RESENT_TIMEOUT).

(** One iteration of the main loop of [process_file_transfer], from the
    outcome of its [pollCall (DATA_TIMEOUT)]. *)
Definition receiver_step (rc : receiver_t) (r : poll_result)
  : receiver_t * list (list Z) :=
  match r with
  | Ready d =>
      let data_buf := recvfrom MAX_PDU_SIZE d in
      let recv_len := Z.of_nat (length data_buf) in
      if recv_len <? HEADER_SIZE then (rc, [])
      else if negb (checksum_ok data_buf) then
        (rc, [srej_pdu (r_expected_seq rc)])
      else
        let data_buf := set_hdr_checksum data_buf 0 in
        let packet_seq := hdr_seq_num data_buf in
        let fl := hdr_flag data_buf in
        let expected_seq := r_expected_seq rc in
        let '(rc1, out) :=
          if is_data_flag fl then
            if packet_seq =? expected_seq then
              let data_len := recv_len - HEADER_SIZE in
              let bytes := take (Z.to_nat data_len) (pdu_payload data_buf) in
              let '(w, ms, e, writes, out) :=
                drain_buffered (S (Z.to_nat (window_size (r_win rc))))
                  (r_win rc) (r_mark rc) (u32 (expected_seq + 1)) in
              (Receiver e (r_highest_received_seq rc) (r_eof_received rc)
                 (r_consecutive_timeouts rc) (r_finished rc) w ms
                 (r_writes rc ++ WriteData packet_seq bytes :: writes),
               rr_pdu packet_seq :: out)
            else if packet_seq >? expected_seq then
              let w :=
                if base (r_win rc) <? expected_seq
                then set_base (r_win rc) expected_seq else r_win rc in
              let w := snd (window_add_packet w packet_seq data_buf recv_len fl) in
              (Receiver expected_seq (r_highest_received_seq rc)
                 (r_eof_received rc) (r_consecutive_timeouts rc)
                 (r_finished rc) w (r_mark rc) (r_writes rc),
               [srej_pdu expected_seq])
            else
              (rc, if expected_seq >? 0 then [rr_pdu (expected_seq - 1)] else [])
          else if fl =? FLAG_EOF then
            let data_len := recv_len - HEADER_SIZE in
            let writes :=
              if data_len >? 0
              then [WriteEof packet_seq
                      (take (Z.to_nat data_len) (pdu_payload data_buf))]
              else [] in
            (Receiver expected_seq (r_highest_received_seq rc) true
               (r_consecutive_timeouts rc) true (r_win rc) (r_mark rc)
               (r_writes rc ++ writes),
             send_final_rr
               (if expected_seq >? 0 then expected_seq - 1 else 0) 3)
          else (rc, []) in
        (Receiver (r_expected_seq rc1)
           (if packet_seq >? r_highest_received_seq rc1 then packet_seq
            else r_highest_received_seq rc1)
           (r_eof_received rc1) (r_consecutive_timeouts rc1) (r_finished rc1)
           (r_win rc1) (r_mark rc1) (r_writes rc1), out)
  | Timeout =>
      if r_eof_received rc then
        (Receiver (r_expected_seq rc) (r_highest_received_seq rc)
           (r_eof_received rc) (r_consecutive_timeouts rc) true
           (r_win rc) (r_mark rc) (r_writes rc), [])
      else
        let timeouts := r_consecutive_timeouts rc + 1 in
        let max_reached := timeouts >=? 15 in
        (Receiver (r_expected_seq rc) (r_highest_received_seq rc)
           (r_eof_received rc) timeouts max_reached
           (r_win rc) (r_mark rc) (r_writes rc),
         rr_pdu (r_highest_received_seq rc)
           :: (if max_reached
               then [srej_pdu (u32 (r_highest_received_seq rc + 1))]
               else []))
  end.

(** [process_file_transfer] against the polls [polls].  An iteration
    consumes a poll of the list or, after them, counts a timeout, of which
    there are 15 at most. *)
Fixpoint process_file_transfer_loop (fuel : nat) (rc : receiver_t)
         (polls : list poll_result) : receiver_t * list (list Z) :=
  match fuel with
  | O => (rc, [])
  | S fuel' =>
      if r_finished rc then (rc, [])
      else
        let '(r, polls') := next_poll polls in
        let '(rc1, out1) := receiver_step rc r in
        let '(rc2, out2) := process_file_transfer_loop fuel' rc1 polls' in
        (rc2, out1 ++ out2)
  end.

Definition process_file_transfer (ws : Z) (polls : list poll_result)
  : receiver_t * list (list Z) :=
  process_file_transfer_loop (15 + length polls)
    (process_file_transfer_init ws) polls.

(** ** A session over an error-free link *)

(** Modelled from the spec: the datagram transport between the two
    processes at error rate 0 (the socket layer and [sendtoErr] are not
    part of the sources).  Nothing is dropped, corrupted or reordered: a
    datagram sent by one side is appended to the queue the other side reads
    from.  A [pollCall] finds the head of the queue when there is one.  With
    an empty queue, the [pollCall (0)] of [process_ack_packets] returns at
    once, and the polls of the main loop and of [send_eof_packet] return
    without a datagram only when the client has nothing left to read
    either.  The sender runs until such a poll. *)
Record link_t := Link {
  l_sender : sender_t;
  l_receiver : receiver_t;
  l_to_client : list (list Z);  (* sent by the server, not yet read *)
  l_to_server : list (list Z);  (* sent by the client, not yet read *)
  l_sent : list (list Z)        (* all the datagrams of the server, in order *)
}.

Definition run_sender (l : link_t) (r : poll_result) (to_server : list (list Z))
  : link_t :=
  let '(s, out) := sender_step (l_sender l) r in
  Link s (l_receiver l) (l_to_client l ++ out) to_server (l_sent l ++ out).

Definition run_receiver (l : link_t) (r : poll_result)
           (to_client : list (list Z)) : link_t :=
  let '(rc, out) := receiver_step (l_receiver l) r in
  Link (l_sender l) rc to_client (l_to_server l ++ out) (l_sent l).

(** The receiver reads a datagram, if it still runs and there is one. *)
Definition receiver_turn (l : link_t) : option link_t :=
  if r_finished (l_receiver l) then None
  else
    match l_to_client l with
    | d :: q => Some (run_receiver l (Ready d) q)
    | [] => None
    end.

Definition link_step (l : link_t) : option link_t :=
  match sender_poll (l_sender l) with
  | Some _ =>
      match l_to_server l with
      | d :: q => Some (run_sender l (Ready d) q)
      | [] =>
          match s_pc (l_sender l) with
          | PcAcks => Some (run_sender l Timeout [])
          | _ =>
              match receiver_turn l with
              | Some l' => Some l'
              | None => Some (run_sender l Timeout [])
              end
          end
      end
  | None =>
      match s_pc (l_sender l) with
      | PcDone =>
          match receiver_turn l with
          | Some l' => Some l'
          | None =>
              if r_finished (l_receiver l) then None
              else Some (run_receiver l Timeout [])
          end
      | _ => Some (run_sender l Timeout (l_to_server l))
      end
  end.

Fixpoint run_link (fuel : nat) (l : link_t) : link_t :=
  match fuel with
  | O => l
  | S fuel' =>
      match link_step l with
      | Some l' => run_link fuel' l'
      | None => l
      end
  end.

(** The session that serves the file [file] with the negotiated
    [window_size] and [buffer_size], from the first test of the fill loop
    on the server and the first poll of the client. *)
Definition session_init (file : list Z) (ws bs : Z) : link_t :=
  Link (send_data_packets_init file ws bs) (process_file_transfer_init ws)
       [] [] [].

Definition session_complete (l : link_t) : bool :=
  match s_pc (l_sender l) with
  | PcDone => r_finished (l_receiver l)
  | _ => false
  end.

Definition frames_with_flag (fl : Z) (frames : list (list Z)) : list (list Z) :=
  List.filter (fun d => hdr_flag d =? fl) frames.

(** ** Predicates on windows used in the statements *)

(** A window as [window_init] allocates it: [window_size] slots, for a
    [window_size] the client accepts. *)
Definition wf_window (w : window_t) : Prop :=
  0 < window_size w < 2 ^ 30 /\
  Z.of_nat (length (packets w)) = window_size w /\
  0 <= base w < 2 ^ 32.

(** Number of acknowledged slots: the measure that bounds [window_slide]. *)
Fixpoint count_acked (l : list packet_t) : nat :=
  match l with
  | [] => O
  | p :: l' => ((if acknowledged p then 1 else 0) + count_acked l')%nat
  end.

(** No slot holds the base acknowledged: [window_slide] has nothing to do. *)
Definition slide_stuck (w : window_t) : Prop :=
  forall i, 0 <= i < window_size w ->
            seq_num (slot w i) = base w -> acknowledged (slot w i) = false.

(** The windows of a sender between two acknowledgements: every slot is
    unacknowledged, and is zeroed or holds a frame of the current window
    [base, base + window_size) at index [seq mod window_size]. *)
Definition in_place (w : window_t) : Prop :=
  forall i, 0 <= i < window_size w ->
    acknowledged (slot w i) = false /\
    (seq_num (slot w i) = 0 \/
     (base w <= seq_num (slot w i) < base w + window_size w /\
      seq_num (slot w i) mod window_size w = i)).


(** A datagram that the sender accepts as a control frame of flag [fl]
    for the sequence number [a]: its first [HEADER_SIZE + 4] bytes are
    there, their checksum verifies, and the payload carries [a]. *)
Definition control_frame (d : list Z) (fl a : Z) : Prop :=
  let buf := recvfrom (HEADER_SIZE + 4) d in
  Z.of_nat (length buf) >= HEADER_SIZE + 4 /\
  checksum_ok buf = true /\ hdr_flag buf = fl /\ get_be32 buf 7 = a.

(** A poll that [send_filename_response] takes as the acknowledgement of
    the client: a datagram of a header at least, with flag FILENAME. *)
Definition is_filename_ack (r : poll_result) : bool :=
  match r with
  | Ready d =>
      (Z.of_nat (length (recvfrom INIT_BUF_SIZE d)) >=? HEADER_SIZE)
      && (hdr_flag (recvfrom INIT_BUF_SIZE d) =? FLAG_FILENAME)
  | Timeout => false
  end.

(** The outcome of the [i]-th poll of a run. *)
Definition nth_poll (polls : list poll_result) (i : nat) : poll_result :=
  nth i polls Timeout.

(** The sequence numbers of the data frames whose payload was written, in
    the order of the writes. *)
Definition data_seqs (writes : list write_event) : list Z :=
  flat_map (fun e => match e with
                     | WriteData seq _ => [seq]
                     | WriteEof _ _ => []
                     end) writes.

(** The receiver wrote the payloads of the frames [0 .. n - 1], each once
    and in this order, and expects the frame [n] (modulo [2^32]). *)
Definition wrote_in_order (rc : receiver_t) (n : Z) : Prop :=
  0 <= n /\
  data_seqs (r_writes rc) = List.map u32 (seqZ 0 n) /\
  r_expected_seq rc = u32 n.

(** The array of a window has [ws] slots and [window_size] is [ws]. *)
Definition window_shape (ws : Z) (w : window_t) : Prop :=
  window_size w = ws /\ Z.of_nat (length (packets w)) = ws.

(** One of the datagrams of [polls] is a PDU that the receiver accepts (a
    header at least, a checksum that verifies), with the sequence number
    [seq] and the payload [bytes]: a data frame (flag DATA, RESENT_SREJ
    or RESENT_TIMEOUT), or an EOF frame when [eof] is set. *)
Definition received_frame (polls : list poll_result) (eof : bool) (seq : Z)
           (bytes : list Z) : Prop :=
  exists d, In (Ready d) polls /\
    let buf := recvfrom MAX_PDU_SIZE d in
    HEADER_SIZE <= Z.of_nat (length buf) /\ checksum_ok buf = true /\
    (if eof then hdr_flag buf = FLAG_EOF
     else is_data_flag (hdr_flag buf) = true) /\
    hdr_seq_num buf = seq /\ pdu_payload buf = bytes.

(** A write whose bytes are the whole payload of a datagram of [polls]
    with the sequence number of the write; the payload of an EOF frame is
    written only when it is not empty. *)
Definition write_received (polls : list poll_result) (e : write_event)
  : Prop :=
  match e with
  | WriteData seq bytes => received_frame polls false seq bytes
  | WriteEof seq bytes => received_frame polls true seq bytes /\ bytes <> []
  end.

Definition is_data_write (e : write_event) : bool :=
  match e with WriteData _ _ => true | WriteEof _ _ => false end.

(** Every PDU buffered in the window of the receiver is a data frame of
    [polls], stored whole under its own sequence number. *)
Definition slots_received (polls : list poll_result) (w : window_t) : Prop :=
  forall i d, 0 <= i < window_size w -> data (slot w i) = Some d ->
    len (slot w i) = Z.of_nat (length d) /\
    hdr_seq_num d = seq_num (slot w i) /\
    received_frame polls false (hdr_seq_num d) (pdu_payload d).

(** The receiver of the datagrams of [polls], with a window of [ws]
    slots, wrote the payloads of the data frames [0 .. n - 1], each once
    and in this order, and expects the frame [n] (modulo [2^32]). *)
Definition receiver_order (polls : list poll_result) (ws : Z)
           (rc : receiver_t) (n : Z) : Prop :=
  wrote_in_order rc n /\
  window_shape ws (r_win rc) /\ slots_received polls (r_win rc) /\
  Forall (write_received polls) (r_writes rc).

(** The payload of an EOF frame, when one was written, is the last write,
    and the transfer has finished. *)
Definition eof_written_last (rc : receiver_t) : Prop :=
  Forall (fun e => is_data_write e = true) (r_writes rc) \/
  exists pre seq bytes,
    r_writes rc = pre ++ [WriteEof seq bytes] /\
    Forall (fun e => is_data_write e = true) pre /\
    r_finished rc = true /\ r_eof_received rc = true.

(** The window of a sender whose next sequence number to assign is [n],
    during the processing of an RR that has acknowledged the frames below
    [m]: the array holds exactly the frames [base .. n - 1], each in the
    slot of its sequence number modulo [window_size], the other slots are
    empty, and a frame is marked acknowledged when it is below [m]. *)
Definition acked_prefix (w : window_t) (n m : Z) : Prop :=
  0 < window_size w < 2 ^ 30 /\
  Z.of_nat (length (packets w)) = window_size w /\
  0 <= base w <= m /\ m <= n <= base w + window_size w /\
  n + 2 * window_size w < 2 ^ 32 /\
  (forall i, 0 <= i < window_size w ->
     (has_data (slot w i) = false /\ seq_num (slot w i) = 0 /\
      acknowledged (slot w i) = false) \/
     (has_data (slot w i) = true /\
      base w <= seq_num (slot w i) < n /\
      seq_num (slot w i) mod window_size w = i /\
      acknowledged (slot w i) = (seq_num (slot w i) <? m))) /\
  (forall q, base w <= q < n ->
     seq_num (slot w (q mod window_size w)) = q /\
     has_data (slot w (q mod window_size w)) = true).

(** Between two acknowledgements no frame of the window is marked. *)
Definition sender_window (w : window_t) (n : Z) : Prop :=
  acked_prefix w n (base w).

(** The next sequence number to assign: [seq_num], and [seq_num + 1] from
    the moment the frame [seq_num] is stored and sent until the fill loop
    increments [seq_num] (during [process_ack_packets]). *)
Definition sender_next_seq (s : sender_t) : Z :=
  match s_pc s with
  | PcAcks => s_seq_num s + 1
  | _ => s_seq_num s
  end.

(** The states of a session of the sender for the file [file], whatever
    the polls yield. *)
Inductive sender_reachable (file : list Z) (ws bs : Z) : sender_t -> Prop :=
| reachable_init :
    sender_reachable file ws bs (send_data_packets_init file ws bs)
| reachable_step s r :
    sender_reachable file ws bs s ->
    sender_reachable file ws bs (fst (sender_step s r)).

(** The invariant of a session of the sender that serves a file of [L]
    bytes: the window holds the frames from the base to the next sequence
    number to assign, every frame sent took a byte of the file at least,
    and the main loop only waits with frames outstanding. *)
Definition sender_inv (L : Z) (s : sender_t) : Prop :=
  sender_window (s_win s) (sender_next_seq s) /\
  window_size (s_win s) = s_window_size s /\
  0 <= s_seq_num s /\
  sender_next_seq s + Z.of_nat (length (s_fp s)) <= L /\
  L + 2 * s_window_size s + 1 < 2 ^ 32 /\
  (s_pc s = PcWait -> base (s_win s) < s_seq_num s).

(** The part of [sender_inv] that does not depend on the point of the
    code, at a point where [seq_num] is the next sequence number. *)
Definition sender_core (L : Z) (s : sender_t) : Prop :=
  sender_window (s_win s) (s_seq_num s) /\
  window_size (s_win s) = s_window_size s /\
  0 <= s_seq_num s /\
  s_seq_num s + Z.of_nat (length (s_fp s)) <= L /\
  L + 2 * s_window_size s + 1 < 2 ^ 32.

(** The sender that served the first two frames of a file and received
    RR 0: frame 0 has left the window and is still in the replay buffer. *)
Definition after_first_ack : sender_t :=
  let s0 := send_data_packets_init [10; 20; 30; 40; 50; 60] 2 2 in
  let s1 := fst (sender_step s0 Timeout) in
  let s2 := fst (sender_step s1 Timeout) in
  let s3 := fst (sender_step s2 Timeout) in
  fst (sender_step s3 (Ready (rr_pdu 0))).

(** ** A session over an error-free link *)

(** The bytes of the [q]-th [fread] of [bs] bytes from the file, and the
    DATA frame that carries them. *)
Definition chunk (file : list Z) (bs q : Z) : list Z :=
  take (Z.to_nat bs) (drop (Z.to_nat (q * bs)) file).

Definition data_frame (file : list Z) (bs q : Z) : list Z :=
  build_pdu q FLAG_DATA (chunk file bs q).

(** The DATA frames of the first [n] reads, in order. *)
Definition data_frames (file : list Z) (bs n : Z) : list (list Z) :=
  List.map (data_frame file bs) (seqZ 0 n).

(** The number of reads that return bytes: the length of the file divided
    by [bs], rounded up. *)
Definition frame_count (file : list Z) (bs : Z) : Z :=
  (Z.of_nat (length file) + bs - 1) / bs.

(** What the point of the code says about the local variables of
    [send_data_packets] during a session without a timeout. *)
Definition data_phase (s : sender_t) : Prop :=
  match s_pc s with
  | PcFill | PcAcks => s_timeout_counter s = 0 /\ s_active s = true
  | PcWait => 0 <= s_timeout_counter s <= 1 /\ s_active s = true
  | PcEof => s_eof_reached s = true /\ base (s_win s) = s_seq_num s
  | PcEofWait | PcDone => False
  end.

(** The states of the data phase of a session over the error-free link:
    the sender has sent the first [n] DATA frames (and nothing else), the
    receiver has written the first [e] of them and acknowledged each, the
    sender has processed the first [b] acknowledgements; the frames and
    the acknowledgements in between are in the queues. *)
Definition link_inv (file : list Z) (ws bs : Z) (l : link_t) : Prop :=
  let s := l_sender l in
  let rc := l_receiver l in
  let b := base (s_win s) in
  let n := sender_next_seq s in
  let e := r_expected_seq rc in
  sender_inv (Z.of_nat (length file)) s /\
  s_window_size s = ws /\ s_buffer_size s = bs /\
  s_fp s = drop (Z.to_nat (n * bs)) file /\
  (s_eof_reached s = true -> s_fp s = []) /\
  (n = 0 \/ (n - 1) * bs < Z.of_nat (length file)) /\
  s_eof_retries s = 0 /\ s_final_ack_received s = false /\
  data_phase s /\
  b <= e <= n /\
  r_finished rc = false /\ r_eof_received rc = false /\
  r_win rc = window_init ws /\
  r_writes rc = List.map (fun q => WriteData q (chunk file bs q)) (seqZ 0 e) /\
  l_to_client l = List.map (data_frame file bs) (seqZ e (n - e)) /\
  l_to_server l = List.map rr_pdu (seqZ b (e - b)) /\
  l_sent l = data_frames file bs n.

Definition pc_weight (pc : sender_pc) : nat :=
  match pc with
  | PcAcks => 3
  | PcFill => 2
  | PcWait => 1
  | PcEof | PcEofWait | PcDone => 0
  end.

(** The measure that decreases at every step of the data phase: a byte
    of the file that is sent weighs more than the frame and the
    acknowledgement it gives rise to. *)
Definition link_measure (l : link_t) : nat :=
  (10 * length (s_fp (l_sender l)) + 4 * length (l_to_client l)
   + 3 * length (l_to_server l) + pc_weight (s_pc (l_sender l)))%nat.

(** ** rcopy.c and server.c: the arguments and the FILENAME request *)

(** rcopy.c, [main], "Validate inputs": the three tests on
    [from_filename], [window_size] and [buffer_size], in the order of the
    code; each failure prints its message and exits with status 1. *)
Inductive args_check :=
| ArgsOk
| NameTooLong
| InvalidWindowSize
| InvalidBufferSize.

Definition check_args (from_filename : list Z) (window_size buffer_size : Z)
  : args_check :=
  if Z.of_nat (length (c_string from_filename)) >? 100 then NameTooLong
  else if (window_size <=? 0) || (window_size >=? 2 ^ 30) then InvalidWindowSize
  else if (buffer_size <=? 0) || (buffer_size >? MAX_DATA_SIZE)
       then InvalidBufferSize
  else ArgsOk.

(** [sizeof (init_payload_t)], packed: 101 + 4 + 4. *)
Definition INIT_PAYLOAD_SIZE : Z := 109.

(** server.c, [main]: the test of the main loop on a received datagram.
    The result is the packet handed to [handle_client] in the child (the
    buffer, whose checksum field the test has zeroed), or [None] when the
    datagram is dropped. *)
Definition server_main_dispatch (datagram : list Z) : option (list Z) :=
  let buffer := recvfrom INIT_BUF_SIZE datagram in
  let recv_len := Z.of_nat (length buffer) in
  if recv_len >=? HEADER_SIZE then
    if negb (checksum_ok buffer) then None
    else if hdr_flag buffer =? FLAG_FILENAME
         then Some (set_hdr_checksum buffer 0)
         else None
  else None.

(** [handle_client], up to [fopen]: the length test, then the file name
    (the C string of the [filename] field; the code does not bound the
    read to the field, the model stops at its end) and the two sizes,
    [ntohl] of the fields. *)
Definition handle_client_request (init_packet : list Z)
  : option (list Z * Z * Z) :=
  let init_len := Z.of_nat (length init_packet) in
  if init_len <? HEADER_SIZE + INIT_PAYLOAD_SIZE then None
  else
    let init_payload :=
      take (Z.to_nat INIT_PAYLOAD_SIZE) (pdu_payload init_packet) in
    Some (c_string (take 101 init_payload),
          get_be32 init_payload 101, get_be32 init_payload 105).

(** [handle_client]: nothing for a malformed request; otherwise the
    FILENAME_RESP frames sent and, when [fopen] succeeded, the state in
    which [send_data_packets] starts.  [fopen] maps a file name to the
    bytes of the file. *)
Definition handle_client (fopen : list Z -> option (list Z))
           (init_packet : list Z) (polls : list poll_result)
  : option (list (list Z) * option sender_t) :=
  match handle_client_request init_packet with
  | None => None
  | Some (filename, window_size, buffer_size) =>
      match fopen filename with
      | None =>
          Some (snd (send_filename_response msg_file_not_found 3 false polls),
                None)
      | Some fp =>
          Some (snd (send_filename_response msg_ok 3 true polls),
                Some (send_data_packets_init fp window_size buffer_size))
      end
  end.

(** The sender of a five-byte file, one byte a frame, window 2: frames 0
    and 1 sent and acknowledged, frame 2 sent. *)
Definition after_two_acks : sender_t :=
  let s0 := send_data_packets_init [1; 2; 3; 4; 5] 2 1 in
  let s1 := fst (sender_step s0 Timeout) in
  let s2 := fst (sender_step s1 (Ready (rr_pdu 0))) in
  let s3 := fst (sender_step s2 Timeout) in
  let s4 := fst (sender_step s3 Timeout) in
  let s5 := fst (sender_step s4 (Ready (rr_pdu 1))) in
  let s6 := fst (sender_step s5 Timeout) in
  fst (sender_step s6 Timeout).

(** ** What the sender stores and sends *)

(** The states of a session of the sender for the file [file] together
    with all the datagrams it has sent so far, whatever the polls yield. *)
Inductive sender_trace (file : list Z) (ws bs : Z)
  : sender_t -> list (list Z) -> Prop :=
| trace_init :
    sender_trace file ws bs (send_data_packets_init file ws bs) []
| trace_step s sent r :
    sender_trace file ws bs s sent ->
    sender_trace file ws bs (fst (sender_step s r))
      (sent ++ snd (sender_step s r)).

(** Every slot of the window that holds a PDU holds all of it
    ([pkt->len] bytes, a header at least), and the PDU carries the
    sequence number of the slot and the bytes of the file that belong to
    this sequence number. *)
Definition frames_stored (file : list Z) (bs : Z) (w : window_t) : Prop :=
  forall i d, 0 <= i < window_size w -> data (slot w i) = Some d ->
    len (slot w i) = Z.of_nat (length d) /\ 7 <= len (slot w i) /\
    hdr_seq_num d = seq_num (slot w i) /\
    pdu_payload d = chunk file bs (seq_num (slot w i)).

(** A slot after an operation on the window: without bytes, or with the
    sequence number, the length and the bytes it had. *)
Definition slot_kept (p p' : packet_t) : Prop :=
  data p' = None \/
  (seq_num p' = seq_num p /\ len p' = len p /\ data p' = data p).

(** The sender is in [send_eof_packet], or has returned from it. *)
Definition in_eof_phase (s : sender_t) : Prop :=
  match s_pc s with
  | PcEof | PcEofWait | PcDone => True
  | PcFill | PcAcks | PcWait => False
  end.

(** A datagram of the data phase: a first transmission or a
    retransmission of one of the first [n] frames of the file, with a
    checksum that verifies. *)
Definition file_frame (file : list Z) (bs n : Z) (d : list Z) : Prop :=
  checksum_ok d = true /\ is_data_flag (hdr_flag d) = true /\
  exists q, 0 <= q < n /\ hdr_seq_num d = q /\
            pdu_payload d = chunk file bs q.

(** A retransmission. *)
Definition resent_frame (file : list Z) (bs n : Z) (d : list Z) : Prop :=
  file_frame file bs n d /\
  (hdr_flag d = FLAG_RESENT_SREJ \/ hdr_flag d = FLAG_RESENT_TIMEOUT).

(** What the variables of [send_data_packets] say about the file when [n]
    frames have been stored and sent. *)
Definition file_state (file : list Z) (ws bs : Z) (s : sender_t) (n : Z)
  : Prop :=
  s_window_size s = ws /\ s_buffer_size s = bs /\
  s_fp s = drop (Z.to_nat (n * bs)) file /\
  (s_eof_reached s = true -> s_fp s = []) /\
  (n = 0 \/ (n - 1) * bs < Z.of_nat (length file)) /\
  frames_stored file bs (s_win s).

(** [active] is set during the data phase, and the sender enters
    [send_eof_packet] only after the end of the file. *)
Definition phase_ok (s : sender_t) : Prop :=
  match s_pc s with
  | PcEof | PcEofWait | PcDone => s_eof_reached s = true
  | PcFill | PcAcks | PcWait => s_active s = true
  end.

(** What a step adds to the frames sent: the next DATA frame of the
    file, or retransmissions and EOF frames. *)
Definition step_output (file : list Z) (bs : Z) (s s' : sender_t)
           (out : list (list Z)) : Prop :=
  let n := sender_next_seq s in
  (sender_next_seq s' = n + 1 /\ out = [data_frame file bs n] /\
   ~ in_eof_phase s) \/
  (sender_next_seq s' = n /\
   Forall (fun d => resent_frame file bs n d \/
                    (d = eof_pdu n /\ in_eof_phase s')) out).

(** The invariant of a session of the sender and of what it has sent. *)
Definition trace_inv (file : list Z) (ws bs : Z) (s : sender_t)
           (sent : list (list Z)) : Prop :=
  let n := sender_next_seq s in
  file_state file ws bs s n /\ phase_ok s /\
  frames_with_flag FLAG_DATA sent = data_frames file bs n /\
  Forall (fun d => file_frame file bs n d \/
                   (d = eof_pdu n /\ in_eof_phase s)) sent.

(** The sender after [n] steps in which no datagram arrives: every poll
    times out. *)
Definition sender_idle (n : nat) (s : sender_t) : sender_t :=
  Nat.iter n (fun s => fst (sender_step s Timeout)) s.

(** ** What the receiver writes *)

(** The frames buffered in a window are numbered below [N]. *)
Definition slots_below (N : Z) (w : window_t) : Prop :=
  forall i, 0 <= i < window_size w -> has_data (slot w i) = true ->
    0 <= seq_num (slot w i) < N.

(** What the network hands to the client of a session in which the
    server has sent [sent]: a timeout, one of the datagrams of [sent]
    (any of them, any number of times, in any order), or a datagram whose
    checksum fails.  The datagrams of the child of the server that serves
    a file are the FILENAME_RESP PDUs of [handle_client] followed by the
    datagrams of [send_data_packets]. *)
Definition delivered (sent : list (list Z)) (r : poll_result) : Prop :=
  match r with
  | Ready d => In d sent \/ checksum_ok (recvfrom MAX_PDU_SIZE d) = false
  | Timeout => True
  end.

(** A poll of the client in a session for [file]: a timeout, a datagram
    whose checksum fails, or one of the datagrams the server may send, a
    frame of the file numbered below [N], the EOF PDU, or the
    FILENAME_RESP "OK" of the handshake. *)
Definition poll_sound (file : list Z) (bs N : Z) (r : poll_result) : Prop :=
  match r with
  | Ready d =>
      checksum_ok (recvfrom MAX_PDU_SIZE d) = false \/
      file_frame file bs N d \/ d = eof_pdu N \/
      d = filename_resp_pdu msg_ok
  | Timeout => True
  end.

(** The receiver wrote the first [n] frames of the file, and the frames
    it has buffered are frames of the file. *)
Definition receiver_sound (file : list Z) (bs N : Z) (rc : receiver_t)
           (n : Z) : Prop :=
  0 <= n <= N /\ r_expected_seq rc = n /\
  r_writes rc = List.map (fun q => WriteData q (chunk file bs q)) (seqZ 0 n) /\
  frames_stored file bs (r_win rc) /\ slots_below N (r_win rc).

(** ** The circular buffer as [send_data_packets] fills it *)

(** The calls [circular_buffer_write (cb, data_buf, bytes_read, seq_num)]
    of the fill loop for the reads [frames], numbered from [seq]: the
    values returned and the buffer after the last call. *)
Fixpoint write_frames (cb : CircularBuffer.circular_buffer_t) (seq : Z)
         (frames : list (list Z))
  : list Z * CircularBuffer.circular_buffer_t :=
  match frames with
  | [] => ([], cb)
  | f :: frames' =>
      let '(ret, cb1) := CircularBuffer.circular_buffer_write cb f seq in
      let '(rets, cb2) := write_frames cb1 (u32 (seq + 1)) frames' in
      (ret :: rets, cb2)
  end.

(** The reads of a file, [bsz] bytes at a time: every read is full but
    the last one, which holds a byte at least. *)
Definition file_reads (bsz : Z) (frames : list (list Z)) : Prop :=
  forall (i : nat) f, frames !! i = Some f ->
    0 < Z.of_nat (length f) <= bsz /\
    ((S i < length frames)%nat -> Z.of_nat (length f) = bsz).

(** The buffer of capacity [cap] reads of [bsz] bytes after the writes
    of [frames]: the last [cap] of them are stored, each in the block of
    its sequence number modulo [cap]. *)
Definition cb_content (cap bsz : Z) (frames : list (list Z))
           (cb : CircularBuffer.circular_buffer_t) : Prop :=
  let n := Z.of_nat (length frames) in
  let k := Z.min n cap in
  CircularBuffer.size cb = cap * bsz /\
  CircularBuffer.buffer_size cb = bsz /\
  Z.of_nat (length (CircularBuffer.data cb)) = cap * bsz /\
  CircularBuffer.start_seq cb = n - k /\
  CircularBuffer.end_seq cb = n /\
  CircularBuffer.head cb = ((n - k) mod cap) * bsz /\
  CircularBuffer.bytes_stored cb
  = match last frames with
    | Some f => (k - 1) * bsz + Z.of_nat (length f)
    | None => 0
    end /\
  (forall j f, n - k <= j < n -> frames !! Z.to_nat j = Some f ->
     take (length f) (drop (Z.to_nat ((j mod cap) * bsz)) (CircularBuffer.data cb))
     = f).

(** The reads of [file], [bs] bytes at a time, that the fill loop has
    done when the next sequence number is [n]. *)
Definition reads (file : list Z) (bs n : Z) : list (list Z) :=
  List.map (chunk file bs) (seqZ 0 n).

(** ** Repeated RR *)

(** A retransmission of the frame at the base [b] of a session for
    [file]: flag RESENT_TIMEOUT, a checksum that verifies, the sequence
    number [b] and its bytes of the file. *)
Definition base_resent (file : list Z) (bs b : Z) (d : list Z) : Prop :=
  checksum_ok d = true /\ hdr_flag d = FLAG_RESENT_TIMEOUT /\
  hdr_seq_num d = b /\ pdu_payload d = chunk file bs b.

(** The counts of repeated RR of the two poll sites are not negative. *)
Definition rr_counts_ok (s : sender_t) : Prop :=
  0 <= repeat_rr_count (s_rr_acks s) /\ 0 <= repeat_rr_count (s_rr_main s).

(** The polls that [send_filename_response] answers with one more response
    without counting an attempt (server.c: [continue] on a FILENAME
    request when no acknowledgement is expected), among the polls before
    the [k]-th one that is not such a request. *)
Fixpoint requests_before (k : nat) (polls : list poll_result) : nat :=
  match polls with
  | [] => O
  | r :: polls' =>
      match k with
      | O => O
      | S k' =>
          if is_filename_ack r then S (requests_before k polls')
          else requests_before k' polls'
      end
  end.
(** * Properties *)

(** ** Machine integers *)

Lemma u32_range x : 0 <= u32 x < 2 ^ 32.
Proof. unfold u32. apply Z.mod_pos_bound. lia. Qed.

Lemma u32_small x : 0 <= x < 2 ^ 32 -> u32 x = x.
Proof. intros H. unfold u32. apply Z.mod_small. exact H. Qed.


(** ** Window store: slots *)

Lemma slot_set_slot_eq w i p :
  0 <= i < Z.of_nat (length (packets w)) -> slot (set_slot w i p) i = p.
Proof.
  intros Hi. unfold slot, set_slot. simpl.
  rewrite list_lookup_insert_eq by lia. reflexivity.
Qed.

Lemma slot_set_slot_ne w i j p :
  0 <= i -> 0 <= j -> i <> j -> slot (set_slot w i p) j = slot w j.
Proof.
  intros Hi Hj Hne. unfold slot, set_slot. simpl.
  rewrite list_lookup_insert_ne by lia. reflexivity.
Qed.

Lemma length_set_slot w i p :
  length (packets (set_slot w i p)) = length (packets w).
Proof. unfold set_slot. simpl. apply length_insert. Qed.

Lemma scan_from_range w index P r :
  0 < window_size w -> scan_from w index P = Some r ->
  0 <= r < window_size w.
Proof.
  intros Hws. unfold scan_from.
  destruct (List.find _ _); [|discriminate].
  intros [= <-]. apply Z.mod_pos_bound. lia.
Qed.

Lemma scan_from_sound w index P r :
  scan_from w index P = Some r -> P (slot w r) = true.
Proof.
  unfold scan_from.
  destruct (List.find _ _) as [i|] eqn:Hf; [|discriminate].
  intros [= <-]. apply List.find_some in Hf. apply Hf.
Qed.

Lemma scan_from_none w index P :
  0 < window_size w -> 0 <= index ->
  scan_from w index P = None ->
  forall j, 0 <= j < window_size w -> P (slot w j) = false.
Proof.
  intros Hws Hidx. unfold scan_from.
  destruct (List.find _ _) eqn:Hf; [discriminate|]. intros _ j Hj.
  pose proof (List.find_none _ _ Hf) as Hn.
  specialize (Hn ((j - index) mod window_size w)).
  simpl in Hn.
  assert (Hin : In ((j - index) mod window_size w) (seqZ 0 (window_size w))).
  { apply list_elem_of_In, elem_of_seqZ.
    pose proof (Z.mod_pos_bound (j - index) (window_size w) Hws). lia. }
  specialize (Hn Hin).
  rewrite Zplus_mod_idemp_r in Hn.
  replace (index + (j - index)) with j in Hn by lia.
  rewrite Z.mod_small in Hn by lia. exact Hn.
Qed.

(** ** [window_add_packet] *)

(** C10.  [window_add_packet] compares [seq_num] with the [uint32_t] sum
    [base + 2 * window_size] (which is the plain sum whenever that sum
    fits 32 bits).  A packet beyond it is refused with [-2] and the window
    is left exactly as it was; any other packet is stored in a slot of the
    array, with its sequence number, length, flag and bytes, unacknowledged,
    and the index of that slot is the result; all other slots keep their
    contents. *)
Theorem window_add_packet_far_ahead w seq d l fl :
  wf_window w -> 0 <= seq < 2 ^ 32 ->
  let bound := u32 (base w + 2 * window_size w) in
  (base w + 2 * window_size w < 2 ^ 32 -> bound = base w + 2 * window_size w) /\
  (seq > bound -> window_add_packet w seq d l fl = (-2, w)) /\
  (seq <= bound ->
   exists index w',
     window_add_packet w seq d l fl = (index, w') /\
     0 <= index < window_size w /\
     slot w' index = Packet seq l fl (Some (take (Z.to_nat l) d)) false 0 /\
     (forall j, 0 <= j -> j <> index -> slot w' j = slot w j) /\
     length (packets w') = length (packets w) /\
     base w' = base w /\ window_size w' = window_size w).
Proof.
  intros (Hws & Hlen & Hbase) Hseq bound. subst bound.
  split; [|split].
  - intros Hfit. apply u32_small. lia.
  - intros Hgt. unfold window_add_packet.
    destruct (Z.gtb_spec seq (u32 (base w + 2 * window_size w))); [reflexivity|lia].
  - intros Hle. unfold window_add_packet.
    destruct (Z.gtb_spec seq (u32 (base w + 2 * window_size w))); [lia|].
    set (index0 := seq mod window_size w).
    assert (H0 : 0 <= index0 < window_size w) by (apply Z.mod_pos_bound; lia).
    match goal with
    | |- exists i w', (?ix, set_slot w ?ix ?p) = _ /\ _ =>
        assert (Hix : 0 <= ix < window_size w)
    end.
    { destruct (_ && negb _); [|exact H0].
      destruct (_ && _); [|exact H0].
      destruct (scan_from _ _ _) eqn:Hs; [|exact H0].
      eapply scan_from_range; [lia|exact Hs]. }
    eexists _, _. split; [reflexivity|].
    split; [exact Hix|]. split; [apply slot_set_slot_eq; lia|].
    split; [|split; [apply length_set_slot|split; reflexivity]].
    intros j Hj Hne. apply slot_set_slot_ne; lia.
Qed.

Lemma window_add_packet_far_ahead_witness :
  let w := window_init 2 in
  window_add_packet w 5 [1; 2; 3] 3 16 = (-2, w) /\
  exists index w', window_add_packet w 3 [1; 2; 3] 3 16 = (index, w') /\
                   slot w' index = Packet 3 3 16 (Some [1; 2; 3]) false 0.
Proof.
  assert (Hwf : wf_window (window_init 2)) by (unfold wf_window; simpl; lia).
  split.
  - apply (window_add_packet_far_ahead (window_init 2) 5 [1; 2; 3] 3 16 Hwf);
      [lia | vm_compute; reflexivity].
  - destruct (window_add_packet_far_ahead (window_init 2) 3 [1; 2; 3] 3 16 Hwf)
      as (_ & _ & H); [lia|].
    destruct H as (index & w' & Heq & _ & Hslot & _); [vm_compute; discriminate|].
    exists index, w'. split; [exact Heq | exact Hslot].
Defined.

(** ** Window store: marking and sliding *)

Lemma set_acknowledged_id p : set_acknowledged p (acknowledged p) = p.
Proof. destruct p; reflexivity. Qed.

Lemma set_slot_id w i :
  0 <= i < Z.of_nat (length (packets w)) -> set_slot w i (slot w i) = w.
Proof.
  intros Hi. unfold set_slot, slot. destruct w as [l ws b n]. simpl in *.
  destruct (l !! Z.to_nat i) eqn:Hl.
  - simpl. rewrite list_insert_id by exact Hl. reflexivity.
  - apply lookup_ge_None in Hl. lia.
Qed.

Lemma set_slot_ack_id w i :
  0 <= i < Z.of_nat (length (packets w)) ->
  set_slot w i (set_acknowledged (slot w i) (acknowledged (slot w i))) = w.
Proof. intros Hi. rewrite set_acknowledged_id. apply set_slot_id, Hi. Qed.

Lemma slot_set_slot w i j p :
  0 <= i < Z.of_nat (length (packets w)) -> 0 <= j ->
  slot (set_slot w i p) j = if Z.eq_dec j i then p else slot w j.
Proof.
  intros Hi Hj. destruct (Z.eq_dec j i) as [->|Hne].
  - apply slot_set_slot_eq, Hi.
  - apply slot_set_slot_ne; lia.
Qed.

Section Marking.
Variable w : window_t.
Hypothesis Hws : 0 < window_size w.
Hypothesis Hlen : Z.of_nat (length (packets w)) = window_size w.

Lemma mark_one_shape j :
  window_size (mark_one w j) = window_size w /\
  base (mark_one w j) = base w /\
  length (packets (mark_one w j)) = length (packets w).
Proof.
  unfold mark_one. destruct (_ =? _).
  - simpl. rewrite length_insert. auto.
  - destruct (scan_from _ _ _); simpl; [rewrite length_insert|]; auto.
Qed.

(** A marking step touches one slot at most, one that holds [base + j],
    and only sets its [acknowledged] flag. *)
Lemma mark_one_slot j i :
  0 <= i ->
  slot (mark_one w j) i = slot w i \/
  (slot (mark_one w j) i = set_acknowledged (slot w i) true /\
   seq_num (slot w i) = u32 (base w + j)).
Proof.
  intros Hi. unfold mark_one.
  set (s := u32 (base w + j)). set (index := s mod window_size w).
  assert (Hidx : 0 <= index < window_size w) by (apply Z.mod_pos_bound; lia).
  destruct (Z.eqb_spec (seq_num (slot w index)) s) as [He|He].
  - rewrite slot_set_slot by lia.
    destruct (Z.eq_dec i index) as [->|]; [right|left]; auto.
  - destruct (scan_from _ _ _) as [alt|] eqn:Hs; [|left; reflexivity].
    pose proof (scan_from_range _ _ _ _ Hws Hs) as Halt.
    apply scan_from_sound in Hs. apply Z.eqb_eq in Hs.
    rewrite slot_set_slot by lia.
    destruct (Z.eq_dec i alt) as [->|]; [right|left]; auto.
Qed.

(** The step for [base + j] does mark the slot of index
    [(base + j) mod window_size] when that slot holds [base + j]. *)
Lemma mark_one_primary j :
  let s := u32 (base w + j) in
  seq_num (slot w (s mod window_size w)) = s ->
  acknowledged (slot (mark_one w j) (s mod window_size w)) = true.
Proof.
  intros s He. unfold mark_one. fold s.
  assert (Hidx : 0 <= s mod window_size w < window_size w)
    by (apply Z.mod_pos_bound; lia).
  destruct (Z.eqb_spec (seq_num (slot w (s mod window_size w))) s); [|lia].
  rewrite slot_set_slot_eq by lia. reflexivity.
Qed.

(** A marking step changes nothing when every slot that holds
    [base + j] is acknowledged already. *)
Lemma mark_one_id j :
  (forall i, 0 <= i < window_size w ->
             seq_num (slot w i) = u32 (base w + j) ->
             acknowledged (slot w i) = true) ->
  mark_one w j = w.
Proof.
  intros Hack. unfold mark_one.
  set (s := u32 (base w + j)). set (index := s mod window_size w).
  assert (Hidx : 0 <= index < window_size w) by (apply Z.mod_pos_bound; lia).
  destruct (Z.eqb_spec (seq_num (slot w index)) s) as [He|He].
  - rewrite <- (Hack index Hidx He). apply set_slot_ack_id. lia.
  - destruct (scan_from _ _ _) as [alt|] eqn:Hs; [|reflexivity].
    pose proof (scan_from_range _ _ _ _ Hws Hs) as Halt.
    apply scan_from_sound in Hs. apply Z.eqb_eq in Hs.
    rewrite <- (Hack alt Halt Hs). apply set_slot_ack_id. lia.
Qed.
End Marking.

Lemma mark_fold_id js : forall w,
  0 < window_size w -> Z.of_nat (length (packets w)) = window_size w ->
  (forall j i, In j js -> 0 <= i < window_size w ->
               seq_num (slot w i) = u32 (base w + j) ->
               acknowledged (slot w i) = true) ->
  foldl mark_one w js = w.
Proof.
  induction js as [|j js IH]; intros w Hws Hlen Hack; [reflexivity|].
  simpl. rewrite mark_one_id; auto.
  - apply IH; auto. intros j' i Hj'. apply Hack. right. exact Hj'.
  - intros i Hi. apply Hack; [left; reflexivity|exact Hi].
Qed.

Lemma mark_fold_spec js : forall w,
  0 < window_size w -> Z.of_nat (length (packets w)) = window_size w ->
  let w' := foldl mark_one w js in
  window_size w' = window_size w /\ base w' = base w /\
  length (packets w') = length (packets w) /\
  (forall i, 0 <= i ->
     slot w' i = slot w i \/
     (slot w' i = set_acknowledged (slot w i) true /\
      exists j, In j js /\ seq_num (slot w i) = u32 (base w + j))) /\
  (forall j, In j js ->
     let s := u32 (base w + j) in
     seq_num (slot w (s mod window_size w)) = s ->
     acknowledged (slot w' (s mod window_size w)) = true).
Proof.
  induction js as [|j js IH]; intros w Hws Hlen; cbv zeta; simpl.
  - repeat split; auto; intros j [].
  - destruct (mark_one_shape w j) as (Hws1 & Hb1 & Hl1).
    destruct (IH (mark_one w j)) as (Hws2 & Hb2 & Hl2 & Hs2 & Hp2); [lia..|].
    cbv zeta in *. rewrite Hws1, Hb1 in *. rewrite Hl1 in Hl2.
    assert (Hslots : forall i, 0 <= i ->
      slot (foldl mark_one (mark_one w j) js) i = slot w i \/
      (slot (foldl mark_one (mark_one w j) js) i
         = set_acknowledged (slot w i) true /\
       exists j0, (j = j0 \/ In j0 js) /\ seq_num (slot w i) = u32 (base w + j0))).
    { intros i Hi.
      destruct (Hs2 i Hi) as [E2|(E2 & j2 & Hin2 & Hseq2)];
        destruct (mark_one_slot w Hws Hlen j i Hi) as [E1|(E1 & Hseq1)];
        rewrite E2, E1 in *.
      - left; reflexivity.
      - right. split; [reflexivity|]. exists j. auto.
      - right. split; [reflexivity|]. exists j2. auto.
      - right. split; [destruct (slot w i); reflexivity|]. exists j. auto. }
    split; [exact Hws2|]. split; [exact Hb2|]. split; [exact Hl2|].
    split; [exact Hslots|].
    intros j0 [<-|Hin] He.
    + pose proof (mark_one_primary w Hws Hlen j He) as Hack. cbv zeta in Hack.
      set (s := u32 (base w + j)) in *.
      assert (Hidx : 0 <= s mod window_size w) by (apply Z.mod_pos_bound; lia).
      destruct (Hs2 _ Hidx) as [E|(E & _)]; rewrite E; [exact Hack|].
      destruct (slot _ _); reflexivity.
    + apply (Hp2 j0 Hin). set (s := u32 (base w + j0)) in *.
      assert (Hidx : 0 <= s mod window_size w) by (apply Z.mod_pos_bound; lia).
      destruct (mark_one_slot w Hws Hlen j _ Hidx) as [E|(E & _)]; rewrite E.
      * exact He.
      * destruct (slot w _); exact He.
Qed.

Lemma count_acked_le l : (count_acked l <= length l)%nat.
Proof. induction l as [|p l IH]; simpl; [lia|]. destruct (acknowledged p); lia. Qed.

Lemma count_acked_clear l : forall i p,
  l !! i = Some p -> acknowledged p = true ->
  (count_acked (<[i := zero_packet]> l) + 1 = count_acked l)%nat.
Proof.
  induction l as [|q l IH]; intros i p Hl Hack; [discriminate|].
  destruct i as [|i]; simpl in *.
  - injection Hl as ->. rewrite Hack. lia.
  - rewrite <- (IH i p Hl Hack). lia.
Qed.

Lemma count_acked_zero l i p :
  count_acked l = O -> l !! i = Some p -> acknowledged p = false.
Proof.
  revert i. induction l as [|q l IH]; intros i Hc Hl; [discriminate|].
  simpl in Hc. destruct i as [|i]; simpl in Hl.
  - injection Hl as ->. destruct (acknowledged p); [discriminate|reflexivity].
  - apply (IH i); [|exact Hl]. destruct (acknowledged q); [discriminate|exact Hc].
Qed.

Lemma slot_lookup w i :
  0 <= i < Z.of_nat (length (packets w)) ->
  packets w !! Z.to_nat i = Some (slot w i).
Proof.
  intros Hi. unfold slot. destruct (packets w !! Z.to_nat i) eqn:Hl; [reflexivity|].
  apply lookup_ge_None in Hl. lia.
Qed.

Lemma slide_found_spec w i :
  0 < window_size w ->
  (if (seq_num (slot w (base w mod window_size w)) =? base w)
      && acknowledged (slot w (base w mod window_size w))
   then Some (base w mod window_size w)
   else scan_from w (base w mod window_size w)
          (fun p => (seq_num p =? base w) && acknowledged p)) = Some i ->
  0 <= i < window_size w /\ seq_num (slot w i) = base w /\
  acknowledged (slot w i) = true.
Proof.
  intros Hws.
  assert (Hidx : 0 <= base w mod window_size w < window_size w)
    by (apply Z.mod_pos_bound; lia).
  destruct (_ && _) eqn:Hp.
  - intros [= <-]. apply andb_true_iff in Hp as [H1 H2].
    apply Z.eqb_eq in H1. auto.
  - intros Hs. pose proof (scan_from_range _ _ _ _ Hws Hs).
    apply scan_from_sound in Hs. apply andb_true_iff in Hs as [H1 H2].
    apply Z.eqb_eq in H1. auto.
Qed.

Lemma slide_found_none w :
  0 < window_size w ->
  (if (seq_num (slot w (base w mod window_size w)) =? base w)
      && acknowledged (slot w (base w mod window_size w))
   then Some (base w mod window_size w)
   else scan_from w (base w mod window_size w)
          (fun p => (seq_num p =? base w) && acknowledged p)) = None ->
  slide_stuck w.
Proof.
  intros Hws.
  assert (Hidx : 0 <= base w mod window_size w < window_size w)
    by (apply Z.mod_pos_bound; lia).
  destruct (_ && _) eqn:Hp; [discriminate|]. intros Hs i Hi He.
  pose proof (scan_from_none _ _ _ Hws (proj1 Hidx) Hs i Hi) as Hn.
  simpl in Hn. rewrite He, Z.eqb_refl in Hn. exact Hn.
Qed.

Lemma slide_stuck_id w fuel slid :
  0 < window_size w -> slide_stuck w -> slide_loop fuel w slid = w.
Proof.
  intros Hws Hst. destruct fuel as [|fuel]; [reflexivity|]. simpl.
  match goal with |- match ?f with _ => _ end = _ => destruct f as [i|] eqn:Hf end;
    [|reflexivity].
  apply slide_found_spec in Hf as (Hi & He & Hack); [|exact Hws].
  rewrite (Hst i Hi He) in Hack. discriminate.
Qed.

Lemma slot_set_base w b i : slot (set_base w b) i = slot w i.
Proof. reflexivity. Qed.

Lemma slide_loop_spec fuel : forall w slid,
  0 < window_size w -> Z.of_nat (length (packets w)) = window_size w ->
  0 <= base w -> base w + Z.of_nat fuel < 2 ^ 32 ->
  let w' := slide_loop fuel w slid in
  window_size w' = window_size w /\
  length (packets w') = length (packets w) /\
  next_seq w' = next_seq w /\
  base w <= base w' <= base w + Z.of_nat fuel /\
  (base w' = base w -> w' = w) /\
  (forall i, 0 <= i -> slot w' i = slot w i \/ slot w' i = zero_packet) /\
  (forall b, base w <= b < base w' ->
     exists i, 0 <= i < window_size w /\
               seq_num (slot w i) = b /\ acknowledged (slot w i) = true).
Proof.
  induction fuel as [|fuel IH]; intros w slid Hws Hlen Hb Hfit; cbv zeta.
  - simpl. repeat split; auto; try lia.
  - simpl.
    match goal with
    | |- context [match ?f with Some _ => _ | None => _ end] =>
        destruct f as [i|] eqn:Hf
    end.
    2:{ repeat split; auto; try lia. }
    apply slide_found_spec in Hf as (Hi & He & Hack); [|exact Hws].
    set (w1 := set_base (set_slot w i zero_packet) (u32 (base w + 1))).
    assert (Hb1 : base w1 = base w + 1) by (simpl; apply u32_small; lia).
    assert (Hs1 : forall j, 0 <= j ->
              slot w1 j = if Z.eq_dec j i then zero_packet else slot w j).
    { intros j Hj. unfold w1. rewrite slot_set_base. apply slot_set_slot; lia. }
    assert (Hw1 : window_size w1 = window_size w /\
                  length (packets w1) = length (packets w) /\
                  next_seq w1 = next_seq w /\
                  base w <= base w1 <= base w + Z.of_nat (S fuel) /\
                  (base w1 = base w -> w1 = w) /\
                  (forall j, 0 <= j -> slot w1 j = slot w j \/ slot w1 j = zero_packet) /\
                  (forall b, base w <= b < base w1 ->
                     exists i, 0 <= i < window_size w /\
                       seq_num (slot w i) = b /\ acknowledged (slot w i) = true)).
    { split; [reflexivity|]. split; [apply length_insert|].
      split; [reflexivity|]. split; [lia|]. split; [lia|]. split.
      - intros j Hj. rewrite Hs1 by exact Hj. destruct (Z.eq_dec j i); auto.
      - intros b Hb'. exists i. split; [exact Hi|]. split; [lia|exact Hack]. }
    destruct (slid + 1 >=? window_size w); [exact Hw1|].
    destruct Hw1 as (Hws1 & Hl1 & Hn1 & _ & _ & Hsl1 & Hex1).
    destruct (IH w1 (slid + 1)) as (Hws2 & Hl2 & Hn2 & Hb2 & _ & Hsl2 & Hex2);
      [lia..|].
    cbv zeta in *.
    split; [congruence|]. split; [congruence|]. split; [congruence|].
    split; [lia|]. split; [lia|]. split.
    + intros j Hj. destruct (Hsl2 j Hj) as [E|E]; rewrite E; auto.
    + intros b Hb'. destruct (Z.eq_dec b (base w)) as [->|Hne].
      * exists i. auto.
      * destruct (Hex2 b) as (i' & Hi' & He' & Hack'); [lia|].
        exists i'. split; [lia|].
        rewrite Hs1 in He', Hack' by lia.
        destruct (Z.eq_dec i' i); [discriminate|]. auto.
Qed.

Lemma slide_loop_stuck fuel : forall w slid,
  0 < window_size w -> Z.of_nat (length (packets w)) = window_size w ->
  Z.of_nat fuel = window_size w - slid ->
  (count_acked (packets w) <= fuel)%nat ->
  slide_stuck (slide_loop fuel w slid).
Proof.
  induction fuel as [|fuel IH]; intros w slid Hws Hlen Hfuel Hcnt.
  - simpl. intros i Hi _. apply (count_acked_zero (packets w) (Z.to_nat i)).
    + lia.
    + apply slot_lookup. lia.
  - simpl.
    match goal with
    | |- context [match ?f with Some _ => _ | None => _ end] =>
        destruct f as [i|] eqn:Hf
    end.
    2:{ apply slide_found_none in Hf; assumption. }
    apply slide_found_spec in Hf as (Hi & He & Hack); [|exact Hws].
    set (w1 := set_base (set_slot w i zero_packet) (u32 (base w + 1))).
    assert (Hc1 : (count_acked (packets w1) + 1 = count_acked (packets w))%nat).
    { unfold w1. simpl. eapply count_acked_clear; [apply slot_lookup; lia|exact Hack]. }
    assert (Hl1 : length (packets w1) = length (packets w)) by apply length_insert.
    destruct (Z.geb_spec (slid + 1) (window_size w)) as [Hcap|Hcap].
    + intros j Hj _. apply (count_acked_zero (packets w1) (Z.to_nat j)).
      * lia.
      * apply slot_lookup. change (window_size w1) with (window_size w) in Hj. lia.
    + apply IH; try assumption; try lia.
      * change (window_size w1) with (window_size w). lia.
      * change (window_size w1) with (window_size w). lia.
Qed.

Lemma window_slide_stuck w :
  0 < window_size w -> Z.of_nat (length (packets w)) = window_size w ->
  slide_stuck (window_slide w).
Proof.
  intros Hws Hlen. apply slide_loop_stuck; [assumption..|lia|].
  pose proof (count_acked_le (packets w)). lia.
Qed.

(** ** RR processing applied twice *)

Lemma u32_pred b : 0 <= b < 2 ^ 32 ->
  u32 (b - 1) = if b =? 0 then 4294967295 else b - 1.
Proof.
  intros Hb. destruct (Z.eqb_spec b 0) as [->|Hne]; [reflexivity|].
  apply u32_small. lia.
Qed.

Lemma in_seqZ j k : In j (seqZ 0 k) <-> 0 <= j < k.
Proof. rewrite <- list_elem_of_In, elem_of_seqZ. lia. Qed.

(** RR processing is the identity on a window on which [window_slide] has
    nothing to do and every slot that the marking loop would reach is
    acknowledged already. *)
Lemma ack_and_slide_fix st w a :
  0 < window_size w -> Z.of_nat (length (packets w)) = window_size w ->
  slide_stuck w ->
  (a <> u32 (base w - 1) ->
   ~ (a < base w /\ u32 (base w - a) > 5) ->
   forall j i, 0 <= j < packets_to_ack w a -> 0 <= i < window_size w ->
               seq_num (slot w i) = u32 (base w + j) ->
               acknowledged (slot w i) = true) ->
  snd (ack_and_slide st w a) = w.
Proof.
  intros Hws Hlen Hst Hmi.
  assert (Hsl : window_slide w = w) by (apply slide_stuck_id; assumption).
  assert (Hidx : 0 <= base w mod window_size w < window_size w)
    by (apply Z.mod_pos_bound; lia).
  unfold ack_and_slide, window_mark_ack.
  destruct (Z.eqb_spec a (u32 (base w - 1))) as [Hdup|Hdup].
  - destruct (_ =? _); [|exact Hsl].
    destruct (_ >=? _); [|exact Hsl].
    destruct (_ && _) eqn:Hp; [|exact Hsl].
    apply andb_true_iff in Hp as [_ Hp]. apply Z.eqb_eq in Hp.
    rewrite <- (Hst _ Hidx Hp), set_slot_ack_id by lia. exact Hsl.
  - destruct (_ && _) eqn:Hold; [exact Hsl|].
    rewrite mark_fold_id; [exact Hsl|assumption..|].
    intros j i Hj Hi. apply Hmi; auto.
    + intros [H1 H2]. apply andb_false_iff in Hold as [Hold|Hold].
      * apply Z.ltb_ge in Hold. lia.
      * rewrite Z.gtb_ltb in Hold. apply Z.ltb_ge in Hold. lia.
    + apply in_seqZ, Hj.
Qed.

Lemma in_place_stuck w : in_place w -> slide_stuck w.
Proof. intros Hin i Hi _. apply (Hin i Hi). Qed.

Lemma packets_to_ack_ahead w a :
  0 < window_size w -> 0 <= base w <= a -> a < 2 ^ 32 ->
  a <> u32 (base w - 1) ->
  packets_to_ack w a = Z.min (window_size w) (a - base w + 1).
Proof.
  intros Hws Hb Ha Hdup. unfold packets_to_ack.
  destruct (Z.geb_spec a (base w)); [|lia].
  rewrite u32_pred in Hdup by lia.
  assert (Hs : u32 (a - base w + 1) = a - base w + 1).
  { apply u32_small. destruct (Z.eqb_spec (base w) 0); lia. }
  rewrite Hs. destruct (Z.gtb_spec (a - base w + 1) (window_size w)); lia.
Qed.

Lemma packets_to_ack_behind w a :
  0 < window_size w < 2 ^ 30 -> 0 <= a < base w -> base w < 2 ^ 32 ->
  ~ (a < base w /\ u32 (base w - a) > 5) ->
  packets_to_ack w a = window_size w.
Proof.
  intros Hws Ha Hb Hold. unfold packets_to_ack.
  destruct (Z.geb_spec a (base w)); [lia|].
  rewrite (u32_small (base w - a)) in Hold by lia.
  rewrite (u32_small (4294967295 - base w + a + 1)) by lia.
  destruct (Z.gtb_spec (4294967295 - base w + a + 1) (window_size w)); lia.
Qed.

Lemma seq_num_set_acknowledged p a : seq_num (set_acknowledged p a) = seq_num p.
Proof. reflexivity. Qed.

(** The marking branch of RR processing on an [in_place] window. *)
Lemma marking_pass_spec w a :
  wf_window w -> base w + 2 * window_size w < 2 ^ 32 -> in_place w ->
  1 <= packets_to_ack w a <= window_size w ->
  let k := packets_to_ack w a in
  let w1 := window_slide (foldl mark_one w (seqZ 0 k)) in
  window_size w1 = window_size w /\
  length (packets w1) = length (packets w) /\
  1 <= base w1 /\ base w <= base w1 <= base w + k /\
  slide_stuck w1 /\
  (forall i, 0 <= i < window_size w ->
     seq_num (slot w1 i) = 0 \/
     (base w <= seq_num (slot w1 i) < base w + window_size w /\
      (seq_num (slot w1 i) < base w + k -> acknowledged (slot w1 i) = true))).
Proof.
  intros (Hws & Hlen & Hb) Hfit Hin Hk k w1.
  set (wm := foldl mark_one w (seqZ 0 k)) in *.
  destruct (mark_fold_spec (seqZ 0 k) w) as (Hwsm & Hbm & Hlm & Hsm & Hpm);
    [lia..|]. fold wm in Hwsm, Hbm, Hlm, Hsm, Hpm.
  assert (Hseqm : forall i, 0 <= i -> seq_num (slot wm i) = seq_num (slot w i)).
  { intros i Hi. destruct (Hsm i Hi) as [E|(E & _)]; rewrite E; reflexivity. }
  assert (Hackm : forall i, 0 <= i < window_size w ->
            acknowledged (slot wm i) = true ->
            base w <= seq_num (slot w i) < base w + k).
  { intros i Hi Hack. destruct (Hsm i (proj1 Hi)) as [E|(E & j & Hj & Hs)].
    - rewrite E in Hack. rewrite (proj1 (Hin i Hi)) in Hack. discriminate.
    - apply in_seqZ in Hj. rewrite u32_small in Hs by lia. lia. }
  destruct (slide_loop_spec (Z.to_nat (window_size wm)) wm 0)
    as (Hws1 & Hl1 & _ & Hb1 & Hsame & Hs1 & Hex1); [lia..|].
  change (slide_loop (Z.to_nat (window_size wm)) wm 0) with w1
    in Hws1, Hl1, Hb1, Hsame, Hs1, Hex1.
  assert (Hst1 : slide_stuck w1) by (apply window_slide_stuck; lia).
  assert (Hup : base w1 <= base w + k).
  { destruct (Z.eq_dec (base w1) (base wm)) as [|Hne]; [lia|].
    destruct (Hex1 (base w1 - 1)) as (i & Hi & He & Hack); [lia|].
    rewrite Hseqm in He by lia. apply Hackm in Hack; lia. }
  assert (Hone : 1 <= base w1).
  { destruct (Z.eq_dec (base w) 0) as [Hz|]; [|lia].
    destruct (Z.eq_dec (base w1) 0) as [Hz1|]; [|lia]. exfalso.
    assert (Hw1 : w1 = wm) by (apply Hsame; lia).
    assert (H0 : 0 <= 0 < window_size w) by lia.
    assert (Hs0 : seq_num (slot w 0) = 0).
    { destruct (Hin 0 H0) as (_ & [E|(Hrange & Hmod)]); [exact E|].
      rewrite Z.mod_small in Hmod by lia. exact Hmod. }
    assert (Hj : In 0 (seqZ 0 k)) by (apply in_seqZ; lia).
    pose proof (Hpm 0 Hj) as Hack. cbv zeta in Hack. rewrite Hz in Hack. change (u32 (0 + 0)) with 0 in Hack.
    rewrite Z.mod_0_l in Hack by lia. specialize (Hack Hs0).
    rewrite <- Hw1 in Hack.
    rewrite (Hst1 0) in Hack; [discriminate|lia|].
    rewrite Hw1, Hseqm by lia. lia. }
  split; [lia|]. split; [lia|]. split; [exact Hone|]. split; [lia|].
  split; [exact Hst1|].
  intros i Hi. destruct (Hs1 i (proj1 Hi)) as [E|E]; rewrite E; [|left; reflexivity].
  rewrite Hseqm by lia.
  destruct (Hin i Hi) as (_ & [Hz|(Hrange & Hmod)]); [left; exact Hz|right].
  split; [exact Hrange|]. intros Hlt.
  assert (Hj : In (seq_num (slot w i) - base w) (seqZ 0 k)) by (apply in_seqZ; lia).
  pose proof (Hpm _ Hj) as Hack. cbv zeta in Hack.
  replace (base w + (seq_num (slot w i) - base w)) with (seq_num (slot w i))
    in Hack by lia.
  rewrite u32_small, Hmod in Hack by lia. apply Hack. reflexivity.
Qed.

Lemma packets_to_ack_le w a :
  0 < window_size w -> packets_to_ack w a <= window_size w.
Proof.
  intros Hws. unfold packets_to_ack.
  match goal with |- context [?x >? ?y] => destruct (Z.gtb_spec x y) end; lia.
Qed.

(** On a window in which every slot is unacknowledged and is zeroed or
    holds a frame of [base, base + window_size) at index
    [seq mod window_size] (the windows a sender has between two
    acknowledgements), processing RR(a) a second time, whatever the
    duplicate-ack counters are, leaves the window exactly as the first
    processing left it: base, and every slot with its sequence number,
    flag, acknowledged flag and stored bytes. *)
Lemma rr_twice_in_place st w a :
  wf_window w -> base w + 2 * window_size w < 2 ^ 32 -> in_place w ->
  0 <= a < 2 ^ 32 ->
  snd (ack_and_slide (fst (ack_and_slide st w a)) (snd (ack_and_slide st w a)) a)
  = snd (ack_and_slide st w a).
Proof.
  intros Hwf Hfit Hin Ha. pose proof Hwf as (Hws & Hlen & Hb).
  assert (Hskip : a = u32 (base w - 1) \/ (a < base w /\ u32 (base w - a) > 5) ->
                  forall st', snd (ack_and_slide st' w a) = w).
  { intros Hc st'. apply ack_and_slide_fix; auto using in_place_stuck; try lia.
    all: intros H1 H2; destruct Hc; contradiction. }
  destruct (Z.eq_dec a (u32 (base w - 1))) as [Hdup|Hdup].
  { rewrite (Hskip (or_introl Hdup) st). apply Hskip. auto. }
  destruct (Z_lt_dec a (base w)) as [Hlt|Hge].
  - destruct (Z_gt_dec (u32 (base w - a)) 5) as [Hold|Hold].
    { rewrite (Hskip (or_intror (conj Hlt Hold)) st). apply Hskip. auto. }
    assert (Hk : packets_to_ack w a = window_size w)
      by (apply packets_to_ack_behind; lia).
    assert (E1 : ack_and_slide st w a =
                 (st, window_slide (foldl mark_one w (seqZ 0 (packets_to_ack w a))))).
    { unfold ack_and_slide, window_mark_ack.
      destruct (Z.eqb_spec a (u32 (base w - 1))); [contradiction|].
      destruct (Z.gtb_spec (u32 (base w - a)) 5); [lia|].
      rewrite andb_false_r. reflexivity. }
    rewrite E1. simpl fst. simpl snd.
    destruct (marking_pass_spec w a Hwf Hfit Hin ltac:(lia))
      as (Hws1 & Hl1 & Hone & Hb1 & Hst1 & Hs1).
    apply ack_and_slide_fix; [lia|lia|exact Hst1|].
    intros Hd2 Ho2 j i Hj Hi Hs.
    pose proof (packets_to_ack_le (window_slide (foldl mark_one w
                  (seqZ 0 (packets_to_ack w a)))) a ltac:(lia)) as Hk2.
    rewrite u32_small in Hs by lia.
    destruct (Hs1 i ltac:(lia)) as [Hz|(Hr & Hack)]; [lia|].
    apply Hack. lia.
  - assert (Hk : packets_to_ack w a = Z.min (window_size w) (a - base w + 1))
      by (apply packets_to_ack_ahead; lia).
    assert (E1 : ack_and_slide st w a =
                 (st, window_slide (foldl mark_one w (seqZ 0 (packets_to_ack w a))))).
    { unfold ack_and_slide, window_mark_ack.
      destruct (Z.eqb_spec a (u32 (base w - 1))); [contradiction|].
      destruct (Z.ltb_spec a (base w)); [lia|]. reflexivity. }
    rewrite E1. simpl fst. simpl snd.
    assert (Hone' : 1 <= a - base w + 1) by lia.
    destruct (marking_pass_spec w a Hwf Hfit Hin ltac:(lia))
      as (Hws1 & Hl1 & Hone & Hb1 & Hst1 & Hs1).
    set (w1 := window_slide (foldl mark_one w (seqZ 0 (packets_to_ack w a)))) in *.
    apply ack_and_slide_fix; [lia|lia|exact Hst1|].
    intros Hd2 Ho2 j i Hj Hi Hs.
    pose proof (packets_to_ack_le w1 a ltac:(lia)) as Hk2.
    rewrite u32_small in Hs by lia.
    rewrite u32_pred in Hd2 by lia.
    destruct (Z.eqb_spec (base w1) 0); [lia|].
    destruct (Hs1 i ltac:(lia)) as [Hz|(Hr & Hack)]; [lia|].
    apply Hack.
    destruct (Z_lt_dec a (base w1)) as [Hlt1|Hge1]; [lia|].
    rewrite (packets_to_ack_ahead w1 a) in Hj; try lia.
    rewrite u32_pred by lia. destruct (Z.eqb_spec (base w1) 0); lia.
Qed.

Lemma rr_twice_in_place_example :
  let w := Window [Packet 0 8 16 (Some [0; 0; 0; 0; 0; 0; 16; 65]) false 0;
                   Packet 1 8 16 (Some [0; 0; 0; 1; 0; 0; 16; 66]) false 0;
                   zero_packet] 3 0 0 in
  snd (ack_and_slide (fst (ack_and_slide mark_static_init w 1))
         (snd (ack_and_slide mark_static_init w 1)) 1)
  = snd (ack_and_slide mark_static_init w 1).
Proof.
  intros w. apply (rr_twice_in_place mark_static_init w 1).
  - unfold wf_window. simpl. lia.
  - simpl. lia.
  - intros i Hi. simpl in Hi.
    assert (Hc : i = 0 \/ i = 1 \/ i = 2) by lia.
    destruct Hc as [-> | [-> | ->] ]; vm_compute; intuition congruence.
  - lia.
Defined.

(** The hypothesis matters: on a window value in which a later frame is
    acknowledged before the base (no state of the sender, which slides
    after every marking), with frames 0, 1, 2 stored and frame 1
    acknowledged, a first RR(0) slides the base to 2, and a second RR(0),
    now "old but within 5 of the base", acknowledges the whole window and
    slides the base to 3. *)
Lemma rr_twice_not_in_place :
  let w := Window [Packet 0 8 16 (Some [0; 0; 0; 0; 0; 0; 16; 65]) false 0;
                   Packet 1 8 16 (Some [0; 0; 0; 1; 0; 0; 16; 66]) true 0;
                   Packet 2 8 16 (Some [0; 0; 0; 2; 0; 0; 16; 67]) false 0] 3 0 0 in
  let once := ack_and_slide mark_static_init w 0 in
  let twice := ack_and_slide (fst once) (snd once) 0 in
  wf_window w /\
  base (snd once) = 2 /\ base (snd twice) = 3 /\ snd twice <> snd once.
Proof.
  cbv zeta. split; [unfold wf_window; simpl; lia|].
  split; [vm_compute; reflexivity|]. split; [vm_compute; reflexivity|].
  vm_compute. discriminate.
Defined.

(** ** The wire format *)

Lemma in_cksum_range bytes : 0 <= in_cksum bytes < 65536.
Proof.
  unfold in_cksum.
  match goal with |- context [?x mod 65536] =>
    pose proof (Z.mod_pos_bound x 65536 ltac:(lia)) end.
  lia.
Qed.

Lemma get_be32_be32 x rest : 0 <= x < 2 ^ 32 -> get_be32 (be32 x ++ rest) 0 = x.
Proof.
  intros Hx. unfold get_be32, be32, byte_at. simpl.
  change (2 ^ 24) with 16777216. change (2 ^ 16) with 65536.
  change (2 ^ 8) with 256. change (2 ^ 32) with 4294967296 in Hx.
  Z.div_mod_to_equations. lia.
Qed.

Lemma hdr_checksum_set d c :
  (6 <= length d)%nat -> 0 <= c < 65536 ->
  hdr_checksum (set_hdr_checksum d c) = c.
Proof.
  intros Hd Hc. unfold hdr_checksum, set_hdr_checksum, byte_at.
  do 6 (destruct d as [|? d]; [simpl in Hd; lia|]). simpl.
  Z.div_mod_to_equations. lia.
Qed.

Section BuildPdu.
Variables (seq fl : Z) (payload : list Z).
Hypothesis Hseq : 0 <= seq < 2 ^ 32.
Hypothesis Hfl : 0 <= fl < 256.

Lemma build_pdu_unfold :
  exists b0 b1 b2 b3 c0 c1,
    build_pdu seq fl payload = b0 :: b1 :: b2 :: b3 :: c0 :: c1 :: fl :: payload /\
    be32 seq = [b0; b1; b2; b3] /\
    c0 + 256 * c1 = in_cksum (b0 :: b1 :: b2 :: b3 :: 0 :: 0 :: fl :: payload) /\
    0 <= c0 < 256 /\ 0 <= c1 < 256.
Proof.
  unfold build_pdu, set_hdr_checksum, be32. simpl.
  rewrite (Z.mod_small fl) by lia.
  do 6 eexists. split; [reflexivity|]. split; [reflexivity|].
  match goal with |- context [in_cksum ?l] =>
    pose proof (in_cksum_range l) end.
  split; [|split]; Z.div_mod_to_equations; lia.
Qed.

Lemma length_build_pdu :
  length (build_pdu seq fl payload) = (7 + length payload)%nat.
Proof. destruct build_pdu_unfold as (? & ? & ? & ? & ? & ? & -> & _). reflexivity. Qed.

Lemma hdr_seq_num_build_pdu : hdr_seq_num (build_pdu seq fl payload) = seq.
Proof.
  destruct build_pdu_unfold as (b0 & b1 & b2 & b3 & c0 & c1 & -> & Hb & _).
  rewrite <- (get_be32_be32 seq [] Hseq), Hb. reflexivity.
Qed.

Lemma hdr_flag_build_pdu : hdr_flag (build_pdu seq fl payload) = fl.
Proof. destruct build_pdu_unfold as (? & ? & ? & ? & ? & ? & -> & _). reflexivity. Qed.

Lemma pdu_payload_build_pdu : pdu_payload (build_pdu seq fl payload) = payload.
Proof. destruct build_pdu_unfold as (? & ? & ? & ? & ? & ? & -> & _). reflexivity. Qed.

Lemma checksum_ok_build_pdu : checksum_ok (build_pdu seq fl payload) = true.
Proof.
  destruct build_pdu_unfold as (b0 & b1 & b2 & b3 & c0 & c1 & -> & _ & Hc & ? & ?).
  unfold checksum_ok, hdr_checksum, set_hdr_checksum, byte_at. simpl.
  apply Z.eqb_eq. exact Hc.
Qed.
End BuildPdu.

(** ** The handshake *)

(** C5 (the code at the failing input).  When the first wait of 5000 ms
    ends without a datagram, [send_filename_request] has sent the FILENAME
    request once and ends the process with "Failed to initialize file
    transfer": the test [if (!received)] that reports the failure is in
    the body of the retry loop. *)
Theorem filename_request_fails_at_first_timeout name ws bs polls :
  send_filename_request name ws bs (Timeout :: polls)
  = (ExitFailedToInitialize, [filename_pdu name ws bs]).
Proof. reflexivity. Qed.

Lemma filename_request_fails_without_polls name ws bs :
  send_filename_request name ws bs []
  = (ExitFailedToInitialize, [filename_pdu name ws bs]).
Proof. reflexivity. Qed.

Lemma send_filename_response_ok_cases polls :
  handle_client_response true polls =
  if is_filename_ack (nth_poll polls 0) then
    (true, replicate 1 (filename_resp_pdu msg_ok))
  else if is_filename_ack (nth_poll polls 1) then
    (true, replicate 2 (filename_resp_pdu msg_ok))
  else if is_filename_ack (nth_poll polls 2) then
    (true, replicate 3 (filename_resp_pdu msg_ok))
  else (false, replicate 3 (filename_resp_pdu msg_ok)).
Proof.
  unfold handle_client_response, send_filename_response, nth_poll.
  change (Z.to_nat MAX_RETRANSMIT) with 10%nat.
  destruct polls as [|p1 [|p2 [|p3 polls]]]; simpl;
    repeat match goal with
           | p : poll_result |- _ => destruct p as [?d|]; simpl
           | |- context [(?a >=? HEADER_SIZE) && (?b =? FLAG_FILENAME)] =>
               destruct ((a >=? HEADER_SIZE) && (b =? FLAG_FILENAME)); simpl
           end; reflexivity.
Qed.

(** C6 (amended).  After the file was opened, [handle_client] sends
    FILENAME_RESP "OK" three times at most ([break_after] is 3), each time
    followed by one poll; it stops at the first of these polls that yields
    a datagram of a header at least with flag FILENAME, and after the
    third send otherwise.  Any other datagram counts as a failed attempt. *)
Theorem ok_response_three_attempts polls :
  exists n,
    (1 <= n <= 3)%nat /\
    snd (handle_client_response true polls) = replicate n (filename_resp_pdu msg_ok) /\
    (forall i, (i < n - 1)%nat -> is_filename_ack (nth_poll polls i) = false) /\
    fst (handle_client_response true polls) = is_filename_ack (nth_poll polls (n - 1)) /\
    (fst (handle_client_response true polls) = false -> n = 3%nat).
Proof.
  rewrite send_filename_response_ok_cases.
  destruct (is_filename_ack (nth_poll polls 0)) eqn:H0;
    [exists 1%nat; simpl; repeat split; auto; try lia; try congruence;
     intros i Hi; lia|].
  destruct (is_filename_ack (nth_poll polls 1)) eqn:H1;
    [exists 2%nat; simpl; repeat split; auto; try lia; try congruence;
     intros i Hi; assert (i = 0%nat) as -> by lia; exact H0|].
  destruct (is_filename_ack (nth_poll polls 2)) eqn:H2;
    exists 3%nat; simpl; repeat split; auto; try lia;
    intros i Hi; assert (i = 0 \/ i = 1)%nat as [-> | ->] by lia; assumption.
Qed.

(** C6 as stated fails: a datagram that is not a FILENAME request (here an
    RR) arrives during the first wait; the server does not start the data
    transfer on it but sends "OK" twice more; and with no datagram at all
    it stops after three sends, not ten. *)
Lemma ok_response_counterexample :
  handle_client_response true [Ready (rr_pdu 0)]
  = (false, replicate 3 (filename_resp_pdu msg_ok)) /\
  handle_client_response true []
  = (false, replicate 3 (filename_resp_pdu msg_ok)).
Proof. split; vm_compute; reflexivity. Defined.

(** ** The EOF exchange *)

Lemma eof_iteration_rr w retries d a :
  control_frame d FLAG_RR a ->
  eof_iteration w retries (Ready d) =
  if (a >=? u32 (base w - 1)) || (retries >=? 3) then (retries, true)
  else (retries + 1, retries + 1 >=? 5).
Proof.
  intros (Hlen & Hck & Hfl & Ha). unfold eof_iteration.
  destruct (Z.geb_spec (Z.of_nat (length (recvfrom (HEADER_SIZE + 4) d)))
              (HEADER_SIZE + 4)); [|lia].
  rewrite Hck, Hfl, Ha. reflexivity.
Qed.









(** ** The receiver: timeouts *)

(** No iteration of the loop of [process_file_transfer] resets
    [consecutive_timeouts]: a received datagram leaves it as it is. *)
Lemma receiver_step_ready_keeps_timeouts rc d :
  r_consecutive_timeouts (fst (receiver_step rc (Ready d)))
  = r_consecutive_timeouts rc.
Proof.
  unfold receiver_step.
  match goal with
  | |- context [drain_buffered ?f ?w ?m ?e] =>
      destruct (drain_buffered f w m e) as [[[[? ?] ?] ?] ?]
  end.
  repeat match goal with
         | |- context [if ?c then _ else _] => destruct c; try reflexivity
         end.
Qed.

(** C8 (the code at the failing input).  Fourteen timeouts, then the data
    frame 0, which is written and acknowledged, then one more timeout: the
    receiver counts it as the fifteenth, sends RR 0 and a last SREJ 1 and
    finishes, although the timeout follows received data. *)
Theorem receiver_counts_all_timeouts :
  let polls := replicate 14 Timeout
               ++ [Ready (build_pdu 0 FLAG_DATA [72; 105]); Timeout] in
  let '(rc, out) := process_file_transfer 5 polls in
  r_finished rc = true /\
  r_eof_received rc = false /\
  r_consecutive_timeouts rc = 15 /\
  r_writes rc = [WriteData 0 [72; 105]] /\
  out = replicate 14 (rr_pdu 0) ++ [rr_pdu 0; rr_pdu 0; srej_pdu 1].
Proof. vm_compute. repeat split; reflexivity. Qed.

(** ** Selective reject on the sender *)

Lemma window_get_packet_some w seq i :
  0 < window_size w -> window_get_packet w seq = Some i ->
  0 <= i < window_size w /\ seq_num (slot w i) = seq /\ has_data (slot w i) = true.
Proof.
  intros Hws. unfold window_get_packet.
  destruct (_ && _); [discriminate|].
  destruct (_ >=? _); [discriminate|].
  destruct (_ && _) eqn:Hp.
  - intros [= <-]. apply andb_true_iff in Hp as [H1 H2]. apply Z.eqb_eq in H1.
    split; [apply Z.mod_pos_bound; lia|auto].
  - intros Hs. pose proof (scan_from_range _ _ _ _ Hws Hs) as Hr.
    apply scan_from_sound in Hs. apply andb_true_iff in Hs as [H1 H2].
    apply Z.eqb_eq in H1. auto.
Qed.

(** The frame that a re-send puts on the wire: the stored PDU with the new
    flag and a checksum that verifies. *)
Lemma refresh_pdu_frame pdu l fl :
  7 <= l -> (Z.to_nat l <= length pdu)%nat -> 0 <= fl < 256 ->
  let frame := take (Z.to_nat l) (refresh_pdu pdu l fl) in
  hdr_flag frame = fl /\ checksum_ok frame = true /\
  hdr_seq_num frame = hdr_seq_num pdu /\
  pdu_payload frame = pdu_payload (take (Z.to_nat l) pdu) /\
  length frame = Z.to_nat l.
Proof.
  intros Hl Hlen Hfl.
  assert (Hn : exists n, Z.to_nat l = (7 + n)%nat) by (exists (Z.to_nat l - 7)%nat; lia).
  destruct Hn as [n Hn]. unfold refresh_pdu. rewrite Hn in *. clear Hn Hl.
  do 7 (destruct pdu as [|? pdu]; [simpl in Hlen; lia|]).
  unfold set_hdr_flag, set_hdr_checksum. simpl.
  rewrite (Z.mod_small fl) by lia.
  match goal with |- context [in_cksum ?x] =>
    pose proof (in_cksum_range x) as Hc; set (c := in_cksum x) in * end.
  unfold hdr_flag, checksum_ok, hdr_checksum, hdr_seq_num, get_be32,
    set_hdr_checksum, pdu_payload, byte_at. simpl.
  split; [reflexivity|]. split.
  - apply Z.eqb_eq. fold c. Z.div_mod_to_equations. lia.
  - split; [reflexivity|]. split; [reflexivity|].
    rewrite length_take. simpl in Hlen. lia.
Qed.

Lemma on_control_srej rs ms w d s :
  control_frame d FLAG_SREJ s ->
  on_control rs ms w d = (let '(w', out) := on_srej w s in (rs, ms, w', out)).
Proof.
  intros (Hlen & Hck & Hfl & Hs). unfold on_control.
  destruct (Z.geb_spec (Z.of_nat (length (recvfrom (HEADER_SIZE + 4) d)))
              (HEADER_SIZE + 4)); [|lia].
  rewrite Hck, Hfl, Hs. reflexivity.
Qed.

Lemma end_iteration_win s : s_win (end_iteration s) = s_win s.
Proof. unfold end_iteration. destruct (_ && _); reflexivity. Qed.

Lemma end_iteration_cb s : s_cb (end_iteration s) = s_cb s.
Proof. unfold end_iteration. destruct (_ && _); reflexivity. Qed.

Lemma sender_step_srej st d s :
  s_pc st = PcAcks \/ s_pc st = PcWait -> control_frame d FLAG_SREJ s ->
  snd (sender_step st (Ready d)) = snd (on_srej (s_win st) s) /\
  s_win (fst (sender_step st (Ready d))) = fst (on_srej (s_win st) s) /\
  s_cb (fst (sender_step st (Ready d))) = s_cb st.
Proof.
  intros Hpc Hd. unfold sender_step.
  destruct Hpc as [-> | ->]; unfold acks_step, wait_step;
    rewrite (on_control_srej _ _ _ _ _ Hd);
    destruct (on_srej (s_win st) s) as [w' out]; cbn [fst snd];
    rewrite ?end_iteration_win, ?end_iteration_cb; auto.
Qed.

(** C4 (amended).  On a valid SREJ for [s], at either poll of the data
    phase: when [window_get_packet] finds [s] in the window store, the
    stored PDU is sent again with flag RESENT_SREJ and a checksum that
    verifies, same sequence number and payload; when it does not, nothing
    is sent and the window is left as it is, whatever the replay buffer
    holds.  The replay buffer is not consulted for an SREJ. *)
Theorem srej_resend_or_drop st d s :
  0 < window_size (s_win st) ->
  s_pc st = PcAcks \/ s_pc st = PcWait ->
  control_frame d FLAG_SREJ s ->
  match window_get_packet (s_win st) s with
  | Some i =>
      exists pdu,
        data (slot (s_win st) i) = Some pdu /\
        seq_num (slot (s_win st) i) = s /\
        let l := len (slot (s_win st) i) in
        let frame := take (Z.to_nat l) (refresh_pdu pdu l FLAG_RESENT_SREJ) in
        snd (sender_step st (Ready d)) = [frame] /\
        (7 <= l -> (Z.to_nat l <= length pdu)%nat ->
         hdr_flag frame = FLAG_RESENT_SREJ /\ checksum_ok frame = true /\
         hdr_seq_num frame = hdr_seq_num pdu /\
         pdu_payload frame = pdu_payload (take (Z.to_nat l) pdu))
  | None =>
      snd (sender_step st (Ready d)) = [] /\
      s_win (fst (sender_step st (Ready d))) = s_win st /\
      s_cb (fst (sender_step st (Ready d))) = s_cb st
  end.
Proof.
  intros Hws Hpc Hd.
  destruct (sender_step_srej st d s Hpc Hd) as (Hout & Hwin & Hcb).
  unfold on_srej in Hout, Hwin.
  destruct (window_get_packet (s_win st) s) as [i|] eqn:Hget; [|auto].
  apply window_get_packet_some in Hget as (Hi & Hseq & Hdata); [|exact Hws].
  unfold has_data in Hdata. unfold resend_slot in Hout.
  destruct (data (slot (s_win st) i)) as [pdu|] eqn:Hpdu; [|discriminate].
  exists pdu. split; [reflexivity|]. split; [exact Hseq|].
  cbv zeta. split; [exact Hout|]. intros Hl Hlen.
  destruct (refresh_pdu_frame pdu (len (slot (s_win st) i)) FLAG_RESENT_SREJ)
    as (H1 & H2 & H3 & H4 & _); auto. unfold FLAG_RESENT_SREJ. lia.
Qed.

Lemma srej_resend_or_drop_witness :
  snd (sender_step after_first_ack (Ready (srej_pdu 1)))
  = [take 9 (refresh_pdu (build_pdu 1 FLAG_DATA [30; 40]) 9 FLAG_RESENT_SREJ)].
Proof.
  assert (Hws : 0 < window_size (s_win after_first_ack)) by (vm_compute; reflexivity).
  assert (Hpc : s_pc after_first_ack = PcAcks \/ s_pc after_first_ack = PcWait)
    by (left; vm_compute; reflexivity).
  assert (Hd : control_frame (srej_pdu 1) FLAG_SREJ 1)
    by (vm_compute; intuition congruence).
  pose proof (srej_resend_or_drop after_first_ack (srej_pdu 1) 1 Hws Hpc Hd) as H.
  assert (Hget : window_get_packet (s_win after_first_ack) 1 = Some 1)
    by (vm_compute; reflexivity).
  rewrite Hget in H. destruct H as (pdu & Hpdu & _ & Hout & _).
  assert (Hp : data (slot (s_win after_first_ack) 1)
               = Some (build_pdu 1 FLAG_DATA [30; 40])) by (vm_compute; reflexivity).
  rewrite Hp in Hpdu. injection Hpdu as <-. exact Hout.
Defined.

(** C4 as stated fails: frame 0 is absent from the window store and lies
    within the range of the replay buffer, which can still produce its
    payload; the SREJ for it is dropped, nothing is sent. *)
Lemma srej_replay_counterexample :
  let st := after_first_ack in
  control_frame (srej_pdu 0) FLAG_SREJ 0 /\
  s_pc st = PcAcks /\
  window_get_packet (s_win st) 0 = None /\
  CircularBuffer.start_seq (s_cb st) <= 0 < CircularBuffer.end_seq (s_cb st) /\
  CircularBuffer.circular_buffer_read_seq (s_cb st) (s_buffer_size st) 0
  = (2, [10; 20]) /\
  snd (sender_step st (Ready (srej_pdu 0))) = [].
Proof.
  cbv zeta. split; [vm_compute; intuition congruence|].
  split; [vm_compute; reflexivity|]. split; [vm_compute; reflexivity|].
  split; [vm_compute; intuition congruence|].
  split; vm_compute; reflexivity.
Defined.

(** ** The receiver: in-order delivery *)

Lemma u32_idemp_add x y : u32 (u32 x + y) = u32 (x + y).
Proof. unfold u32. apply Zplus_mod_idemp_l. Qed.

Lemma data_seqs_app a b : data_seqs (a ++ b) = data_seqs a ++ data_seqs b.
Proof. unfold data_seqs. apply flat_map_app. Qed.

Lemma map_u32_seqZ n : n <= 2 ^ 32 -> List.map u32 (seqZ 0 n) = seqZ 0 n.
Proof.
  intros Hn. rewrite <- (map_id (seqZ 0 n)) at 2.
  apply map_ext_in. intros x Hx.
  apply list_elem_of_In, elem_of_seqZ in Hx. apply u32_small. lia.
Qed.

Lemma seqZ_prefix n pre s post :
  seqZ 0 n = pre ++ s :: post -> pre = seqZ 0 s.
Proof.
  intros H.
  assert (Hs : s = Z.of_nat (length pre) /\ Z.of_nat (length pre) < n).
  { assert (Hl : seqZ 0 n !! length pre = Some s)
      by (rewrite H; apply list_lookup_middle; reflexivity).
    apply lookup_seqZ in Hl. lia. }
  destruct Hs as [-> Hlt].
  replace n with (Z.of_nat (length pre) + (n - Z.of_nat (length pre))) in H by lia.
  rewrite seqZ_app in H by lia.
  symmetry in H. apply app_inj_1 in H; [apply H|].
  rewrite length_seqZ. lia.
Qed.

(** *** The fuel of the drain loop and of the receiver loop is enough *)

Lemma window_mark_ack_frames st w a :
  0 < window_size w -> Z.of_nat (length (packets w)) = window_size w ->
  let w' := snd (window_mark_ack st w a) in
  window_size w' = window_size w /\ base w' = base w /\
  length (packets w') = length (packets w) /\
  forall i, 0 <= i ->
    seq_num (slot w' i) = seq_num (slot w i) /\
    data (slot w' i) = data (slot w i) /\ len (slot w' i) = len (slot w i).
Proof.
  intros Hws Hlen. cbv zeta. unfold window_mark_ack.
  assert (Hidx : 0 <= base w mod window_size w < window_size w)
    by (apply Z.mod_pos_bound; lia).
  assert (Hid : window_size w = window_size w /\ base w = base w /\
                length (packets w) = length (packets w) /\
                forall i, 0 <= i ->
                  seq_num (slot w i) = seq_num (slot w i) /\
                  data (slot w i) = data (slot w i) /\
                  len (slot w i) = len (slot w i))
    by (repeat split; reflexivity).
  destruct (_ =? _).
  - destruct (_ =? _); [|exact Hid]. destruct (_ >=? _); [|exact Hid].
    destruct (_ && _); [|exact Hid]. cbn [snd].
    split; [reflexivity|]. split; [reflexivity|]. split; [apply length_insert|].
    intros i Hi. rewrite slot_set_slot by lia.
    destruct (Z.eq_dec i (base w mod window_size w)) as [->|]; auto.
  - destruct (_ && _); [exact Hid|]. cbn [snd].
    destruct (mark_fold_spec (seqZ 0 (packets_to_ack w a)) w Hws Hlen)
      as (H1 & H2 & H3 & H4 & _).
    split; [exact H1|]. split; [exact H2|]. split; [exact H3|].
    intros i Hi. destruct (H4 i Hi) as [E|(E & _)]; rewrite E; auto.
Qed.

Lemma u32_sub_ne e j : 0 <= e < 2 ^ 32 -> 1 <= j < 2 ^ 32 -> u32 (e - j) <> e.
Proof.
  intros He Hj. unfold u32. change (2 ^ 32) with 4294967296 in *.
  Z.div_mod_to_equations. lia.
Qed.

Lemma u32_idemp_sub x y : u32 (u32 x - y) = u32 (x - y).
Proof. unfold u32. apply Zminus_mod_idemp_l. Qed.

Lemma distinct_indices_bound (used : list Z) n :
  List.NoDup used -> (forall i, In i used -> 0 <= i < n) ->
  Z.of_nat (length used) <= Z.max 0 n.
Proof.
  intros Hnd Hin.
  assert (H : (length used <= length (seqZ 0 n))%nat).
  { apply NoDup_incl_length; [exact Hnd|].
    intros i Hi. apply list_elem_of_In, elem_of_seqZ. specialize (Hin i Hi). lia. }
  rewrite length_seqZ in H. lia.
Qed.

(** The drain loop ends because no slot holds the next sequence number,
    not because the fuel ran out: the slots found by its iterations hold
    consecutive sequence numbers, so they are pairwise distinct, and there
    are [window_size] slots. *)
Lemma drain_buffered_complete fuel : forall w ms e used,
  0 < window_size w < 2 ^ 30 ->
  Z.of_nat (length (packets w)) = window_size w ->
  0 <= e < 2 ^ 32 ->
  List.NoDup used ->
  (forall i, In i used ->
     0 <= i < window_size w /\
     exists j, 1 <= j <= Z.of_nat (length used) /\
               seq_num (slot w i) = u32 (e - j)) ->
  (Z.to_nat (window_size w) < length used + fuel)%nat ->
  let '(w', _, e', _, _) := drain_buffered fuel w ms e in
  window_get_packet w' e' = None.
Proof.
  induction fuel as [|fuel IH]; intros w ms e used Hws Hlen He Hnd Hused Hfuel.
  - pose proof (distinct_indices_bound used (window_size w) Hnd
                  (fun i Hi => proj1 (Hused i Hi))). lia.
  - simpl. destruct (window_get_packet w e) as [idx|] eqn:Hget; [|exact Hget].
    apply window_get_packet_some in Hget as (Hidx & Hseq & _); [|lia].
    pose proof (distinct_indices_bound used (window_size w) Hnd
                  (fun i Hi => proj1 (Hused i Hi))) as Hbound.
    assert (Hfresh : ~ In idx used).
    { intros Hin. destruct (Hused idx Hin) as (_ & j & Hj & Hs).
      rewrite Hseq in Hs. symmetry in Hs. revert Hs. apply u32_sub_ne; lia. }
    destruct (window_mark_ack_frames ms w e ltac:(lia) Hlen)
      as (Hws1 & _ & Hlen1 & Hfr).
    destruct (window_mark_ack ms w e) as [ms1 w1]. cbn [snd] in *.
    specialize (IH w1 ms1 (u32 (e + 1)) (idx :: used)).
    destruct (drain_buffered fuel w1 ms1 (u32 (e + 1)))
      as [[[[w2 ms2] e2] writes] out].
    apply IH.
    + lia.
    + lia.
    + apply u32_range.
    + constructor; assumption.
    + intros i [<-|Hin].
      * split; [lia|]. exists 1. split; [simpl; lia|].
        rewrite (proj1 (Hfr idx ltac:(lia))), Hseq, u32_idemp_sub.
        replace (e + 1 - 1) with e by lia. symmetry. apply u32_small, He.
      * destruct (Hused i Hin) as (Hi & j & Hj & Hs). split; [lia|].
        exists (j + 1). split; [simpl length; lia|].
        rewrite (proj1 (Hfr i ltac:(lia))), Hs, u32_idemp_sub.
        f_equal. lia.
    + simpl length. lia.
Qed.

Lemma window_add_packet_shape ws w seq d l fl :
  window_shape ws w -> window_shape ws (snd (window_add_packet w seq d l fl)).
Proof.
  intros (Hws & Hlen). unfold window_add_packet.
  destruct (_ >? _); [split; assumption|]. cbn [snd].
  split; [exact Hws|]. rewrite length_set_slot. exact Hlen.
Qed.

Lemma drain_buffered_shape ws fuel : forall w ms e,
  0 < ws -> window_shape ws w ->
  let '(w', _, _, _, _) := drain_buffered fuel w ms e in window_shape ws w'.
Proof.
  induction fuel as [|fuel IH]; intros w ms e Hpos Hsh; [exact Hsh|].
  simpl. destruct (window_get_packet w e); [|exact Hsh].
  destruct Hsh as (Hws & Hlen).
  destruct (window_mark_ack_frames ms w e ltac:(lia) ltac:(lia))
    as (Hws1 & _ & Hlen1 & _).
  destruct (window_mark_ack ms w e) as [ms1 w1]. cbn [snd] in *.
  specialize (IH w1 ms1 (u32 (e + 1)) Hpos).
  destruct (drain_buffered fuel w1 ms1 (u32 (e + 1)))
    as [[[[w2 ms2] e2] writes] out].
  apply IH. split; lia.
Qed.

Lemma receiver_step_shape ws rc r :
  0 < ws -> window_shape ws (r_win rc) ->
  window_shape ws (r_win (fst (receiver_step rc r))).
Proof.
  intros Hpos Hsh. unfold receiver_step. destruct r as [d|].
  2:{ destruct (r_eof_received rc); exact Hsh. }
  destruct (_ <? _); [exact Hsh|]. destruct (negb _); [exact Hsh|].
  set (buf := set_hdr_checksum (recvfrom MAX_PDU_SIZE d) 0).
  destruct (is_data_flag (hdr_flag buf)).
  - destruct (_ =? _).
    + pose proof (drain_buffered_shape ws
                    (S (Z.to_nat (window_size (r_win rc)))) (r_win rc)
                    (r_mark rc) (u32 (r_expected_seq rc + 1)) Hpos Hsh) as H.
      destruct (drain_buffered _ _ _ _) as [[[[w2 ms2] e2] writes] out].
      exact H.
    + destruct (_ >? _); [|exact Hsh]. cbn [fst r_win].
      apply window_add_packet_shape. destruct (_ <? _); exact Hsh.
  - destruct (_ =? _); exact Hsh.
Qed.

(** A step of the receiver that does not finish leaves fewer than 15
    timeouts counted. *)
Lemma receiver_step_timeouts rc r :
  0 <= r_consecutive_timeouts rc <= 14 ->
  let rc' := fst (receiver_step rc r) in
  (r = Timeout ->
   r_finished rc' = true \/
   r_consecutive_timeouts rc' = r_consecutive_timeouts rc + 1) /\
  (r_finished rc' = false -> 0 <= r_consecutive_timeouts rc' <= 14) /\
  r_consecutive_timeouts rc <= r_consecutive_timeouts rc'.
Proof.
  intros Hct. cbv zeta. destruct r as [d|].
  - rewrite receiver_step_ready_keeps_timeouts.
    split; [discriminate|]. split; [auto|lia].
  - unfold receiver_step. destruct (r_eof_received rc); cbn [fst].
    + split; [left; reflexivity|]. split; [discriminate|simpl; lia].
    + cbn [r_finished r_consecutive_timeouts].
      split; [right; reflexivity|]. split; [|lia].
      destruct (Z.geb_spec (r_consecutive_timeouts rc + 1) 15); [discriminate|lia].
Qed.

Lemma process_file_transfer_loop_finished fuel rc polls :
  r_finished rc = true -> process_file_transfer_loop fuel rc polls = (rc, []).
Proof. intros Hf. destruct fuel; simpl; rewrite ?Hf; reflexivity. Qed.

Lemma process_file_transfer_loop_finishes fuel : forall rc polls,
  (r_finished rc = false -> 0 <= r_consecutive_timeouts rc <= 14) ->
  (Z.to_nat (15 - r_consecutive_timeouts rc) + length polls <= fuel)%nat ->
  r_finished (fst (process_file_transfer_loop fuel rc polls)) = true.
Proof.
  induction fuel as [|fuel IH]; intros rc polls Hct Hfuel.
  - simpl. destruct (r_finished rc) eqn:Hf; [reflexivity|].
    specialize (Hct eq_refl). lia.
  - simpl. destruct (r_finished rc) eqn:Hf; [exact Hf|].
    specialize (Hct eq_refl).
    destruct (next_poll polls) as [r polls'] eqn:Hp.
    destruct (receiver_step_timeouts rc r Hct) as (Ht & Hnf & Hmono).
    destruct (receiver_step rc r) as [rc1 out1]. cbn [fst] in *.
    destruct (r_finished rc1) eqn:Hf1.
    + rewrite process_file_transfer_loop_finished by exact Hf1. exact Hf1.
    + specialize (Hnf eq_refl). specialize (IH rc1 polls' (fun _ => Hnf)).
      destruct (process_file_transfer_loop fuel rc1 polls') as [rc2 out2].
      cbn [fst] in *. apply IH.
      destruct polls as [|p polls]; cbn [next_poll] in Hp; injection Hp as <- <-.
      * destruct (Ht eq_refl) as [Hc|Hc]; [congruence|]. simpl in *. lia.
      * simpl in *. lia.
Qed.

(** [process_file_transfer] leaves its loop with [finished] set. *)
Lemma process_file_transfer_finishes ws polls :
  r_finished (fst (process_file_transfer ws polls)) = true.
Proof.
  apply process_file_transfer_loop_finishes; simpl; lia.
Qed.

(** ** The receiver: what is written, and when *)

Lemma set_hdr_checksum_keeps d c :
  length (set_hdr_checksum d c) = length d /\
  hdr_seq_num (set_hdr_checksum d c) = hdr_seq_num d /\
  hdr_flag (set_hdr_checksum d c) = hdr_flag d /\
  pdu_payload (set_hdr_checksum d c) = pdu_payload d.
Proof.
  unfold set_hdr_checksum. rewrite !length_insert.
  split; [reflexivity|].
  do 7 (destruct d as [|? d]; [cbn; auto|]). cbn. auto.
Qed.

Lemma slot_window_init ws i : slot (window_init ws) i = zero_packet.
Proof.
  unfold slot, window_init. cbn [packets].
  destruct (replicate (Z.to_nat ws) zero_packet !! Z.to_nat i) eqn:Hl; [|reflexivity].
  apply lookup_replicate in Hl as [-> _]. reflexivity.
Qed.

(** The drain loop only writes payloads of data frames. *)
Lemma drain_buffered_data_writes fuel : forall w ms e,
  let '(_, _, _, writes, _) := drain_buffered fuel w ms e in
  Forall (fun e => is_data_write e = true) writes.
Proof.
  induction fuel as [|fuel IH]; intros w ms e; [constructor|].
  cbn [drain_buffered].
  destruct (window_get_packet w e) as [i|]; [|constructor].
  destruct (window_mark_ack ms w e) as [ms1 w1].
  specialize (IH w1 ms1 (u32 (e + 1))).
  destruct (drain_buffered fuel w1 ms1 (u32 (e + 1)))
    as [[[[w2 ms2] e2] writes] out].
  apply List.Forall_cons; [reflexivity|exact IH].
Qed.

Section ReceiverOrder.
Variables (polls : list poll_result) (ws : Z).
Hypothesis Hws : 0 < ws.

(** The drain loop writes the frames stored under [e0], [e0 + 1], ...,
    each of them the frame of this number that was received, and leaves
    [expected_seq] after the last one. *)
Lemma drain_buffered_order fuel : forall w ms e e0,
  e = u32 e0 -> window_shape ws w -> slots_received polls w ->
  exists m,
    0 <= m /\
    let '(w', _, e', writes, _) := drain_buffered fuel w ms e in
    data_seqs writes = List.map u32 (seqZ e0 m) /\ e' = u32 (e0 + m) /\
    window_shape ws w' /\ slots_received polls w' /\
    Forall (write_received polls) writes.
Proof.
  induction fuel as [|fuel IH]; intros w ms e e0 He Hsh Hsl.
  - exists 0. split; [lia|]. cbn. rewrite Z.add_0_r. auto.
  - cbn [drain_buffered].
    destruct (window_get_packet w e) as [i|] eqn:Hget.
    2:{ exists 0. split; [lia|]. cbn. rewrite Z.add_0_r. auto. }
    pose proof Hsh as (Hsz & Hlen).
    apply window_get_packet_some in Hget as (Hi & Hseq & Hdata); [|lia].
    unfold has_data in Hdata.
    destruct (data (slot w i)) as [d|] eqn:Hd; [|discriminate].
    destruct (Hsl i d Hi Hd) as (Hl & Hsq & Hrecv).
    destruct (window_mark_ack_frames ms w e ltac:(lia) ltac:(lia))
      as (Hws1 & _ & Hlen1 & Hsame).
    destruct (window_mark_ack ms w e) as [ms1 w1]. cbn [snd] in *.
    assert (Hsh1 : window_shape ws w1) by (split; lia).
    assert (Hsl1 : slots_received polls w1).
    { intros j d' Hj Hd'. destruct (Hsame j ltac:(lia)) as (E1 & E2 & E3).
      rewrite E1, E3. apply Hsl; [lia|congruence]. }
    destruct (IH w1 ms1 (u32 (e + 1)) (e0 + 1)) as (m & Hm & H);
      [rewrite He; apply u32_idemp_add|exact Hsh1|exact Hsl1|].
    destruct (drain_buffered fuel w1 ms1 (u32 (e + 1)))
      as [[[[w2 ms2] e2] writes] out].
    destruct H as (Hw & He2 & Hsh2 & Hsl2 & Hall).
    exists (m + 1). split; [lia|].
    change (default [] (Some d)) with d.
    split; [|split; [|split; [exact Hsh2|split; [exact Hsl2|]]]].
    + cbn [data_seqs flat_map app]. fold (data_seqs writes).
      rewrite Hw, (seqZ_cons e0 (m + 1)) by lia. cbn [List.map].
      rewrite Hsq, Hseq, He.
      replace (Z.succ e0) with (e0 + 1) by lia.
      replace (Z.pred (m + 1)) with m by lia. reflexivity.
    + rewrite He2. f_equal. lia.
    + apply List.Forall_cons; [|exact Hall]. cbn [write_received].
      replace (take (Z.to_nat (len (slot w i) - HEADER_SIZE)) (pdu_payload d))
        with (pdu_payload d); [exact Hrecv|].
      symmetry. apply take_ge. rewrite Hl. unfold pdu_payload.
      rewrite length_drop. unfold HEADER_SIZE. lia.
Qed.

Lemma window_add_packet_received w q d l fl :
  window_shape ws w -> slots_received polls w ->
  l = Z.of_nat (length d) -> hdr_seq_num d = q ->
  received_frame polls false q (pdu_payload d) ->
  slots_received polls (snd (window_add_packet w q d l fl)).
Proof.
  intros (Hsz & Hlen) Hsl Hl Hseq Hrecv. unfold window_add_packet.
  destruct (_ >? _); [exact Hsl|]. cbn [snd].
  match goal with
  | |- context [set_slot w ?ix _] => set (index := ix)
  end.
  assert (Hidx : 0 <= index < window_size w).
  { assert (H0 : 0 <= q mod window_size w < window_size w)
      by (apply Z.mod_pos_bound; lia).
    unfold index. destruct (_ && _); [|exact H0].
    destruct (_ && _); [|exact H0].
    destruct (scan_from _ _ _) as [alt|] eqn:Hscan; [|exact H0].
    apply scan_from_range in Hscan; [exact Hscan|lia]. }
  intros i d' Hi Hd'. cbn [window_size set_slot] in Hi.
  rewrite slot_set_slot in Hd' |- * by lia.
  destruct (Z.eq_dec i index) as [->|]; [|apply Hsl; assumption].
  cbn [data seq_num len] in Hd' |- *. injection Hd' as <-.
  rewrite Hl, Nat2Z.id, firstn_all2 by lia.
  split; [reflexivity|]. split; [exact Hseq|]. rewrite Hseq. exact Hrecv.
Qed.

Lemma receiver_step_order rc r n :
  (forall d, r = Ready d -> In (Ready d) polls) ->
  receiver_order polls ws rc n ->
  exists n', n <= n' /\ receiver_order polls ws (fst (receiver_step rc r)) n'.
Proof.
  intros Hin ((Hn & Hw & He) & Hsh & Hsl & Hall).
  assert (Hsame : exists n', n <= n' /\ receiver_order polls ws rc n').
  { exists n. split; [lia|]. split; [split; [exact Hn|split; assumption]|].
    split; [exact Hsh|]. split; assumption. }
  unfold receiver_step. destruct r as [d|].
  2:{ destruct (r_eof_received rc); exact Hsame. }
  specialize (Hin d eq_refl).
  destruct (Z.ltb_spec (Z.of_nat (length (recvfrom MAX_PDU_SIZE d))) HEADER_SIZE)
    as [Hshort|Hlong]; [exact Hsame|].
  destruct (checksum_ok (recvfrom MAX_PDU_SIZE d)) eqn:Hck; [|exact Hsame].
  cbn [negb].
  destruct (set_hdr_checksum_keeps (recvfrom MAX_PDU_SIZE d) 0)
    as (K1 & K2 & K3 & K4).
  assert (Hbytes : take (Z.to_nat (Z.of_nat (length (recvfrom MAX_PDU_SIZE d))
                                   - HEADER_SIZE))
                     (pdu_payload (set_hdr_checksum (recvfrom MAX_PDU_SIZE d) 0))
                   = pdu_payload (recvfrom MAX_PDU_SIZE d)).
  { rewrite K4. apply take_ge. unfold pdu_payload. rewrite length_drop.
    unfold HEADER_SIZE. lia. }
  assert (Hfrom : forall eof : bool,
            (if eof
             then hdr_flag (set_hdr_checksum (recvfrom MAX_PDU_SIZE d) 0)
                  = FLAG_EOF
             else is_data_flag
                    (hdr_flag (set_hdr_checksum (recvfrom MAX_PDU_SIZE d) 0))
                  = true) ->
            received_frame polls eof
              (hdr_seq_num (set_hdr_checksum (recvfrom MAX_PDU_SIZE d) 0))
              (pdu_payload (recvfrom MAX_PDU_SIZE d))).
  { intros eof Hfl. exists d. split; [exact Hin|]. cbv zeta.
    rewrite K3 in Hfl. rewrite K2. auto. }
  set (buf := set_hdr_checksum (recvfrom MAX_PDU_SIZE d) 0) in *.
  destruct (is_data_flag (hdr_flag buf)) eqn:Hdf.
  - destruct (Z.eqb_spec (hdr_seq_num buf) (r_expected_seq rc)) as [Heq|Hne].
    + rewrite Hbytes.
      destruct (drain_buffered_order
                  (S (Z.to_nat (window_size (r_win rc)))) (r_win rc) (r_mark rc)
                  (u32 (r_expected_seq rc + 1)) (n + 1)) as (m & Hm & H);
        [rewrite He; apply u32_idemp_add|exact Hsh|exact Hsl|].
      destruct (drain_buffered _ _ _ _) as [[[[w2 ms2] e2] writes] out].
      destruct H as (Hw2 & He2 & Hsh2 & Hsl2 & Hall2).
      exists (n + 1 + m). split; [lia|]. cbn [fst].
      split; [split; [lia|split]|split; [exact Hsh2|split; [exact Hsl2|]]].
      * cbn [r_writes]. rewrite data_seqs_app. cbn [data_seqs flat_map app].
        fold (data_seqs writes). rewrite Hw, Hw2, Heq, He.
        replace (n + 1 + m) with (n + (1 + m)) by lia.
        rewrite (seqZ_app 0 n (1 + m)), map_app by lia.
        rewrite (seqZ_cons (0 + n) (1 + m)) by lia. cbn [List.map].
        replace (Z.succ (0 + n)) with (n + 1) by lia.
        replace (Z.pred (1 + m)) with m by lia. reflexivity.
      * cbn [r_expected_seq]. rewrite He2. f_equal.
      * cbn [r_writes]. apply Forall_app. split; [exact Hall|].
        apply List.Forall_cons; [|exact Hall2]. exact (Hfrom false eq_refl).
    + destruct (_ >? _); [|exact Hsame].
      exists n. split; [lia|]. cbn [fst r_win r_writes r_expected_seq].
      split; [split; [exact Hn|split; assumption]|].
      set (w0 := if base (r_win rc) <? r_expected_seq rc
                 then set_base (r_win rc) (r_expected_seq rc) else r_win rc).
      assert (Hsh0 : window_shape ws w0)
        by (unfold w0; destruct (_ <? _); exact Hsh).
      assert (Hsl0 : slots_received polls w0).
      { intros i d' Hi Hd'.
        assert (Hs : slot w0 i = slot (r_win rc) i)
          by (unfold w0; destruct (_ <? _); reflexivity).
        assert (Hz : window_size w0 = window_size (r_win rc))
          by (unfold w0; destruct (_ <? _); reflexivity).
        rewrite Hs in Hd' |- *. rewrite Hz in Hi. apply Hsl; assumption. }
      split; [apply window_add_packet_shape; exact Hsh0|].
      split; [|exact Hall].
      apply window_add_packet_received;
        [exact Hsh0|exact Hsl0|rewrite K1; reflexivity|reflexivity|].
      rewrite K4. exact (Hfrom false eq_refl).
  - destruct (Z.eqb_spec (hdr_flag buf) FLAG_EOF) as [Hfl|_]; [|exact Hsame].
    exists n. split; [lia|].
    split; [split; [exact Hn|split; [|exact He]]|];
      cbn [fst r_win r_writes r_expected_seq].
    + rewrite data_seqs_app.
      destruct (_ >? _); cbn [data_seqs flat_map app]; rewrite app_nil_r;
        exact Hw.
    + split; [exact Hsh|]. split; [exact Hsl|].
      apply Forall_app. split; [exact Hall|].
      destruct (Z.gtb_spec (Z.of_nat (length (recvfrom MAX_PDU_SIZE d))
                            - HEADER_SIZE) 0) as [Hpos|_]; [|constructor].
      apply List.Forall_cons; [|constructor]. cbn [write_received].
      rewrite Hbytes. split; [exact (Hfrom true Hfl)|].
      intros Hnil. apply (f_equal (@length Z)) in Hnil.
      unfold pdu_payload in Hnil. rewrite length_drop in Hnil.
      cbn [length] in Hnil. unfold HEADER_SIZE in Hpos, Hnil. lia.
Qed.

Lemma process_file_transfer_loop_order fuel : forall rc ps n,
  (forall r, In r ps -> In r polls) -> receiver_order polls ws rc n ->
  exists n', n <= n' /\
    receiver_order polls ws (fst (process_file_transfer_loop fuel rc ps)) n'.
Proof.
  induction fuel as [|fuel IH]; intros rc ps n Hps Hinv.
  - exists n. split; [lia|exact Hinv].
  - cbn [process_file_transfer_loop].
    destruct (r_finished rc); [exists n; split; [lia|exact Hinv]|].
    assert (Hnext : (forall d, fst (next_poll ps) = Ready d ->
                       In (Ready d) polls) /\
                    (forall r, In r (snd (next_poll ps)) -> In r polls)).
    { destruct ps as [|r ps']; cbn [next_poll fst snd].
      - split; [discriminate|]. intros r [].
      - split; [intros d ->; apply Hps; left; reflexivity|].
        intros r' Hr'. apply Hps. right. exact Hr'. }
    destruct (next_poll ps) as [r ps']. cbn [fst snd] in Hnext.
    destruct Hnext as (Hr & Hps').
    destruct (receiver_step_order rc r n Hr Hinv) as (n1 & Hn1 & Hinv1).
    destruct (receiver_step rc r) as [rc1 out1]. cbn [fst] in Hinv1.
    destruct (IH rc1 ps' n1 Hps' Hinv1) as (n2 & Hn2 & Hinv2).
    destruct (process_file_transfer_loop fuel rc1 ps') as [rc2 out2].
    exists n2. split; [lia|exact Hinv2].
Qed.

End ReceiverOrder.

(** A step of a receiver that has written no EOF payload writes payloads
    of data frames, or the payload of an EOF frame as its only write and
    then the transfer has finished. *)
Lemma receiver_step_eof_last rc r :
  Forall (fun e => is_data_write e = true) (r_writes rc) ->
  eof_written_last (fst (receiver_step rc r)).
Proof.
  intros Hall. unfold receiver_step. destruct r as [d|].
  2:{ destruct (r_eof_received rc); left; exact Hall. }
  destruct (_ <? _); [left; exact Hall|].
  destruct (negb _); [left; exact Hall|].
  set (buf := set_hdr_checksum (recvfrom MAX_PDU_SIZE d) 0).
  destruct (is_data_flag (hdr_flag buf)).
  - destruct (_ =? _).
    + pose proof (drain_buffered_data_writes
                    (S (Z.to_nat (window_size (r_win rc)))) (r_win rc)
                    (r_mark rc) (u32 (r_expected_seq rc + 1))) as H.
      destruct (drain_buffered _ _ _ _) as [[[[w2 ms2] e2] writes] out].
      left. cbn [fst r_writes]. apply Forall_app. split; [exact Hall|].
      apply List.Forall_cons; [reflexivity|exact H].
    + destruct (_ >? _); left; exact Hall.
  - destruct (_ =? _); [|left; exact Hall].
    destruct (_ >? _).
    + right. eexists _, _, _. cbn [fst r_writes r_finished r_eof_received].
      split; [reflexivity|]. split; [exact Hall|]. split; reflexivity.
    + left. cbn [fst r_writes]. rewrite app_nil_r. exact Hall.
Qed.

Lemma process_file_transfer_loop_eof_last fuel : forall rc ps,
  Forall (fun e => is_data_write e = true) (r_writes rc) ->
  eof_written_last (fst (process_file_transfer_loop fuel rc ps)).
Proof.
  induction fuel as [|fuel IH]; intros rc ps Hall; [left; exact Hall|].
  cbn [process_file_transfer_loop].
  destruct (r_finished rc); [left; exact Hall|].
  destruct (next_poll ps) as [r ps'].
  pose proof (receiver_step_eof_last rc r Hall) as Hstep.
  destruct (receiver_step rc r) as [rc1 out1]. cbn [fst] in Hstep.
  destruct Hstep as [Hd | (pre & s & b & E & Hpre & Hfin & Heof)].
  - specialize (IH rc1 ps' Hd).
    destruct (process_file_transfer_loop fuel rc1 ps') as [rc2 out2].
    exact IH.
  - rewrite (process_file_transfer_loop_finished fuel rc1 ps' Hfin).
    cbn [fst]. right. exists pre, s, b. auto.
Qed.

(** C2 (amended).  In every run of the receiver with a window of one slot
    or more (any sequence of datagrams and timeouts) that stays below
    [2^32] data frames, the data frames whose payload was written to the
    sink carry exactly the sequence numbers 0, 1, ..., n - 1, in this
    order: a frame is written once at most, the numbers written increase
    strictly, and when the payload of [s] is written the frames written
    before it are exactly those of 0 .. s - 1.  [expected_seq] is the
    number of data frames written.  The sequence number of a write is the
    one in the header of the PDU the bytes are taken from, and every
    write is the whole payload of a datagram that was received with a
    checksum that verifies, this number and a data flag.  The payload of
    an EOF frame is written whatever the number of the frame is and
    whatever has been written before: it is the last write, and the
    transfer has finished. *)
Theorem receiver_writes_in_order ws polls :
  0 < ws ->
  let rc := fst (process_file_transfer ws polls) in
  let seqs := data_seqs (r_writes rc) in
  Z.of_nat (length seqs) < 2 ^ 32 ->
  seqs = seqZ 0 (Z.of_nat (length seqs)) /\
  r_expected_seq rc = Z.of_nat (length seqs) /\
  NoDup seqs /\
  (forall pre s post, seqs = pre ++ s :: post -> pre = seqZ 0 s) /\
  Forall (write_received polls) (r_writes rc) /\
  eof_written_last rc.
Proof.
  intros Hws rc seqs Hlen.
  destruct (process_file_transfer_loop_order polls ws Hws (15 + length polls)
              (process_file_transfer_init ws) polls 0)
    as (n & Hn & (_ & Hw & He) & _ & _ & Hall).
  { auto. }
  { split; [split; [lia|split; reflexivity]|].
    split; [split; [reflexivity|cbn; rewrite length_replicate; lia]|].
    split; [|constructor].
    intros i d Hi Hd.
    change (r_win (process_file_transfer_init ws)) with (window_init ws) in Hd.
    rewrite slot_window_init in Hd. discriminate. }
  pose proof (process_file_transfer_loop_eof_last (15 + length polls)
                (process_file_transfer_init ws) polls
                ltac:(constructor)) as Heof.
  fold (process_file_transfer ws polls) in Hw, He, Hall, Heof.
  fold rc in Hw, He, Hall, Heof. fold seqs in Hw.
  assert (Hnlen : Z.of_nat (length seqs) = n).
  { rewrite Hw, length_map, length_seqZ. lia. }
  rewrite Hnlen in *. rewrite map_u32_seqZ in Hw by lia.
  split; [exact Hw|]. split; [rewrite He; apply u32_small; lia|].
  split; [rewrite Hw; apply NoDup_seqZ|].
  split; [|split; [exact Hall|exact Heof]].
  intros pre s post Hsplit. rewrite Hw in Hsplit.
  eapply seqZ_prefix. exact Hsplit.
Qed.

Lemma receiver_writes_in_order_witness :
  let polls := [Ready (build_pdu 1 FLAG_DATA [66]);
                Ready (build_pdu 2 FLAG_RESENT_TIMEOUT [67]);
                Ready (build_pdu 0 FLAG_DATA [65]);
                Ready (build_pdu 1 FLAG_RESENT_SREJ [66]);
                Ready (build_pdu 3 FLAG_EOF [68])] in
  let rc := fst (process_file_transfer 4 polls) in
  r_writes rc
  = [WriteData 0 [65]; WriteData 1 [66]; WriteData 2 [67]; WriteEof 3 [68]] /\
  data_seqs (r_writes rc) = [0; 1; 2] /\
  r_expected_seq rc = 3 /\
  Forall (write_received polls) (r_writes rc) /\
  eof_written_last rc.
Proof.
  intros polls rc.
  destruct (receiver_writes_in_order 4 polls)
    as (Hseqs & He & _ & _ & Hall & Heof).
  - lia.
  - vm_compute. reflexivity.
  - fold rc in Hseqs, He, Hall, Heof.
    assert (Hl : length (data_seqs (r_writes rc)) = 3%nat)
      by (vm_compute; reflexivity).
    rewrite Hl in Hseqs, He. split; [vm_compute; reflexivity|].
    split; [exact Hseqs|]. split; [exact He|]. split; [exact Hall|exact Heof].
Defined.

(** C2 as stated fails for the payload of an EOF frame, which is written
    when the frame arrives, whatever its sequence number: the payload of
    an EOF frame numbered 3 is written although no frame below 3 has been
    written, and after the frames 0 and 1 the payload of an EOF frame
    numbered 0 is written, a second payload for the number 0. *)
Lemma receiver_writes_in_order_counterexample :
  r_writes (fst (process_file_transfer 4 [Ready (build_pdu 3 FLAG_EOF [67])]))
  = [WriteEof 3 [67]] /\
  r_writes (fst (process_file_transfer 4
                   [Ready (build_pdu 0 FLAG_DATA [65]);
                    Ready (build_pdu 1 FLAG_DATA [66]);
                    Ready (build_pdu 0 FLAG_EOF [67])]))
  = [WriteData 0 [65]; WriteData 1 [66]; WriteEof 0 [67]].
Proof. split; vm_compute; reflexivity. Defined.

(** ** The sender window *)

Lemma find_none_intro {A} (f : A -> bool) l :
  (forall x, In x l -> f x = false) -> List.find f l = None.
Proof.
  induction l as [|x l IH]; intros H; [reflexivity|]. simpl.
  rewrite (H x (or_introl eq_refl)). apply IH. intros y Hy. apply H. right. exact Hy.
Qed.

Lemma scan_from_none_intro w index P :
  0 < window_size w ->
  (forall j, 0 <= j < window_size w -> P (slot w j) = false) ->
  scan_from w index P = None.
Proof.
  intros Hws H. unfold scan_from. rewrite find_none_intro; [reflexivity|].
  intros i _. apply H. apply Z.mod_pos_bound. lia.
Qed.

(** Two frames of a window of [ws] slots that share a slot differ by a
    multiple of [ws]: within one window they are the same frame. *)
Lemma same_slot_same_seq ws p q b :
  0 < ws -> b <= p < b + ws -> b <= q < b + ws ->
  p mod ws = q mod ws -> p = q.
Proof.
  intros Hws Hp Hq Hmod.
  assert (H : (p - q) mod ws = 0).
  { rewrite Zminus_mod, Hmod, Z.sub_diag. apply Z.mod_0_l. lia. }
  apply Z.mod_divide in H; [|lia]. destruct H as [c Hc].
  assert (c = 0) by nia. lia.
Qed.

Lemma acked_prefix_ext w w' n m :
  acked_prefix w n m ->
  window_size w' = window_size w -> base w' = base w ->
  length (packets w') = length (packets w) ->
  (forall i, 0 <= i < window_size w ->
     seq_num (slot w' i) = seq_num (slot w i) /\
     has_data (slot w' i) = has_data (slot w i) /\
     acknowledged (slot w' i) = acknowledged (slot w i)) ->
  acked_prefix w' n m.
Proof.
  intros (Hws & Hlen & Hb & Hn & Hfit & Hslots & Hfull) Ews Eb El Es.
  unfold acked_prefix. rewrite Ews, Eb, El.
  repeat (split; [assumption|]). split.
  - intros i Hi. destruct (Es i Hi) as (-> & -> & ->). apply Hslots, Hi.
  - intros q Hq.
    assert (Hi : 0 <= q mod window_size w < window_size w)
      by (apply Z.mod_pos_bound; lia).
    destruct (Es _ Hi) as (-> & -> & _). apply Hfull, Hq.
Qed.

(** One step of the marking loop on such a window. *)
Lemma mark_one_prefix w n t :
  acked_prefix w n (Z.min (base w + t) n) -> 0 <= t < window_size w -> 1 <= n ->
  acked_prefix (mark_one w t) n (Z.min (base w + t + 1) n) /\
  base (mark_one w t) = base w.
Proof.
  intros Hpre Ht Hn1.
  pose proof Hpre as (Hws & Hlen & Hb & Hn & Hfit & Hslots & Hfull).
  split; [|apply mark_one_shape].
  unfold mark_one. rewrite u32_small by lia.
  set (s := base w + t) in *.
  assert (Hidx : 0 <= s mod window_size w < window_size w)
    by (apply Z.mod_pos_bound; lia).
  destruct (Z_lt_dec s n) as [Hlt|Hge].
  - (* the frame [s] is in the window: its slot is marked *)
    destruct (Hfull s ltac:(lia)) as (Hseq & Hdata).
    rewrite Hseq, Z.eqb_refl.
    unfold acked_prefix. cbn [window_size base set_slot packets].
    rewrite length_insert.
    split; [exact Hws|]. split; [exact Hlen|]. split; [lia|]. split; [lia|].
    split; [exact Hfit|]. split.
    + intros i Hi. rewrite slot_set_slot by lia.
      destruct (Z.eq_dec i (s mod window_size w)) as [->|Hne].
      * right. cbn [has_data set_acknowledged data seq_num acknowledged].
        rewrite Hseq. fold (has_data (slot w (s mod window_size w))).
        split; [exact Hdata|]. split; [lia|]. split; [reflexivity|].
        symmetry. apply Z.ltb_lt. lia.
      * destruct (Hslots i Hi) as [H0|(H1 & H2 & H3 & H4)]; [left; exact H0|right].
        split; [exact H1|]. split; [exact H2|]. split; [exact H3|].
        rewrite H4.
        assert (seq_num (slot w i) <> s) by (intros E; rewrite E in H3; lia).
        destruct (Z.ltb_spec (seq_num (slot w i)) (Z.min s n));
          destruct (Z.ltb_spec (seq_num (slot w i)) (Z.min (s + 1) n));
          try reflexivity; exfalso; lia.
    + intros q Hq.
      assert (Hqi : 0 <= q mod window_size w < window_size w)
        by (apply Z.mod_pos_bound; lia).
      rewrite slot_set_slot by lia.
      destruct (Z.eq_dec (q mod window_size w) (s mod window_size w)) as [E|Hne].
      * assert (q = s) by (eapply (same_slot_same_seq (window_size w) q s (base w)); lia).
        subst q. split; [exact Hseq|exact Hdata].
      * apply Hfull, Hq.
  - (* no slot holds [s]: nothing changes *)
    assert (Hno : forall j, 0 <= j < window_size w ->
                    (seq_num (slot w j) =? s) = false).
    { intros j Hj. apply Z.eqb_neq.
      destruct (Hslots j Hj) as [(_ & H0 & _)|(_ & H2 & _)]; lia. }
    rewrite (Hno _ Hidx), scan_from_none_intro by (auto; lia).
    replace (Z.min (s + 1) n) with (Z.min s n) by lia. exact Hpre.
Qed.

Lemma mark_fold_prefix w n (t : nat) :
  sender_window w n -> Z.of_nat t <= window_size w -> 1 <= n ->
  acked_prefix (foldl mark_one w (seqZ 0 (Z.of_nat t))) n
    (Z.min (base w + Z.of_nat t) n) /\
  base (foldl mark_one w (seqZ 0 (Z.of_nat t))) = base w /\
  window_size (foldl mark_one w (seqZ 0 (Z.of_nat t))) = window_size w.
Proof.
  intros Hsw Ht Hn1. induction t as [|t IH].
  - simpl. unfold sender_window in Hsw. pose proof Hsw as (_ & _ & _ & ? & _).
    replace (Z.min (base w + Z.of_nat 0) n) with (base w) by lia. auto.
  - destruct IH as (IH & Hb & Hw); [lia|].
    rewrite seqZ_S, foldl_app. cbn [foldl]. rewrite Z.add_0_l.
    destruct (mark_one_prefix (foldl mark_one w (seqZ 0 (Z.of_nat t))) n (Z.of_nat t))
      as (H1 & H2).
    + rewrite Hb. exact IH.
    + rewrite Hw. lia.
    + exact Hn1.
    + rewrite Hb in H1. split; [|split; [congruence|]].
      * replace (base w + Z.of_nat (S t)) with (base w + Z.of_nat t + 1) by lia.
        exact H1.
      * rewrite (proj1 (mark_one_shape _ _)). exact Hw.
Qed.

Lemma acked_prefix_stuck w n : sender_window w n -> slide_stuck w.
Proof.
  intros (Hws & _ & _ & _ & _ & Hslots & _) i Hi He.
  destruct (Hslots i Hi) as [(_ & _ & H)|(_ & _ & _ & H)]; [exact H|].
  rewrite H. apply Z.ltb_ge. lia.
Qed.

(** [window_slide] on a window whose frames below [m] are acknowledged:
    the base moves to [m] and the slots of the frames below [m] are
    cleared. *)
Lemma slide_loop_prefix fuel : forall w slid n m,
  acked_prefix w n m ->
  Z.of_nat fuel = window_size w - slid -> m - base w <= Z.of_nat fuel ->
  sender_window (slide_loop fuel w slid) n /\
  base (slide_loop fuel w slid) = m /\
  window_size (slide_loop fuel w slid) = window_size w.
Proof.
  induction fuel as [|fuel IH]; intros w slid n m Hpre Hfuel Hm.
  - pose proof Hpre as (_ & _ & Hb & _). assert (m = base w) by lia. subst m.
    simpl. auto.
  - destruct (Z.eq_dec m (base w)) as [->|Hne].
    { rewrite slide_stuck_id; [auto|apply Hpre|].
      apply (acked_prefix_stuck w n). exact Hpre. }
    pose proof Hpre as (Hws & Hlen & Hb & Hn & Hfit & Hslots & Hfull).
    set (idx := base w mod window_size w).
    assert (Hidx : 0 <= idx < window_size w) by (apply Z.mod_pos_bound; lia).
    destruct (Hfull (base w) ltac:(lia)) as (Hseq & Hdata). fold idx in Hseq, Hdata.
    assert (Hack : acknowledged (slot w idx) = true).
    { destruct (Hslots idx Hidx) as [(H0 & _)|(_ & _ & _ & H)]; [congruence|].
      rewrite H, Hseq. apply Z.ltb_lt. lia. }
    cbn [slide_loop]. fold idx. rewrite Hseq, Z.eqb_refl, Hack. cbn [andb].
    rewrite (u32_small (base w + 1)) by lia.
    set (w1 := set_base (set_slot w idx zero_packet) (base w + 1)).
    assert (Hs1 : forall j, 0 <= j ->
              slot w1 j = if Z.eq_dec j idx then zero_packet else slot w j).
    { intros j Hj. unfold w1. rewrite slot_set_base. apply slot_set_slot; lia. }
    assert (Hpre1 : acked_prefix w1 n m).
    { unfold acked_prefix. cbn [w1 window_size base set_base set_slot packets].
      rewrite length_insert.
      split; [exact Hws|]. split; [exact Hlen|]. split; [lia|]. split; [lia|].
      split; [exact Hfit|]. split.
      - intros i Hi. change (slot _ i) with (slot w1 i). rewrite Hs1 by lia.
        destruct (Z.eq_dec i idx) as [->|Hi'];
          [left; repeat split; reflexivity|].
        destruct (Hslots i Hi) as [H0|(H1 & H2 & H3 & H4)]; [left; exact H0|right].
        split; [exact H1|]. split; [|split; assumption].
        assert (seq_num (slot w i) <> base w)
          by (intros E; rewrite E in H3; unfold idx in Hi'; lia).
        lia.
      - intros q Hq.
        assert (Hqi : 0 <= q mod window_size w < window_size w)
          by (apply Z.mod_pos_bound; lia).
        change (slot _ (q mod window_size w)) with (slot w1 (q mod window_size w)).
        rewrite Hs1 by lia.
        destruct (Z.eq_dec (q mod window_size w) idx) as [E|_].
        + assert (q = base w); [|lia].
          eapply (same_slot_same_seq (window_size w) q (base w) (base w)); lia.
        + apply Hfull. lia. }
    destruct (Z.geb_spec (slid + 1) (window_size w)) as [Hcap|Hcap].
    + assert (m = base w + 1) by lia. subst m.
      split; [exact Hpre1|]. split; reflexivity.
    + destruct (IH w1 (slid + 1) n m Hpre1) as (H1 & H2 & H3).
      * change (window_size w1) with (window_size w). lia.
      * change (base w1) with (base w + 1). lia.
      * split; [exact H1|]. split; [exact H2|exact H3].
Qed.

Lemma packets_to_ack_nonneg w a : 0 < window_size w -> 0 <= packets_to_ack w a.
Proof.
  intros Hws. unfold packets_to_ack.
  destruct (_ >=? _);
    match goal with |- context [u32 ?x >? _] =>
      pose proof (u32_range x); destruct (Z.gtb_spec (u32 x) (window_size w)) end;
    lia.
Qed.

(** RR processing on the window of a sender. *)
Lemma ack_and_slide_sender_window ms w a n :
  sender_window w n -> 1 <= n ->
  sender_window (snd (ack_and_slide ms w a)) n /\
  base w <= base (snd (ack_and_slide ms w a)) /\
  window_size (snd (ack_and_slide ms w a)) = window_size w.
Proof.
  intros Hsw Hn1. pose proof Hsw as (Hws & Hlen & Hb & Hn & Hfit & Hslots & Hfull).
  assert (Hstuck : slide_stuck w) by (apply (acked_prefix_stuck w n); exact Hsw).
  assert (Hsame : sender_window (window_slide w) n /\
                  base w <= base (window_slide w) /\
                  window_size (window_slide w) = window_size w).
  { unfold window_slide. rewrite slide_stuck_id by (auto; lia).
    split; [exact Hsw|]. split; [lia|reflexivity]. }
  assert (Hidx : 0 <= base w mod window_size w < window_size w)
    by (apply Z.mod_pos_bound; lia).
  unfold ack_and_slide, window_mark_ack.
  destruct (_ =? _).
  - destruct (_ =? _); [|exact Hsame]. destruct (_ >=? _); [|exact Hsame].
    destruct (_ && _) eqn:Hp; [|exact Hsame].
    apply andb_true_iff in Hp as [_ Hp]. apply Z.eqb_eq in Hp. cbn [snd].
    rewrite <- (Hstuck _ Hidx Hp), set_slot_ack_id by lia. exact Hsame.
  - destruct (_ && _); [exact Hsame|]. cbn [snd].
    pose proof (packets_to_ack_nonneg w a ltac:(lia)) as Hk0.
    pose proof (packets_to_ack_le w a ltac:(lia)) as Hk1.
    set (k := packets_to_ack w a) in *.
    destruct (mark_fold_prefix w n (Z.to_nat k) Hsw ltac:(lia) Hn1)
      as (Hpre & Hbm & Hwm).
    rewrite Z2Nat.id in Hpre, Hbm, Hwm by lia.
    set (wm := foldl mark_one w (seqZ 0 k)) in *.
    destruct (slide_loop_prefix (Z.to_nat (window_size wm)) wm 0 n
                (Z.min (base w + k) n)) as (H1 & H2 & H3).
    + exact Hpre.
    + lia.
    + rewrite Hbm, Hwm. lia.
    + split; [exact H1|]. split; [|unfold window_slide; lia].
      unfold window_slide. rewrite H2. lia.
Qed.

Lemma resend_slot_prefix w i fl n m :
  acked_prefix w n m -> 0 <= i < window_size w ->
  acked_prefix (fst (resend_slot w i fl)) n m /\
  base (fst (resend_slot w i fl)) = base w /\
  window_size (fst (resend_slot w i fl)) = window_size w.
Proof.
  intros Hpre Hi. pose proof Hpre as (Hws & Hlen & _).
  unfold resend_slot. destruct (data (slot w i)) as [d|] eqn:Hd; [|auto].
  cbn [fst]. split; [|split; reflexivity].
  eapply acked_prefix_ext; [exact Hpre|reflexivity|reflexivity|apply length_insert|].
  intros j Hj. rewrite slot_set_slot by lia.
  destruct (Z.eq_dec j i) as [->|]; [|auto].
  unfold has_data. rewrite Hd. auto.
Qed.

(** The fill loop stores the frame [n] of a window that is not full. *)
Lemma window_add_packet_sender_window w n pdu l fl :
  sender_window w n -> n < base w + window_size w ->
  n + 1 + 2 * window_size w < 2 ^ 32 ->
  sender_window (snd (window_add_packet w n pdu l fl)) (n + 1) /\
  base (snd (window_add_packet w n pdu l fl)) = base w /\
  window_size (snd (window_add_packet w n pdu l fl)) = window_size w.
Proof.
  intros Hsw Hroom Hfit'.
  pose proof Hsw as (Hws & Hlen & Hb & Hn & Hfit & Hslots & Hfull).
  unfold window_add_packet. rewrite (u32_small (base w + 2 * window_size w)) by lia.
  destruct (Z.gtb_spec n (base w + 2 * window_size w)); [lia|].
  set (idx := n mod window_size w).
  assert (Hidx : 0 <= idx < window_size w) by (apply Z.mod_pos_bound; lia).
  assert (Hfree : has_data (slot w idx) = false).
  { destruct (Hslots idx Hidx) as [(H0 & _)|(_ & H2 & H3 & _)]; [exact H0|].
    exfalso.
    assert (seq_num (slot w idx) = n); [|lia].
    eapply (same_slot_same_seq (window_size w) _ n (base w)); [lia|lia|lia|].
    exact H3. }
  rewrite Hfree. cbn [andb snd].
  split; [|split; reflexivity].
  unfold sender_window, acked_prefix. cbn [window_size base set_slot packets].
  rewrite length_insert.
  split; [exact Hws|]. split; [exact Hlen|]. split; [lia|]. split; [lia|].
  split; [exact Hfit'|]. split.
  - intros i Hi. rewrite slot_set_slot by lia.
    destruct (Z.eq_dec i idx) as [->|Hi'].
    + right. cbn. split; [reflexivity|]. split; [lia|]. split; [reflexivity|].
      symmetry. apply Z.ltb_ge. lia.
    + destruct (Hslots i Hi) as [H0|(H1 & H2 & H3 & H4)]; [left; exact H0|right].
      split; [exact H1|]. split; [lia|]. split; assumption.
  - intros q Hq.
    assert (Hqi : 0 <= q mod window_size w < window_size w)
      by (apply Z.mod_pos_bound; lia).
    rewrite slot_set_slot by lia.
    destruct (Z.eq_dec (q mod window_size w) idx) as [E|Hne].
    + assert (q = n)
        by (eapply (same_slot_same_seq (window_size w) q n (base w)); lia).
      subst q. cbn. auto.
    + assert (q <> n) by (intros ->; apply Hne; reflexivity).
      apply Hfull. lia.
Qed.

Lemma find_base_pkt_range w i :
  0 < window_size w -> find_base_pkt w = Some i -> 0 <= i < window_size w.
Proof.
  intros Hws. unfold find_base_pkt. destruct (_ && _).
  - intros [= <-]. apply Z.mod_pos_bound. lia.
  - apply scan_from_range. exact Hws.
Qed.

(** A control datagram leaves the window of a sender a window of a
    sender, for the same next sequence number; the base does not
    decrease. *)
Lemma on_control_sender_window rs ms w d n :
  sender_window w n -> 1 <= n ->
  let '(_, _, w', _) := on_control rs ms w d in
  sender_window w' n /\ base w <= base w' /\ window_size w' = window_size w.
Proof.
  intros Hsw Hn1. pose proof Hsw as (Hws & _).
  assert (Hsame : sender_window w n /\ base w <= base w /\
                  window_size w = window_size w)
    by (split; [exact Hsw|split; [lia|reflexivity]]).
  unfold on_control.
  destruct (_ >=? _); [|exact Hsame]. destruct (negb _); [exact Hsame|].
  destruct (_ =? _).
  - (* RR *)
    unfold on_rr. set (a := get_be32 _ 7).
    assert (Hrr : forall (rs1 : rr_static) w1 (out : list (list Z)),
              sender_window w1 n -> base w1 = base w ->
              window_size w1 = window_size w ->
              let '(_, _, w', _) :=
                (let '(ms1, w2) := ack_and_slide ms w1 a in (rs1, ms1, w2, out)) in
              sender_window w' n /\ base w <= base w' /\
              window_size w' = window_size w).
    { intros rs1 w1 out H1 H2 H3.
      destruct (ack_and_slide_sender_window ms w1 a n H1 Hn1) as (Ha & Hb & Hc).
      destruct (ack_and_slide ms w1 a) as [ms1 w2]. cbn [snd] in *.
      split; [exact Ha|]. split; lia. }
    destruct (_ && _).
    + destruct (_ >=? _); [|apply Hrr; auto].
      destruct (find_base_pkt w) as [i|] eqn:Hfind; [|apply Hrr; auto].
      apply find_base_pkt_range in Hfind; [|lia].
      destruct (resend_slot_prefix w i FLAG_RESENT_TIMEOUT n (base w) Hsw Hfind)
        as (H1 & H2 & H3).
      destruct (resend_slot w i FLAG_RESENT_TIMEOUT) as [w' out]. cbn [fst] in *.
      apply Hrr; auto. unfold sender_window. rewrite H2. exact H1.
    + destruct (negb _); apply Hrr; auto.
  - destruct (_ =? _); [|exact Hsame].
    unfold on_srej.
    destruct (window_get_packet w _) as [i|] eqn:Hget; [|exact Hsame].
    apply window_get_packet_some in Hget as (Hi & _); [|lia].
    destruct (resend_slot_prefix w i FLAG_RESENT_SREJ n (base w) Hsw Hi)
      as (H1 & H2 & H3).
    destruct (resend_slot w i FLAG_RESENT_SREJ) as [w' out]. cbn [fst] in *.
    split; [|split; lia]. unfold sender_window. rewrite H2. exact H1.
Qed.

(** Forcing the frame at the base: it is marked acknowledged. *)
Lemma ack_base_prefix w n :
  sender_window w n -> base w < n ->
  let idx := base w mod window_size w in
  acked_prefix (set_slot w idx (set_acknowledged (slot w idx) true)) n
    (base w + 1).
Proof.
  intros Hsw Hlt idx.
  pose proof Hsw as (Hws & Hlen & Hb & Hn & Hfit & Hslots & Hfull).
  assert (Hidx : 0 <= idx < window_size w) by (apply Z.mod_pos_bound; lia).
  destruct (Hfull (base w) ltac:(lia)) as (Hseq & Hdata). fold idx in Hseq, Hdata.
  unfold acked_prefix. cbn [window_size base set_slot packets].
  rewrite length_insert.
  split; [exact Hws|]. split; [exact Hlen|]. split; [lia|]. split; [lia|].
  split; [exact Hfit|]. split.
  - intros i Hi. rewrite slot_set_slot by lia.
    destruct (Z.eq_dec i idx) as [->|Hi'].
    + right. cbn [has_data set_acknowledged data seq_num acknowledged].
      fold (has_data (slot w idx)). rewrite Hseq.
      split; [exact Hdata|]. split; [lia|]. split; [reflexivity|].
      symmetry. apply Z.ltb_lt. lia.
    + destruct (Hslots i Hi) as [H0|(H1 & H2 & H3 & H4)]; [left; exact H0|right].
      split; [exact H1|]. split; [exact H2|]. split; [exact H3|].
      rewrite H4.
      assert (seq_num (slot w i) <> base w)
        by (intros E; rewrite E in H3; unfold idx in Hi'; lia).
      destruct (Z.ltb_spec (seq_num (slot w i)) (base w));
        destruct (Z.ltb_spec (seq_num (slot w i)) (base w + 1));
        try reflexivity; exfalso; lia.
  - intros q Hq.
    assert (Hqi : 0 <= q mod window_size w < window_size w)
      by (apply Z.mod_pos_bound; lia).
    rewrite slot_set_slot by lia. destruct (Hfull q Hq) as (Hq1 & Hq2).
    destruct (Z.eq_dec (q mod window_size w) idx) as [E|_]; [|auto].
    cbn [has_data set_acknowledged data seq_num].
    fold (has_data (slot w idx)). rewrite <- E. auto.
Qed.

(** ** The sender engine: the invariant of a session *)

Lemma handle_timeout_window s :
  sender_window (s_win s) (s_seq_num s) ->
  s_seq_num s = base (s_win s) + window_size (s_win s) ->
  let s' := fst (handle_timeout s) in
  sender_window (s_win s') (s_seq_num s) /\
  base (s_win s) <= base (s_win s') /\
  window_size (s_win s') = window_size (s_win s) /\
  s_seq_num s' = s_seq_num s /\ s_pc s' = s_pc s /\ s_fp s' = s_fp s /\
  s_window_size s' = s_window_size s /\ s_eof_reached s' = s_eof_reached s.
Proof.
  intros Hsw Hfullw. cbv zeta.
  pose proof Hsw as (Hws & Hlen & Hb & Hn & Hfit & Hslots & Hfull).
  set (w := s_win s) in *.
  set (idx := base w mod window_size w).
  assert (Hidx : 0 <= idx < window_size w) by (apply Z.mod_pos_bound; lia).
  destruct (Hfull (base w) ltac:(lia)) as (Hseq & Hdata). fold idx in Hseq, Hdata.
  unfold handle_timeout. fold w. fold idx. rewrite Hseq, Z.eqb_refl, Hdata.
  cbn [andb].
  destruct (resend_slot_prefix w idx FLAG_RESENT_TIMEOUT (s_seq_num s) (base w)
              Hsw Hidx) as (H1 & H2 & H3).
  destruct (resend_slot w idx FLAG_RESENT_TIMEOUT) as [win1 out]. cbn [fst] in *.
  assert (Hlen1 : Z.of_nat (length (packets win1)) = window_size w)
    by (destruct H1 as (_ & ? & _); lia).
  set (count := retransmit_count (slot win1 idx) + 1).
  set (win2 := set_slot win1 idx (set_retransmit_count (slot win1 idx) count)).
  assert (Hsw2 : sender_window win2 (s_seq_num s) /\ base win2 = base w /\
                 window_size win2 = window_size w).
  { split; [|split; [exact H2|exact H3]].
    unfold sender_window. change (base win2) with (base win1). rewrite H2.
    eapply acked_prefix_ext; [exact H1|reflexivity|reflexivity|apply length_insert|].
    intros j Hj. unfold win2. rewrite slot_set_slot by lia.
    destruct (Z.eq_dec j idx) as [->|]; auto. }
  destruct Hsw2 as (Hsw2 & Hb2 & Hws2).
  destruct (count >=? MAX_RETRANSMIT).
  - pose proof (ack_base_prefix win2 (s_seq_num s) Hsw2 ltac:(lia)) as Hpre.
    cbv zeta in Hpre. rewrite Hb2, Hws2 in Hpre. fold idx in Hpre.
    set (wa := set_slot win2 idx (set_acknowledged (slot win2 idx) true)) in *.
    destruct (slide_loop_prefix (Z.to_nat (window_size wa)) wa 0 (s_seq_num s)
                (base w + 1) Hpre) as (Ha & Hbb & Hc).
    + change (window_size wa) with (window_size win2). lia.
    + change (base wa) with (base win2). change (window_size wa) with (window_size win2).
      lia.
    + fold (window_slide wa) in Ha, Hbb, Hc. cbn.
      split; [exact Ha|]. split; [lia|].
      split; [rewrite Hc; exact Hws2|]. auto 10.
  - cbn. split; [exact Hsw2|]. split; [lia|]. split; [exact Hws2|]. auto 10.
Qed.

Lemma sender_core_inv L s :
  sender_core L s -> s_pc s <> PcAcks ->
  (s_pc s = PcWait -> base (s_win s) < s_seq_num s) ->
  sender_inv L s.
Proof.
  intros (H1 & H2 & H3 & H4 & H5) Hpc Hwait. unfold sender_inv, sender_next_seq.
  destruct (s_pc s); try contradiction; auto 10.
Qed.

Lemma sender_inv_core L s :
  sender_inv L s -> s_pc s <> PcAcks -> sender_core L s.
Proof.
  unfold sender_inv, sender_core, sender_next_seq.
  intros (H1 & H2 & H3 & H4 & H5 & _) Hpc.
  destruct (s_pc s); try contradiction; auto 10.
Qed.

Lemma end_iteration_inv L s :
  sender_core L s -> sender_inv L (end_iteration s).
Proof.
  intros Hc. apply sender_core_inv.
  - unfold end_iteration. destruct (_ && _); exact Hc.
  - unfold end_iteration.
    destruct (_ && _); cbn; destruct (s_active s); cbn; discriminate.
  - unfold end_iteration.
    destruct (_ && _); cbn; destruct (s_active s); cbn; discriminate.
Qed.

Lemma window_full_eq L s :
  sender_core L s -> window_full s = true ->
  s_seq_num s = base (s_win s) + window_size (s_win s).
Proof.
  intros (Hsw & Hws & _ & _ & _) Hf. unfold window_full in Hf.
  pose proof Hsw as (Hw & _ & Hb & Hn & Hfit & _).
  apply Z.eqb_eq in Hf. rewrite u32_small in Hf by lia. lia.
Qed.

Lemma handle_timeout_inv L s :
  sender_core L s -> window_full s = true ->
  sender_inv L (end_iteration (fst (handle_timeout s))).
Proof.
  intros Hc Hf. pose proof (window_full_eq L s Hc Hf) as Heq.
  destruct Hc as (Hsw & Hws & H0 & HL & Hfit).
  destruct (handle_timeout_window s Hsw Heq)
    as (H1 & H2 & H3 & H4 & H5 & H6 & H7 & H8).
  apply end_iteration_inv. unfold sender_core.
  rewrite H4, H6, H7, H3. auto.
Qed.

(** From the end of the fill loop to the end of the step. *)
Lemma after_fill_inv L s :
  sender_core L s ->
  s_eof_reached s = true \/
  base (s_win s) + window_size (s_win s) <= s_seq_num s ->
  sender_inv L (fst (after_fill s)).
Proof.
  intros Hc Hend. unfold after_fill.
  destruct (s_eof_reached s && (base (s_win s) =? s_seq_num s)) eqn:Hdone.
  { cbn [fst]. apply sender_core_inv; [exact Hc|discriminate|discriminate]. }
  assert (Hlt : base (s_win s) < s_seq_num s).
  { destruct Hc as (Hsw & _). pose proof Hsw as (Hw & _ & _ & Hn & _).
    apply andb_false_iff in Hdone. destruct Hend as [He|Hfull]; [|lia].
    rewrite He in Hdone. destruct Hdone as [?|Hne]; [discriminate|].
    apply Z.eqb_neq in Hne. lia. }
  assert (Hwait : forall tc lb,
            sender_inv L (with_pc (with_timeout_counter s tc lb) PcWait)).
  { intros tc lb. apply sender_core_inv; [exact Hc|discriminate|].
    intros _. exact Hlt. }
  destruct (window_full s) eqn:Hf; [|apply Hwait].
  destruct (base (s_win s) =? s_last_base s); [|apply Hwait].
  destruct (s_timeout_counter s + 1 >=? 3); [|apply Hwait].
  pose proof (handle_timeout_inv L
                (with_timeout_counter s (s_timeout_counter s + 1) (s_last_base s))
                Hc Hf) as H.
  destruct (handle_timeout _) as [s' out]. exact H.
Qed.

Lemma fill_step_inv L s :
  sender_inv L s -> s_pc s = PcFill -> sender_inv L (fst (fill_step s)).
Proof.
  intros Hinv Hpc.
  assert (Hc : sender_core L s) by (apply sender_inv_core; [exact Hinv|congruence]).
  pose proof Hc as (Hsw & Hws & H0 & HL & Hfit).
  pose proof Hsw as (Hw & Hlen & Hb & Hn & Hfit' & _).
  unfold fill_step.
  rewrite (u32_small (s_seq_num s - base (s_win s))) by lia.
  destruct (Z.ltb_spec (s_seq_num s - base (s_win s)) (s_window_size s)) as [Hroom|Hnoroom].
  2:{ apply after_fill_inv; [exact Hc|]. right. lia. }
  destruct (s_eof_reached s) eqn:Heof.
  { apply after_fill_inv; [exact Hc|]. left. exact Heof. }
  cbn [negb andb].
  destruct (Z.leb_spec (Z.of_nat (length (take (Z.to_nat (s_buffer_size s)) (s_fp s)))) 0)
    as [Hempty|Hread].
  { apply after_fill_inv; [exact Hc|]. left. reflexivity. }
  cbn [fst].
  assert (Hdrop : Z.of_nat (length (drop (Z.to_nat (s_buffer_size s)) (s_fp s))) + 1
                  <= Z.of_nat (length (s_fp s))).
  { rewrite length_take in Hread. rewrite length_drop. lia. }
  match goal with
  | |- context [window_add_packet (s_win s) (s_seq_num s) ?pdu ?l ?fl] =>
      destruct (window_add_packet_sender_window (s_win s) (s_seq_num s) pdu l fl Hsw)
        as (Ha & Hbb & Hcc); [lia|lia|]
  end.
  unfold sender_inv, sender_next_seq.
  cbn [s_win s_pc s_seq_num s_fp s_window_size].
  split; [exact Ha|]. split; [lia|]. split; [lia|]. split; [lia|].
  split; [lia|discriminate].
Qed.

Lemma acks_step_inv L s r :
  sender_inv L s -> s_pc s = PcAcks -> sender_inv L (fst (acks_step s r)).
Proof.
  intros (Hsw & Hws & H0 & HL & Hfit & _) Hpc.
  unfold sender_next_seq in Hsw, HL. rewrite Hpc in Hsw, HL.
  pose proof Hsw as (Hw & _).
  unfold acks_step. destruct r as [d|].
  - pose proof (on_control_sender_window (s_rr_acks s) (s_mark s) (s_win s) d
                  (s_seq_num s + 1) Hsw ltac:(lia)) as H.
    destruct (on_control _ _ _ _) as [[[rs ms] w] out]. cbn [fst].
    destruct H as (H1 & H2 & H3).
    unfold sender_inv, sender_next_seq.
    cbn [s_win s_pc s_seq_num s_fp s_window_size].
    split; [exact H1|]. split; [lia|]. split; [lia|]. split; [lia|].
    split; [lia|discriminate].
  - cbn [fst]. apply sender_core_inv; [|discriminate|discriminate].
    unfold sender_core. cbn [s_win s_pc s_seq_num s_fp s_window_size].
    rewrite u32_small by lia.
    split; [exact Hsw|]. split; [exact Hws|]. split; [lia|]. split; [lia|exact Hfit].
Qed.

Lemma wait_step_inv L s r :
  sender_inv L s -> s_pc s = PcWait -> sender_inv L (fst (wait_step s r)).
Proof.
  intros Hinv Hpc.
  assert (Hc : sender_core L s) by (apply sender_inv_core; [exact Hinv|congruence]).
  destruct Hinv as (_ & _ & _ & _ & _ & Hwait). specialize (Hwait Hpc).
  pose proof Hc as (Hsw & Hws & H0 & HL & Hfit).
  pose proof Hsw as (Hw & _ & Hb & _).
  unfold wait_step. destruct r as [d|].
  - pose proof (on_control_sender_window (s_rr_main s) (s_mark s) (s_win s) d
                  (s_seq_num s) Hsw ltac:(lia)) as H.
    destruct (on_control _ _ _ _) as [[[rs ms] w] out]. cbn [fst].
    destruct H as (H1 & H2 & H3).
    apply end_iteration_inv. unfold sender_core.
    cbn [s_win s_pc s_seq_num s_fp s_window_size].
    split; [exact H1|]. split; [lia|]. auto.
  - destruct (window_full s) eqn:Hf.
    + pose proof (handle_timeout_inv L s Hc Hf) as H.
      destruct (handle_timeout s) as [s' out]. exact H.
    + cbn [fst]. apply end_iteration_inv. exact Hc.
Qed.

Lemma sender_step_inv L s r :
  sender_inv L s -> sender_inv L (fst (sender_step s r)).
Proof.
  intros Hinv. unfold sender_step. destruct (s_pc s) eqn:Hpc.
  - apply fill_step_inv; assumption.
  - apply acks_step_inv; assumption.
  - apply wait_step_inv; assumption.
  - assert (Hc : sender_core L s) by (apply sender_inv_core; [exact Hinv|congruence]).
    unfold eof_step. destruct (eof_continue _ _); cbn [fst];
      (apply sender_core_inv; [exact Hc|discriminate|discriminate]).
  - assert (Hc : sender_core L s) by (apply sender_inv_core; [exact Hinv|congruence]).
    unfold eof_wait_step. destruct (eof_iteration _ _ _). cbn [fst].
    apply sender_core_inv; [exact Hc|discriminate|discriminate].
  - exact Hinv.
Qed.

Lemma send_data_packets_init_inv file ws bs :
  0 < ws < 2 ^ 30 -> Z.of_nat (length file) < 2 ^ 31 ->
  sender_inv (Z.of_nat (length file)) (send_data_packets_init file ws bs).
Proof.
  intros Hws HL. change (2 ^ 30) with 1073741824 in Hws.
  change (2 ^ 31) with 2147483648 in HL.
  apply sender_core_inv; [|discriminate|discriminate].
  unfold sender_core. cbn.
  split; [|split; [reflexivity|split; [lia|split; [lia|lia]]]].
  unfold sender_window, acked_prefix. cbn.
  rewrite length_replicate.
  split; [lia|]. split; [lia|]. split; [lia|]. split; [lia|]. split; [lia|].
  split.
  - intros i Hi. left. rewrite slot_window_init. auto.
  - intros q Hq. lia.
Qed.

Ltac destruct_matches :=
  repeat match goal with
         | |- context [match ?x with _ => _ end] => destruct x
         end.

Lemma handle_timeout_window_size s :
  s_window_size (fst (handle_timeout s)) = s_window_size s.
Proof. unfold handle_timeout. destruct_matches; reflexivity. Qed.

Lemma end_iteration_window_size s :
  s_window_size (end_iteration s) = s_window_size s.
Proof. unfold end_iteration. destruct_matches; reflexivity. Qed.

Lemma after_fill_window_size s :
  s_window_size (fst (after_fill s)) = s_window_size s.
Proof.
  unfold after_fill. destruct (_ && _); [reflexivity|].
  destruct (window_full s); [destruct (_ =? _); [destruct (_ >=? _)|]|];
    try reflexivity.
  match goal with
  | |- context [handle_timeout ?x] =>
      pose proof (handle_timeout_window_size x) as H;
      destruct (handle_timeout x) as [s' out]
  end.
  cbn [fst] in *. rewrite end_iteration_window_size. exact H.
Qed.

Lemma sender_step_window_size s r :
  s_window_size (fst (sender_step s r)) = s_window_size s.
Proof.
  unfold sender_step. destruct (s_pc s).
  - unfold fill_step. destruct (_ && _); [|apply after_fill_window_size].
    destruct (_ <=? _); [|reflexivity].
    rewrite after_fill_window_size. reflexivity.
  - unfold acks_step. destruct r; [|reflexivity].
    destruct (on_control _ _ _ _) as [[[? ?] ?] ?]. reflexivity.
  - unfold wait_step. destruct r.
    + destruct (on_control _ _ _ _) as [[[? ?] ?] ?]. cbn [fst].
      rewrite end_iteration_window_size. reflexivity.
    + destruct (window_full s); [|apply end_iteration_window_size].
      pose proof (handle_timeout_window_size s) as H.
      destruct (handle_timeout s) as [s' out]. cbn [fst] in *.
      rewrite end_iteration_window_size. exact H.
  - unfold eof_step. destruct (eof_continue _ _); reflexivity.
  - unfold eof_wait_step. destruct (eof_iteration _ _ _). reflexivity.
  - reflexivity.
Qed.

(** C3.  In every state of a session of the sender (valid window size, a
    file below [2^31] bytes, any sequence of datagrams and timeouts),
    [0 <= base <= next_seq <= base + window_size], where [next_seq] is the
    next sequence number to assign: the fill loop, the processing of RR and
    SREJ at both polls, the timeout handler, [window_slide] and the EOF
    exchange preserve it. *)
Theorem sender_window_bounds file ws bs s :
  0 < ws < 2 ^ 30 -> Z.of_nat (length file) < 2 ^ 31 ->
  sender_reachable file ws bs s ->
  0 <= base (s_win s) /\
  base (s_win s) <= sender_next_seq s /\
  sender_next_seq s <= base (s_win s) + ws.
Proof.
  intros Hws HL Hreach.
  assert (Hinv : sender_inv (Z.of_nat (length file)) s /\ s_window_size s = ws).
  { induction Hreach as [|s r Hreach IH].
    - split; [apply send_data_packets_init_inv; assumption|reflexivity].
    - destruct IH as (IH & Hw). split; [apply sender_step_inv, IH|].
      rewrite sender_step_window_size. exact Hw. }
  destruct Hinv as ((Hsw & Hwin & _) & Hsws).
  destruct Hsw as (_ & _ & Hb & Hn & _). lia.
Qed.

(** The windows of a session are those of the amended C9. *)
Lemma sender_window_in_place w n : sender_window w n -> in_place w.
Proof.
  intros (Hws & _ & _ & Hn & _ & Hslots & _) i Hi.
  destruct (Hslots i Hi) as [(_ & H0 & H1)|(_ & H2 & H3 & H4)].
  - split; [exact H1|left; exact H0].
  - split; [rewrite H4; apply Z.ltb_ge; lia|right]. split; [lia|exact H3].
Qed.

Lemma sender_reachable_in_place file ws bs s :
  0 < ws < 2 ^ 30 -> Z.of_nat (length file) < 2 ^ 31 ->
  sender_reachable file ws bs s -> in_place (s_win s).
Proof.
  intros Hws HL Hreach.
  assert (Hinv : sender_inv (Z.of_nat (length file)) s).
  { induction Hreach as [|s r Hreach IH].
    - apply send_data_packets_init_inv; assumption.
    - apply sender_step_inv, IH. }
  destruct Hinv as (Hsw & _). eapply sender_window_in_place. exact Hsw.
Qed.

(** C9.  In every state of a session of the sender (valid window size, a
    file below [2^31] bytes, any sequence of datagrams and timeouts), for
    every acknowledgement value [a] and whatever the duplicate-ack
    counters are, RR(a) processing ([window_mark_ack], then
    [window_slide]) applied twice leaves the window as applying it once
    does: the base and every slot, with its sequence number, flag,
    acknowledged flag and stored bytes. *)
Theorem rr_twice_same_as_once file ws bs s st a :
  0 < ws < 2 ^ 30 -> Z.of_nat (length file) < 2 ^ 31 ->
  sender_reachable file ws bs s -> 0 <= a < 2 ^ 32 ->
  let once := ack_and_slide st (s_win s) a in
  snd (ack_and_slide (fst once) (snd once) a) = snd once.
Proof.
  intros Hws HL Hreach Ha once. subst once.
  assert (Hinv : sender_inv (Z.of_nat (length file)) s).
  { induction Hreach as [|s r Hreach IH].
    - apply send_data_packets_init_inv; assumption.
    - apply sender_step_inv, IH. }
  pose proof Hinv as (Hsw & _).
  pose proof Hsw as (Hw & Hlen & Hb & Hn & Hfit & _).
  apply rr_twice_in_place.
  - unfold wf_window. lia.
  - lia.
  - eapply sender_window_in_place. exact Hsw.
  - exact Ha.
Qed.

Lemma rr_twice_same_as_once_witness :
  let s := fst (sender_step (send_data_packets_init [1; 2; 3; 4; 5] 2 2)
                  Timeout) in
  let once := ack_and_slide mark_static_init (s_win s) 0 in
  base (s_win s) = 0 /\ base (snd once) = 1 /\
  snd (ack_and_slide (fst once) (snd once) 0) = snd once.
Proof.
  intros s once. split; [vm_compute; reflexivity|].
  split; [vm_compute; reflexivity|].
  apply (rr_twice_same_as_once [1; 2; 3; 4; 5] 2 2 s mark_static_init 0).
  - lia.
  - simpl. lia.
  - apply reachable_step, reachable_init.
  - lia.
Defined.

Lemma sender_window_bounds_witness :
  let s := fst (sender_step
                  (fst (sender_step (send_data_packets_init [1; 2; 3] 2 2) Timeout))
                  (Ready (rr_pdu 0))) in
  base (s_win s) = 1 /\ s_seq_num s = 0 /\ s_pc s = PcAcks /\
  0 <= base (s_win s) /\
  base (s_win s) <= sender_next_seq s /\
  sender_next_seq s <= base (s_win s) + 2.
Proof.
  intros s. split; [vm_compute; reflexivity|]. split; [vm_compute; reflexivity|].
  split; [vm_compute; reflexivity|].
  apply (sender_window_bounds [1; 2; 3] 2 2 s).
  - lia.
  - simpl. lia.
  - unfold s. apply reachable_step, reachable_step, reachable_init.
Defined.

(** Why [sender_next_seq] adds one inside [process_ack_packets]: frame 0
    is stored and sent, [process_ack_packets] receives RR 0 and slides the
    base to 1, and the variable [seq_num] is still 0; it is incremented
    when [process_ack_packets] returns. *)
Lemma base_passes_seq_num_in_ack_processing :
  let s0 := send_data_packets_init [1; 2; 3] 2 2 in
  let s1 := fst (sender_step s0 Timeout) in
  let s2 := fst (sender_step s1 (Ready (rr_pdu 0))) in
  sender_reachable [1; 2; 3] 2 2 s2 /\
  s_pc s2 = PcAcks /\ base (s_win s2) = 1 /\ s_seq_num s2 = 0 /\
  ~ base (s_win s2) <= s_seq_num s2.
Proof.
  cbv zeta. split; [apply reachable_step, reachable_step, reachable_init|].
  split; [vm_compute; reflexivity|]. split; [vm_compute; reflexivity|].
  split; [vm_compute; reflexivity|]. vm_compute. intros H. apply H. reflexivity.
Defined.

(** ** A session over an error-free link *)

(** *** Frames on the wire *)

(** The receiver zeroes the checksum of a frame before it reads the other
    fields: what is left of a frame built by [build_pdu]. *)
Lemma set_hdr_checksum_build_pdu seq fl payload :
  0 <= fl < 256 ->
  set_hdr_checksum (build_pdu seq fl payload) 0
  = be32 seq ++ [0; 0; fl] ++ payload.
Proof.
  intros Hfl. unfold build_pdu, set_hdr_checksum, be32. simpl.
  rewrite (Z.mod_small fl) by lia. reflexivity.
Qed.

(** The RR and SREJ frames of the client are control frames for the
    sequence number they carry. *)
Lemma control_frame_build seq fl :
  0 <= seq < 2 ^ 32 -> 0 <= fl < 256 ->
  control_frame (build_pdu seq fl (be32 seq)) fl seq.
Proof.
  intros Hseq Hfl. unfold control_frame. cbv zeta.
  assert (Hr : recvfrom (HEADER_SIZE + 4) (build_pdu seq fl (be32 seq))
               = build_pdu seq fl (be32 seq)).
  { unfold recvfrom. apply take_ge. rewrite length_build_pdu by assumption.
    change (Z.to_nat (HEADER_SIZE + 4)) with 11%nat.
    change (length (be32 seq)) with 4%nat. lia. }
  rewrite Hr. split.
  { rewrite length_build_pdu by assumption.
    change (length (be32 seq)) with 4%nat. unfold HEADER_SIZE. lia. }
  split; [apply checksum_ok_build_pdu; assumption|].
  split; [apply hdr_flag_build_pdu; assumption|].
  destruct (build_pdu_unfold seq fl (be32 seq) Hseq Hfl)
    as (b0 & b1 & b2 & b3 & c0 & c1 & -> & Hb & _).
  change (get_be32 (b0 :: b1 :: b2 :: b3 :: c0 :: c1 :: fl :: be32 seq) 7)
    with (get_be32 (be32 seq) 0).
  rewrite <- (app_nil_r (be32 seq)). apply get_be32_be32. exact Hseq.
Qed.

(** The receiver of a session without loss never buffers a frame: its
    window stays as [window_init] left it, and holds no frame. *)
Lemma window_get_packet_init ws x :
  0 < ws -> window_get_packet (window_init ws) x = None.
Proof.
  intros Hws. unfold window_get_packet.
  destruct (_ && _); [reflexivity|].
  destruct (_ >=? _); [reflexivity|].
  rewrite slot_window_init. simpl. rewrite andb_false_r.
  apply scan_from_none_intro; [exact Hws|].
  intros j _. rewrite slot_window_init. simpl. apply andb_false_r.
Qed.

Lemma recvfrom_all n d : (length d <= Z.to_nat n)%nat -> recvfrom n d = d.
Proof. intros H. unfold recvfrom. apply take_ge. exact H. Qed.

Lemma hdr_fields_zeroed seq fl payload :
  0 <= seq < 2 ^ 32 ->
  hdr_seq_num (be32 seq ++ [0; 0; fl] ++ payload) = seq /\
  hdr_flag (be32 seq ++ [0; 0; fl] ++ payload) = fl /\
  pdu_payload (be32 seq ++ [0; 0; fl] ++ payload) = payload.
Proof.
  intros Hseq. split; [apply get_be32_be32; exact Hseq|].
  split; reflexivity.
Qed.

Lemma drain_buffered_init fuel ws ms e :
  0 < ws ->
  drain_buffered fuel (window_init ws) ms e = (window_init ws, ms, e, [], []).
Proof.
  intros Hws. destruct fuel; [reflexivity|].
  cbn [drain_buffered]. rewrite window_get_packet_init by exact Hws. reflexivity.
Qed.

(** The receiver reads the DATA frame it expects: the payload is
    written, the frame acknowledged, and [expected_seq] incremented. *)
Lemma receiver_step_next_frame ws rc payload seq :
  0 < ws -> r_win rc = window_init ws -> r_expected_seq rc = seq ->
  0 <= seq -> seq + 1 < 2 ^ 32 -> (length payload <= 1400)%nat ->
  receiver_step rc (Ready (build_pdu seq FLAG_DATA payload))
  = (Receiver (seq + 1)
       (if seq >? r_highest_received_seq rc then seq
        else r_highest_received_seq rc)
       (r_eof_received rc) (r_consecutive_timeouts rc) (r_finished rc)
       (window_init ws) (r_mark rc) (r_writes rc ++ [WriteData seq payload]),
     [rr_pdu seq]).
Proof.
  intros Hws Hwin He Hseq Hseq1 Hlen.
  assert (Hfl : 0 <= FLAG_DATA < 256) by (unfold FLAG_DATA; lia).
  assert (Hs : 0 <= seq < 2 ^ 32) by lia.
  unfold receiver_step.
  rewrite recvfrom_all
    by (rewrite length_build_pdu by assumption; unfold MAX_PDU_SIZE,
        HEADER_SIZE, MAX_DATA_SIZE; lia).
  rewrite length_build_pdu by assumption.
  destruct (Z.ltb_spec (Z.of_nat (7 + length payload)) HEADER_SIZE) as [Hlt|_];
    [unfold HEADER_SIZE in Hlt; lia|].
  rewrite checksum_ok_build_pdu by assumption. cbn [negb].
  rewrite set_hdr_checksum_build_pdu by assumption.
  destruct (hdr_fields_zeroed seq FLAG_DATA payload Hs) as (-> & -> & ->).
  change (is_data_flag FLAG_DATA) with true. cbv iota.
  rewrite He, Z.eqb_refl, Hwin.
  rewrite drain_buffered_init by exact Hws.
  cbn [r_expected_seq r_highest_received_seq r_eof_received
       r_consecutive_timeouts r_finished r_win r_mark r_writes].
  rewrite (u32_small (seq + 1)) by lia.
  replace (Z.to_nat (Z.of_nat (7 + length payload) - HEADER_SIZE))
    with (length payload) by (unfold HEADER_SIZE; lia).
  rewrite firstn_all. reflexivity.
Qed.

Lemma on_control_rr rs ms w d a :
  control_frame d FLAG_RR a -> on_control rs ms w d = on_rr rs ms w a.
Proof.
  intros (Hlen & Hck & Hfl & Hs). unfold on_control.
  destruct (Z.geb_spec (Z.of_nat (length (recvfrom (HEADER_SIZE + 4) d)))
              (HEADER_SIZE + 4)); [|lia].
  rewrite Hck, Hfl, Hs. reflexivity.
Qed.

Lemma control_frame_rr_pdu a : 0 <= a < 2 ^ 32 -> control_frame (rr_pdu a) FLAG_RR a.
Proof. intros Ha. apply control_frame_build; [exact Ha|unfold FLAG_RR; lia]. Qed.

(** The RR for the frame at the base, in a window that holds it
    unacknowledged: the base advances by one and nothing is sent. *)
Lemma ack_and_slide_base ms w n :
  sender_window w n -> base w < n ->
  sender_window (snd (ack_and_slide ms w (base w))) n /\
  base (snd (ack_and_slide ms w (base w))) = base w + 1 /\
  window_size (snd (ack_and_slide ms w (base w))) = window_size w.
Proof.
  intros Hsw Hlt. pose proof Hsw as (Hws & Hlen & Hb & Hn & Hfit & Hslots & Hfull).
  assert (Hne : base w <> u32 (base w - 1)).
  { rewrite u32_pred by lia. destruct (Z.eqb_spec (base w) 0); lia. }
  unfold ack_and_slide, window_mark_ack.
  destruct (Z.eqb_spec (base w) (u32 (base w - 1))) as [Heq|_]; [contradiction|].
  rewrite Z.ltb_irrefl. cbn [andb snd].
  rewrite packets_to_ack_ahead by (try lia; exact Hne).
  replace (Z.min (window_size w) (base w - base w + 1)) with (Z.of_nat 1) by lia.
  destruct (mark_fold_prefix w n 1%nat Hsw ltac:(lia) ltac:(lia))
    as (Hpre & Hbm & Hwm).
  set (wm := foldl mark_one w (seqZ 0 (Z.of_nat 1))) in *.
  destruct (slide_loop_prefix (Z.to_nat (window_size wm)) wm 0 n
              (Z.min (base w + Z.of_nat 1) n)) as (H1 & H2 & H3).
  - exact Hpre.
  - lia.
  - rewrite Hbm, Hwm. lia.
  - unfold window_slide. split; [exact H1|]. split; [rewrite H2; lia|lia].
Qed.

Lemma on_control_rr_base rs ms w n :
  sender_window w n -> base w < n ->
  exists rs' ms' w',
    on_control rs ms w (rr_pdu (base w)) = (rs', ms', w', []) /\
    sender_window w' n /\ base w' = base w + 1 /\
    window_size w' = window_size w.
Proof.
  intros Hsw Hlt. pose proof Hsw as (Hws & Hlen & Hb & Hn & Hfit & _).
  rewrite (on_control_rr rs ms w _ (base w))
    by (apply control_frame_rr_pdu; lia).
  assert (Hne : (base w =? u32 (base w - 1)) = false).
  { apply Z.eqb_neq. rewrite u32_pred by lia.
    destruct (Z.eqb_spec (base w) 0); lia. }
  unfold on_rr. rewrite Hne, andb_false_r.
  destruct (ack_and_slide_base ms w n Hsw Hlt) as (H1 & H2 & H3).
  destruct (negb _); destruct (ack_and_slide ms w (base w)) as [ms1 w2];
    cbn [snd] in *; eauto 10.
Qed.

(** *** The steps of the data phase *)

Lemma seqZ_snoc m n : 0 <= n -> seqZ m (n + 1) = seqZ m n ++ [m + n].
Proof.
  intros Hn. rewrite seqZ_app by lia. f_equal.
Qed.

(** After the fill loop, with [timeout_counter = 0], the deadlock breaker
    does not fire: the sender leaves the main loop or waits. *)
Lemma after_fill_quiet s :
  s_timeout_counter s = 0 ->
  exists tc' lb', 0 <= tc' <= 1 /\
    after_fill s
    = (if s_eof_reached s && (base (s_win s) =? s_seq_num s)
       then with_pc (with_active s false) PcEof
       else with_pc (with_timeout_counter s tc' lb') PcWait, []).
Proof.
  intros Htc. unfold after_fill. destruct (_ && _).
  - exists 0, 0. split; [lia|reflexivity].
  - destruct (window_full s).
    + destruct (_ =? _).
      * rewrite Htc. cbn [Z.add Z.geb Z.compare]. cbv iota.
        exists 1, (s_last_base s). split; [lia|reflexivity].
      * exists 0, (base (s_win s)). split; [lia|reflexivity].
    + exists (s_timeout_counter s), (s_last_base s). split; [lia|reflexivity].
Qed.

(** The receiver reads the EOF frame: three final RR, and it is done. *)
Lemma receiver_step_eof rc seq :
  0 <= seq < 2 ^ 32 ->
  receiver_step rc (Ready (eof_pdu seq))
  = (Receiver (r_expected_seq rc)
       (if seq >? r_highest_received_seq rc then seq
        else r_highest_received_seq rc)
       true (r_consecutive_timeouts rc) true (r_win rc) (r_mark rc)
       (r_writes rc ++ []),
     send_final_rr
       (if r_expected_seq rc >? 0 then r_expected_seq rc - 1 else 0) 3).
Proof.
  intros Hs.
  assert (Hfl : 0 <= FLAG_EOF < 256) by (unfold FLAG_EOF; lia).
  unfold receiver_step, eof_pdu.
  rewrite recvfrom_all
    by (rewrite length_build_pdu by assumption; unfold MAX_PDU_SIZE,
        HEADER_SIZE, MAX_DATA_SIZE; cbn [length]; lia).
  rewrite length_build_pdu by assumption.
  change (Z.of_nat (7 + length []) <? HEADER_SIZE) with false. cbv iota.
  rewrite checksum_ok_build_pdu by assumption. cbn [negb].
  rewrite set_hdr_checksum_build_pdu by assumption.
  destruct (hdr_fields_zeroed seq FLAG_EOF [] Hs) as (-> & -> & ->).
  reflexivity.
Qed.

Lemma run_link_app a : forall b l,
  run_link (a + b) l = run_link b (run_link a l).
Proof.
  induction a as [|a IH]; intros b l; [reflexivity|].
  cbn [Nat.add run_link]. destruct (link_step l) as [l'|] eqn:Hstep.
  - apply IH.
  - destruct b; [reflexivity|]. cbn [run_link]. rewrite Hstep. reflexivity.
Qed.

Lemma run_link_step fuel l l' :
  link_step l = Some l' -> run_link (S fuel) l = run_link fuel l'.
Proof. intros H. cbn [run_link]. rewrite H. reflexivity. Qed.

Lemma sink_app w1 w2 : sink (w1 ++ w2) = sink w1 ++ sink w2.
Proof. unfold sink. rewrite map_app, concat_app. reflexivity. Qed.

Lemma sink_chunks file bs (k : nat) :
  0 <= bs ->
  sink (List.map (fun q => WriteData q (chunk file bs q)) (seqZ 0 (Z.of_nat k)))
  = take (Z.to_nat (Z.of_nat k * bs)) file.
Proof.
  intros Hbs. induction k as [|k IH]; [reflexivity|].
  replace (Z.of_nat (S k)) with (Z.of_nat k + 1) by lia.
  rewrite seqZ_snoc, map_app, sink_app, IH by lia.
  cbn [List.map]. unfold sink at 1. cbn [List.map concat written_bytes].
  rewrite app_nil_r. unfold chunk. rewrite Z.add_0_l, take_take_drop.
  f_equal. nia.
Qed.

Ltac simpl_state :=
  cbn [l_sender l_receiver l_to_client l_to_server l_sent with_pc
       with_active with_timeout_counter with_win s_pc s_win s_seq_num
       s_eof_reached s_active s_timeout_counter s_last_base s_fp s_cb
       s_window_size s_buffer_size s_mark s_rr_acks s_rr_main s_eof_retries
       s_final_ack_received fst snd] in *.

Section Session.
Variables (file : list Z) (ws bs : Z).
Hypothesis Hws : 0 < ws < 2 ^ 30.
Hypothesis Hbs : 0 < bs <= MAX_DATA_SIZE.
Hypothesis HL : Z.of_nat (length file) < 2 ^ 31.

(** One step of the link from a state of the data phase, at each of the
    three points of the sender: the invariant holds after the step and the
    measure has decreased. *)
Lemma link_step_fill l :
  link_inv file ws bs l -> s_pc (l_sender l) = PcFill ->
  exists l', link_step l = Some l' /\ link_inv file ws bs l' /\
             (link_measure l' < link_measure l)%nat.
Proof.
  intros Hinv Hpc.
  destruct l as [s rc tc ts sent]. cbn [l_sender] in Hpc.
  unfold link_inv in Hinv. simpl_state.
  destruct Hinv as (Hsi & Hsws & Hsbs & Hfp & Heof & Hlast & Hret & Hfin & Hdp
                    & Hbe & Hrf & Hre & Hrw & Hwr & Htc & Hts & Hsent).
  pose proof (sender_step_inv _ s Timeout Hsi) as Hsi'.
  destruct s as [pc w N eof act tcnt lb fp cb sws sbs ms rra rrm er far].
  cbn [s_pc] in Hpc. subst pc.
  unfold data_phase, sender_next_seq in *. simpl_state.
  destruct Hdp as [Htc0 Hact]. subst tcnt act sws sbs er far.
  pose proof Hsi as (Hsw & Hwsz & Hn0 & Hfit & Hbig & _).
  unfold sender_next_seq in *. simpl_state.
  pose proof Hsw as (_ & Hlenp & Hb & Hn & _).
  unfold link_step, sender_poll, run_sender. simpl_state.
  unfold sender_step in *. simpl_state. unfold fill_step in *. simpl_state.
  rewrite (u32_small (N - base w)) in * by lia.
  set (s0 := Sender PcFill w N eof true 0 lb fp cb ws bs ms rra rrm 0 false)
    in *.
  (* the fill loop is left: for a full window, or at the end of the file *)
  assert (Hquiet : forall s1,
            s1 = s0 \/
            (s1 = Sender PcFill w N true true 0 lb fp cb ws bs ms rra rrm 0
                    false /\ fp = []) ->
            sender_inv (Z.of_nat (length file)) (after_fill s1).1 ->
            exists l',
              Some (let '(s2, out) := after_fill s1 in
                    Link s2 rc (tc ++ out) ts (sent ++ out)) = Some l' /\
              link_inv file ws bs l' /\
              (link_measure l' < link_measure (Link s0 rc tc ts sent))%nat).
  { intros s1 Hs1 Hsi1.
    destruct (after_fill_quiet s1) as (tc' & lb' & Htc' & Heq).
    { destruct Hs1 as [-> | [-> _] ]; reflexivity. }
    rewrite Heq in *. cbn [fst] in Hsi1. clear Heq.
    eexists. split; [reflexivity|].
    rewrite !app_nil_r.
    assert (Heof' : s_eof_reached s1 = true -> fp = []).
    { destruct Hs1 as [-> | [-> Hnil] ]; cbn [s_eof_reached]; auto. }
    destruct (s_eof_reached s1 && (base (s_win s1) =? s_seq_num s1)) eqn:Hc;
      [apply andb_true_iff in Hc as [Hc1 Hc2]; apply Z.eqb_eq in Hc2|];
      (split;
       [unfold link_inv, data_phase, sender_next_seq
       |unfold link_measure, pc_weight]);
      destruct Hs1 as [-> | [-> Hnil] ]; unfold s0 in *; simpl_state;
      try lia; split_and!; auto; lia. }
  destruct ((N - base w <? ws) && negb eof) eqn:Hguard.
  - apply andb_true_iff in Hguard as [Hroom Hneof].
    apply Z.ltb_lt in Hroom. apply negb_true_iff in Hneof. subst eof.
    destruct (Z.leb_spec (Z.of_nat (length (take (Z.to_nat bs) fp))) 0)
      as [Hz|Hpos].
    + (* [fread] returns 0 *)
      assert (Hnil : fp = []).
      { destruct fp as [|x fp']; [reflexivity|].
        rewrite length_take in Hz. cbn [length] in Hz. lia. }
      apply Hquiet; [right; split; [reflexivity|exact Hnil]|exact Hsi'].
    + (* a DATA frame is stored and sent *)
      clear Hquiet. eexists. split; [reflexivity|].
      cbn [fst] in Hsi'.
      assert (Hlen : (0 < length fp)%nat).
      { destruct fp; [rewrite take_nil in Hpos; cbn in Hpos; lia|cbn; lia]. }
      assert (HNL : N * bs < Z.of_nat (length file)).
      { rewrite Hfp, length_drop in Hlen. nia. }
      destruct (window_add_packet_sender_window w N
                  (build_pdu N FLAG_DATA (take (Z.to_nat bs) fp))
                  (HEADER_SIZE + Z.of_nat (length (take (Z.to_nat bs) fp)))
                  FLAG_DATA Hsw) as (_ & Hbase' & _); [lia|lia|].
      assert (Hframe : build_pdu N FLAG_DATA (take (Z.to_nat bs) fp)
                       = data_frame file bs N).
      { unfold data_frame, chunk. rewrite Hfp. reflexivity. }
      split.
      * unfold link_inv, data_phase, sender_next_seq. simpl_state.
        rewrite Hbase'. rewrite Hframe in Hsi' |- *.
        split_and!; auto; try lia; try discriminate.
        -- rewrite Hfp, drop_drop. f_equal. nia.
        -- rewrite Htc.
           replace (N + 1 - r_expected_seq rc)
             with (N - r_expected_seq rc + 1) by lia.
           rewrite seqZ_snoc, map_app by lia. cbn [List.map].
           do 3 f_equal. lia.
        -- rewrite Hsent. unfold data_frames.
           rewrite seqZ_snoc, map_app by lia. reflexivity.
      * unfold link_measure, pc_weight, s0. simpl_state.
        rewrite length_app, length_drop. cbn [length]. lia.
  - apply Hquiet; [left; reflexivity|exact Hsi'].
Qed.

Lemma link_step_acks l :
  link_inv file ws bs l -> s_pc (l_sender l) = PcAcks ->
  exists l', link_step l = Some l' /\ link_inv file ws bs l' /\
             (link_measure l' < link_measure l)%nat.
Proof.
  intros Hinv Hpc.
  destruct l as [s rc tc ts sent]. cbn [l_sender] in Hpc.
  unfold link_inv in Hinv.
  cbn [l_sender l_receiver l_to_client l_to_server l_sent] in Hinv.
  destruct Hinv as (Hsi & Hsws & Hsbs & Hfp & Heof & Hlast & Hret & Hfin & Hdp
                    & Hbe & Hrf & Hre & Hrw & Hwr & Htc & Hts & Hsent).
  destruct s as [pc w N eof act tcnt lb fp cb sws sbs ms rra rrm er far].
  cbn [s_pc] in Hpc. subst pc.
  unfold data_phase, sender_next_seq in *. simpl_state.
  destruct Hdp as [Htc0 Hact]. subst tcnt act sws sbs er far.
  pose proof Hsi as (Hsw & Hwsz & Hn0 & Hfit & Hbig & _).
  unfold sender_next_seq in *. simpl_state.
  pose proof Hsw as (_ & Hlenp & Hb & Hn & _).
  unfold link_step, sender_poll, run_sender. simpl_state.
  destruct (Z.eq_dec (r_expected_seq rc) (base w)) as [HeB|HeB].
  - (* nothing to read: the fill loop goes on *)
    rewrite HeB, Z.sub_diag in Hts. cbn in Hts. subst ts.
    pose proof (sender_step_inv _ _ Timeout Hsi) as Hsi'.
    unfold sender_step, acks_step in *. simpl_state.
    assert (HN1 : 0 <= N + 1 < 2 ^ 32) by lia.
    rewrite (u32_small (N + 1) HN1) in *.
    eexists. split; [reflexivity|]. split.
    + unfold link_inv, data_phase, sender_next_seq. simpl_state.
      rewrite !app_nil_r. split_and!; auto; try lia.
      rewrite HeB, Z.sub_diag. reflexivity.
    + unfold link_measure, pc_weight. simpl_state. rewrite !app_nil_r. cbn [length]. lia.
  - (* an RR for the base *)
    replace (r_expected_seq rc - base w)
      with (Z.succ (Z.pred (r_expected_seq rc - base w))) in Hts by lia.
    rewrite seqZ_cons in Hts by lia. cbn [List.map] in Hts. subst ts.
    pose proof (sender_step_inv _ _ (Ready (rr_pdu (base w))) Hsi) as Hsi'.
    unfold sender_step, acks_step in *. simpl_state.
    destruct (on_control_rr_base rra ms w (N + 1) Hsw ltac:(lia))
      as (rs' & ms' & w' & Hoc & Hsw' & Hb' & Hws').
    rewrite Hoc in *. simpl_state.
    eexists. split; [reflexivity|]. split.
    + unfold link_inv, data_phase, sender_next_seq. simpl_state.
      rewrite !app_nil_r, Hb'. split_and!; auto; try lia.
      do 2 f_equal; lia.
    + unfold link_measure, pc_weight. simpl_state.
      rewrite !app_nil_r. cbn [length]. lia.
Qed.

Lemma link_step_wait l :
  link_inv file ws bs l -> s_pc (l_sender l) = PcWait ->
  exists l', link_step l = Some l' /\ link_inv file ws bs l' /\
             (link_measure l' < link_measure l)%nat.
Proof.
  intros Hinv Hpc.
  destruct l as [s rc tc ts sent]. cbn [l_sender] in Hpc.
  unfold link_inv in Hinv.
  cbn [l_sender l_receiver l_to_client l_to_server l_sent] in Hinv.
  destruct Hinv as (Hsi & Hsws & Hsbs & Hfp & Heof & Hlast & Hret & Hfin & Hdp
                    & Hbe & Hrf & Hre & Hrw & Hwr & Htc & Hts & Hsent).
  destruct s as [pc w N eof act tcnt lb fp cb sws sbs ms rra rrm er far].
  cbn [s_pc] in Hpc. subst pc.
  unfold data_phase, sender_next_seq in *. simpl_state.
  destruct Hdp as [Htc0 Hact]. subst act sws sbs er far.
  pose proof Hsi as (Hsw & Hwsz & Hn0 & Hfit & Hbig & HbN).
  unfold sender_next_seq in *. simpl_state.
  specialize (HbN eq_refl).
  pose proof Hsw as (_ & Hlenp & Hb & Hn & _).
  unfold link_step, sender_poll, run_sender. simpl_state.
  destruct (Z.eq_dec (r_expected_seq rc) (base w)) as [HeB|HeB].
  - (* no RR to read: the receiver reads the next frame *)
    rewrite HeB, Z.sub_diag in Hts. cbn in Hts. subst ts.
    replace (N - r_expected_seq rc)
      with (Z.succ (Z.pred (N - r_expected_seq rc))) in Htc by lia.
    rewrite seqZ_cons in Htc by lia. cbn [List.map] in Htc. subst tc.
    unfold receiver_turn, run_receiver. simpl_state. rewrite Hrf.
    unfold data_frame at 1.
    rewrite (receiver_step_next_frame ws rc _ (r_expected_seq rc));
      [|lia|exact Hrw|reflexivity|lia|lia|].
    2:{ unfold chunk. rewrite length_take. unfold MAX_DATA_SIZE in Hbs. lia. }
    eexists. split; [reflexivity|]. split.
    + unfold link_inv, data_phase, sender_next_seq. simpl_state.
      cbn [r_expected_seq r_highest_received_seq r_eof_received
           r_consecutive_timeouts r_finished r_win r_mark r_writes].
      split_and!; auto; try lia.
      * rewrite Hwr, seqZ_snoc, map_app by lia. reflexivity.
      * do 2 f_equal; lia.
      * rewrite HeB. replace (base w + 1 - base w) with 1 by lia.
        reflexivity.
    + unfold link_measure, pc_weight. simpl_state.
      rewrite length_app. cbn [length]. lia.
  - (* an RR for the base *)
    replace (r_expected_seq rc - base w)
      with (Z.succ (Z.pred (r_expected_seq rc - base w))) in Hts by lia.
    rewrite seqZ_cons in Hts by lia. cbn [List.map] in Hts. subst ts.
    pose proof (sender_step_inv _ _ (Ready (rr_pdu (base w))) Hsi) as Hsi'.
    unfold sender_step, wait_step in *. simpl_state.
    destruct (on_control_rr_base rrm ms w N Hsw ltac:(lia))
      as (rs' & ms' & w' & Hoc & Hsw' & Hb' & Hws').
    rewrite Hoc in *. simpl_state.
    unfold end_iteration in *. simpl_state.
    pose proof Hsw' as (_ & _ & Hb2 & Hn2 & _).
    eexists. split; [reflexivity|].
    destruct (eof && (base w' >=? N)) eqn:Hc; simpl_state.
    + apply andb_true_iff in Hc as [Hc1 Hc2]. apply Z.geb_le in Hc2. split.
      * unfold link_inv, data_phase, sender_next_seq. simpl_state.
        rewrite !app_nil_r, Hb'. split_and!; auto; try lia.
        do 2 f_equal; lia.
      * unfold link_measure, pc_weight. simpl_state.
        rewrite !app_nil_r. cbn [length]. lia.
    + split.
      * unfold link_inv, data_phase, sender_next_seq. simpl_state.
        rewrite !app_nil_r, Hb'. split_and!; auto; try lia.
        do 2 f_equal; lia.
      * unfold link_measure, pc_weight. simpl_state.
        rewrite !app_nil_r. cbn [length]. lia.
Qed.
Lemma link_inv_init : link_inv file ws bs (session_init file ws bs).
Proof.
  unfold link_inv, session_init, data_phase, sender_next_seq.
  cbn [l_sender l_receiver l_to_client l_to_server l_sent].
  split; [apply send_data_packets_init_inv; assumption|].
  unfold send_data_packets_init, process_file_transfer_init. simpl_state.
  cbn [r_expected_seq r_finished r_eof_received r_win r_writes window_init base].
  split_and!; auto; try lia; try discriminate.
Qed.

(** The data phase ends: the sender reaches [send_eof_packet]. *)
Lemma data_phase_ends (k : nat) : forall l,
  (link_measure l < k)%nat -> link_inv file ws bs l ->
  exists fuel,
    link_inv file ws bs (run_link fuel l) /\
    s_pc (l_sender (run_link fuel l)) = PcEof.
Proof.
  induction k as [|k IH]; intros l Hk Hinv; [lia|].
  assert (Hdp : data_phase (l_sender l)) by apply Hinv.
  unfold data_phase in Hdp.
  assert (Hnext : forall l', link_step l = Some l' ->
            link_inv file ws bs l' -> (link_measure l' < link_measure l)%nat ->
            exists fuel, link_inv file ws bs (run_link fuel l) /\
                         s_pc (l_sender (run_link fuel l)) = PcEof).
  { intros l' Hstep Hinv' Hlt.
    destruct (IH l' ltac:(lia) Hinv') as (fuel & H1 & H2).
    exists (S fuel). cbn [run_link]. rewrite Hstep. auto. }
  destruct (s_pc (l_sender l)) eqn:Hpc; try contradiction.
  - destruct (link_step_fill l Hinv Hpc)
      as (l' & Hstep & Hinv' & Hlt); eauto.
  - destruct (link_step_acks l Hinv Hpc)
      as (l' & Hstep & Hinv' & Hlt); eauto.
  - destruct (link_step_wait l Hinv Hpc)
      as (l' & Hstep & Hinv' & Hlt); eauto.
  - exists O. cbn [run_link]. auto.
Qed.

(** *** The EOF exchange and the whole session *)

(** At the end of the data phase the sender has sent [frame_count]
    frames: the last read returned nothing, the one before it bytes. *)
Lemma frame_count_unique n :
  Z.of_nat (length file) <= n * bs ->
  n = 0 \/ (n - 1) * bs < Z.of_nat (length file) ->
  0 <= n -> n = frame_count file bs.
Proof.
  intros Hge Hlast Hn. unfold frame_count.
  apply (Z.div_unique _ _ _ (Z.of_nat (length file) + bs - 1 - bs * n)); [|lia].
  left. nia.
Qed.

(** From the end of the data phase of a file that is not empty: the EOF
    frame, the three RR of the receiver, the first of which the sender
    accepts, and both sides are done. *)
Lemma eof_phase l :
  link_inv file ws bs l -> s_pc (l_sender l) = PcEof -> file <> [] ->
  let l' := run_link 4 l in
  session_complete l' = true /\ link_step l' = None /\
  sink (r_writes (l_receiver l')) = file /\
  l_sent l' = data_frames file bs (frame_count file bs)
              ++ [eof_pdu (frame_count file bs)].
Proof.
  intros Hinv Hpc Hfile.
  destruct l as [s rc tc ts sent]. cbn [l_sender] in Hpc.
  unfold link_inv in Hinv.
  cbn [l_sender l_receiver l_to_client l_to_server l_sent] in Hinv.
  destruct Hinv as (Hsi & Hsws & Hsbs & Hfp & Heof & Hlast & Hret & Hfin & Hdp
                    & Hbe & Hrf & Hre & Hrw & Hwr & Htc & Hts & Hsent).
  destruct s as [pc w N eof act tcnt lb fp cb sws sbs ms rra rrm er far].
  cbn [s_pc] in Hpc. subst pc.
  unfold data_phase, sender_next_seq in *. simpl_state.
  destruct Hdp as [Heof1 HbN]. subst eof sws sbs er far.
  pose proof Hsi as (Hsw & Hwsz & Hn0 & Hfit & Hbig & _).
  unfold sender_next_seq in *. simpl_state.
  assert (HE : r_expected_seq rc = N) by lia.
  rewrite HE, HbN, ?Z.sub_diag in *. cbn in Htc, Hts. subst tc ts.
  specialize (Heof eq_refl). 
  assert (HNL : Z.of_nat (length file) <= N * bs).
  { rewrite Heof in Hfp. symmetry in Hfp. apply drop_nil_inv in Hfp. nia. }
  assert (HN1 : 1 <= N).
  { destruct file; [congruence|]. cbn [length] in HNL. nia. }
  assert (Hcount : N = frame_count file bs) by (apply frame_count_unique; lia).
  cbv zeta.
  set (S0 := Sender PcEof w N true act tcnt lb fp cb ws bs ms rra rrm 0 false).
  set (S1 := with_pc S0 PcEofWait).
  set (rc' := Receiver N
                (if N >? r_highest_received_seq rc then N
                 else r_highest_received_seq rc)
                true (r_consecutive_timeouts rc) true (r_win rc) (r_mark rc)
                (r_writes rc ++ [])).
  set (S3 := Sender PcEof w N true act tcnt lb fp cb ws bs ms rra rrm 0 true).
  assert (H1 : link_step (Link S0 rc [] [] sent)
               = Some (Link S1 rc [eof_pdu N] [] (sent ++ [eof_pdu N])))
    by reflexivity.
  assert (H2 : link_step (Link S1 rc [eof_pdu N] [] (sent ++ [eof_pdu N]))
               = Some (Link S1 rc' [] (send_final_rr (N - 1) 3)
                         (sent ++ [eof_pdu N]))).
  { unfold link_step, receiver_turn, run_receiver, sender_poll. simpl_state.
    unfold S1, S0. simpl_state. rewrite Hrf.
    rewrite receiver_step_eof by lia. rewrite HE.
    destruct (Z.gtb_spec N 0); [|lia]. reflexivity. }
  assert (H3 : link_step (Link S1 rc' [] (send_final_rr (N - 1) 3)
                            (sent ++ [eof_pdu N]))
               = Some (Link S3 rc' [] (send_final_rr (N - 1) 2)
                         (sent ++ [eof_pdu N]))).
  { unfold link_step, run_sender, sender_poll, sender_step, eof_wait_step.
    unfold S1, S0. simpl_state. cbn [send_final_rr replicate].
    rewrite (eof_iteration_rr w 0 _ (N - 1))
      by (apply control_frame_rr_pdu; lia).
    rewrite HbN, (u32_small (N - 1)) by lia.
    destruct (Z.geb_spec (N - 1) (N - 1)); [|lia]. cbn [orb].
    rewrite !app_nil_r. reflexivity. }
  assert (H4 : link_step (Link S3 rc' [] (send_final_rr (N - 1) 2)
                            (sent ++ [eof_pdu N]))
               = Some (Link (with_pc S3 PcDone) rc' []
                         (send_final_rr (N - 1) 2) (sent ++ [eof_pdu N]))).
  { unfold link_step, run_sender, sender_poll, sender_step, eof_step.
    unfold S3. simpl_state. change (eof_continue 0 true) with false.
    cbv iota. rewrite !app_nil_r. reflexivity. }
  rewrite (run_link_step _ _ _ H1), (run_link_step _ _ _ H2),
    (run_link_step _ _ _ H3), (run_link_step _ _ _ H4).
  cbn [run_link]. split; [reflexivity|]. split; [reflexivity|].
  cbn [l_receiver l_sent r_writes rc'].
  split.
  - rewrite app_nil_r, Hwr. rewrite <- (Z2Nat.id N) at 1 by lia.
    rewrite sink_chunks by lia. apply take_ge. lia.
  - rewrite Hsent, <- Hcount. reflexivity.
Qed.

(** X16.  For every file that is not empty (and shorter than [2^31]
    bytes), every window size and every buffer size the client accepts,
    the session over the error-free link ends with both sides done, the
    sink holds the file, and the server has sent one DATA frame per read
    of [buffer_size] bytes, in order, followed by one EOF frame. *)
Theorem error_free_session :
  file <> [] ->
  exists fuel,
    let l := run_link fuel (session_init file ws bs) in
    session_complete l = true /\ link_step l = None /\
    sink (r_writes (l_receiver l)) = file /\
    l_sent l = data_frames file bs (frame_count file bs)
               ++ [eof_pdu (frame_count file bs)].
Proof.
  intros Hfile.
  destruct (data_phase_ends (S (link_measure (session_init file ws bs)))
              (session_init file ws bs) ltac:(lia) link_inv_init)
    as (fuel & Hinv & Hpc).
  exists (fuel + 4)%nat. rewrite run_link_app.
  apply eof_phase; assumption.
Qed.
End Session.

(** C1 (the code at the failing input).  The file is empty; any window
    size, any buffer size.  The sender sends no DATA frame and the EOF
    frame 0; the receiver writes nothing, answers with three RR 0 and
    finishes.  The sender compares each RR 0 with [base - 1], which is
    [2^32 - 1] for a base of 0, rejects the three of them, and sends the
    EOF frame five times before it closes the session. *)
Theorem empty_file_sends_eof_five_times ws bs :
  0 < ws ->
  let l := run_link 13 (session_init [] ws bs) in
  session_complete l = true /\ link_step l = None /\
  sink (r_writes (l_receiver l)) = [] /\
  frames_with_flag FLAG_DATA (l_sent l) = [] /\
  l_sent l = replicate 5 (eof_pdu 0) /\
  s_eof_retries (l_sender l) = 5.
Proof.
  intros Hws.
  assert (H0 : link_step (session_init [] ws bs)
               = Some (Link (Sender PcEof (window_init ws) 0 true false 0 0 []
                               (CircularBuffer.circular_buffer_init
                                  (u32 (u32 (2 * ws) * bs)) bs)
                               ws bs mark_static_init rr_static_init
                               rr_static_init 0 false)
                         (process_file_transfer_init ws) [] [] [])).
  { unfold link_step, session_init, run_sender, sender_poll, sender_step,
      send_data_packets_init, fill_step. simpl_state.
    cbn [window_init base]. rewrite take_nil.
    change (u32 (0 - 0)) with 0.
    destruct (Z.ltb_spec 0 ws); [|lia]. reflexivity. }
  cbv zeta. rewrite (run_link_step _ _ _ H0).
  repeat split; reflexivity.
Qed.

Lemma empty_file_sends_eof_five_times_witness :
  let l := run_link 13 (session_init [] 5 1000) in
  session_complete l = true /\ link_step l = None /\
  sink (r_writes (l_receiver l)) = [] /\
  frames_with_flag FLAG_DATA (l_sent l) = [] /\
  l_sent l = replicate 5 (eof_pdu 0) /\
  s_eof_retries (l_sender l) = 5.
Proof. apply (empty_file_sends_eof_five_times 5 1000). lia. Defined.

Lemma error_free_session_witness :
  exists fuel,
    let file := [1; 2; 3; 4; 5; 6; 7] in
    let l := run_link fuel (session_init file 2 3) in
    session_complete l = true /\ link_step l = None /\
    sink (r_writes (l_receiver l)) = file /\
    l_sent l = data_frames file 3 (frame_count file 3)
               ++ [eof_pdu (frame_count file 3)].
Proof.
  apply (error_free_session [1; 2; 3; 4; 5; 6; 7] 2 3).
  - lia.
  - unfold MAX_DATA_SIZE. lia.
  - simpl. lia.
  - discriminate.
Defined.

(** Three sessions, evaluated: a file shorter than the buffer, a window
    of one frame, and a file of a whole number of buffers. *)
Example session_900_bytes :
  let file := List.map (fun i => i mod 251) (seqZ 0 900) in
  let l := run_link 200 (session_init file 5 1000) in
  session_complete l = true /\
  sink (r_writes (l_receiver l)) = file /\
  List.map (fun d => (hdr_flag d, hdr_seq_num d)) (l_sent l)
  = [(FLAG_DATA, 0); (FLAG_EOF, 1)].
Proof. vm_compute. repeat split; reflexivity. Qed.

Example session_window_1 :
  let file := [1; 2; 3; 4; 5; 6; 7] in
  let l := run_link 200 (session_init file 1 2) in
  session_complete l = true /\
  sink (r_writes (l_receiver l)) = file /\
  List.map (fun d => (hdr_flag d, hdr_seq_num d)) (l_sent l)
  = [(FLAG_DATA, 0); (FLAG_DATA, 1); (FLAG_DATA, 2); (FLAG_DATA, 3);
     (FLAG_EOF, 4)].
Proof. vm_compute. repeat split; reflexivity. Qed.

Example session_exact_multiple :
  let file := [1; 2; 3; 4; 5; 6; 7; 8; 9] in
  let l := run_link 400 (session_init file 2 3) in
  session_complete l = true /\
  sink (r_writes (l_receiver l)) = file /\
  List.map (fun d => (hdr_flag d, hdr_seq_num d, pdu_payload d)) (l_sent l)
  = [(FLAG_DATA, 0, [1; 2; 3]); (FLAG_DATA, 1, [4; 5; 6]);
     (FLAG_DATA, 2, [7; 8; 9]); (FLAG_EOF, 3, [])].
Proof. vm_compute. repeat split; reflexivity. Qed.

(** * Further properties of the code *)

(** ** The FILENAME request from [rcopy] to the server *)

Lemma c_string_nonzero l : Forall (fun b => b <> 0) (c_string l).
Proof.
  induction l as [|b l IH]; cbn [c_string]; [constructor|].
  destruct (Z.eqb_spec b 0); [constructor|]. constructor; assumption.
Qed.

Lemma c_string_app_zero l r :
  Forall (fun b => b <> 0) l -> c_string (l ++ 0 :: r) = l.
Proof.
  induction 1 as [|b l Hb _ IH]; [reflexivity|].
  cbn [app c_string]. destruct (Z.eqb_spec b 0); [contradiction|].
  rewrite IH. reflexivity.
Qed.

Lemma byte_at_app_r pre l k :
  byte_at (pre ++ l) (length pre + k) = byte_at l k.
Proof.
  unfold byte_at. rewrite lookup_app_r by lia.
  replace (length pre + k - length pre)%nat with k by lia. reflexivity.
Qed.

Lemma get_be32_app_r pre l k :
  get_be32 (pre ++ l) (length pre + k) = get_be32 l k.
Proof.
  unfold get_be32.
  rewrite <- !Nat.add_assoc, !byte_at_app_r. reflexivity.
Qed.

Lemma length_init_payload name ws bs :
  length (init_payload name ws bs) = 109%nat.
Proof.
  unfold init_payload. cbv zeta.
  rewrite !length_app, length_replicate, length_take.
  change (length (be32 ws)) with 4%nat. change (length (be32 bs)) with 4%nat.
  lia.
Qed.

(** X1.  The FILENAME request of a client whose arguments passed the checks
    of [main] reaches [handle_client] in the server, which reads from it
    the same file name, window size and buffer size. *)
Theorem handshake_request_round_trip from_filename window_size buffer_size :
  check_args from_filename window_size buffer_size = ArgsOk ->
  exists init_packet,
    server_main_dispatch (filename_pdu from_filename window_size buffer_size)
    = Some init_packet /\
    handle_client_request init_packet
    = Some (c_string from_filename, window_size, buffer_size).
Proof.
  unfold check_args.
  destruct (Z.gtb_spec (Z.of_nat (length (c_string from_filename))) 100)
    as [|Hname]; [discriminate|].
  destruct (Z.leb_spec window_size 0); [discriminate|].
  destruct (Z.geb_spec window_size (2 ^ 30)); [discriminate|].
  destruct (Z.leb_spec buffer_size 0); [discriminate|].
  destruct (Z.gtb_spec buffer_size MAX_DATA_SIZE) as [|Hbs]; [discriminate|].
  intros _. unfold MAX_DATA_SIZE in Hbs.
  assert (Hfl : 0 <= FLAG_FILENAME < 256) by (unfold FLAG_FILENAME; lia).
  assert (Hseq0 : 0 <= 0 < 2 ^ 32) by lia.
  set (payload := init_payload from_filename window_size buffer_size).
  assert (Hlen : length (filename_pdu from_filename window_size buffer_size)
                 = 116%nat).
  { unfold filename_pdu. rewrite length_build_pdu by assumption.
    fold payload. unfold payload. rewrite length_init_payload. reflexivity. }
  unfold server_main_dispatch, recvfrom.
  rewrite !(take_ge _ (Z.to_nat INIT_BUF_SIZE))
    by (rewrite Hlen; change (Z.to_nat INIT_BUF_SIZE) with 1024%nat; lia).
  rewrite Hlen. change (Z.of_nat 116 >=? HEADER_SIZE) with true. cbv iota.
  unfold filename_pdu at 1 2.
  rewrite checksum_ok_build_pdu, hdr_flag_build_pdu by assumption.
  cbn [negb]. rewrite Z.eqb_refl.
  eexists. split; [reflexivity|].
  unfold filename_pdu.
  rewrite set_hdr_checksum_build_pdu by assumption. fold payload.
  unfold handle_client_request.
  assert (Hl2 : length (be32 0 ++ [0; 0; FLAG_FILENAME] ++ payload) = 116%nat).
  { rewrite !length_app. unfold payload. rewrite length_init_payload.
    reflexivity. }
  rewrite Hl2.
  change (Z.of_nat 116 <? HEADER_SIZE + INIT_PAYLOAD_SIZE) with false.
  cbv iota.
  change (pdu_payload (be32 0 ++ [0; 0; FLAG_FILENAME] ++ payload))
    with payload.
  rewrite (take_ge payload)
    by (unfold payload; rewrite length_init_payload;
        change (Z.to_nat INIT_PAYLOAD_SIZE) with 109%nat; lia).
  unfold payload, init_payload. cbv zeta.
  rewrite (take_ge (c_string from_filename)) by lia.
  set (name := c_string from_filename) in *.
  set (pad := replicate (101 - length name) 0).
  assert (Hpad : (length name + length pad = 101)%nat)
    by (unfold pad; rewrite length_replicate; lia).
  f_equal. f_equal; [f_equal|].
  - (* the name *)
    rewrite take_app_ge by lia.
    replace (101 - length name)%nat with (length pad) by lia.
    rewrite take_app_length.
    unfold pad. replace (101 - length name)%nat
      with (S (100 - length name)) by lia.
    apply c_string_app_zero, c_string_nonzero.
  - (* window_size *)
    rewrite app_assoc.
    replace 101%nat with (length (name ++ pad) + 0)%nat
      by (rewrite length_app; lia).
    rewrite get_be32_app_r. apply get_be32_be32. lia.
  - (* buffer_size *)
    rewrite !app_assoc.
    replace 105%nat with (length ((name ++ pad) ++ be32 window_size) + 0)%nat
      by (rewrite !length_app; change (length (be32 window_size)) with 4%nat; lia).
    rewrite get_be32_app_r.
    rewrite <- (app_nil_r (be32 buffer_size)). apply get_be32_be32. lia.
Qed.

Lemma handshake_request_round_trip_witness :
  exists init_packet,
    server_main_dispatch (filename_pdu [97; 46; 116; 120; 116] 5 1000)
    = Some init_packet /\
    handle_client_request init_packet
    = Some ([97; 46; 116; 120; 116], 5, 1000).
Proof.
  apply (handshake_request_round_trip [97; 46; 116; 120; 116] 5 1000).
  vm_compute. reflexivity.
Defined.

(** ** The window store: insertion and lookup *)

Lemma window_add_packet_stored w seq d l fl :
  wf_window w -> seq <= u32 (base w + 2 * window_size w) ->
  exists index,
    window_add_packet w seq d l fl
    = (index, set_slot w index
                (Packet seq l fl (Some (take (Z.to_nat l) d)) false 0)) /\
    0 <= index < window_size w.
Proof.
  intros (Hws & Hlen & Hbase) Hle. unfold window_add_packet.
  destruct (Z.gtb_spec seq (u32 (base w + 2 * window_size w))); [lia|].
  assert (H0 : 0 <= seq mod window_size w < window_size w)
    by (apply Z.mod_pos_bound; lia).
  eexists. split; [reflexivity|].
  destruct (_ && negb _); [|exact H0].
  destruct (_ && _); [|exact H0].
  destruct (scan_from _ _ _) eqn:Hs; [|exact H0].
  eapply scan_from_range; [lia|exact Hs].
Qed.

Lemma scan_from_some_intro w index P j :
  0 < window_size w -> 0 <= index ->
  0 <= j < window_size w -> P (slot w j) = true ->
  exists r, scan_from w index P = Some r.
Proof.
  intros Hws Hidx Hj HP.
  destruct (scan_from w index P) as [r|] eqn:Hs; [eauto|].
  rewrite (scan_from_none w index P Hws Hidx Hs j Hj) in HP. discriminate.
Qed.

(** X3.  A packet stored by [window_add_packet] with a sequence number in
    [base - window_size, base + 2 * window_size) is found by
    [window_get_packet]: the slot returned holds that sequence number and
    bytes, and it is the slot just written when no other slot held the
    sequence number. *)
Theorem window_add_then_get w seq d l fl :
  wf_window w -> base w + 2 * window_size w < 2 ^ 32 ->
  0 <= seq -> base w - window_size w <= seq < base w + 2 * window_size w ->
  exists index w' i,
    window_add_packet w seq d l fl = (index, w') /\
    window_get_packet w' seq = Some i /\
    0 <= i < window_size w /\
    seq_num (slot w' i) = seq /\ has_data (slot w' i) = true /\
    ((forall j, 0 <= j < window_size w -> j <> index ->
                seq_num (slot w j) = seq -> has_data (slot w j) = false) ->
     i = index /\
     slot w' i = Packet seq l fl (Some (take (Z.to_nat l) d)) false 0).
Proof.
  intros Hwf Hfit Hseq0 Hseq. pose proof Hwf as (Hws & Hlen & Hbase).
  destruct (window_add_packet_stored w seq d l fl Hwf) as (index & Hadd & Hidx).
  { rewrite u32_small by lia. lia. }
  set (p := Packet seq l fl (Some (take (Z.to_nat l) d)) false 0) in *.
  set (w' := set_slot w index p) in *.
  assert (Hslot : slot w' index = p) by (apply slot_set_slot_eq; lia).
  assert (Hws' : window_size w' = window_size w) by reflexivity.
  assert (Hget : exists i, window_get_packet w' seq = Some i).
  { unfold window_get_packet. change (base w') with (base w). rewrite Hws'.
    destruct (Z.ltb_spec seq (base w)) as [Hlt|Hge]; cbn [andb].
    - rewrite u32_small by lia.
      destruct (Z.gtb_spec (base w - seq) (window_size w)); [lia|].
      rewrite u32_small by lia.
      destruct (Z.geb_spec seq (base w + window_size w * 2)); [lia|].
      destruct (_ && _); [eauto|].
      apply (scan_from_some_intro w' _ _ index); try lia.
      + apply Z.mod_pos_bound. lia.
      + rewrite Hslot. cbn. rewrite Z.eqb_refl. reflexivity.
    - rewrite u32_small by lia.
      destruct (Z.geb_spec seq (base w + window_size w * 2)); [lia|].
      destruct (_ && _); [eauto|].
      apply (scan_from_some_intro w' _ _ index); try lia.
      + apply Z.mod_pos_bound. lia.
      + rewrite Hslot. cbn. rewrite Z.eqb_refl. reflexivity. }
  destruct Hget as (i & Hget).
  destruct (window_get_packet_some w' seq i ltac:(lia) Hget) as (Hi & Hsi & Hdi).
  exists index, w', i. split; [exact Hadd|]. split; [exact Hget|].
  split; [lia|]. split; [exact Hsi|]. split; [exact Hdi|].
  intros Huniq.
  assert (Heq : i = index).
  { destruct (Z.eq_dec i index) as [|Hne]; [assumption|].
    unfold w' in Hsi, Hdi. rewrite slot_set_slot_ne in Hsi, Hdi by lia.
    rewrite (Huniq i ltac:(lia) Hne Hsi) in Hdi. discriminate. }
  split; [exact Heq|]. rewrite Heq. exact Hslot.
Qed.

Lemma window_add_then_get_witness :
  exists index w' i,
    window_add_packet (window_init 2) 3 [7; 8; 9] 3 16 = (index, w') /\
    window_get_packet w' 3 = Some i /\
    0 <= i < 2 /\
    seq_num (slot w' i) = 3 /\ has_data (slot w' i) = true /\
    ((forall j, 0 <= j < 2 -> j <> index ->
                seq_num (slot (window_init 2) j) = 3 ->
                has_data (slot (window_init 2) j) = false) ->
     i = index /\ slot w' i = Packet 3 3 16 (Some [7; 8; 9]) false 0).
Proof.
  apply (window_add_then_get (window_init 2) 3 [7; 8; 9] 3 16).
  - unfold wf_window. simpl. lia.
  - simpl. lia.
  - lia.
  - simpl. lia.
Defined.

(** X4.  [window_add_packet] accepts sequence numbers that
    [window_get_packet] refuses to look up: [base + 2 * window_size]
    itself, and everything more than [window_size] below the base.  Such
    a packet is stored in a slot and cannot be retrieved. *)
Theorem window_add_beyond_lookup w seq d l fl :
  wf_window w -> base w + 2 * window_size w < 2 ^ 32 ->
  seq = base w + 2 * window_size w \/ 0 <= seq < base w - window_size w ->
  exists index w',
    window_add_packet w seq d l fl = (index, w') /\
    0 <= index < window_size w /\
    slot w' index = Packet seq l fl (Some (take (Z.to_nat l) d)) false 0 /\
    window_get_packet w' seq = None.
Proof.
  intros Hwf Hfit Hseq. pose proof Hwf as (Hws & Hlen & Hbase).
  destruct (window_add_packet_stored w seq d l fl Hwf) as (index & Hadd & Hidx).
  { rewrite u32_small by lia. lia. }
  eexists _, _. split; [exact Hadd|]. split; [exact Hidx|].
  split; [apply slot_set_slot_eq; lia|].
  unfold window_get_packet. cbn [base window_size set_slot].
  destruct Hseq as [-> | Hlow].
  - destruct (Z.ltb_spec (base w + 2 * window_size w) (base w)); [lia|].
    cbn [andb]. rewrite u32_small by lia.
    destruct (Z.geb_spec (base w + 2 * window_size w)
                (base w + window_size w * 2)); [reflexivity|lia].
  - destruct (Z.ltb_spec seq (base w)); [|lia]. cbn [andb].
    rewrite u32_small by lia.
    destruct (Z.gtb_spec (base w - seq) (window_size w)); [reflexivity|lia].
Qed.

Lemma window_add_beyond_lookup_witness :
  exists index w',
    window_add_packet (window_init 2) 4 [7; 8; 9] 3 16 = (index, w') /\
    0 <= index < 2 /\
    slot w' index = Packet 4 3 16 (Some [7; 8; 9]) false 0 /\
    window_get_packet w' 4 = None.
Proof.
  apply (window_add_beyond_lookup (window_init 2) 4 [7; 8; 9] 3 16).
  - unfold wf_window. simpl. lia.
  - simpl. lia.
  - left. reflexivity.
Defined.

(** ** The window of the sender under an RR *)

Lemma sender_window_slot_data w n q :
  sender_window w n -> base w <= q < n ->
  seq_num (slot w (q mod window_size w)) = q /\
  has_data (slot w (q mod window_size w)) = true.
Proof. intros (_ & _ & _ & _ & _ & _ & H) Hq. apply H. exact Hq. Qed.

Lemma rr_cumulative_window st w n a :
  sender_window w n -> 1 <= n -> base w <= a -> a + 1 < 2 ^ 32 ->
  let w' := snd (ack_and_slide st w a) in
  sender_window w' n /\
  base w' = Z.min (a + 1) n /\
  window_size w' = window_size w /\
  (forall q, a < q < n ->
     slot w' (q mod window_size w) = slot w (q mod window_size w)).
Proof.
  intros Hsw Hn1 Ha Hamax.
  pose proof Hsw as (Hws & Hlen & Hb & Hn & Hfit & Hslots & Hfull).
  assert (Hne : a <> u32 (base w - 1)).
  { rewrite u32_pred by lia. destruct (Z.eqb_spec (base w) 0); lia. }
  unfold ack_and_slide, window_mark_ack.
  destruct (Z.eqb_spec a (u32 (base w - 1))) as [|_]; [contradiction|].
  destruct (Z.ltb_spec a (base w)); [lia|]. cbn [andb snd].
  rewrite packets_to_ack_ahead by (try lia; exact Hne).
  set (k := Z.min (window_size w) (a - base w + 1)).
  assert (Hk : 1 <= k <= window_size w) by (unfold k; lia).
  destruct (mark_fold_prefix w n (Z.to_nat k) Hsw ltac:(lia) Hn1)
    as (Hpre & Hbm & Hwm).
  rewrite Z2Nat.id in Hpre, Hbm, Hwm by lia.
  pose proof (mark_fold_spec (seqZ 0 k) w ltac:(lia) Hlen) as Hspec.
  cbv zeta in Hspec. destruct Hspec as (_ & _ & Hlm & Hsl & _).
  set (wm := foldl mark_one w (seqZ 0 k)) in *.
  destruct (slide_loop_prefix (Z.to_nat (window_size wm)) wm 0 n
              (Z.min (base w + k) n)) as (H1 & H2 & H3);
    [exact Hpre|lia|rewrite Hbm, Hwm; lia|].
  pose proof (slide_loop_spec (Z.to_nat (window_size wm)) wm 0
                ltac:(lia) ltac:(lia) ltac:(lia) ltac:(lia)) as Hsp.
  cbv zeta in Hsp. destruct Hsp as (_ & _ & _ & _ & _ & Hkeep & _).
  cbv zeta. unfold window_slide.
  set (w' := slide_loop (Z.to_nat (window_size wm)) wm 0) in *.
  split; [exact H1|]. split; [unfold k in H2; lia|]. split; [lia|].
  intros q Hq.
  assert (Hqm : 0 <= q mod window_size w < window_size w)
    by (apply Z.mod_pos_bound; lia).
  destruct (sender_window_slot_data w n q Hsw ltac:(lia)) as (Hsq & Hdq).
  assert (Hmid : slot wm (q mod window_size w) = slot w (q mod window_size w)).
  { destruct (Hsl (q mod window_size w) ltac:(lia)) as [Hsame|(_ & j & Hj & Hjq)];
      [exact Hsame|].
    apply list_elem_of_In, elem_of_seqZ in Hj.
    rewrite Hsq, u32_small in Hjq by lia. unfold k in Hj. lia. }
  destruct (Hkeep (q mod window_size w) ltac:(lia)) as [Hsame|Hzero].
  - rewrite Hsame. exact Hmid.
  - destruct (sender_window_slot_data w' n q H1) as (_ & Hd').
    { unfold k in H2. lia. }
    rewrite H3, Hwm, Hzero in Hd'. discriminate.
Qed.

Lemma stale_rr_window st w n a :
  sender_window w n -> 0 <= a -> 2 <= base w - a <= 5 ->
  let w' := snd (ack_and_slide st w a) in
  sender_window w' n /\ base w' = n /\
  (forall i, 0 <= i < window_size w -> has_data (slot w' i) = false).
Proof.
  intros Hsw Ha0 Ha.
  pose proof Hsw as (Hws & Hlen & Hb & Hn & Hfit & Hslots & Hfull).
  assert (Hne : a <> u32 (base w - 1)) by (rewrite u32_small by lia; lia).
  unfold ack_and_slide, window_mark_ack.
  destruct (Z.eqb_spec a (u32 (base w - 1))) as [|_]; [contradiction|].
  destruct (Z.ltb_spec a (base w)); [|lia].
  rewrite (u32_small (base w - a)) by lia.
  destruct (Z.gtb_spec (base w - a) 5); [lia|]. cbn [andb snd].
  rewrite packets_to_ack_behind
    by (try lia; rewrite u32_small by lia; lia).
  destruct (mark_fold_prefix w n (Z.to_nat (window_size w)) Hsw
              ltac:(lia) ltac:(lia)) as (Hpre & Hbm & Hwm).
  rewrite Z2Nat.id in Hpre, Hbm, Hwm by lia.
  set (wm := foldl mark_one w (seqZ 0 (window_size w))) in *.
  destruct (slide_loop_prefix (Z.to_nat (window_size wm)) wm 0 n
              (Z.min (base w + window_size w) n)) as (H1 & H2 & H3);
    [exact Hpre|lia|rewrite Hbm, Hwm; lia|].
  cbv zeta. unfold window_slide.
  set (w' := slide_loop (Z.to_nat (window_size wm)) wm 0) in *.
  split; [exact H1|]. split; [lia|].
  intros i Hi.
  destruct H1 as (_ & _ & _ & _ & _ & Hs' & _).
  destruct (Hs' i ltac:(lia)) as [(Hd & _)|(_ & Hr & _)]; [exact Hd|lia].
Qed.

Lemma old_rr_window st w n a :
  sender_window w n -> 0 <= a < base w ->
  a = base w - 1 \/ 5 < base w - a ->
  snd (ack_and_slide st w a) = w.
Proof.
  intros Hsw Ha Hcase.
  pose proof Hsw as (Hws & Hlen & Hb & Hn & Hfit & Hslots & Hfull).
  assert (Hstuck : slide_stuck w) by (apply (acked_prefix_stuck w n); exact Hsw).
  assert (Hsame : window_slide w = w)
    by (unfold window_slide; apply slide_stuck_id; [lia|exact Hstuck]).
  assert (Hidx : 0 <= base w mod window_size w < window_size w)
    by (apply Z.mod_pos_bound; lia).
  unfold ack_and_slide, window_mark_ack.
  rewrite (u32_small (base w - 1)) by lia.
  destruct (Z.eqb_spec a (base w - 1)) as [Heq|Hne].
  - destruct (_ =? _); [|exact Hsame]. destruct (_ >=? _); [|exact Hsame].
    destruct (_ && _) eqn:Hp; [|exact Hsame].
    apply andb_true_iff in Hp as [_ Hp]. apply Z.eqb_eq in Hp. cbn [snd].
    rewrite <- (Hstuck _ Hidx Hp), set_slot_ack_id by lia. exact Hsame.
  - destruct Hcase as [|Hold]; [contradiction|].
    destruct (Z.ltb_spec a (base w)); [|lia].
    rewrite (u32_small (base w - a)) by lia.
    destruct (Z.gtb_spec (base w - a) 5); [|lia]. exact Hsame.
Qed.

(** The invariant of the sender in every state of a session. *)
Lemma sender_reachable_inv file ws bs s :
  0 < ws < 2 ^ 30 -> Z.of_nat (length file) < 2 ^ 31 ->
  sender_reachable file ws bs s -> sender_inv (Z.of_nat (length file)) s.
Proof.
  intros Hws HL Hreach. induction Hreach as [|s r Hreach IH].
  - apply send_data_packets_init_inv; assumption.
  - apply sender_step_inv, IH.
Qed.

Lemma sender_reachable_window_size file ws bs s :
  0 < ws < 2 ^ 30 -> Z.of_nat (length file) < 2 ^ 31 ->
  sender_reachable file ws bs s -> window_size (s_win s) = ws.
Proof.
  intros Hws HL Hreach.
  pose proof (sender_reachable_inv file ws bs s Hws HL Hreach) as (_ & -> & _).
  induction Hreach as [|s r Hreach IH]; [reflexivity|].
  rewrite sender_step_window_size. exact IH.
Qed.

(** X5.  In every state of a session of the sender, an RR for [a] at or
    above the base acknowledges every frame up to [a]: the base becomes
    [a + 1], or the next sequence number to assign when [a] is beyond it,
    and the frames above [a] stay in their slots as they were. *)
Theorem rr_is_cumulative file ws bs s st a :
  0 < ws < 2 ^ 30 -> Z.of_nat (length file) < 2 ^ 31 ->
  sender_reachable file ws bs s ->
  1 <= sender_next_seq s -> base (s_win s) <= a -> a + 1 < 2 ^ 32 ->
  let w' := snd (ack_and_slide st (s_win s) a) in
  base w' = Z.min (a + 1) (sender_next_seq s) /\
  window_size w' = ws /\
  (forall q, a < q < sender_next_seq s ->
     slot w' (q mod ws) = slot (s_win s) (q mod ws) /\
     seq_num (slot w' (q mod ws)) = q /\ has_data (slot w' (q mod ws)) = true).
Proof.
  intros Hws HL Hreach Hn Ha Hamax.
  pose proof (sender_reachable_inv file ws bs s Hws HL Hreach) as (Hsw & _).
  pose proof (sender_reachable_window_size file ws bs s Hws HL Hreach) as Hsz.
  destruct (rr_cumulative_window st (s_win s) (sender_next_seq s) a
              Hsw Hn Ha Hamax) as (Hsw' & Hb' & Hws' & Hkeep).
  cbv zeta. rewrite <- Hsz. split; [exact Hb'|]. split; [exact Hws'|].
  intros q Hq. split; [apply Hkeep; exact Hq|].
  rewrite (Hkeep q Hq). apply (sender_window_slot_data _ _ q Hsw). lia.
Qed.

Lemma rr_is_cumulative_witness :
  let s := fst (sender_step
                  (fst (sender_step
                          (fst (sender_step
                                  (send_data_packets_init [1; 2; 3; 4; 5] 3 1)
                                  Timeout))
                          Timeout))
                  Timeout) in
  let w' := snd (ack_and_slide mark_static_init (s_win s) 0) in
  base (s_win s) = 0 /\ sender_next_seq s = 2 /\
  base w' = Z.min (0 + 1) (sender_next_seq s) /\
  window_size w' = 3 /\
  (forall q, 0 < q < sender_next_seq s ->
     slot w' (q mod 3) = slot (s_win s) (q mod 3) /\
     seq_num (slot w' (q mod 3)) = q /\ has_data (slot w' (q mod 3)) = true).
Proof.
  intros s w'. split; [vm_compute; reflexivity|].
  split; [vm_compute; reflexivity|].
  apply (rr_is_cumulative [1; 2; 3; 4; 5] 3 1 s mark_static_init 0).
  - lia.
  - simpl. lia.
  - unfold s. apply reachable_step, reachable_step, reachable_step,
      reachable_init.
  - vm_compute. discriminate.
  - vm_compute. discriminate.
  - lia.
Defined.

(** X6.  In every state of a session of the sender, a stale RR, for a
    frame two to five below the base, is taken for an acknowledgement of
    the whole window: every outstanding frame is marked and slid over,
    the base jumps to the next sequence number to assign, and no slot
    holds a frame any more. *)
Theorem stale_rr_flushes_window file ws bs s st a :
  0 < ws < 2 ^ 30 -> Z.of_nat (length file) < 2 ^ 31 ->
  sender_reachable file ws bs s ->
  0 <= a -> 2 <= base (s_win s) - a <= 5 ->
  let w' := snd (ack_and_slide st (s_win s) a) in
  base w' = sender_next_seq s /\
  (forall i, 0 <= i < ws -> has_data (slot w' i) = false).
Proof.
  intros Hws HL Hreach Ha0 Ha.
  pose proof (sender_reachable_inv file ws bs s Hws HL Hreach) as (Hsw & _).
  pose proof (sender_reachable_window_size file ws bs s Hws HL Hreach) as Hsz.
  destruct (stale_rr_window st (s_win s) (sender_next_seq s) a Hsw Ha0 Ha)
    as (_ & Hb' & Hempty).
  cbv zeta. rewrite <- Hsz. split; [exact Hb'|exact Hempty].
Qed.

Lemma stale_rr_flushes_window_witness :
  let s := after_two_acks in
  let w' := snd (ack_and_slide mark_static_init (s_win s) 0) in
  base (s_win s) = 2 /\ has_data (slot (s_win s) 0) = true /\
  base w' = sender_next_seq s /\
  (forall i, 0 <= i < 2 -> has_data (slot w' i) = false).
Proof.
  intros s w'. split; [vm_compute; reflexivity|].
  split; [vm_compute; reflexivity|].
  apply (stale_rr_flushes_window [1; 2; 3; 4; 5] 2 1 s mark_static_init 0).
  - lia.
  - simpl. lia.
  - unfold s, after_two_acks. cbv zeta. do 7 apply reachable_step.
    apply reachable_init.
  - lia.
  - vm_compute. split; discriminate.
Defined.

(** X7.  In every state of a session of the sender, an RR for the frame
    just below the base (a duplicate of the last acknowledgement),
    whatever the duplicate counters are, and an RR more than five below
    the base leave the window as it is. *)
Theorem old_rr_leaves_window file ws bs s st a :
  0 < ws < 2 ^ 30 -> Z.of_nat (length file) < 2 ^ 31 ->
  sender_reachable file ws bs s ->
  0 <= a < base (s_win s) ->
  a = base (s_win s) - 1 \/ 5 < base (s_win s) - a ->
  snd (ack_and_slide st (s_win s) a) = s_win s.
Proof.
  intros Hws HL Hreach Ha Hcase.
  pose proof (sender_reachable_inv file ws bs s Hws HL Hreach) as (Hsw & _).
  exact (old_rr_window st (s_win s) (sender_next_seq s) a Hsw Ha Hcase).
Qed.

Lemma old_rr_leaves_window_witness :
  let s := after_two_acks in
  snd (ack_and_slide mark_static_init (s_win s) 1) = s_win s.
Proof.
  intros s.
  apply (old_rr_leaves_window [1; 2; 3; 4; 5] 2 1 s mark_static_init 1).
  - lia.
  - simpl. lia.
  - unfold s, after_two_acks. cbv zeta. do 7 apply reachable_step.
    apply reachable_init.
  - vm_compute. split; [discriminate|reflexivity].
  - left. vm_compute. reflexivity.
Defined.

(** ** The wire format *)

(** X2.  A PDU as the senders of the code build it (header with the
    sequence number in network order, the checksum of the whole PDU, the
    flag, then the payload) verifies at a receiver, before and after the
    receiver has zeroed the checksum field, and the receiver reads from it
    the sequence number, the flag and the payload it was built from. *)
Theorem pdu_round_trip seq fl payload :
  0 <= seq < 2 ^ 32 -> 0 <= fl < 256 ->
  let d := build_pdu seq fl payload in
  length d = (7 + length payload)%nat /\
  checksum_ok d = true /\
  hdr_seq_num d = seq /\ hdr_flag d = fl /\ pdu_payload d = payload /\
  hdr_seq_num (set_hdr_checksum d 0) = seq /\
  hdr_flag (set_hdr_checksum d 0) = fl /\
  pdu_payload (set_hdr_checksum d 0) = payload.
Proof.
  intros Hseq Hfl d. unfold d.
  rewrite set_hdr_checksum_build_pdu by assumption.
  destruct (hdr_fields_zeroed seq fl payload Hseq) as (H1 & H2 & H3).
  split; [apply length_build_pdu; assumption|].
  split; [apply checksum_ok_build_pdu; assumption|].
  split; [apply hdr_seq_num_build_pdu; assumption|].
  split; [apply hdr_flag_build_pdu; assumption|].
  split; [apply pdu_payload_build_pdu; assumption|].
  auto.
Qed.

Lemma pdu_round_trip_witness :
  let d := build_pdu 7 16 [104; 105] in
  length d = (7 + length [104; 105])%nat /\
  checksum_ok d = true /\
  hdr_seq_num d = 7 /\ hdr_flag d = 16 /\ pdu_payload d = [104; 105] /\
  hdr_seq_num (set_hdr_checksum d 0) = 7 /\
  hdr_flag (set_hdr_checksum d 0) = 16 /\
  pdu_payload (set_hdr_checksum d 0) = [104; 105].
Proof. apply (pdu_round_trip 7 16 [104; 105]); lia. Defined.

(** ** The response to the FILENAME request *)

(** X8.  The client decodes the response of the server: for a message
    without a zero byte that fits the response buffer of the server, the
    FILENAME_RESP frame built by [send_filename_response] makes
    [send_filename_request] return with [received] set when the message
    is "OK", and exit with "file not found" for every other message; the
    request was sent once. *)
Theorem filename_response_round_trip from_filename ws bs msg polls :
  Forall (fun b => b <> 0) msg -> (length msg <= 49)%nat ->
  send_filename_request from_filename ws bs
    (Ready (filename_resp_pdu msg) :: polls)
  = (if bool_decide (msg = msg_ok) then Returned true else ExitFileNotFound,
     [filename_pdu from_filename ws bs]).
Proof.
  intros Hmsg Hlen.
  assert (Hfl : 0 <= FLAG_FILENAME_RESP < 256)
    by (unfold FLAG_FILENAME_RESP; lia).
  assert (Hseq : 0 <= 0 < 2 ^ 32) by lia.
  unfold send_filename_request. cbn [length send_filename_request_loop].
  change (0 <? INIT_RETRY_LIMIT) with true. cbv iota. cbn [next_poll].
  unfold filename_resp_pdu.
  assert (Hl : length (build_pdu 0 FLAG_FILENAME_RESP (msg ++ [0]))
               = (8 + length msg)%nat).
  { rewrite length_build_pdu, length_app by assumption. cbn [length]. lia. }
  rewrite recvfrom_all by (rewrite Hl; change (Z.to_nat 1024) with 1024%nat; lia).
  rewrite Hl.
  destruct (Z.geb_spec (Z.of_nat (8 + length msg)) HEADER_SIZE) as [_|Hc];
    [|unfold HEADER_SIZE in Hc; lia].
  rewrite checksum_ok_build_pdu, hdr_flag_build_pdu,
    pdu_payload_build_pdu by assumption.
  cbn [negb]. rewrite Z.eqb_refl.
  destruct (Z.gtb_spec (Z.of_nat (8 + length msg)) HEADER_SIZE) as [_|Hc];
    [|unfold HEADER_SIZE in Hc; lia].
  cbn [andb]. rewrite <- app_assoc. cbn [app].
  rewrite c_string_app_zero by exact Hmsg.
  destruct (bool_decide (msg = msg_ok)); reflexivity.
Qed.

Lemma filename_response_round_trip_witness :
  send_filename_request [97] 5 1000 [Ready (filename_resp_pdu msg_ok)]
  = (Returned true, [filename_pdu [97] 5 1000]) /\
  send_filename_request [97] 5 1000
    [Ready (filename_resp_pdu msg_file_not_found)]
  = (ExitFileNotFound, [filename_pdu [97] 5 1000]).
Proof.
  split.
  - apply (filename_response_round_trip [97] 5 1000 msg_ok []).
    + repeat constructor; discriminate.
    + simpl. lia.
  - apply (filename_response_round_trip [97] 5 1000 msg_file_not_found []).
    + repeat constructor; discriminate.
    + simpl. lia.
Defined.

(** [send_filename_response] without [expect_ack] sends once for each of
    the [k] attempts that remain, and once for every request that arrives
    before the last of them. *)
Lemma send_filename_response_loop_count msg fuel : forall k polls,
  (1 <= k <= 3)%nat -> (k + length polls <= fuel)%nat ->
  send_filename_response_loop fuel msg 3 false (3 - Z.of_nat k) polls
  = (false, replicate (k + requests_before k polls) (filename_resp_pdu msg)).
Proof.
  induction fuel as [|fuel IH]; intros k polls Hk Hfuel; [lia|].
  cbn [send_filename_response_loop].
  destruct (Z.ltb_spec (3 - Z.of_nat k) MAX_RETRANSMIT) as [_|Hc];
    [|unfold MAX_RETRANSMIT in Hc; lia].
  assert (Hnext : forall polls', (k - 1 + length polls' <= fuel)%nat ->
            requests_before k polls = requests_before (k - 1) polls' ->
            (if 3 - Z.of_nat k + 1 >=? 3
             then (false, [filename_resp_pdu msg])
             else
               let '(ack, out) :=
                 send_filename_response_loop fuel msg 3 false
                   (3 - Z.of_nat k + 1) polls' in
               (ack, filename_resp_pdu msg :: out))
            = (false, replicate (k + requests_before k polls)
                        (filename_resp_pdu msg))).
  { intros polls' Hf Hreq. destruct (Z.geb_spec (3 - Z.of_nat k + 1) 3).
    - assert (k = 1%nat) as -> by lia. rewrite Hreq. cbn [Nat.sub].
      destruct polls'; reflexivity.
    - replace (3 - Z.of_nat k + 1) with (3 - Z.of_nat (k - 1)) by lia.
      rewrite IH by lia. rewrite Hreq.
      replace (k + requests_before (k - 1) polls')%nat
        with (S (k - 1 + requests_before (k - 1) polls')) by lia.
      reflexivity. }
  destruct polls as [|r polls]; cbn [next_poll].
  - apply Hnext; [cbn [length] in *; lia|].
    destruct k; [lia|]. reflexivity.
  - change (match r with
            | Ready d =>
                (Z.of_nat (length (recvfrom INIT_BUF_SIZE d)) >=? HEADER_SIZE)
                && (hdr_flag (recvfrom INIT_BUF_SIZE d) =? FLAG_FILENAME)
            | Timeout => false
            end) with (is_filename_ack r).
    cbn [length] in Hfuel.
    destruct (is_filename_ack r) eqn:Hr.
    + rewrite IH by lia. destruct k; [lia|].
      cbn [requests_before]. rewrite Hr.
      replace (S k + S (requests_before (S k) polls))%nat
        with (S (S k + requests_before (S k) polls)) by lia.
      reflexivity.
    + apply Hnext; [lia|]. destruct k; [lia|].
      cbn [requests_before]. rewrite Hr.
      replace (S k - 1)%nat with k by lia. reflexivity.
Qed.

(** X9.  When the file cannot be opened, [handle_client] sends the
    "File not found" response three times, and once more for every
    FILENAME request that arrives before the third poll that is not such a
    request; a request does not count as an attempt.  Nothing is taken as
    an acknowledgement. *)
Theorem file_not_found_response_count polls :
  handle_client_response false polls
  = (false,
     replicate (3 + requests_before 3 polls)
       (filename_resp_pdu msg_file_not_found)).
Proof.
  unfold handle_client_response, send_filename_response.
  apply (send_filename_response_loop_count msg_file_not_found
           (Z.to_nat MAX_RETRANSMIT + length polls) 3 polls);
    [lia|unfold MAX_RETRANSMIT; lia].
Qed.

Lemma file_not_found_response_count_witness :
  let request := Ready (filename_pdu [97] 4 100) in
  let polls := [request; Timeout; request; Timeout; Timeout; request] in
  handle_client_response false polls
  = (false, replicate 5 (filename_resp_pdu msg_file_not_found)).
Proof.
  intros request polls. exact (file_not_found_response_count polls).
Defined.

(** ** The sender only sends the file *)

Lemma refresh_pdu_keeps d l fl :
  (7 <= length d)%nat ->
  length (refresh_pdu d l fl) = length d /\
  hdr_seq_num (refresh_pdu d l fl) = hdr_seq_num d /\
  pdu_payload (refresh_pdu d l fl) = pdu_payload d.
Proof.
  intros Hd. do 7 (destruct d as [|? d]; [cbn [length] in Hd; lia|]).
  unfold refresh_pdu, set_hdr_checksum, set_hdr_flag. cbn.
  split; [reflexivity|]. split; reflexivity.
Qed.

Lemma slot_kept_refl p : slot_kept p p.
Proof. right. auto. Qed.

Lemma slot_kept_trans p q r : slot_kept p q -> slot_kept q r -> slot_kept p r.
Proof.
  intros [H|(H1 & H2 & H3)] [K|(K1 & K2 & K3)].
  - left. exact K.
  - left. congruence.
  - left. exact K.
  - right. split; [congruence|]. split; congruence.
Qed.

Lemma slot_kept_ack p b : slot_kept p (set_acknowledged p b).
Proof. right. destruct p; cbn; auto. Qed.

Lemma slot_kept_zero p : slot_kept p zero_packet.
Proof. left. reflexivity. Qed.

Lemma frames_stored_kept file bs w w' :
  frames_stored file bs w -> window_size w' = window_size w ->
  (forall i, 0 <= i < window_size w -> slot_kept (slot w i) (slot w' i)) ->
  frames_stored file bs w'.
Proof.
  intros Hst Hws Hkept i d Hi Hd. rewrite Hws in Hi.
  destruct (Hkept i Hi) as [Hnone|(H1 & H2 & H3)]; [congruence|].
  rewrite H1, H2. apply Hst; [exact Hi|congruence].
Qed.

(** [window_mark_ack] and [window_slide] keep or clear every slot. *)
Lemma ack_and_slide_kept st w a :
  0 < window_size w -> Z.of_nat (length (packets w)) = window_size w ->
  0 <= base w -> base w + window_size w < 2 ^ 32 ->
  forall i, 0 <= i < window_size w ->
    slot_kept (slot w i) (slot (snd (ack_and_slide st w a)) i).
Proof.
  intros Hws Hlen Hb Hfit i Hi.
  assert (Hslide : forall w1,
            window_size w1 = window_size w -> base w1 = base w ->
            length (packets w1) = length (packets w) ->
            slot_kept (slot w i) (slot w1 i) ->
            slot_kept (slot w i) (slot (window_slide w1) i)).
  { intros w1 H1 H2 H3 Hk. unfold window_slide.
    pose proof (slide_loop_spec (Z.to_nat (window_size w1)) w1 0
                  ltac:(lia) ltac:(lia) ltac:(lia) ltac:(lia)) as Hsp.
    cbv zeta in Hsp. destruct Hsp as (_ & _ & _ & _ & _ & Hkeep & _).
    destruct (Hkeep i ltac:(lia)) as [->| ->]; [exact Hk|apply slot_kept_zero]. }
  assert (Hidx : 0 <= base w mod window_size w < window_size w)
    by (apply Z.mod_pos_bound; lia).
  unfold ack_and_slide, window_mark_ack.
  destruct (_ =? _).
  - destruct (_ =? _); [|cbn [snd]; apply Hslide; auto using slot_kept_refl].
    destruct (_ >=? _); [|cbn [snd]; apply Hslide; auto using slot_kept_refl].
    destruct (_ && _); [|cbn [snd]; apply Hslide; auto using slot_kept_refl].
    cbn [snd]. apply Hslide; try reflexivity; [apply length_set_slot|].
    rewrite slot_set_slot by lia.
    destruct (Z.eq_dec i _) as [->|]; [apply slot_kept_ack|apply slot_kept_refl].
  - destruct (_ && _); [cbn [snd]; apply Hslide; auto using slot_kept_refl|].
    cbn [snd].
    pose proof (mark_fold_spec (seqZ 0 (packets_to_ack w a)) w Hws Hlen) as Hm.
    cbv zeta in Hm. destruct Hm as (H1 & H2 & H3 & H4 & _).
    apply Hslide; auto.
    destruct (H4 i ltac:(lia)) as [->|(-> & _)];
      [apply slot_kept_refl|apply slot_kept_ack].
Qed.

(** A retransmission: the PDU of the slot, with the new flag and a new
    checksum; the slot keeps the PDU so modified. *)
Lemma resend_slot_sound file bs w i fl n :
  frames_stored file bs w -> sender_window w n ->
  0 <= i < window_size w -> has_data (slot w i) = true ->
  fl = FLAG_RESENT_SREJ \/ fl = FLAG_RESENT_TIMEOUT ->
  let '(w', out) := resend_slot w i fl in
  frames_stored file bs w' /\
  (exists d, out = [d] /\ file_frame file bs n d /\ hdr_flag d = fl /\
             hdr_seq_num d = seq_num (slot w i)).
Proof.
  intros Hst Hsw Hi Hdata Hfl.
  pose proof Hsw as (Hws & Hlen & Hb & Hn & Hfit & Hslots & Hfull).
  unfold resend_slot. unfold has_data in Hdata.
  destruct (data (slot w i)) as [d|] eqn:Hd; [|discriminate].
  destruct (Hst i d Hi Hd) as (Hl & H7 & Hseq & Hpay).
  destruct (refresh_pdu_keeps d (len (slot w i)) fl ltac:(lia))
    as (Hrl & Hrs & Hrp).
  assert (Hflr : 0 <= fl < 256)
    by (destruct Hfl as [-> | ->]; unfold FLAG_RESENT_SREJ, FLAG_RESENT_TIMEOUT; lia).
  pose proof (refresh_pdu_frame d (len (slot w i)) fl H7 ltac:(lia) Hflr) as Hf.
  cbv zeta in Hf. destruct Hf as (F1 & F2 & F3 & F4 & F5).
  split.
  - intros j d' Hj Hd'. cbn [window_size set_slot] in Hj.
    rewrite slot_set_slot in Hd' |- * by lia.
    destruct (Z.eq_dec j i) as [->|]; [|apply Hst; assumption].
    cbn in Hd' |- *. injection Hd' as <-.
    rewrite Hrl, Hrs, Hrp. auto.
  - eexists. split; [reflexivity|].
    assert (Hrange : base w <= seq_num (slot w i) < n).
    { destruct (Hslots i Hi) as [(H0 & _)|(_ & H2 & _)]; [|exact H2].
      unfold has_data in H0. rewrite Hd in H0. discriminate. }
    split; [|split; [exact F1|congruence]].
    split; [exact F2|]. split.
    + rewrite F1. destruct Hfl as [-> | ->]; reflexivity.
    + exists (seq_num (slot w i)). split; [lia|]. split; [congruence|].
      rewrite F4, firstn_all2 by lia. exact Hpay.
Qed.

Lemma find_base_pkt_some w i :
  0 < window_size w -> find_base_pkt w = Some i ->
  0 <= i < window_size w /\ seq_num (slot w i) = base w /\
  has_data (slot w i) = true.
Proof.
  intros Hws. unfold find_base_pkt.
  destruct (_ && _) eqn:Hc.
  - intros [= <-]. apply andb_true_iff in Hc as [H1 H2].
    apply Z.eqb_eq in H1. split; [apply Z.mod_pos_bound; lia|auto].
  - intros Hs. pose proof (scan_from_range _ _ _ _ Hws Hs) as Hr.
    apply scan_from_sound in Hs. apply andb_true_iff in Hs as [H1 H2].
    apply Z.eqb_eq in H1. auto.
Qed.

Lemma sender_window_shape w n :
  sender_window w n ->
  0 < window_size w /\ Z.of_nat (length (packets w)) = window_size w /\
  0 <= base w /\ base w + window_size w < 2 ^ 32.
Proof. intros (Hws & Hlen & Hb & Hn & Hfit & _). lia. Qed.

Lemma on_control_sound file bs rs ms w d n :
  frames_stored file bs w -> sender_window w n -> 1 <= n ->
  let '(_, _, w', out) := on_control rs ms w d in
  frames_stored file bs w' /\ Forall (resent_frame file bs n) out.
Proof.
  intros Hst Hsw Hn1. pose proof Hsw as (Hws & _).
  assert (Hsame : frames_stored file bs w /\
                  Forall (resent_frame file bs n) [])
    by (split; [exact Hst|constructor]).
  unfold on_control.
  destruct (_ >=? _); [|exact Hsame]. destruct (negb _); [exact Hsame|].
  destruct (_ =? _).
  - (* RR *)
    unfold on_rr. set (a := get_be32 _ 7).
    assert (Hrr : forall (rs1 : rr_static) w1 (out : list (list Z)),
              frames_stored file bs w1 -> sender_window w1 n ->
              Forall (resent_frame file bs n) out ->
              let '(_, _, w', out') :=
                (let '(ms1, w2) := ack_and_slide ms w1 a in (rs1, ms1, w2, out)) in
              frames_stored file bs w' /\
              Forall (resent_frame file bs n) out').
    { intros rs1 w1 out H1 H2 H3.
      destruct (sender_window_shape w1 n H2) as (S1 & S2 & S3 & S4).
      pose proof (ack_and_slide_kept ms w1 a S1 S2 S3 S4) as Hk.
      destruct (ack_and_slide_sender_window ms w1 a n H2 Hn1) as (_ & _ & Hc).
      destruct (ack_and_slide ms w1 a) as [ms1 w2]. cbn [snd] in *.
      split; [|exact H3]. eapply frames_stored_kept; eauto. }
    destruct (_ && _).
    + destruct (_ >=? _); [|apply Hrr; auto].
      destruct (find_base_pkt w) as [i|] eqn:Hfind; [|apply Hrr; auto].
      apply find_base_pkt_some in Hfind as (Hi & Hsi & Hdi); [|lia].
      destruct (resend_slot_prefix w i FLAG_RESENT_TIMEOUT n (base w) Hsw Hi)
        as (H1 & H2 & H3).
      pose proof (resend_slot_sound file bs w i FLAG_RESENT_TIMEOUT n Hst Hsw
                    Hi Hdi ltac:(auto)) as Hsnd.
      destruct (resend_slot w i FLAG_RESENT_TIMEOUT) as [w' out]. cbn [fst] in *.
      destruct Hsnd as (Hst' & d' & -> & Hfr & Hfl & _).
      apply Hrr; [exact Hst'|unfold sender_window; rewrite H2; exact H1|].
      constructor; [|constructor]. split; [exact Hfr|auto].
    + destruct (negb _); apply Hrr; auto.
  - destruct (_ =? _); [|exact Hsame].
    unfold on_srej.
    destruct (window_get_packet w _) as [i|] eqn:Hget; [|exact Hsame].
    apply window_get_packet_some in Hget as (Hi & _ & Hdi); [|lia].
    pose proof (resend_slot_sound file bs w i FLAG_RESENT_SREJ n Hst Hsw
                  Hi Hdi ltac:(auto)) as Hsnd.
    destruct (resend_slot w i FLAG_RESENT_SREJ) as [w' out].
    destruct Hsnd as (Hst' & d' & -> & Hfr & Hfl & _).
    split; [exact Hst'|]. constructor; [|constructor]. split; [exact Hfr|auto].
Qed.

(** [handle_timeout] with a full window: the frame at the base is sent
    again. *)
Lemma handle_timeout_sound file bs s :
  frames_stored file bs (s_win s) ->
  sender_window (s_win s) (s_seq_num s) ->
  s_seq_num s = base (s_win s) + window_size (s_win s) ->
  let '(s', out) := handle_timeout s in
  frames_stored file bs (s_win s') /\
  (exists d, out = [d] /\ resent_frame file bs (s_seq_num s) d /\
             hdr_flag d = FLAG_RESENT_TIMEOUT /\
             hdr_seq_num d = base (s_win s)) /\
  s_buffer_size s' = s_buffer_size s /\ s_cb s' = s_cb s /\
  s_eof_retries s' = s_eof_retries s /\
  s_final_ack_received s' = s_final_ack_received s.
Proof.
  intros Hst Hsw Hfullw.
  pose proof Hsw as (Hws & Hlen & Hb & Hn & Hfit & Hslots & Hfull).
  set (w := s_win s) in *.
  set (idx := base w mod window_size w).
  assert (Hidx : 0 <= idx < window_size w) by (apply Z.mod_pos_bound; lia).
  destruct (Hfull (base w) ltac:(lia)) as (Hseq & Hdata). fold idx in Hseq, Hdata.
  unfold handle_timeout. fold w. fold idx. rewrite Hseq, Z.eqb_refl, Hdata.
  cbn [andb].
  destruct (resend_slot_prefix w idx FLAG_RESENT_TIMEOUT (s_seq_num s) (base w)
              Hsw Hidx) as (H1 & H2 & H3).
  pose proof (resend_slot_sound file bs w idx FLAG_RESENT_TIMEOUT (s_seq_num s)
                Hst Hsw Hidx Hdata ltac:(auto)) as Hsnd.
  destruct (resend_slot w idx FLAG_RESENT_TIMEOUT) as [win1 out]. cbn [fst] in *.
  destruct Hsnd as (Hst1 & d' & -> & Hfr & Hfl & Hsq).
  assert (Hout : exists d, [d'] = [d] /\ resent_frame file bs (s_seq_num s) d /\
                           hdr_flag d = FLAG_RESENT_TIMEOUT /\
                           hdr_seq_num d = base w).
  { exists d'. split; [reflexivity|]. split; [split; [exact Hfr|auto]|].
    split; [exact Hfl|congruence]. }
  assert (Hlen1 : Z.of_nat (length (packets win1)) = window_size w)
    by (destruct H1 as (_ & ? & _); lia).
  set (count := retransmit_count (slot win1 idx) + 1).
  set (win2 := set_slot win1 idx (set_retransmit_count (slot win1 idx) count)).
  assert (Hst2 : frames_stored file bs win2).
  { eapply frames_stored_kept; [exact Hst1|reflexivity|].
    intros j Hj. unfold win2. rewrite slot_set_slot by lia.
    destruct (Z.eq_dec j idx) as [->|]; [|apply slot_kept_refl].
    right. destruct (slot win1 idx); cbn; auto. }
  destruct (count >=? MAX_RETRANSMIT).
  - set (wa := set_slot win2 idx (set_acknowledged (slot win2 idx) true)).
    assert (Hwa : window_size wa = window_size w /\ base wa = base w /\
                  Z.of_nat (length (packets wa)) = window_size w).
    { unfold wa, win2. cbn [window_size base set_slot packets].
      rewrite !length_insert. auto. }
    destruct Hwa as (Hwa1 & Hwa2 & Hwa3).
    pose proof (slide_loop_spec (Z.to_nat (window_size wa)) wa 0
                  ltac:(lia) ltac:(lia) ltac:(lia) ltac:(lia)) as Hsp.
    cbv zeta in Hsp. destruct Hsp as (Hsz & _ & _ & _ & _ & Hkeep & _).
    assert (Hsta : frames_stored file bs (window_slide wa)).
    { eapply frames_stored_kept; [exact Hst2|exact Hsz|].
      intros j Hj. unfold window_slide.
      change (window_size win2) with (window_size win1) in Hj.
      destruct (Hkeep j ltac:(lia)) as [->| ->]; [|left; reflexivity].
      unfold wa. rewrite slot_set_slot
        by (unfold win2; cbn [packets set_slot]; rewrite ?length_insert; lia).
      destruct (Z.eq_dec j idx) as [->|];
        [apply slot_kept_ack|apply slot_kept_refl]. }
    cbn. split; [exact Hsta|]. split; [exact Hout|]. auto.
  - cbn. split; [exact Hst2|]. split; [exact Hout|]. auto.
Qed.

Lemma end_iteration_fields s :
  let s' := end_iteration s in
  s_win s' = s_win s /\ s_seq_num s' = s_seq_num s /\ s_fp s' = s_fp s /\
  s_eof_reached s' = s_eof_reached s /\
  s_window_size s' = s_window_size s /\ s_buffer_size s' = s_buffer_size s /\
  ((s_pc s' = PcFill /\ s_active s' = true /\ s_active s = true) \/
   (s_pc s' = PcEof /\ (s_active s = false \/ s_eof_reached s = true))).
Proof.
  unfold end_iteration.
  destruct (s_eof_reached s && _) eqn:Hc.
  - apply andb_true_iff in Hc as [Hc _]. cbn. auto 10.
  - destruct (s_active s) eqn:Ha; cbn; rewrite ?Ha; auto 10.
Qed.

Lemma handle_timeout_active s :
  s_active s = true -> s_active (fst (handle_timeout s)) = false ->
  s_eof_reached s = true.
Proof.
  unfold handle_timeout.
  repeat match goal with
         | |- context [match ?x with _ => _ end] =>
             match x with
             | s_eof_reached s && _ => fail 1
             | _ => destruct x eqn:?
             end
         | |- context [if ?c then _ else _] =>
             match c with
             | s_eof_reached s && _ => fail 1
             | _ => destruct c eqn:?
             end
         end;
    cbn; intros Ha; rewrite ?Ha; try congruence;
    destruct (s_eof_reached s); cbn; congruence.
Qed.

Lemma in_eof_phase_step s r :
  in_eof_phase s ->
  in_eof_phase (fst (sender_step s r)) /\
  sender_next_seq (fst (sender_step s r)) = sender_next_seq s.
Proof.
  unfold in_eof_phase, sender_step, sender_next_seq.
  destruct (s_pc s) eqn:Hpc; try contradiction; intros _.
  - unfold eof_step. destruct (eof_continue _ _); cbn; rewrite ?Hpc; auto.
  - unfold eof_wait_step. destruct (eof_iteration _ _ _). cbn. auto.
  - cbn. rewrite Hpc. auto.
Qed.

Lemma file_frame_mono file bs n m d :
  n <= m -> file_frame file bs n d -> file_frame file bs m d.
Proof.
  intros Hnm (H1 & H2 & q & Hq & H3). split; [exact H1|]. split; [exact H2|].
  exists q. split; [lia|exact H3].
Qed.

Lemma frames_with_flag_data_app sent out :
  frames_with_flag FLAG_DATA (sent ++ out)
  = frames_with_flag FLAG_DATA sent ++ frames_with_flag FLAG_DATA out.
Proof. apply List.filter_app. Qed.

Lemma frames_with_flag_data_resent file bs n out :
  0 <= n < 2 ^ 32 ->
  Forall (fun d => resent_frame file bs n d \/ d = eof_pdu n) out ->
  frames_with_flag FLAG_DATA out = [].
Proof.
  intros Hn. induction 1 as [|d out Hd _ IH]; [reflexivity|].
  unfold frames_with_flag in *. cbn [List.filter]. rewrite IH.
  destruct Hd as [(_ & [-> | ->]) | ->]; reflexivity.
Qed.

Section SenderSound.
Variables (file : list Z) (ws bs : Z).
Hypothesis Hws : 0 < ws < 2 ^ 30.
Hypothesis Hbs : 0 < bs.
Hypothesis HL : Z.of_nat (length file) < 2 ^ 31.

Lemma quiet_output s s' :
  sender_next_seq s' = sender_next_seq s -> step_output file bs s s' [].
Proof. intros H. right. split; [exact H|constructor]. Qed.

(** The end of an iteration of the main loop after [handle_timeout] or a
    control frame: only the window and [active] have changed. *)
Lemma end_iteration_sound s s1 out n :
  s_pc s <> PcAcks -> n = s_seq_num s ->
  file_state file ws bs s n -> s_active s = true ->
  frames_stored file bs (s_win s1) ->
  s_seq_num s1 = s_seq_num s -> s_fp s1 = s_fp s ->
  s_eof_reached s1 = s_eof_reached s ->
  s_window_size s1 = s_window_size s -> s_buffer_size s1 = s_buffer_size s ->
  (s_active s1 = false -> s_eof_reached s = true) ->
  Forall (resent_frame file bs n) out ->
  ~ in_eof_phase s -> sender_next_seq s = n ->
  file_state file ws bs (end_iteration s1) (sender_next_seq (end_iteration s1)) /\
  phase_ok (end_iteration s1) /\
  step_output file bs s (end_iteration s1) out.
Proof.
  intros Hpc -> (F1 & F2 & F3 & F4 & F5 & F6) Hact Hst E1 E2 E3 E4 E5 Ha Hout
    Hne Hnx.
  destruct (end_iteration_fields s1) as (G1 & G2 & G3 & G4 & G5 & G6 & Gpc).
  assert (Hn' : sender_next_seq (end_iteration s1) = s_seq_num s).
  { unfold sender_next_seq.
    destruct Gpc as [(-> & _)|(-> & _)]; congruence. }
  rewrite Hn'. split; [|split].
  - unfold file_state. rewrite G1, G3, G4, G5, G6, E2, E3, E4, E5. auto 10.
  - unfold phase_ok. destruct Gpc as [(-> & Hx & _)|(-> & [Hx|Hx])];
      [exact Hx|rewrite G4, E3; exact (Ha Hx)|rewrite G4; exact Hx].
  - right. rewrite Hn', Hnx. split; [reflexivity|].
    eapply Forall_impl; [exact Hout|]. intros d Hd. left. exact Hd.
Qed.

Lemma timeout_iteration_sound s :
  s_pc s <> PcAcks -> ~ in_eof_phase s ->
  sender_core (Z.of_nat (length file)) s -> window_full s = true ->
  file_state file ws bs s (s_seq_num s) -> s_active s = true ->
  let '(s1, out) := handle_timeout s in
  file_state file ws bs (end_iteration s1) (sender_next_seq (end_iteration s1)) /\
  phase_ok (end_iteration s1) /\
  step_output file bs s (end_iteration s1) out.
Proof.
  intros Hpc Hne Hc Hf Hfs Hact.
  pose proof (window_full_eq (Z.of_nat (length file)) s Hc Hf) as Heq.
  pose proof Hc as (Hsw & _).
  pose proof (handle_timeout_window s Hsw Heq) as Hw. cbv zeta in Hw.
  pose proof (handle_timeout_sound file bs s ltac:(apply Hfs) Hsw Heq) as Hs.
  pose proof (handle_timeout_active s Hact) as Ha.
  destruct (handle_timeout s) as [s1 out]. cbn [fst] in *.
  destruct Hw as (_ & _ & _ & W4 & W5 & W6 & W7 & W8).
  destruct Hs as (S1 & (d & -> & Hd & _) & S3 & _).
  assert (Hnx : sender_next_seq s = s_seq_num s).
  { unfold sender_next_seq. destruct (s_pc s); congruence. }
  apply (end_iteration_sound s s1 [d] (s_seq_num s)); auto.
Qed.

Lemma step_output_same s0 s s' out :
  s_pc s = s_pc s0 -> s_seq_num s = s_seq_num s0 ->
  step_output file bs s s' out -> step_output file bs s0 s' out.
Proof.
  intros H1 H2. unfold step_output, sender_next_seq, in_eof_phase.
  rewrite H1, H2. auto.
Qed.

Lemma after_fill_sound s :
  s_pc s = PcFill -> sender_core (Z.of_nat (length file)) s ->
  file_state file ws bs s (s_seq_num s) -> s_active s = true ->
  let '(s', out) := after_fill s in
  file_state file ws bs s' (sender_next_seq s') /\ phase_ok s' /\
  step_output file bs s s' out.
Proof.
  intros Hpc Hc Hfs Hact.
  assert (Hne : ~ in_eof_phase s) by (unfold in_eof_phase; rewrite Hpc; auto).
  assert (Hnx : sender_next_seq s = s_seq_num s)
    by (unfold sender_next_seq; rewrite Hpc; reflexivity).
  unfold after_fill.
  destruct (s_eof_reached s && _) eqn:Hdone.
  { apply andb_true_iff in Hdone as [He _].
    split; [exact Hfs|]. split; [exact He|].
    apply quiet_output. unfold sender_next_seq. cbn. rewrite Hpc. reflexivity. }
  assert (Hwait : forall tc lb,
            file_state file ws bs (with_pc (with_timeout_counter s tc lb) PcWait)
              (sender_next_seq (with_pc (with_timeout_counter s tc lb) PcWait)) /\
            phase_ok (with_pc (with_timeout_counter s tc lb) PcWait) /\
            step_output file bs s (with_pc (with_timeout_counter s tc lb) PcWait) []).
  { intros tc lb. split; [exact Hfs|]. split; [exact Hact|].
    apply quiet_output. unfold sender_next_seq. cbn. rewrite Hpc. reflexivity. }
  destruct (window_full s) eqn:Hf; [|apply Hwait].
  destruct (base (s_win s) =? s_last_base s); [|apply Hwait].
  destruct (s_timeout_counter s + 1 >=? 3); [|apply Hwait].
  set (s2 := with_timeout_counter s (s_timeout_counter s + 1) (s_last_base s)).
  pose proof (timeout_iteration_sound s2) as H.
  destruct (handle_timeout s2) as [s1 out].
  destruct H as (H1 & H2 & H3); auto.
  unfold s2. cbn. congruence.
Qed.

Lemma fill_step_sound s :
  s_pc s = PcFill -> sender_inv (Z.of_nat (length file)) s ->
  file_state file ws bs s (s_seq_num s) -> s_active s = true ->
  let '(s', out) := fill_step s in
  file_state file ws bs s' (sender_next_seq s') /\ phase_ok s' /\
  step_output file bs s s' out.
Proof.
  intros Hpc Hinv Hfs Hact.
  assert (Hc : sender_core (Z.of_nat (length file)) s) by (apply sender_inv_core; [exact Hinv|congruence]).
  pose proof Hc as (Hsw & Hwsz & H0 & HLn & Hfit).
  pose proof Hsw as (Hw & Hlen & Hb & Hn & Hfit' & _).
  pose proof Hfs as (F1 & F2 & F3 & F4 & F5 & F6).
  assert (Hne : ~ in_eof_phase s) by (unfold in_eof_phase; rewrite Hpc; auto).
  assert (Hnx : sender_next_seq s = s_seq_num s)
    by (unfold sender_next_seq; rewrite Hpc; reflexivity).
  unfold fill_step.
  rewrite (u32_small (s_seq_num s - base (s_win s))) by lia.
  destruct (Z.ltb_spec (s_seq_num s - base (s_win s)) (s_window_size s))
    as [Hroom|Hnoroom];
    [|apply after_fill_sound; assumption].
  destruct (s_eof_reached s) eqn:Heof;
    [apply after_fill_sound; assumption|].
  cbn [negb andb].
  destruct (Z.leb_spec
              (Z.of_nat (length (take (Z.to_nat (s_buffer_size s)) (s_fp s)))) 0)
    as [Hempty|Hread].
  - (* [fread] returns 0 *)
    assert (Hnil : s_fp s = []).
    { destruct (s_fp s) as [|x fp']; [reflexivity|].
      rewrite length_take in Hempty. cbn [length] in Hempty. lia. }
    match goal with
    | |- context [after_fill ?x] =>
        pose proof (after_fill_sound x Hpc) as H; destruct (after_fill x) as [s' out]
    end.
    destruct H as (H1 & H2 & H3); auto.
    unfold file_state. cbn. auto 10.
  - (* a DATA frame is stored and sent *)
    set (data_buf := take (Z.to_nat (s_buffer_size s)) (s_fp s)) in *.
    assert (Hframe : build_pdu (s_seq_num s) FLAG_DATA data_buf
                     = data_frame file bs (s_seq_num s)).
    { unfold data_frame, chunk, data_buf. rewrite F3, F2. reflexivity. }
    assert (Hlenf : (0 < length (s_fp s))%nat).
    { destruct (s_fp s); [|cbn; lia].
      unfold data_buf in Hread. rewrite take_nil in Hread. cbn in Hread. lia. }
    assert (HNL : s_seq_num s * bs < (Z.of_nat (length file))).
    { rewrite F3, length_drop in Hlenf. nia. }
    assert (Hseq : 0 <= s_seq_num s < 2 ^ 32) by lia.
    assert (Hfl : 0 <= FLAG_DATA < 256) by (unfold FLAG_DATA; lia).
    pose proof (length_build_pdu (s_seq_num s) FLAG_DATA data_buf Hseq Hfl)
      as Hlb.
    pose proof (hdr_seq_num_build_pdu (s_seq_num s) FLAG_DATA data_buf Hseq Hfl)
      as Hsq.
    pose proof (pdu_payload_build_pdu (s_seq_num s) FLAG_DATA data_buf Hseq Hfl)
      as Hpl.
    rewrite Hframe in *.
    remember (data_frame file bs (s_seq_num s)) as fr eqn:Hfr.
    destruct (window_add_packet_stored (s_win s) (s_seq_num s) fr
                (HEADER_SIZE + Z.of_nat (length data_buf)) FLAG_DATA)
      as (index & Hadd & Hidx).
    { unfold wf_window. lia. }
    { rewrite u32_small by lia. lia. }
    rewrite Hadd. cbn [snd].
    split; [|split].
    + unfold file_state, sender_next_seq. cbn.
      split; [exact F1|]. split; [exact F2|].
      split; [rewrite F3, F2, drop_drop; f_equal; nia|].
      split; [discriminate|]. split; [right; nia|].
      intros j d Hj Hd. cbn [window_size set_slot] in Hj.
      rewrite slot_set_slot in Hd |- * by lia.
      destruct (Z.eq_dec j index) as [->|]; [|apply F6; assumption].
      cbn [data seq_num len] in Hd |- *. injection Hd as <-.
      rewrite firstn_all2 by (rewrite Hlb; unfold HEADER_SIZE; lia).
      rewrite Hlb, Hsq, Hpl.
      unfold HEADER_SIZE. split; [lia|]. split; [lia|].
      split; [reflexivity|].
      unfold chunk, data_buf. rewrite F3, F2. reflexivity.
    + exact Hact.
    + left. unfold sender_next_seq at 1. cbn. rewrite Hnx.
      split; [reflexivity|]. split; [rewrite Hfr; reflexivity|exact Hne].
Qed.

Lemma acks_step_sound s r :
  s_pc s = PcAcks -> sender_inv (Z.of_nat (length file)) s ->
  file_state file ws bs s (s_seq_num s + 1) -> s_active s = true ->
  let '(s', out) := acks_step s r in
  file_state file ws bs s' (sender_next_seq s') /\ phase_ok s' /\
  step_output file bs s s' out.
Proof.
  intros Hpc (Hsw & Hwsz & H0 & HLn & Hfit & _) Hfs Hact.
  unfold sender_next_seq in Hsw, HLn. rewrite Hpc in Hsw, HLn.
  pose proof Hfs as (F1 & F2 & F3 & F4 & F5 & F6).
  assert (Hnx : sender_next_seq s = s_seq_num s + 1)
    by (unfold sender_next_seq; rewrite Hpc; reflexivity).
  unfold acks_step. destruct r as [d|].
  - pose proof (on_control_sound file bs (s_rr_acks s) (s_mark s) (s_win s) d
                  (s_seq_num s + 1) F6 Hsw ltac:(lia)) as H.
    destruct (on_control _ _ _ _) as [[[rs ms] w] out].
    destruct H as (H1 & H2).
    split; [|split].
    + unfold file_state, sender_next_seq. cbn. auto 10.
    + exact Hact.
    + right. unfold sender_next_seq at 1. cbn. rewrite Hnx.
      split; [reflexivity|].
      eapply Forall_impl; [exact H2|]. intros x Hx. left. exact Hx.
  - split; [|split].
    + unfold file_state, sender_next_seq. cbn.
      rewrite u32_small by lia. auto 10.
    + exact Hact.
    + apply quiet_output. unfold sender_next_seq at 1. cbn.
      rewrite u32_small by lia. symmetry. exact Hnx.
Qed.

Lemma wait_step_sound s r :
  s_pc s = PcWait -> sender_inv (Z.of_nat (length file)) s ->
  file_state file ws bs s (s_seq_num s) -> s_active s = true ->
  let '(s', out) := wait_step s r in
  file_state file ws bs s' (sender_next_seq s') /\ phase_ok s' /\
  step_output file bs s s' out.
Proof.
  intros Hpc Hinv Hfs Hact.
  assert (Hc : sender_core (Z.of_nat (length file)) s) by (apply sender_inv_core; [exact Hinv|congruence]).
  pose proof Hc as (Hsw & Hwsz & H0 & HLn & Hfit).
  pose proof Hfs as (F1 & F2 & F3 & F4 & F5 & F6).
  assert (Hne : ~ in_eof_phase s) by (unfold in_eof_phase; rewrite Hpc; auto).
  assert (Hnx : sender_next_seq s = s_seq_num s)
    by (unfold sender_next_seq; rewrite Hpc; reflexivity).
  assert (Hwait : base (s_win s) < s_seq_num s) by (apply Hinv; exact Hpc).
  pose proof Hsw as (Hw & Hlen & Hb & _).
  unfold wait_step. destruct r as [d|].
  - pose proof (on_control_sound file bs (s_rr_main s) (s_mark s) (s_win s) d
                  (s_seq_num s) F6 Hsw ltac:(lia)) as H.
    destruct (on_control _ _ _ _) as [[[rs ms] w] out].
    destruct H as (H1 & H2).
    apply (end_iteration_sound s _ out (s_seq_num s)); auto; try congruence.
    cbn. congruence.
  - destruct (window_full s) eqn:Hf.
    + pose proof (timeout_iteration_sound s) as H.
      destruct (handle_timeout s) as [s1 out].
      apply H; auto. congruence.
    + apply (end_iteration_sound s s [] (s_seq_num s)); auto; try congruence.
Qed.

Lemma sender_step_sound s r :
  sender_inv (Z.of_nat (length file)) s ->
  file_state file ws bs s (sender_next_seq s) -> phase_ok s ->
  let s' := fst (sender_step s r) in
  file_state file ws bs s' (sender_next_seq s') /\ phase_ok s' /\
  step_output file bs s s' (snd (sender_step s r)).
Proof.
  intros Hinv Hfs Hph. unfold sender_step.
  unfold phase_ok in Hph. unfold sender_next_seq in Hfs.
  destruct (s_pc s) eqn:Hpc.
  - pose proof (fill_step_sound s Hpc Hinv Hfs Hph) as H.
    destruct (fill_step s). exact H.
  - pose proof (acks_step_sound s r Hpc Hinv Hfs Hph) as H.
    destruct (acks_step s r). exact H.
  - pose proof (wait_step_sound s r Hpc Hinv Hfs Hph) as H.
    destruct (wait_step s r). exact H.
  - unfold eof_step. destruct Hfs as (F1 & F2 & F3 & F4 & F5 & F6).
    destruct (eof_continue _ _); cbn [fst snd].
    + split; [unfold file_state, sender_next_seq; cbn; auto 10|].
      split; [exact Hph|]. right. unfold sender_next_seq. cbn. rewrite Hpc.
      split; [reflexivity|]. constructor; [|constructor].
      right. split; [reflexivity|]. unfold in_eof_phase. cbn. exact I.
    + split; [unfold file_state, sender_next_seq; cbn; auto 10|].
      split; [exact Hph|]. apply quiet_output.
      unfold sender_next_seq. cbn. rewrite Hpc. reflexivity.
  - unfold eof_wait_step. destruct Hfs as (F1 & F2 & F3 & F4 & F5 & F6).
    destruct (eof_iteration _ _ _) as [retries final]. cbn [fst snd].
    split; [unfold file_state, sender_next_seq; cbn; auto 10|].
    split; [exact Hph|]. apply quiet_output.
    unfold sender_next_seq. cbn. rewrite Hpc. reflexivity.
  - cbn [fst snd]. split; [unfold sender_next_seq; rewrite Hpc; exact Hfs|].
    split; [unfold phase_ok; rewrite Hpc; exact Hph|].
    apply quiet_output. reflexivity.
Qed.

Lemma sender_trace_reachable s sent :
  sender_trace file ws bs s sent -> sender_reachable file ws bs s.
Proof.
  induction 1; [apply reachable_init|apply reachable_step; assumption].
Qed.

Lemma sender_trace_inv s sent :
  sender_trace file ws bs s sent -> trace_inv file ws bs s sent.
Proof.
  intros Htr. induction Htr as [|s sent r Htr IH].
  - unfold trace_inv, sender_next_seq. cbn.
    split; [|split; [reflexivity|split; [reflexivity|constructor]]].
    unfold file_state. cbn. split; [reflexivity|]. split; [reflexivity|].
    split; [reflexivity|]. split; [discriminate|]. split; [left; reflexivity|].
    intros i d Hi Hd. exfalso. revert Hd.
    rewrite slot_window_init. discriminate.
  - destruct IH as (Hfs & Hph & Hft & Hall).
    pose proof (sender_reachable_inv file ws bs s Hws HL
                  (sender_trace_reachable s sent Htr)) as Hinv.
    pose proof (sender_step_sound s r Hinv Hfs Hph) as (Hfs' & Hph' & Hout).
    assert (Hn : 0 <= sender_next_seq s /\ sender_next_seq s + 1 < 2 ^ 32).
    { destruct Hinv as ((Hw & _ & Hb & Hn & Hfit & _) & _). lia. }
    unfold trace_inv. split; [exact Hfs'|]. split; [exact Hph'|].
    rewrite frames_with_flag_data_app, Forall_app.
    destruct Hout as [(Hn' & -> & Hne) | (Hn' & Hres)]; rewrite Hn'.
    + split.
      * rewrite Hft. unfold data_frames. rewrite seqZ_snoc, map_app by lia.
        f_equal.
      * split.
        -- eapply Forall_impl; [exact Hall|]. intros d [Hd | [_ Hd]];
             [|contradiction].
           left. apply (file_frame_mono _ _ (sender_next_seq s)); [lia|exact Hd].
        -- constructor; [|constructor]. left. unfold file_frame, data_frame.
           rewrite checksum_ok_build_pdu, hdr_flag_build_pdu,
             hdr_seq_num_build_pdu, pdu_payload_build_pdu
             by (unfold FLAG_DATA; lia).
           split; [reflexivity|]. split; [reflexivity|].
           exists (sender_next_seq s). split; [lia|]. split; reflexivity.
    + split.
      * rewrite Hft, (frames_with_flag_data_resent file bs (sender_next_seq s)),
          app_nil_r; [reflexivity|lia|].
        eapply Forall_impl; [exact Hres|]. intros d [Hd | [Hd _]]; auto.
      * split.
        -- eapply Forall_impl; [exact Hall|]. intros d [Hd | [Hd He]];
             [left; exact Hd|].
           right. split; [exact Hd|]. apply in_eof_phase_step. exact He.
        -- eapply Forall_impl; [exact Hres|]. intros d [[Hd _] | Hd];
             [left; exact Hd|right; exact Hd].
Qed.

End SenderSound.

(** What a session of the sender has sent, from [trace_inv]. *)
Lemma sender_trace_sound file ws bs s sent :
  0 < ws < 2 ^ 30 -> 0 < bs -> Z.of_nat (length file) < 2 ^ 31 ->
  sender_trace file ws bs s sent ->
  let n := sender_next_seq s in
  frames_with_flag FLAG_DATA sent = data_frames file bs n /\
  0 <= n <= frame_count file bs /\
  Forall (fun d => checksum_ok d = true /\
                   (file_frame file bs n d \/
                    (d = eof_pdu (frame_count file bs) /\
                     n = frame_count file bs))) sent.
Proof.
  intros Hws Hbs HL Htr.
  pose proof (sender_trace_inv file ws bs Hws Hbs HL s sent Htr)
    as (Hfs & Hph & Hft & Hall).
  pose proof (sender_reachable_inv file ws bs s Hws HL
                (sender_trace_reachable file ws bs s sent Htr)) as Hinv.
  assert (Hn : 0 <= sender_next_seq s /\ sender_next_seq s < 2 ^ 32).
  { destruct Hinv as ((Hw & _ & Hb & Hn & Hfit & _) & _). lia. }
  destruct Hfs as (_ & _ & Hfp & Heof & Hlast & _).
  assert (Hle : sender_next_seq s <= frame_count file bs).
  { unfold frame_count. apply Z.div_le_lower_bound; [lia|]. nia. }
  assert (Hend : in_eof_phase s -> sender_next_seq s = frame_count file bs).
  { intros He.
    assert (Her : s_eof_reached s = true).
    { unfold in_eof_phase in He. unfold phase_ok in Hph.
      destruct (s_pc s); try contradiction; exact Hph. }
    pose proof (f_equal (@length Z) Hfp) as Hlen.
    rewrite (Heof Her), length_drop in Hlen. cbn [length] in Hlen.
    unfold frame_count.
    apply (Z.div_unique _ _ _
             (Z.of_nat (length file) + bs - 1 - bs * sender_next_seq s));
      [|lia].
    left. nia. }
  cbv zeta. split; [exact Hft|]. split; [lia|].
  eapply Forall_impl; [exact Hall|]. intros d [Hd | [-> He]].
  - split; [apply Hd|left; exact Hd].
  - rewrite <- (Hend He). split; [|right; auto].
    unfold eof_pdu. apply checksum_ok_build_pdu; [lia|unfold FLAG_EOF; lia].
Qed.

(** X10.  Whatever the polls of a session of the sender yield, and
    whatever the datagrams they deliver hold, the sender only sends the
    file: the datagrams with the flag DATA are, in this order and once
    each, the frames 0 to n - 1 of the file, n the next sequence number,
    which never exceeds the number of frames of the file; and any other
    datagram sent has a checksum that verifies and is a retransmission,
    with one of the two RESENT flags, of one of these frames with its
    sequence number and its bytes of the file, or the EOF PDU numbered
    with the number of frames of the file, sent after all of them. *)
Theorem sender_sends_only_the_file file ws bs s sent :
  0 < ws < 2 ^ 30 -> 0 < bs -> Z.of_nat (length file) < 2 ^ 31 ->
  sender_trace file ws bs s sent ->
  let n := sender_next_seq s in
  frames_with_flag FLAG_DATA sent = data_frames file bs n /\
  0 <= n <= frame_count file bs /\
  Forall (fun d => checksum_ok d = true /\
                   (file_frame file bs n d \/
                    (d = eof_pdu (frame_count file bs) /\
                     n = frame_count file bs))) sent.
Proof. apply sender_trace_sound. Qed.

Lemma sender_sends_only_the_file_witness :
  let s0 := send_data_packets_init [1; 2; 3; 4; 5] 2 1 in
  let s1 := sender_step s0 Timeout in
  let s2 := sender_step (fst s1) (Ready (rr_pdu 0)) in
  let s3 := sender_step (fst s2) Timeout in
  let s4 := sender_step (fst s3) Timeout in
  let s := fst s4 in
  let sent := ((([] ++ snd s1) ++ snd s2) ++ snd s3) ++ snd s4 in
  let n := sender_next_seq s in
  n = 2 /\
  frames_with_flag FLAG_DATA sent = data_frames [1; 2; 3; 4; 5] 1 n /\
  0 <= n <= frame_count [1; 2; 3; 4; 5] 1 /\
  Forall (fun d => checksum_ok d = true /\
                   (file_frame [1; 2; 3; 4; 5] 1 n d \/
                    (d = eof_pdu (frame_count [1; 2; 3; 4; 5] 1) /\
                     n = frame_count [1; 2; 3; 4; 5] 1))) sent.
Proof.
  intros s0 s1 s2 s3 s4 s sent n. split; [vm_compute; reflexivity|].
  apply (sender_sends_only_the_file [1; 2; 3; 4; 5] 2 1 s sent).
  - lia.
  - lia.
  - simpl. lia.
  - unfold sent, s, s4, s3, s2, s1, s0.
    apply trace_step, trace_step, trace_step, trace_step, trace_init.
Defined.

(** ** Timeouts of the sender *)

(** [handle_timeout] with the window full: the retransmission count of
    the frame at the base goes up by one, and at [MAX_RETRANSMIT] the
    frame is marked acknowledged and slid over. *)
Lemma handle_timeout_base s :
  sender_window (s_win s) (s_seq_num s) ->
  s_seq_num s = base (s_win s) + window_size (s_win s) ->
  let w := s_win s in
  let idx := base w mod window_size w in
  let count := retransmit_count (slot w idx) + 1 in
  let w' := s_win (fst (handle_timeout s)) in
  if count >=? MAX_RETRANSMIT then base w' = base w + 1
  else base w' = base w /\ retransmit_count (slot w' idx) = count.
Proof.
  intros Hsw Hfullw. cbv zeta.
  pose proof Hsw as (Hws & Hlen & Hb & Hn & Hfit & Hslots & Hfull).
  set (w := s_win s) in *.
  set (idx := base w mod window_size w).
  assert (Hidx : 0 <= idx < window_size w) by (apply Z.mod_pos_bound; lia).
  destruct (Hfull (base w) ltac:(lia)) as (Hseq & Hdata). fold idx in Hseq, Hdata.
  unfold handle_timeout. fold w. fold idx. rewrite Hseq, Z.eqb_refl, Hdata.
  cbn [andb].
  destruct (resend_slot_prefix w idx FLAG_RESENT_TIMEOUT (s_seq_num s) (base w)
              Hsw Hidx) as (H1 & H2 & H3).
  assert (Hrc : retransmit_count
                  (slot (fst (resend_slot w idx FLAG_RESENT_TIMEOUT)) idx)
                = retransmit_count (slot w idx)).
  { unfold resend_slot. destruct (data (slot w idx)); [|reflexivity].
    cbn [fst]. rewrite slot_set_slot_eq by lia. reflexivity. }
  destruct (resend_slot w idx FLAG_RESENT_TIMEOUT) as [win1 out]. cbn [fst] in *.
  assert (Hlen1 : Z.of_nat (length (packets win1)) = window_size w)
    by (destruct H1 as (_ & ? & _); lia).
  rewrite Hrc.
  set (count := retransmit_count (slot w idx) + 1).
  set (win2 := set_slot win1 idx (set_retransmit_count (slot win1 idx) count)).
  assert (Hsw2 : sender_window win2 (s_seq_num s) /\ base win2 = base w /\
                 window_size win2 = window_size w).
  { split; [|split; [exact H2|exact H3]].
    unfold sender_window. change (base win2) with (base win1). rewrite H2.
    eapply acked_prefix_ext; [exact H1|reflexivity|reflexivity|apply length_insert|].
    intros j Hj. unfold win2. rewrite slot_set_slot by lia.
    destruct (Z.eq_dec j idx) as [->|]; auto. }
  destruct Hsw2 as (Hsw2 & Hb2 & Hws2).
  destruct (count >=? MAX_RETRANSMIT).
  - pose proof (ack_base_prefix win2 (s_seq_num s) Hsw2 ltac:(lia)) as Hpre.
    cbv zeta in Hpre. rewrite Hb2, Hws2 in Hpre. fold idx in Hpre.
    set (wa := set_slot win2 idx (set_acknowledged (slot win2 idx) true)) in *.
    destruct (slide_loop_prefix (Z.to_nat (window_size wa)) wa 0 (s_seq_num s)
                (base w + 1) Hpre) as (Ha & Hbb & Hc).
    + change (window_size wa) with (window_size win2). lia.
    + change (base wa) with (base win2). change (window_size wa) with (window_size win2).
      lia.
    + fold (window_slide wa) in Hbb. cbn. exact Hbb.
  - cbn. split; [exact Hb2|]. unfold win2.
    rewrite slot_set_slot_eq by lia. reflexivity.
Qed.

(** X11.  In a session of the sender, a timeout of the poll of the main
    loop with the window full retransmits the frame at the base, and
    only this one: one datagram with the flag RESENT_TIMEOUT, a checksum
    that verifies, the sequence number of the base and its bytes of the
    file.  The retransmission count of the frame goes up by one; when it
    reaches [MAX_RETRANSMIT] the sender gives the frame up: the base
    moves past it although no RR has acknowledged it. *)
Theorem timeout_resends_base_frame file ws bs s sent :
  0 < ws < 2 ^ 30 -> 0 < bs -> Z.of_nat (length file) < 2 ^ 31 ->
  sender_trace file ws bs s sent ->
  s_pc s = PcWait -> window_full s = true ->
  let w := s_win s in
  let idx := base w mod window_size w in
  let count := retransmit_count (slot w idx) + 1 in
  let w' := s_win (fst (sender_step s Timeout)) in
  (exists d, snd (sender_step s Timeout) = [d] /\
             checksum_ok d = true /\ hdr_flag d = FLAG_RESENT_TIMEOUT /\
             hdr_seq_num d = base w /\
             pdu_payload d = chunk file bs (base w)) /\
  (if count >=? MAX_RETRANSMIT then base w' = base w + 1
   else base w' = base w /\ retransmit_count (slot w' idx) = count).
Proof.
  intros Hws Hbs HL Htr Hpc Hf.
  pose proof (sender_trace_inv file ws bs Hws Hbs HL s sent Htr)
    as (Hfs & _).
  pose proof (sender_reachable_inv file ws bs s Hws HL
                (sender_trace_reachable file ws bs s sent Htr)) as Hinv.
  assert (Hc : sender_core (Z.of_nat (length file)) s)
    by (apply sender_inv_core; [exact Hinv|congruence]).
  pose proof (window_full_eq _ s Hc Hf) as Heq.
  pose proof Hc as (Hsw & Hwsz & _).
  destruct Hfs as (_ & _ & _ & _ & _ & Hst).
  pose proof (handle_timeout_sound file bs s Hst Hsw ltac:(lia)) as Hsnd.
  pose proof (handle_timeout_base s Hsw ltac:(lia)) as Hbase.
  cbv zeta in Hbase |- *.
  unfold sender_step, wait_step. rewrite Hpc, Hf.
  destruct (handle_timeout s) as [s1 out]. cbn [fst snd] in *.
  rewrite end_iteration_win.
  destruct Hsnd as (_ & (d & -> & ((Hck & _ & q & _ & Hq & Hpay) & _) & Hfl & Hsq)
                    & _).
  split; [|exact Hbase].
  exists d. split; [reflexivity|]. split; [exact Hck|]. split; [exact Hfl|].
  split; [exact Hsq|]. rewrite <- Hsq, Hq. exact Hpay.
Qed.

Lemma timeout_resends_base_frame_witness :
  let s1 := sender_step (send_data_packets_init [1; 2; 3; 4; 5] 2 1) Timeout in
  let s2 := sender_step (fst s1) Timeout in
  let s3 := sender_step (fst s2) Timeout in
  let s4 := sender_step (fst s3) Timeout in
  let s5 := sender_step (fst s4) Timeout in
  let s := fst s5 in
  let w' := s_win (fst (sender_step s Timeout)) in
  (s_pc s = PcWait /\ base (s_win s) = 0 /\ s_seq_num s = 2) /\
  (exists d, snd (sender_step s Timeout) = [d] /\
             checksum_ok d = true /\ hdr_flag d = FLAG_RESENT_TIMEOUT /\
             hdr_seq_num d = base (s_win s) /\
             pdu_payload d = chunk [1; 2; 3; 4; 5] 1 (base (s_win s))) /\
  (if retransmit_count
        (slot (s_win s) (base (s_win s) mod window_size (s_win s))) + 1
      >=? MAX_RETRANSMIT
   then base w' = base (s_win s) + 1
   else base w' = base (s_win s) /\
        retransmit_count
          (slot w' (base (s_win s) mod window_size (s_win s)))
        = retransmit_count
            (slot (s_win s) (base (s_win s) mod window_size (s_win s))) + 1).
Proof.
  intros s1 s2 s3 s4 s5 s w'. split; [vm_compute; auto|].
  apply (timeout_resends_base_frame [1; 2; 3; 4; 5] 2 1 s
           (((((([] ++ snd s1) ++ snd s2) ++ snd s3) ++ snd s4) ++ snd s5))).
  - lia.
  - lia.
  - simpl. lia.
  - unfold s, s5, s4, s3, s2, s1.
    apply trace_step, trace_step, trace_step, trace_step, trace_step,
      trace_init.
  - vm_compute. reflexivity.
  - vm_compute. reflexivity.
Defined.

(** X12.  At the end of the file with the window not full, the sender
    does not wait and does not retransmit: while frames are outstanding
    and no datagram arrives, a poll with timeout 0 and an empty pass
    through the fill loop follow each other without end.  Every second
    step the sender is back in the same state, nothing is sent, and
    [send_eof_packet] is never reached. *)
Theorem sender_idles_at_end_of_file s n :
  s_pc s = PcWait -> s_active s = true -> s_eof_reached s = true ->
  base (s_win s) < s_seq_num s -> window_full s = false ->
  sender_idle (2 * n) s = s /\
  sender_idle (2 * n + 1) s = with_pc s PcFill /\
  snd (sender_step (sender_idle n s) Timeout) = [] /\
  sender_poll s = Some 0.
Proof.
  intros Hpc Hact Heof Hlt Hnf.
  assert (H1 : sender_step s Timeout = (with_pc s PcFill, [])).
  { unfold sender_step, wait_step, end_iteration. rewrite Hpc, Hnf, Heof.
    destruct (Z.geb_spec (base (s_win s)) (s_seq_num s)); [lia|].
    cbn [andb]. rewrite Hact. reflexivity. }
  assert (H2 : sender_step (with_pc s PcFill) Timeout = (s, [])).
  { clear H1. unfold window_full in Hnf.
    destruct s as [pc w sq eof act tc lb fp cb wsz bsz ms ra rm er fa].
    cbn in Hpc, Hact, Heof, Hlt, Hnf. subst.
    unfold sender_step, fill_step, after_fill, window_full. cbn.
    rewrite Hnf, andb_false_r.
    destruct (Z.eqb_spec (base w) sq); [lia|]. reflexivity. }
  assert (HS : forall k, sender_idle (S k) s
                         = fst (sender_step (sender_idle k s) Timeout))
    by reflexivity.
  assert (Heven : forall k, sender_idle (2 * k) s = s).
  { induction k as [|k IH]; [reflexivity|].
    replace (2 * S k)%nat with (S (S (2 * k))) by lia.
    rewrite !HS, IH, H1. cbn [fst]. rewrite H2. reflexivity. }
  assert (Hodd : forall k, sender_idle (2 * k + 1) s = with_pc s PcFill).
  { intros k. replace (2 * k + 1)%nat with (S (2 * k)) by lia.
    rewrite HS, Heven, H1. reflexivity. }
  split; [apply Heven|]. split; [apply Hodd|]. split.
  - destruct (Nat.Even_or_Odd n) as [[k ->] | [k ->]].
    + rewrite Heven, H1. reflexivity.
    + rewrite Hodd, H2. reflexivity.
  - unfold sender_poll. rewrite Hpc, Hnf. reflexivity.
Qed.

Lemma sender_idles_at_end_of_file_witness :
  let s1 := sender_step (send_data_packets_init [1] 2 1) Timeout in
  let s2 := sender_step (fst s1) Timeout in
  let s3 := sender_step (fst s2) Timeout in
  let s := fst s3 in
  sender_reachable [1] 2 1 s /\
  snd s1 ++ snd s2 ++ snd s3 = [data_frame [1] 1 0] /\
  sender_idle (2 * 50) s = s /\
  sender_idle (2 * 50 + 1) s = with_pc s PcFill /\
  snd (sender_step (sender_idle 50 s) Timeout) = [] /\
  sender_poll s = Some 0.
Proof.
  intros s1 s2 s3 s.
  split; [apply reachable_step, reachable_step, reachable_step,
            reachable_init|].
  split; [vm_compute; reflexivity|].
  apply (sender_idles_at_end_of_file s 50).
  - vm_compute. reflexivity.
  - vm_compute. reflexivity.
  - vm_compute. reflexivity.
  - vm_compute. reflexivity.
  - vm_compute. reflexivity.
Defined.

(** ** The receiver only writes the file *)

Lemma length_chunk file bs q : 0 <= bs -> Z.of_nat (length (chunk file bs q)) <= bs.
Proof. intros H. unfold chunk. rewrite length_take. lia. Qed.

Section ReceiverSound.
Variables (file : list Z) (ws bs N : Z).
Hypothesis Hws : 0 < ws.
Hypothesis Hbs : 0 < bs <= MAX_DATA_SIZE.
Hypothesis HN : 0 <= N < 2 ^ 32 - 1.

Lemma drain_buffered_sound fuel : forall w ms e,
  window_shape ws w -> frames_stored file bs w -> slots_below N w ->
  0 <= e <= N ->
  let '(w', _, e', writes, _) := drain_buffered fuel w ms e in
  e <= e' <= N /\
  writes = List.map (fun q => WriteData q (chunk file bs q)) (seqZ e (e' - e)) /\
  window_shape ws w' /\ frames_stored file bs w' /\ slots_below N w'.
Proof.
  induction fuel as [|fuel IH]; intros w ms e Hsh Hst Hbel He.
  - cbn. rewrite Z.sub_diag. split; [lia|]. auto.
  - cbn [drain_buffered].
    destruct (window_get_packet w e) as [i|] eqn:Hget.
    2:{ rewrite Z.sub_diag. split; [lia|]. auto. }
    pose proof Hsh as (Hsz & Hlen).
    apply window_get_packet_some in Hget as (Hi & Hseq & Hdata); [|lia].
    pose proof (Hbel i Hi Hdata) as Hlt. rewrite Hseq in Hlt.
    unfold has_data in Hdata.
    destruct (data (slot w i)) as [d|] eqn:Hd; [|discriminate].
    destruct (Hst i d Hi Hd) as (Hl & H7 & Hsq & Hpay).
    destruct (window_mark_ack_frames ms w e ltac:(lia) ltac:(lia))
      as (Hws1 & _ & Hlen1 & Hsame).
    destruct (window_mark_ack ms w e) as [ms1 w1]. cbn [snd] in *.
    assert (Hsh1 : window_shape ws w1) by (split; lia).
    assert (Hst1 : frames_stored file bs w1).
    { intros j d' Hj Hd'. destruct (Hsame j ltac:(lia)) as (E1 & E2 & E3).
      rewrite E1, E3. apply Hst; [lia|congruence]. }
    assert (Hbel1 : slots_below N w1).
    { intros j Hj Hd'. destruct (Hsame j ltac:(lia)) as (E1 & E2 & E3).
      rewrite E1. apply Hbel; [lia|]. unfold has_data in *. rewrite <- E2.
      exact Hd'. }
    rewrite (u32_small (e + 1)) by lia.
    specialize (IH w1 ms1 (e + 1) Hsh1 Hst1 Hbel1 ltac:(lia)).
    destruct (drain_buffered fuel w1 ms1 (e + 1))
      as [[[[w2 ms2] e2] writes] out].
    destruct IH as (He2 & Hw & Hrest).
    split; [lia|]. split; [|exact Hrest].
    rewrite (seqZ_cons e (e2 - e)) by lia. cbn [List.map].
    replace (Z.succ e) with (e + 1) by lia.
    replace (Z.pred (e2 - e)) with (e2 - (e + 1)) by lia.
    rewrite <- Hw. f_equal. change (default [] (Some d)) with d.
    rewrite Hseq in Hpay, Hsq. rewrite Hsq, <- Hpay. f_equal. apply take_ge.
    unfold pdu_payload. rewrite length_drop. unfold HEADER_SIZE. lia.
Qed.

Lemma window_add_packet_frames w q d l fl :
  window_shape ws w -> frames_stored file bs w -> slots_below N w ->
  0 <= q < N -> l = Z.of_nat (length d) -> HEADER_SIZE <= l ->
  hdr_seq_num d = q -> pdu_payload d = chunk file bs q ->
  let w' := snd (window_add_packet w q d l fl) in
  frames_stored file bs w' /\ slots_below N w'.
Proof.
  intros (Hsz & Hlen) Hst Hbel Hq Hl H7 Hseq Hpay. cbv zeta.
  unfold window_add_packet.
  destruct (_ >? _); [split; assumption|]. cbn [snd].
  match goal with
  | |- context [set_slot w ?ix _] => set (index := ix)
  end.
  assert (Hidx : 0 <= index < window_size w).
  { assert (H0 : 0 <= q mod window_size w < window_size w)
      by (apply Z.mod_pos_bound; lia).
    unfold index. destruct (_ && _); [|exact H0].
    destruct (_ && _); [|exact H0].
    destruct (scan_from _ _ _) as [alt|] eqn:Hscan; [|exact H0].
    apply scan_from_range in Hscan; [exact Hscan|lia]. }
  split.
  - intros i d' Hi Hd'. cbn [window_size set_slot] in Hi.
    rewrite slot_set_slot in Hd' |- * by lia.
    destruct (Z.eq_dec i index) as [->|]; [|apply Hst; assumption].
    cbn [data seq_num len] in Hd' |- *. injection Hd' as <-.
    rewrite Hl, Nat2Z.id, firstn_all2 by lia.
    unfold HEADER_SIZE in H7. split; [reflexivity|]. split; [lia|]. auto.
  - intros i Hi Hd'. cbn [window_size set_slot] in Hi.
    rewrite slot_set_slot in Hd' |- * by lia.
    destruct (Z.eq_dec i index) as [->|]; [|apply Hbel; assumption].
    cbn [seq_num]. lia.
Qed.

Lemma receiver_step_sound rc r n :
  window_shape ws (r_win rc) -> receiver_sound file bs N rc n ->
  poll_sound file bs N r ->
  exists n', receiver_sound file bs N (fst (receiver_step rc r)) n'.
Proof.
  intros Hsh Hinv Hr.
  assert (Hsame : exists n', receiver_sound file bs N rc n')
    by (exists n; exact Hinv).
  destruct Hinv as (Hn & He & Hw & Hst & Hbel).
  unfold receiver_step. destruct r as [d|].
  2:{ destruct (r_eof_received rc); exists n; unfold receiver_sound; cbn;
      auto 10. }
  destruct (Z.ltb_spec (Z.of_nat (length (recvfrom MAX_PDU_SIZE d))) HEADER_SIZE)
    as [Hshort|Hlong]; [exact Hsame|].
  destruct (checksum_ok (recvfrom MAX_PDU_SIZE d)) eqn:Hck; [|exact Hsame].
  cbn [negb]. cbn [poll_sound] in Hr.
  destruct Hr as [Hbad | [Hfr | [-> | ->]]]; [congruence| | |].
  - (* a frame of the file *)
    destruct Hfr as (_ & Hfl & q & Hq & Hseq & Hpay).
    assert (Hrecv : recvfrom MAX_PDU_SIZE d = d).
    { unfold recvfrom. apply take_ge.
      pose proof (length_chunk file bs q ltac:(lia)) as Hc.
      rewrite <- Hpay in Hc. unfold pdu_payload in Hc. rewrite length_drop in Hc.
      unfold MAX_PDU_SIZE, MAX_DATA_SIZE, HEADER_SIZE in *. lia. }
    rewrite Hrecv in *.
    destruct (set_hdr_checksum_keeps d 0) as (K1 & K2 & K3 & K4).
    set (buf := set_hdr_checksum d 0) in *.
    rewrite K2, K3, K4, Hfl, Hseq, Hpay, He.
    assert (Hbytes : take (Z.to_nat (Z.of_nat (length d) - HEADER_SIZE))
                       (chunk file bs q) = chunk file bs q).
    { apply take_ge. rewrite <- Hpay. unfold pdu_payload. rewrite length_drop.
      unfold HEADER_SIZE. lia. }
    destruct (Z.eqb_spec q n) as [->|Hne].
    + rewrite Hbytes, (u32_small (n + 1)) by lia.
      pose proof (drain_buffered_sound (S (Z.to_nat (window_size (r_win rc))))
                    (r_win rc) (r_mark rc) (n + 1) Hsh Hst Hbel ltac:(lia)) as H.
      destruct (drain_buffered _ _ _ _) as [[[[w2 ms2] e2] writes] out].
      destruct H as (He2 & Hw2 & Hsh2 & Hst2 & Hbel2).
      exists e2. cbn. split; [lia|]. split; [reflexivity|].
      split; [|split; [exact Hst2|exact Hbel2]].
      rewrite Hw, Hw2.
      replace e2 with (n + (1 + (e2 - (n + 1)))) at 3 by lia.
      rewrite (seqZ_app 0 n), map_app, Z.add_0_l by lia.
      f_equal. rewrite (seqZ_cons n) by lia. cbn [List.map r_writes].
      replace (Z.succ n) with (n + 1) by lia.
      replace (Z.pred (1 + (e2 - (n + 1)))) with (e2 - (n + 1)) by lia.
      reflexivity.
    + destruct (Z.gtb_spec q n) as [Hgt|Hle].
      2:{ exists n. unfold receiver_sound. cbn. auto 10. }
      cbn [fst r_expected_seq r_writes r_win].
      exists n. split; [lia|]. split; [reflexivity|]. split; [exact Hw|].
      set (w0 := if base (r_win rc) <? n then set_base (r_win rc) n
                 else r_win rc).
      assert (Hsh0 : window_shape ws w0)
        by (unfold w0; destruct (_ <? _); exact Hsh).
      assert (Hslot0 : forall i, slot w0 i = slot (r_win rc) i)
        by (intros i; unfold w0; destruct (_ <? _); reflexivity).
      assert (Hws0 : window_size w0 = window_size (r_win rc))
        by (unfold w0; destruct (_ <? _); reflexivity).
      destruct Hsh0 as (Hsz0 & Hlen0).
      assert (Hst0 : frames_stored file bs w0).
      { intros i d' Hi Hd'. rewrite Hws0 in Hi. rewrite Hslot0 in Hd' |- *.
        apply Hst; [exact Hi|exact Hd']. }
      assert (Hbel0 : slots_below N w0).
      { intros i Hi Hd'. rewrite Hws0 in Hi. rewrite Hslot0 in Hd' |- *.
        apply Hbel; [exact Hi|exact Hd']. }
      apply (window_add_packet_frames w0 q buf (Z.of_nat (length d))
               (hdr_flag d) (conj Hsz0 Hlen0) Hst0 Hbel0 Hq);
        [rewrite K1; reflexivity|exact Hlong|congruence|congruence].
  - (* the EOF PDU *)
    assert (Hrecv : recvfrom MAX_PDU_SIZE (eof_pdu N) = eof_pdu N)
      by (apply recvfrom_all; unfold eof_pdu;
          rewrite length_build_pdu by (unfold FLAG_EOF; lia); cbn [length];
          unfold MAX_PDU_SIZE, HEADER_SIZE, MAX_DATA_SIZE; lia).
    rewrite Hrecv in *.
    destruct (set_hdr_checksum_keeps (eof_pdu N) 0) as (K1 & K2 & K3 & K4).
    assert (Hflag : hdr_flag (eof_pdu N) = FLAG_EOF)
      by (apply hdr_flag_build_pdu; unfold FLAG_EOF; lia).
    assert (Hlen : length (eof_pdu N) = 7%nat)
      by (unfold eof_pdu; rewrite length_build_pdu by (unfold FLAG_EOF; lia);
          reflexivity).
    rewrite K3, Hflag, Hlen.
    change (is_data_flag FLAG_EOF) with false. cbv iota.
    cbn. rewrite app_nil_r. exists n. unfold receiver_sound. cbn. auto 10.
  - (* a FILENAME_RESP "OK" of the handshake: neither data nor EOF *)
    assert (Hflag : hdr_flag (set_hdr_checksum
                                (recvfrom MAX_PDU_SIZE
                                   (filename_resp_pdu msg_ok)) 0)
                    = FLAG_FILENAME_RESP) by (vm_compute; reflexivity).
    rewrite Hflag.
    change (is_data_flag FLAG_FILENAME_RESP) with false.
    change (FLAG_FILENAME_RESP =? FLAG_EOF) with false. cbv iota.
    exact Hsame.
Qed.

Lemma process_file_transfer_loop_sound fuel : forall rc polls n,
  window_shape ws (r_win rc) -> receiver_sound file bs N rc n ->
  Forall (poll_sound file bs N) polls ->
  exists n',
    receiver_sound file bs N (fst (process_file_transfer_loop fuel rc polls)) n'.
Proof.
  induction fuel as [|fuel IH]; intros rc polls n Hsh Hinv Hpolls.
  - exists n. exact Hinv.
  - cbn [process_file_transfer_loop].
    destruct (r_finished rc); [exists n; exact Hinv|].
    assert (Hnext : poll_sound file bs N (fst (next_poll polls)) /\
                    Forall (poll_sound file bs N) (snd (next_poll polls))).
    { destruct Hpolls; cbn; auto. }
    destruct (next_poll polls) as [r polls']. cbn [fst snd] in Hnext.
    destruct Hnext as (Hr & Hpolls').
    destruct (receiver_step_sound rc r n Hsh Hinv Hr) as (n1 & Hinv1).
    pose proof (receiver_step_shape ws rc r Hws Hsh) as Hsh1.
    destruct (receiver_step rc r) as [rc1 out1]. cbn [fst] in *.
    destruct (IH rc1 polls' n1 Hsh1 Hinv1 Hpolls') as (n2 & Hinv2).
    destruct (process_file_transfer_loop fuel rc1 polls') as [rc2 out2].
    exists n2. exact Hinv2.
Qed.

End ReceiverSound.

Lemma frame_count_le file bs :
  0 < bs -> 0 <= frame_count file bs <= Z.of_nat (length file).
Proof.
  intros Hbs. unfold frame_count. split.
  - apply Z.div_pos; lia.
  - apply Z.lt_succ_r, Z.div_lt_upper_bound; [lia|]. nia.
Qed.

(** The FILENAME_RESP PDUs that [handle_client] sends for a file it has
    opened are all the "OK" response. *)
Lemma handle_client_response_ok_sent hpolls d :
  In d (snd (handle_client_response true hpolls)) ->
  d = filename_resp_pdu msg_ok.
Proof.
  rewrite send_filename_response_ok_cases. intros Hin.
  repeat match type of Hin with
         | context [if ?c then _ else _] => destruct c
         end;
    cbn [snd] in Hin; apply list_elem_of_In, elem_of_replicate in Hin;
    apply Hin.
Qed.

(** X13.  Whatever the network does to the datagrams of the child of the
    server that serves the file (the FILENAME_RESP "OK" PDUs of
    [handle_client], whatever the polls [hpolls] of the handshake were,
    and then the datagrams of [send_data_packets]): losing, repeating or
    reordering them, or damaging them so that the checksum fails, the
    output file of the client is a prefix of the file served, made of
    whole frames: the first [expected_seq] frames of the file, and
    [expected_seq] never exceeds the number of frames of the file. *)
Theorem client_output_is_prefix file ws bs hpolls s sent polls :
  0 < ws < 2 ^ 30 -> 0 < bs <= MAX_DATA_SIZE ->
  Z.of_nat (length file) < 2 ^ 31 ->
  sender_trace file ws bs s sent ->
  Forall (delivered (snd (handle_client_response true hpolls) ++ sent)) polls ->
  let rc := fst (process_file_transfer ws polls) in
  0 <= r_expected_seq rc <= frame_count file bs /\
  sink (r_writes rc) = take (Z.to_nat (r_expected_seq rc * bs)) file.
Proof.
  intros Hws Hbs HL Htr Hpolls.
  set (N := frame_count file bs).
  pose proof (frame_count_le file bs ltac:(lia)) as HN. fold N in HN.
  pose proof (sender_trace_sound file ws bs s sent Hws ltac:(lia) HL Htr)
    as (_ & Hle & Hall).
  cbv zeta in Hle, Hall. fold N in Hle, Hall.
  assert (Hsound : Forall (poll_sound file bs N) polls).
  { eapply Forall_impl; [exact Hpolls|]. intros [d|] Hd; [|exact I].
    cbn in Hd |- *. destruct Hd as [Hin | Hbad]; [|left; exact Hbad].
    right. apply in_app_or in Hin as [Hresp | Hin].
    { right. right. exact (handle_client_response_ok_sent hpolls d Hresp). }
    rewrite Forall_forall in Hall.
    apply list_elem_of_In in Hin.
    destruct (Hall d Hin) as (_ & [Hfr | [-> _]]);
      [|right; left; reflexivity].
    left. apply (file_frame_mono _ _ (sender_next_seq s)); [lia|exact Hfr]. }
  destruct (process_file_transfer_loop_sound file ws bs N ltac:(lia) Hbs
              ltac:(lia) (15 + length polls) (process_file_transfer_init ws)
              polls 0) as (n & Hn & He & Hw & _).
  - split; [reflexivity|]. cbn. rewrite length_replicate. lia.
  - unfold receiver_sound. cbn. split; [lia|]. split; [reflexivity|].
    split; [reflexivity|]. split.
    + intros i d Hi Hd. rewrite slot_window_init in Hd. discriminate.
    + intros i Hi Hd. rewrite slot_window_init in Hd. discriminate.
  - exact Hsound.
  - fold (process_file_transfer ws polls) in He, Hw. cbv zeta.
    rewrite He, Hw. split; [exact Hn|].
    rewrite <- (Z2Nat.id n) at 1 2 by lia. apply sink_chunks. lia.
Qed.

Lemma client_output_is_prefix_witness :
  let file := [1; 2; 3; 4; 5] in
  let hpolls := [Timeout; Timeout] in
  let s1 := sender_step (send_data_packets_init file 2 1) Timeout in
  let s2 := sender_step (fst s1) Timeout in
  let s3 := sender_step (fst s2) Timeout in
  let sent := (([] ++ snd s1) ++ snd s2) ++ snd s3 in
  let polls := [Ready (filename_resp_pdu msg_ok);
                Ready (data_frame file 1 1);
                Ready (filename_resp_pdu msg_ok); Timeout;
                Ready (data_frame file 1 0); Ready [0; 0; 0; 2; 0; 0; 16; 9]] in
  let rc := fst (process_file_transfer 2 polls) in
  snd (handle_client_response true hpolls)
  = replicate 3 (filename_resp_pdu msg_ok) /\
  sent = [data_frame file 1 0; data_frame file 1 1] /\
  r_expected_seq rc = 2 /\
  0 <= r_expected_seq rc <= frame_count file 1 /\
  sink (r_writes rc) = take (Z.to_nat (r_expected_seq rc * 1)) file.
Proof.
  intros file hpolls s1 s2 s3 sent polls rc.
  split; [vm_compute; reflexivity|].
  split; [vm_compute; reflexivity|]. split; [vm_compute; reflexivity|].
  apply (client_output_is_prefix file 2 1 hpolls (fst s3) sent polls).
  - lia.
  - unfold MAX_DATA_SIZE. lia.
  - simpl. lia.
  - unfold sent, s3, s2, s1. apply trace_step, trace_step, trace_step, trace_init.
  - apply List.Forall_cons; [left; vm_compute; auto|].
    apply List.Forall_cons; [left; vm_compute; auto 10|].
    apply List.Forall_cons; [left; vm_compute; auto|].
    apply List.Forall_cons; [exact I|].
    apply List.Forall_cons; [left; vm_compute; auto 10|].
    apply List.Forall_cons; [right; vm_compute; reflexivity|].
    apply List.Forall_nil.
Defined.

(** ** The circular buffer *)

Lemma lookup_memcpy_at_other buf pos src (i : nat) :
  0 <= pos -> (Z.to_nat pos + length src <= length buf)%nat ->
  (i < Z.to_nat pos \/ Z.to_nat pos + length src <= i)%nat ->
  CircularBuffer.memcpy_at buf pos src !! i = buf !! i.
Proof.
  intros Hpos Hfit Hi. unfold CircularBuffer.memcpy_at.
  destruct Hi as [Hlt | Hge].
  - rewrite lookup_app_l by (rewrite length_take; lia).
    apply lookup_take_lt. lia.
  - rewrite lookup_app_r by (rewrite length_take; lia).
    rewrite length_take, Nat.min_l by lia.
    rewrite lookup_app_r by lia.
    rewrite lookup_drop. f_equal. lia.
Qed.

Lemma length_memcpy_at buf pos src :
  0 <= pos -> (Z.to_nat pos + length src <= length buf)%nat ->
  length (CircularBuffer.memcpy_at buf pos src) = length buf.
Proof.
  intros Hpos Hfit. unfold CircularBuffer.memcpy_at.
  rewrite !length_app, length_take, length_drop. lia.
Qed.

Lemma memcpy_at_same buf pos src :
  0 <= pos -> (Z.to_nat pos + length src <= length buf)%nat ->
  take (length src) (drop (Z.to_nat pos) (CircularBuffer.memcpy_at buf pos src))
  = src.
Proof.
  intros Hpos Hfit. unfold CircularBuffer.memcpy_at.
  rewrite drop_app_length' by (rewrite length_take; lia).
  apply take_app_length.
Qed.

Lemma memcpy_at_other buf pos src p (l : nat) :
  0 <= pos -> (Z.to_nat pos + length src <= length buf)%nat ->
  (p + l <= Z.to_nat pos \/ Z.to_nat pos + length src <= p)%nat ->
  take l (drop p (CircularBuffer.memcpy_at buf pos src)) = take l (drop p buf).
Proof.
  intros Hpos Hfit Hp. apply list_eq. intros i.
  destruct (Nat.lt_ge_cases i l) as [Hi|Hi].
  - rewrite !lookup_take_lt, !lookup_drop by lia.
    apply lookup_memcpy_at_other; [exact Hpos|exact Hfit|lia].
  - rewrite !lookup_take_ge by lia. reflexivity.
Qed.

Lemma mod_block_ne cap j n : 0 < n - j < cap -> j mod cap <> n mod cap.
Proof.
  intros H E. assert (Hz : (n - j) mod cap = 0).
  { rewrite Zminus_mod, E, Z.sub_diag. apply Z.mod_0_l. lia. }
  rewrite Z.mod_small in Hz by lia. lia.
Qed.

Lemma block_succ cap bsz a :
  0 < cap -> 0 < bsz ->
  ((a mod cap) * bsz + bsz) mod (cap * bsz) = ((a + 1) mod cap) * bsz.
Proof.
  intros Hc Hb. replace ((a mod cap) * bsz + bsz) with ((a mod cap + 1) * bsz) by lia.
  rewrite Z.mul_mod_distr_r by lia. f_equal.
  rewrite Zplus_mod_idemp_l. reflexivity.
Qed.

Lemma evict_once fuel cb len :
  (0 < fuel)%nat -> 0 < len <= CircularBuffer.buffer_size cb ->
  CircularBuffer.head cb mod CircularBuffer.buffer_size cb = 0 ->
  CircularBuffer.buffer_size cb <= CircularBuffer.bytes_stored cb ->
  CircularBuffer.evict fuel cb len 0
  = (CircularBuffer.CB (CircularBuffer.data cb) (CircularBuffer.size cb)
       ((CircularBuffer.head cb + CircularBuffer.buffer_size cb)
        mod CircularBuffer.size cb)
       (CircularBuffer.tail cb)
       (CircularBuffer.bytes_stored cb - CircularBuffer.buffer_size cb)
       (CircularBuffer.start_seq cb) (CircularBuffer.end_seq cb)
       (CircularBuffer.buffer_size cb), 1).
Proof.
  intros Hfuel Hlen Hhead Hst. destruct fuel as [|fuel]; [lia|].
  cbn [CircularBuffer.evict].
  destruct (Z.gtb_spec len 0); [|lia].
  destruct (Z.gtb_spec (CircularBuffer.bytes_stored cb) 0); [|lia].
  cbn [andb]. change (0 =? 0) with true. cbv iota. rewrite Hhead, Z.sub_0_r.
  destruct (Z.gtb_spec (CircularBuffer.buffer_size cb)
              (CircularBuffer.bytes_stored cb)); [lia|].
  destruct (Z.gtb_spec len (CircularBuffer.buffer_size cb)); [lia|].
  rewrite Z.sub_diag. change (u32 (0 + 1)) with 1.
  destruct fuel; reflexivity.
Qed.

Section Aligned.
Variables (cap bsz : Z).
Hypothesis Hcap : 0 < cap.
Hypothesis Hbsz : 0 < bsz.
Hypothesis Hsize : cap * bsz < 2 ^ 32.

Lemma write_aligned frames cb f :
  Z.of_nat (length frames) + 1 < 2 ^ 32 ->
  cb_content cap bsz frames cb ->
  CircularBuffer.tail cb = (Z.of_nat (length frames) mod cap) * bsz ->
  Forall (fun g => Z.of_nat (length g) = bsz) frames ->
  0 < Z.of_nat (length f) <= bsz ->
  let r := CircularBuffer.circular_buffer_write cb f (Z.of_nat (length frames)) in
  fst r = 0 /\ cb_content cap bsz (frames ++ [f]) (snd r) /\
  (Z.of_nat (length f) = bsz ->
   CircularBuffer.tail (snd r) = (Z.of_nat (length (frames ++ [f])) mod cap) * bsz).
Proof.
  intros Hn (C1 & C2 & C3 & C4 & C5 & C6 & C7 & C8) Htail Hfull Hf.
  cbv zeta in *.
  set (n := Z.of_nat (length frames)) in *.
  set (k := Z.min n cap) in *.
  set (len := Z.of_nat (length f)) in *.
  assert (Hstored : CircularBuffer.bytes_stored cb = k * bsz).
  { rewrite C7. destruct (last frames) as [g|] eqn:Hlast.
    - apply last_Some in Hlast as (l' & ->).
      apply Forall_app in Hfull as (_ & Hg). inversion Hg; subst. lia.
    - apply last_None in Hlast. subst frames. unfold k, n. cbn. lia. }
  assert (Hmodn : 0 <= n mod cap < cap) by (apply Z.mod_pos_bound; lia).
  set (k' := Z.min (n + 1) cap).
  (* the buffer after the eviction *)
  set (cb1 := CircularBuffer.CB (CircularBuffer.data cb) (cap * bsz)
                (((n + 1 - k') mod cap) * bsz) (CircularBuffer.tail cb)
                ((k' - 1) * bsz) (n + 1 - k') n bsz).
  assert (Hcb1 :
    (if CircularBuffer.bytes_stored cb + len >? CircularBuffer.size cb then
       let '(cb', seqs_to_remove) :=
         CircularBuffer.evict (Z.to_nat (CircularBuffer.bytes_stored cb)) cb len 0 in
       CircularBuffer.CB (CircularBuffer.data cb') (CircularBuffer.size cb')
         (CircularBuffer.head cb') (CircularBuffer.tail cb')
         (CircularBuffer.bytes_stored cb')
         (u32 (CircularBuffer.start_seq cb' + seqs_to_remove))
         (CircularBuffer.end_seq cb') (CircularBuffer.buffer_size cb')
     else cb) = cb1).
  { rewrite Hstored, C1.
    destruct (Z.gtb_spec (k * bsz + len) (cap * bsz)) as [Hev|Hno].
    - assert (Hk : k = cap) by nia.
      assert (Hk' : k' = cap) by (unfold k' in *; unfold k in Hk; lia).
      rewrite evict_once; [|nia|rewrite C2; lia| |rewrite C2, Hstored; nia].
      2:{ rewrite C2, C6. apply Z.mod_mul. lia. }
      cbn. unfold cb1. rewrite C1, C2, C4, C5, C6, Hstored, Hk, Hk'.
      rewrite block_succ by lia. rewrite u32_small by (unfold n in *; lia).
      f_equal; try lia. f_equal. f_equal. lia.
    - assert (Hk : k = n) by (unfold k in *; nia).
      assert (Hk' : k' = n + 1) by (unfold k' in *; unfold k in Hk; nia).
      unfold cb1. rewrite Hk'.
      replace (n + 1 - (n + 1)) with 0 by lia.
      replace (n + 1 - 1) with n by lia.
      rewrite Z.mod_0_l by lia.
      rewrite Hk, Z.sub_diag in C4.
      rewrite Hk, Z.sub_diag, Z.mod_0_l in C6 by lia.
      rewrite Hk in Hstored.
      destruct cb; cbn in *; subst; f_equal; lia. }
  assert (Hk'pos : 1 <= k' <= cap) by (unfold k', n; lia).
  unfold CircularBuffer.circular_buffer_write. fold len.
  rewrite Hcb1. cbn [CircularBuffer.bytes_stored CircularBuffer.size
    CircularBuffer.tail CircularBuffer.data CircularBuffer.head
    CircularBuffer.start_seq CircularBuffer.end_seq
    CircularBuffer.buffer_size cb1].
  destruct (Z.gtb_spec ((k' - 1) * bsz + len) (cap * bsz)); [nia|].
  rewrite Htail.
  destruct (Z.leb_spec (n mod cap * bsz + len) (cap * bsz)); [|nia].
  destruct (Z.geb_spec n n); [|lia].
  cbn [fst snd].
  assert (Hfit : (Z.to_nat (n mod cap * bsz) + length f
                  <= length (CircularBuffer.data cb))%nat) by (unfold len in *; nia).
  split; [reflexivity|]. split.
  - unfold cb_content.
    cbn [CircularBuffer.bytes_stored CircularBuffer.size
      CircularBuffer.tail CircularBuffer.data CircularBuffer.head
      CircularBuffer.start_seq CircularBuffer.end_seq
      CircularBuffer.buffer_size].
    rewrite length_app, last_snoc. cbn [length].
    replace (Z.of_nat (length frames + 1)) with (n + 1) by (unfold n; lia).
    fold k'.
    split; [reflexivity|]. split; [reflexivity|].
    split; [rewrite length_memcpy_at by (try exact Hfit; nia); exact C3|].
    split; [reflexivity|]. split; [apply u32_small; unfold n; lia|].
    split; [reflexivity|]. split; [reflexivity|].
    intros j g Hj Hg.
    destruct (Z.eq_dec j n) as [->|Hjn].
    + unfold n in Hg. rewrite Nat2Z.id in Hg.
      rewrite list_lookup_middle in Hg by reflexivity. injection Hg as <-.
      apply memcpy_at_same; [nia|exact Hfit].
    + assert (Hjlt : (Z.to_nat j < length frames)%nat) by (unfold n in *; lia).
      rewrite lookup_app_l in Hg by exact Hjlt.
      assert (Hglen : Z.of_nat (length g) = bsz).
      { rewrite Forall_forall in Hfull. apply Hfull.
        eapply list_elem_of_lookup_2. exact Hg. }
      assert (Hjmod : 0 <= j mod cap < cap) by (apply Z.mod_pos_bound; lia).
      pose proof (mod_block_ne cap j n ltac:(unfold k' in *; lia)) as Hne.
      assert (Hpos0 : 0 <= n mod cap * bsz)
        by (apply Z.mul_nonneg_nonneg; lia).
      assert (Hposj : 0 <= j mod cap * bsz)
        by (apply Z.mul_nonneg_nonneg; lia).
      assert (Hdisj : (Z.to_nat (j mod cap * bsz) + length g
                       <= Z.to_nat (n mod cap * bsz) \/
                       Z.to_nat (n mod cap * bsz) + length f
                       <= Z.to_nat (j mod cap * bsz))%nat).
      { destruct (Z.lt_ge_cases (j mod cap) (n mod cap)) as [Hlt|Hge].
        - left.
          assert ((j mod cap + 1) * bsz <= n mod cap * bsz)
            by (apply Z.mul_le_mono_nonneg_r; lia).
          lia.
        - right.
          assert ((n mod cap + 1) * bsz <= j mod cap * bsz)
            by (apply Z.mul_le_mono_nonneg_r; lia).
          unfold len in Hf. lia. }
      rewrite memcpy_at_other; [|exact Hpos0|exact Hfit|exact Hdisj].
      apply C8; [unfold k, k' in *; lia|exact Hg].
  - intros Hlen. cbn [CircularBuffer.tail].
    rewrite length_app. cbn [length].
    replace (Z.of_nat (length frames + 1)) with (n + 1) by (unfold n; lia).
    rewrite Hlen. apply block_succ; lia.
Qed.

End Aligned.

Section RoundTrip.
Variables (cap bsz : Z).
Hypothesis Hcap : 0 < cap.
Hypothesis Hbsz : 0 < bsz.
Hypothesis Hsize : cap * bsz < 2 ^ 32.

Lemma write_frames_content frames : forall pre cb,
  Z.of_nat (length (pre ++ frames)) + 1 < 2 ^ 32 ->
  file_reads bsz (pre ++ frames) ->
  cb_content cap bsz pre cb ->
  CircularBuffer.tail cb = (Z.of_nat (length pre) mod cap) * bsz ->
  Forall (fun g => Z.of_nat (length g) = bsz) pre ->
  let r := write_frames cb (Z.of_nat (length pre)) frames in
  fst r = replicate (length frames) 0 /\
  cb_content cap bsz (pre ++ frames) (snd r).
Proof.
  induction frames as [|f fs IH]; intros pre cb Hn Hreads Hc Htail Hfull.
  - cbn. rewrite app_nil_r. auto.
  - cbn [write_frames].
    rewrite length_app in Hn. cbn [length] in Hn.
    assert (Hf : 0 < Z.of_nat (length f) <= bsz).
    { apply (Hreads (length pre) f). apply list_lookup_middle. reflexivity. }
    pose proof (write_aligned cap bsz Hcap Hbsz Hsize pre cb f ltac:(lia)
                  Hc Htail Hfull Hf) as Hw.
    cbv zeta in Hw.
    destruct (CircularBuffer.circular_buffer_write cb f (Z.of_nat (length pre)))
      as [ret cb1].
    cbn [fst snd] in Hw. destruct Hw as (-> & Hc1 & Htail1).
    destruct fs as [|f2 fs].
    + cbn. auto.
    + assert (Hffull : Z.of_nat (length f) = bsz).
      { apply (Hreads (length pre) f); [apply list_lookup_middle; reflexivity|].
        rewrite length_app. cbn [length]. lia. }
      specialize (IH (pre ++ [f]) cb1).
      rewrite <- app_assoc in IH. cbn [app] in IH.
      rewrite u32_small by lia.
      replace (Z.of_nat (length pre) + 1) with (Z.of_nat (length (pre ++ [f])))
        by (rewrite length_app; cbn [length]; lia).
      destruct IH as (Hrets & Hcont).
      * rewrite length_app. cbn [length] in Hn |- *. lia.
      * exact Hreads.
      * exact Hc1.
      * apply Htail1. exact Hffull.
      * apply Forall_app. split; [exact Hfull|].
        constructor; [exact Hffull|constructor].
      * destruct (write_frames cb1 _ (f2 :: fs)) as [rets cb2].
        cbn [fst snd] in *. rewrite Hrets. split; [reflexivity|exact Hcont].
Qed.

Lemma circular_buffer_init_content :
  cb_content cap bsz [] (CircularBuffer.circular_buffer_init (cap * bsz) bsz).
Proof.
  unfold cb_content. cbn [length CircularBuffer.circular_buffer_init
    CircularBuffer.size CircularBuffer.buffer_size CircularBuffer.data
    CircularBuffer.start_seq CircularBuffer.end_seq CircularBuffer.head
    CircularBuffer.bytes_stored last].
  change (Z.of_nat 0) with 0. rewrite Z.min_l, Z.sub_diag, Z.mod_0_l by lia.
  rewrite length_replicate.
  split; [reflexivity|]. split; [reflexivity|]. split; [nia|].
  split; [reflexivity|]. split; [reflexivity|].
  split; [reflexivity|]. split; [reflexivity|].
  intros j f Hj. lia.
Qed.

Lemma read_seq_content frames cb max_len q :
  Z.of_nat (length frames) + 1 < 2 ^ 32 ->
  file_reads bsz frames -> cb_content cap bsz frames cb -> bsz <= max_len ->
  CircularBuffer.circular_buffer_read_seq cb max_len q
  = match frames !! Z.to_nat q with
    | Some f =>
        if Z.max 0 (Z.of_nat (length frames) - cap) <=? q
        then (Z.of_nat (length f), f) else (-1, [])
    | None => (-1, [])
    end.
Proof.
  intros Hn Hreads (C1 & C2 & C3 & C4 & C5 & C6 & C7 & C8) Hmax.
  cbv zeta in *.
  set (n := Z.of_nat (length frames)) in *.
  set (k := Z.min n cap) in *.
  assert (Hstart : n - k = Z.max 0 (n - cap)) by (unfold k; lia).
  unfold CircularBuffer.circular_buffer_read_seq. rewrite C4, C5, Hstart.
  destruct (Z.ltb_spec q (Z.max 0 (n - cap))) as [Hlow|Hge].
  { cbn [orb]. destruct (frames !! Z.to_nat q); [|reflexivity].
    destruct (Z.leb_spec (Z.max 0 (n - cap)) q); [lia|reflexivity]. }
  destruct (Z.geb_spec q n) as [Hhigh|Hlt].
  { cbn [orb]. rewrite lookup_ge_None_2 by (unfold n in *; lia). reflexivity. }
  cbn [orb].
  destruct (frames !! Z.to_nat q) as [f|] eqn:Hf.
  2:{ apply lookup_ge_None in Hf. unfold n in *. lia. }
  destruct (Z.leb_spec (Z.max 0 (n - cap)) q); [|lia].
  destruct (Hreads (Z.to_nat q) f Hf) as (Hflen & Hffull).
  rewrite C1, C2, C6, C7, Hstart.
  set (off := q - Z.max 0 (n - cap)).
  assert (Hoff : 0 <= off < k) by (unfold off, k; lia).
  assert (Hk : 1 <= k <= cap) by (unfold k; lia).
  rewrite (u32_small off) by nia.
  rewrite (u32_small (off * bsz)) by nia.
  rewrite (u32_small ((off + 1) * bsz)) by nia.
  rewrite (u32_small (n - 1)) by (unfold n in *; lia).
  assert (Hpos : (Z.max 0 (n - cap) mod cap * bsz + off * bsz) mod (cap * bsz)
                 = (q mod cap) * bsz).
  { replace (Z.max 0 (n - cap) mod cap * bsz + off * bsz)
      with ((Z.max 0 (n - cap) mod cap + off) * bsz) by lia.
    rewrite Z.mul_mod_distr_r by lia. f_equal.
    rewrite Zplus_mod_idemp_l. f_equal. unfold off. lia. }
  rewrite Hpos.
  assert (Hqmod : 0 <= q mod cap < cap) by (apply Z.mod_pos_bound; lia).
  destruct (Z.gtb_spec bsz max_len); [lia|].
  assert (Hlen :
    (if (q =? n - 1)
        && (match last frames with
            | Some f0 => (k - 1) * bsz + Z.of_nat (length f0)
            | None => 0
            end <? (off + 1) * bsz)
     then
       if u64 (match last frames with
               | Some f0 => (k - 1) * bsz + Z.of_nat (length f0)
               | None => 0
               end - off * bsz) <? bsz
       then u64 (match last frames with
                 | Some f0 => (k - 1) * bsz + Z.of_nat (length f0)
                 | None => 0
                 end - off * bsz)
       else bsz
     else bsz) = Z.of_nat (length f)).
  { destruct (Z.eqb_spec q (n - 1)) as [Hq|Hq]; cbn [andb].
    - assert (Hlast : last frames = Some f).
      { rewrite last_lookup. rewrite <- Hf. f_equal. unfold n in *. lia. }
      rewrite Hlast.
      assert (Hoffk : off = k - 1) by (unfold off, k in *; lia).
      rewrite Hoffk.
      replace ((k - 1) * bsz + Z.of_nat (length f) - (k - 1) * bsz)
        with (Z.of_nat (length f)) by lia.
      replace (k - 1 + 1) with k by lia.
      assert (Hb32 : bsz < 2 ^ 32) by nia.
      unfold u64. rewrite Z.mod_small by lia.
      destruct (Z.ltb_spec ((k - 1) * bsz + Z.of_nat (length f)) (k * bsz));
        [|lia].
      destruct (Z.ltb_spec (Z.of_nat (length f)) bsz); lia.
    - symmetry. apply Hffull. unfold n in *. lia. }
  rewrite Hlen.
  destruct (Z.leb_spec (q mod cap * bsz + Z.of_nat (length f)) (cap * bsz));
    [|nia].
  rewrite Nat2Z.id. f_equal. apply C8; [lia|exact Hf].
Qed.

End RoundTrip.

(** The writes of the reads of a file, and a read of the buffer after
    them. *)
Lemma write_frames_read_seq cap bsz frames max_len q :
  0 < cap -> 0 < bsz -> cap * bsz < 2 ^ 32 ->
  Z.of_nat (length frames) + 1 < 2 ^ 32 ->
  file_reads bsz frames -> bsz <= max_len ->
  let r := write_frames
             (CircularBuffer.circular_buffer_init (cap * bsz) bsz) 0 frames in
  fst r = replicate (length frames) 0 /\
  CircularBuffer.circular_buffer_read_seq (snd r) max_len q
  = match frames !! Z.to_nat q with
    | Some f =>
        if Z.max 0 (Z.of_nat (length frames) - cap) <=? q
        then (Z.of_nat (length f), f) else (-1, [])
    | None => (-1, [])
    end.
Proof.
  intros Hcap Hbsz Hsize Hn Hreads Hmax.
  destruct (write_frames_content cap bsz Hcap Hbsz Hsize frames []
              (CircularBuffer.circular_buffer_init (cap * bsz) bsz))
    as (Hrets & Hcont).
  - exact Hn.
  - exact Hreads.
  - apply circular_buffer_init_content; assumption.
  - cbn. rewrite Z.mod_0_l by lia. reflexivity.
  - constructor.
  - cbn [length app] in Hrets, Hcont. change (Z.of_nat 0) with 0 in Hrets, Hcont.
    cbv zeta. split; [exact Hrets|].
    apply (read_seq_content cap bsz Hcap Hbsz Hsize); assumption.
Qed.

(** X14.  The circular buffer as the server uses it: its size is a
    whole number [cap] of buffers of [bsz] bytes, and the reads of a
    file are written one after the other, numbered from 0.  Every write
    returns 0, and afterwards [circular_buffer_read_seq] returns the
    bytes and the length of read [q] when [q] is one of the last [cap]
    reads, and -1 for a read that was evicted or never written. *)
Theorem circular_buffer_round_trip cap bsz frames max_len q :
  0 < cap -> 0 < bsz -> cap * bsz < 2 ^ 32 ->
  Z.of_nat (length frames) + 1 < 2 ^ 32 ->
  file_reads bsz frames -> bsz <= max_len ->
  let r := write_frames
             (CircularBuffer.circular_buffer_init (cap * bsz) bsz) 0 frames in
  fst r = replicate (length frames) 0 /\
  CircularBuffer.circular_buffer_read_seq (snd r) max_len q
  = match frames !! Z.to_nat q with
    | Some f =>
        if Z.max 0 (Z.of_nat (length frames) - cap) <=? q
        then (Z.of_nat (length f), f) else (-1, [])
    | None => (-1, [])
    end.
Proof. apply write_frames_read_seq. Qed.

Lemma circular_buffer_round_trip_witness :
  let frames := [[1; 2]; [3; 4]; [5; 6]; [7]] in
  let r := write_frames (CircularBuffer.circular_buffer_init (3 * 2) 2) 0
             frames in
  fst r = replicate (length frames) 0 /\
  CircularBuffer.circular_buffer_read_seq (snd r) 2 3
  = match frames !! Z.to_nat 3 with
    | Some f =>
        if Z.max 0 (Z.of_nat (length frames) - 3) <=? 3
        then (Z.of_nat (length f), f) else (-1, [])
    | None => (-1, [])
    end.
Proof.
  intros frames.
  apply (circular_buffer_round_trip 3 2 frames 2 3); try lia.
  - simpl. lia.
  - intros i f Hi. destruct i as [|[|[|[|i]]]]; cbn in Hi; try discriminate;
      injection Hi as <-; cbn; lia.
Defined.

(** ** The circular buffer of a session *)

Lemma handle_timeout_fields s :
  let s' := fst (handle_timeout s) in
  s_cb s' = s_cb s /\ s_seq_num s' = s_seq_num s /\ s_pc s' = s_pc s.
Proof. unfold handle_timeout. destruct_matches; cbn; auto. Qed.

Lemma end_iteration_fields' s :
  let s' := end_iteration s in
  s_cb s' = s_cb s /\ s_seq_num s' = s_seq_num s /\ s_pc s' <> PcAcks.
Proof. unfold end_iteration. destruct_matches; cbn; auto. Qed.

Lemma after_fill_fields s :
  let s' := fst (after_fill s) in
  s_cb s' = s_cb s /\ s_seq_num s' = s_seq_num s /\ s_pc s' <> PcAcks.
Proof.
  unfold after_fill. destruct (_ && _); [cbn; auto|].
  destruct (window_full s); [destruct (_ =? _); [destruct (_ >=? _)|]|];
    try (cbn; auto; fail).
  match goal with
  | |- context [handle_timeout ?x] =>
      pose proof (handle_timeout_fields x) as H;
      destruct (handle_timeout x) as [s' out]
  end.
  cbn [fst] in *. destruct H as (H1 & H2 & H3).
  destruct (end_iteration_fields' s') as (E1 & E2 & E3).
  cbn in H1, H2. split; [congruence|]. split; [congruence|exact E3].
Qed.

Lemma sender_step_cb s r :
  0 <= s_seq_num s -> s_seq_num s + 1 < 2 ^ 32 ->
  let s' := fst (sender_step s r) in
  (sender_next_seq s' = sender_next_seq s /\ s_cb s' = s_cb s) \/
  (s_pc s = PcFill /\ sender_next_seq s' = s_seq_num s + 1 /\
   s_cb s' = snd (CircularBuffer.circular_buffer_write (s_cb s)
                    (take (Z.to_nat (s_buffer_size s)) (s_fp s))
                    (s_seq_num s))).
Proof.
  intros H0 Hmax. cbv zeta. unfold sender_step.
  assert (Hsame : forall s', s_pc s <> PcAcks ->
            s_cb s' = s_cb s /\ s_seq_num s' = s_seq_num s /\ s_pc s' <> PcAcks ->
            sender_next_seq s' = sender_next_seq s /\ s_cb s' = s_cb s).
  { intros s' Hpc (H1 & H2 & H3). split; [|exact H1].
    unfold sender_next_seq. destruct (s_pc s') eqn:E'; try contradiction;
      destruct (s_pc s) eqn:E; try contradiction; exact H2. }
  destruct (s_pc s) eqn:Hpc.
  - unfold fill_step. destruct (_ && _).
    + destruct (_ <=? _).
      * left. match goal with
        | |- context [after_fill ?x] =>
            destruct (after_fill_fields x) as (H1 & H2 & H3)
        end.
        apply Hsame; [congruence|]. cbn in H1, H2. auto.
      * right. cbn. split; [reflexivity|]. split; reflexivity.
    + left. apply Hsame; [congruence|]. apply after_fill_fields.
  - left. unfold acks_step. destruct r as [d|].
    + destruct (on_control _ _ _ _) as [[[? ?] ?] ?]. cbn.
      unfold sender_next_seq. cbn. rewrite Hpc. auto.
    + cbn. unfold sender_next_seq. cbn. rewrite Hpc, u32_small by lia. auto.
  - left. apply Hsame; [congruence|]. unfold wait_step. destruct r as [d|].
    + destruct (on_control _ _ _ _) as [[[? ?] ?] ?]. cbn [fst].
      match goal with
      | |- context [end_iteration ?x] =>
          destruct (end_iteration_fields' x) as (E1 & E2 & E3)
      end.
      cbn in E1, E2. auto.
    + destruct (window_full s); [|apply end_iteration_fields'].
      pose proof (handle_timeout_fields s) as H.
      destruct (handle_timeout s) as [s' out]. cbn [fst] in *.
      destruct H as (H1 & H2 & H3).
      destruct (end_iteration_fields' s') as (E1 & E2 & E3).
      split; [congruence|]. split; [congruence|exact E3].
  - left. apply Hsame; [congruence|]. unfold eof_step.
    destruct (eof_continue _ _); cbn; split; auto; split; auto; discriminate.
  - left. unfold eof_wait_step. destruct (eof_iteration _ _ _). cbn.
    unfold sender_next_seq. cbn. rewrite Hpc. auto.
  - left. cbn. auto.
Qed.

Lemma write_frames_snoc fs : forall cb seq f,
  0 <= seq -> seq + Z.of_nat (length fs) < 2 ^ 32 ->
  snd (write_frames cb seq (fs ++ [f]))
  = snd (CircularBuffer.circular_buffer_write (snd (write_frames cb seq fs)) f
           (seq + Z.of_nat (length fs))).
Proof.
  induction fs as [|g fs IH]; intros cb seq f H0 Hmax.
  - cbn. rewrite Z.add_0_r.
    destruct (CircularBuffer.circular_buffer_write cb f seq). reflexivity.
  - cbn [app write_frames length] in *.
    destruct (CircularBuffer.circular_buffer_write cb g seq) as [ret cb1].
    rewrite u32_small by lia.
    specialize (IH cb1 (seq + 1) f ltac:(lia) ltac:(lia)).
    destruct (write_frames cb1 (seq + 1) (fs ++ [f])) as [rets2 cb2].
    destruct (write_frames cb1 (seq + 1) fs) as [rets3 cb3].
    cbn [snd] in *.
    replace (seq + Z.of_nat (S (length fs)))
      with (seq + 1 + Z.of_nat (length fs)) by lia.
    exact IH.
Qed.

Lemma length_reads file bs n : 0 <= n -> Z.of_nat (length (reads file bs n)) = n.
Proof. intros Hn. unfold reads. rewrite length_map, length_seqZ. lia. Qed.

Lemma lookup_reads file bs n (i : nat) f :
  reads file bs n !! i = Some f -> Z.of_nat i < n /\ f = chunk file bs (Z.of_nat i).
Proof.
  unfold reads. rewrite list_lookup_fmap. intros H.
  destruct (seqZ 0 n !! i) as [q|] eqn:Hq; [|discriminate].
  apply lookup_seqZ in Hq as (-> & Hlt). cbn in H. injection H as <-.
  rewrite Z.add_0_l. auto.
Qed.

Lemma length_chunk_eq file bs q :
  0 <= q -> 0 < bs ->
  Z.of_nat (length (chunk file bs q))
  = Z.min bs (Z.max 0 (Z.of_nat (length file) - q * bs)).
Proof.
  intros Hq Hbs. unfold chunk. rewrite length_take, length_drop. nia.
Qed.

Lemma file_reads_reads file bs n :
  0 < bs -> n = 0 \/ (n - 1) * bs < Z.of_nat (length file) ->
  file_reads bs (reads file bs n).
Proof.
  intros Hbs Hn i f Hf. apply lookup_reads in Hf as (Hi & ->).
  rewrite length_chunk_eq by lia. split.
  - nia.
  - intros Hlt. assert (Z.of_nat (S i) < n).
    { pose proof (length_reads file bs n ltac:(lia)). lia. }
    nia.
Qed.

Section SenderBuffer.
Variables (file : list Z) (ws bs : Z).
Hypothesis Hws : 0 < ws < 2 ^ 30.
Hypothesis Hbs : 0 < bs.
Hypothesis HL : Z.of_nat (length file) < 2 ^ 31.

Lemma sender_trace_cb s sent :
  sender_trace file ws bs s sent ->
  s_cb s
  = snd (write_frames
           (CircularBuffer.circular_buffer_init (u32 (u32 (2 * ws) * bs)) bs)
           0 (reads file bs (sender_next_seq s))).
Proof.
  intros Htr. induction Htr as [|s sent r Htr IH]; [reflexivity|].
  pose proof (sender_trace_inv file ws bs Hws Hbs HL s sent Htr)
    as ((F1 & F2 & F3 & _) & _).
  pose proof (sender_reachable_inv file ws bs s Hws HL
                (sender_trace_reachable file ws bs s sent Htr)) as Hinv.
  assert (Hn : 0 <= s_seq_num s /\ s_seq_num s + 1 < 2 ^ 32 /\
               0 <= sender_next_seq s).
  { destruct Hinv as ((Hw & _ & Hb & Hn & Hfit & _) & _ & H0 & _).
    unfold sender_next_seq in *. destruct (s_pc s); lia. }
  destruct (sender_step_cb s r ltac:(lia) ltac:(lia))
    as [(E1 & E2) | (Hpc & E1 & E2)].
  - rewrite E1, E2. exact IH.
  - assert (Hnx : sender_next_seq s = s_seq_num s)
      by (unfold sender_next_seq; rewrite Hpc; reflexivity).
    rewrite E1, E2, IH, Hnx. unfold reads at 2.
    rewrite seqZ_snoc, map_app by lia. cbn [List.map].
    fold (reads file bs (s_seq_num s)).
    rewrite write_frames_snoc by (rewrite ?length_reads; lia).
    rewrite length_reads, !Z.add_0_l by lia.
    f_equal. f_equal. unfold chunk. rewrite F2, F3, Hnx. reflexivity.
Qed.

End SenderBuffer.

(** X15.  In a session of the sender whose buffer size [2 * window_size
    * buffer_size] fits 32 bits, the circular buffer holds the last
    [2 * window_size] reads of the file: for every frame [q] of these,
    [circular_buffer_read_seq] returns the bytes of the file that frame
    [q] carries and their number; for an older frame, or one not read
    yet, it returns -1. *)
Theorem sender_buffer_holds_last_reads file ws bs s sent q :
  0 < ws < 2 ^ 30 -> 0 < bs -> Z.of_nat (length file) < 2 ^ 31 ->
  2 * ws * bs < 2 ^ 32 ->
  sender_trace file ws bs s sent ->
  let n := sender_next_seq s in
  let r := CircularBuffer.circular_buffer_read_seq (s_cb s) bs q in
  (Z.max 0 (n - 2 * ws) <= q < n ->
   r = (Z.of_nat (length (chunk file bs q)), chunk file bs q)) /\
  (q < Z.max 0 (n - 2 * ws) \/ n <= q -> r = (-1, [])).
Proof.
  intros Hws Hbs HL Hsize Htr. cbv zeta.
  pose proof (sender_trace_inv file ws bs Hws Hbs HL s sent Htr)
    as ((_ & _ & _ & _ & F5 & _) & _).
  pose proof (sender_reachable_inv file ws bs s Hws HL
                (sender_trace_reachable file ws bs s sent Htr)) as Hinv.
  assert (Hn : 0 <= sender_next_seq s /\ sender_next_seq s + 1 < 2 ^ 32).
  { destruct Hinv as ((Hw & _ & Hb & Hn & Hfit & _) & _). lia. }
  rewrite (sender_trace_cb file ws bs Hws Hbs HL s sent Htr).
  rewrite (u32_small (2 * ws)), (u32_small (2 * ws * bs)) by lia.
  pose proof (write_frames_read_seq (2 * ws) bs
                (reads file bs (sender_next_seq s)) bs q) as Hrt.
  rewrite length_reads in Hrt by lia.
  destruct Hrt as (_ & ->); try lia.
  { apply file_reads_reads; assumption. }
  split.
  - intros Hq. unfold reads. rewrite list_lookup_fmap.
    rewrite (lookup_seqZ_lt 0 (sender_next_seq s) (Z.to_nat q)) by lia.
    cbn. rewrite Z2Nat.id by lia.
    destruct (Z.leb_spec (Z.max 0 (sender_next_seq s - 2 * ws)) q); [|lia].
    reflexivity.
  - intros Hq.
    destruct (reads file bs (sender_next_seq s) !! Z.to_nat q) eqn:Hl;
      [|reflexivity].
    destruct (Z.leb_spec (Z.max 0 (sender_next_seq s - 2 * ws)) q);
      [|reflexivity].
    apply lookup_reads in Hl. lia.
Qed.

Lemma sender_buffer_holds_last_reads_witness :
  let file := [1; 2; 3; 4; 5; 6; 7] in
  let s1 := sender_step (send_data_packets_init file 1 2) Timeout in
  let s2 := sender_step (fst s1) (Ready (rr_pdu 0)) in
  let s3 := sender_step (fst s2) Timeout in
  let s4 := sender_step (fst s3) Timeout in
  let s := fst s4 in
  let sent := ((([] ++ snd s1) ++ snd s2) ++ snd s3) ++ snd s4 in
  let n := sender_next_seq s in
  let r := CircularBuffer.circular_buffer_read_seq (s_cb s) 2 1 in
  n = 2 /\
  (Z.max 0 (n - 2 * 1) <= 1 < n ->
   r = (Z.of_nat (length (chunk file 2 1)), chunk file 2 1)) /\
  (1 < Z.max 0 (n - 2 * 1) \/ n <= 1 -> r = (-1, [])).
Proof.
  intros file s1 s2 s3 s4 s sent n r. split; [vm_compute; reflexivity|].
  apply (sender_buffer_holds_last_reads file 1 2 s sent 1).
  - lia.
  - lia.
  - simpl. lia.
  - lia.
  - unfold sent, s, s4, s3, s2, s1.
    apply trace_step, trace_step, trace_step, trace_step, trace_init.
Defined.

(** ** The window, the first timeout of the client, and the EOF PDU *)

(** The slots that [window_slide] clears: a slot is left as it was unless
    it held, acknowledged, a sequence number that the base moved over, and
    for every such number a slot that held it acknowledged is cleared. *)
Lemma slide_loop_cleared fuel : forall w slid,
  0 < window_size w -> Z.of_nat (length (packets w)) = window_size w ->
  0 <= base w -> base w + Z.of_nat fuel < 2 ^ 32 ->
  let w' := slide_loop fuel w slid in
  (forall i, 0 <= i ->
     slot w' i = slot w i \/
     (slot w' i = zero_packet /\
      base w <= seq_num (slot w i) < base w' /\
      acknowledged (slot w i) = true)) /\
  (forall b, base w <= b < base w' ->
     exists i, 0 <= i < window_size w /\
               seq_num (slot w i) = b /\ acknowledged (slot w i) = true /\
               slot w' i = zero_packet).
Proof.
  induction fuel as [|fuel IH]; intros w slid Hws Hlen Hb Hfit; cbv zeta.
  - simpl. split; [auto|]. intros b Hb'. lia.
  - pose proof (slide_loop_spec (S fuel) w slid Hws Hlen Hb Hfit) as Hsp.
    cbv zeta in Hsp. destruct Hsp as (_ & _ & _ & Hbase & _).
    revert Hbase. simpl.
    match goal with
    | |- context [match ?f with Some _ => _ | None => _ end] =>
        destruct f as [i|] eqn:Hf
    end.
    2:{ intros _. split; [auto|]. intros b Hb'. lia. }
    apply slide_found_spec in Hf as (Hi & He & Hack); [|exact Hws].
    set (w1 := set_base (set_slot w i zero_packet) (u32 (base w + 1))).
    assert (Hb1 : base w1 = base w + 1) by (simpl; apply u32_small; lia).
    assert (Hs1 : forall j, 0 <= j ->
              slot w1 j = if Z.eq_dec j i then zero_packet else slot w j).
    { intros j Hj. unfold w1. rewrite slot_set_base. apply slot_set_slot; lia. }
    destruct (slid + 1 >=? window_size w).
    + intros _. rewrite Hb1. split.
      * intros j Hj. rewrite Hs1 by exact Hj.
        destruct (Z.eq_dec j i) as [->|]; [right|left; reflexivity].
        split; [reflexivity|]. split; [lia|exact Hack].
      * intros b Hb'. exists i. split; [exact Hi|]. split; [lia|].
        split; [exact Hack|]. rewrite Hs1 by lia.
        destruct (Z.eq_dec i i); [reflexivity|contradiction].
    + intros Hbase.
      assert (Hl1 : Z.of_nat (length (packets w1)) = window_size w1).
      { unfold w1. simpl. rewrite length_insert. exact Hlen. }
      pose proof (slide_loop_spec fuel w1 (slid + 1) ltac:(exact Hws) Hl1
                    ltac:(lia) ltac:(lia)) as Hsp1.
      cbv zeta in Hsp1. destruct Hsp1 as (_ & _ & _ & Hbase1 & _).
      destruct (IH w1 (slid + 1)) as (Hsl2 & Hex2);
        [exact Hws|exact Hl1|lia|lia|].
      cbv zeta in Hsl2, Hex2. split.
      * intros j Hj. destruct (Hsl2 j Hj) as [E|(E & Hr & Ha)].
        -- rewrite E, Hs1 by exact Hj.
           destruct (Z.eq_dec j i) as [->|]; [right|left; reflexivity].
           split; [reflexivity|]. split; [lia|exact Hack].
        -- rewrite Hs1 in Hr, Ha by exact Hj.
           destruct (Z.eq_dec j i); [discriminate|].
           right. split; [exact E|]. split; [lia|exact Ha].
      * intros b Hb'. destruct (Z.eq_dec b (base w)) as [->|Hne].
        -- exists i. split; [exact Hi|]. split; [exact He|].
           split; [exact Hack|].
           destruct (Hsl2 i ltac:(lia)) as [E|(E & _)]; [|exact E].
           rewrite E, Hs1 by lia.
           destruct (Z.eq_dec i i); [reflexivity|contradiction].
        -- destruct (Hex2 b) as (i' & Hi' & He' & Hack' & Hz); [lia|].
           exists i'. rewrite Hs1 in He', Hack' by lia.
           destruct (Z.eq_dec i' i); [discriminate|].
           split; [exact Hi'|]. split; [exact He'|]. split; [exact Hack'|].
           exact Hz.
Qed.

(** X17.  [window_slide] moves the base over the frames that are marked
    acknowledged, one after the other from the base, and clears their
    slots; every other slot is as it was: a slot changes only if it held,
    acknowledged, a sequence number that the base moved over, and then it
    is zeroed; for every number that the base moved over, a slot that held
    it acknowledged is zeroed; and when no two acknowledged slots hold the
    same number, the slots that are zeroed are exactly the acknowledged
    ones with a number in [base, base').  The slide stops at the first
    sequence number that no slot holds acknowledged, never moves the base
    by more than [window_size], and leaves [window_size] and [next_seq]
    as they were. *)
Theorem window_slide_spec w :
  wf_window w -> base w + window_size w < 2 ^ 32 ->
  let w' := window_slide w in
  window_size w' = window_size w /\
  next_seq w' = next_seq w /\
  length (packets w') = length (packets w) /\
  base w <= base w' <= base w + window_size w /\
  (forall b, base w <= b < base w' ->
     exists i, 0 <= i < window_size w /\
               seq_num (slot w i) = b /\ acknowledged (slot w i) = true /\
               slot w' i = zero_packet) /\
  (forall i, 0 <= i < window_size w ->
     slot w' i = slot w i \/
     (slot w' i = zero_packet /\
      base w <= seq_num (slot w i) < base w' /\
      acknowledged (slot w i) = true)) /\
  ((forall i j, 0 <= i < window_size w -> 0 <= j < window_size w ->
      acknowledged (slot w i) = true -> acknowledged (slot w j) = true ->
      seq_num (slot w i) = seq_num (slot w j) -> i = j) ->
   forall i, 0 <= i < window_size w ->
     slot w' i =
     if acknowledged (slot w i) && (base w <=? seq_num (slot w i))
        && (seq_num (slot w i) <? base w')
     then zero_packet else slot w i) /\
  (forall i, 0 <= i < window_size w ->
     seq_num (slot w' i) = base w' -> acknowledged (slot w' i) = false) /\
  (base w' = base w -> w' = w).
Proof.
  intros (Hws & Hlen & Hb) Hfit. cbv zeta. unfold window_slide.
  pose proof (slide_loop_spec (Z.to_nat (window_size w)) w 0
                ltac:(lia) Hlen ltac:(lia) ltac:(lia)) as Hsp.
  cbv zeta in Hsp. destruct Hsp as (H1 & H2 & H3 & H4 & H5 & _).
  pose proof (slide_loop_cleared (Z.to_nat (window_size w)) w 0
                ltac:(lia) Hlen ltac:(lia) ltac:(lia)) as Hcl.
  cbv zeta in Hcl. destruct Hcl as (Hslots & Hex).
  pose proof (window_slide_stuck w ltac:(lia) Hlen) as Hstuck.
  unfold window_slide, slide_stuck in Hstuck. rewrite H1 in Hstuck.
  split; [exact H1|]. split; [exact H3|]. split; [exact H2|].
  split; [lia|]. split; [exact Hex|].
  split; [intros i Hi; apply Hslots; lia|].
  split; [|split; [exact Hstuck|exact H5]].
  intros Huniq i Hi.
  destruct (Hslots i ltac:(lia)) as [E|(E & Hr & Ha)].
  - destruct (acknowledged (slot w i)) eqn:Ha; [|exact E].
    destruct (Z.leb_spec (base w) (seq_num (slot w i))); [|exact E].
    destruct (Z.ltb_spec (seq_num (slot w i))
                (base (slide_loop (Z.to_nat (window_size w)) w 0)));
      [|exact E].
    cbn [andb].
    destruct (Hex (seq_num (slot w i)) ltac:(lia)) as (j & Hj & Hs & Haj & Hz).
    rewrite (Huniq i j Hi Hj Ha Haj (eq_sym Hs)). exact Hz.
  - rewrite Ha.
    destruct (Z.leb_spec (base w) (seq_num (slot w i))); [|lia].
    destruct (Z.ltb_spec (seq_num (slot w i))
                (base (slide_loop (Z.to_nat (window_size w)) w 0))); [|lia].
    exact E.
Qed.

Lemma window_slide_spec_witness :
  let w := snd (window_mark_ack mark_static_init
                  (s_win (fst (sender_step
                                 (fst (sender_step
                                         (fst (sender_step
                                                 (send_data_packets_init
                                                    [1; 2; 3; 4; 5] 3 1)
                                                 Timeout))
                                         Timeout))
                                 Timeout))) 1) in
  let w' := window_slide w in
  (base w = 0 /\ base w' = 2) /\
  window_size w' = window_size w /\
  next_seq w' = next_seq w /\
  length (packets w') = length (packets w) /\
  base w <= base w' <= base w + window_size w /\
  (forall b, base w <= b < base w' ->
     exists i, 0 <= i < window_size w /\
               seq_num (slot w i) = b /\ acknowledged (slot w i) = true /\
               slot w' i = zero_packet) /\
  (forall i, 0 <= i < window_size w ->
     slot w' i = slot w i \/
     (slot w' i = zero_packet /\
      base w <= seq_num (slot w i) < base w' /\
      acknowledged (slot w i) = true)) /\
  (forall i, 0 <= i < window_size w ->
     slot w' i =
     if acknowledged (slot w i) && (base w <=? seq_num (slot w i))
        && (seq_num (slot w i) <? base w')
     then zero_packet else slot w i) /\
  (forall i, 0 <= i < window_size w ->
     seq_num (slot w' i) = base w' -> acknowledged (slot w' i) = false) /\
  (base w' = base w -> w' = w).
Proof.
  intros w w'. split; [vm_compute; auto|].
  destruct (window_slide_spec w)
    as (H1 & H2 & H3 & H4 & H5 & H6 & H7 & H8 & H9).
  - unfold wf_window. vm_compute. repeat split; discriminate.
  - vm_compute. reflexivity.
  - repeat split; auto; try apply H4.
    apply H7. intros i j Hi Hj.
    assert (Hws : window_size w = 3) by (vm_compute; reflexivity).
    rewrite Hws in Hi, Hj.
    assert (Ei : i = 0 \/ i = 1 \/ i = 2) by lia.
    assert (Ej : j = 0 \/ j = 1 \/ j = 2) by lia.
    destruct Ei as [-> | [-> | ->]], Ej as [-> | [-> | ->]];
      vm_compute; intros; congruence.
Defined.

(** The window of a sender holds no frame below its base. *)
Lemma sender_window_get_below w n q :
  sender_window w n -> 0 <= q < base w -> window_get_packet w q = None.
Proof.
  intros (Hws & Hlen & Hb & Hn & Hfit & Hslots & _) Hq.
  assert (Hno : forall i, 0 <= i < window_size w ->
            (seq_num (slot w i) =? q) && has_data (slot w i) = false).
  { intros i Hi. destruct (Hslots i Hi) as [(Hd & _)|(_ & Hr & _)].
    - rewrite Hd. apply andb_false_r.
    - destruct (Z.eqb_spec (seq_num (slot w i)) q); [lia|reflexivity]. }
  unfold window_get_packet.
  destruct (_ && _); [reflexivity|]. destruct (_ >=? _); [reflexivity|].
  rewrite Hno by (apply Z.mod_pos_bound; lia).
  apply scan_from_none_intro; [lia|exact Hno].
Qed.

(** X18.  A client that has received nothing acknowledges frame 0 at its
    first timeout: it sends RR 0, [highest_received_seq] being 0 from the
    start.  A sender that has frame 0 outstanding takes this RR for an
    acknowledgement: the base moves to 1, nothing is retransmitted, and
    frame 0 has left the window, although the client still expects
    it. *)
Theorem first_timeout_acknowledges_frame_0 file ws bs s sent rc :
  0 < ws < 2 ^ 30 -> 0 < bs -> Z.of_nat (length file) < 2 ^ 31 ->
  sender_trace file ws bs s sent ->
  s_pc s = PcAcks \/ s_pc s = PcWait ->
  base (s_win s) = 0 -> 1 <= sender_next_seq s ->
  r_expected_seq rc = 0 -> r_highest_received_seq rc = 0 ->
  r_eof_received rc = false -> r_consecutive_timeouts rc + 1 < 15 ->
  let rc' := fst (receiver_step rc Timeout) in
  let s' := fst (sender_step s (Ready (rr_pdu 0))) in
  snd (receiver_step rc Timeout) = [rr_pdu 0] /\
  r_expected_seq rc' = 0 /\ r_writes rc' = r_writes rc /\
  r_finished rc' = false /\
  snd (sender_step s (Ready (rr_pdu 0))) = [] /\
  base (s_win s') = 1 /\ window_get_packet (s_win s') 0 = None.
Proof.
  intros Hws Hbs HL Htr Hpc Hbase Hnext He Hh Heof Hto. cbv zeta.
  pose proof (sender_reachable_inv file ws bs s Hws HL
                (sender_trace_reachable file ws bs s sent Htr)) as (Hsw & _).
  assert (Hrecv : receiver_step rc Timeout
                  = (Receiver (r_expected_seq rc) (r_highest_received_seq rc)
                       false (r_consecutive_timeouts rc + 1) false
                       (r_win rc) (r_mark rc) (r_writes rc), [rr_pdu 0])).
  { unfold receiver_step. rewrite Heof, Hh.
    destruct (Z.geb_spec (r_consecutive_timeouts rc + 1) 15); [lia|].
    reflexivity. }
  rewrite Hrecv. cbn [fst snd r_expected_seq r_writes r_finished].
  split; [reflexivity|]. split; [exact He|]. split; [reflexivity|].
  split; [reflexivity|].
  assert (Hctl : forall rs,
            exists rs' ms' w',
              on_control rs (s_mark s) (s_win s) (rr_pdu 0) = (rs', ms', w', []) /\
              base w' = 1 /\ window_get_packet w' 0 = None).
  { intros rs.
    destruct (on_control_rr_base rs (s_mark s) (s_win s) (sender_next_seq s)
                Hsw ltac:(lia)) as (rs' & ms' & w' & Hoc & Hsw' & Hb' & _).
    rewrite Hbase in Hoc, Hb'. exists rs', ms', w'.
    split; [exact Hoc|]. split; [exact Hb'|].
    apply (sender_window_get_below w' (sender_next_seq s)); [exact Hsw'|lia]. }
  unfold sender_step. destruct Hpc as [Hpc | Hpc]; rewrite Hpc.
  - unfold acks_step.
    destruct (Hctl (s_rr_acks s)) as (rs' & ms' & w' & -> & Hb' & Hget).
    cbn. auto.
  - unfold wait_step.
    destruct (Hctl (s_rr_main s)) as (rs' & ms' & w' & -> & Hb' & Hget).
    cbn [fst snd]. rewrite end_iteration_win. cbn. auto.
Qed.

Lemma first_timeout_acknowledges_frame_0_witness :
  let s1 := sender_step (send_data_packets_init [1; 2; 3; 4; 5] 2 1) Timeout in
  let s := fst s1 in
  let rc := process_file_transfer_init 2 in
  let rc' := fst (receiver_step rc Timeout) in
  let s' := fst (sender_step s (Ready (rr_pdu 0))) in
  snd s1 = [data_frame [1; 2; 3; 4; 5] 1 0] /\
  snd (receiver_step rc Timeout) = [rr_pdu 0] /\
  r_expected_seq rc' = 0 /\ r_writes rc' = r_writes rc /\
  r_finished rc' = false /\
  snd (sender_step s (Ready (rr_pdu 0))) = [] /\
  base (s_win s') = 1 /\ window_get_packet (s_win s') 0 = None.
Proof.
  intros s1 s rc rc' s'. split; [vm_compute; reflexivity|].
  apply (first_timeout_acknowledges_frame_0 [1; 2; 3; 4; 5] 2 1 s
           ([] ++ snd s1) rc).
  - lia.
  - lia.
  - simpl. lia.
  - unfold s, s1. apply trace_step, trace_init.
  - left. vm_compute. reflexivity.
  - vm_compute. reflexivity.
  - vm_compute. discriminate.
  - reflexivity.
  - reflexivity.
  - reflexivity.
  - vm_compute. reflexivity.
Defined.

(** ** The EOF PDU at the client *)

Section EofEnds.
Variables (file : list Z) (ws bs n : Z) (rest : list poll_result).
Hypothesis Hws : 0 < ws.
Hypothesis Hbs : 0 < bs <= MAX_DATA_SIZE.
Hypothesis Hn : 0 <= n < 2 ^ 32.

Lemma in_order_then_eof (m : nat) : forall fuel rc j,
  (m < fuel)%nat -> r_win rc = window_init ws -> r_expected_seq rc = j ->
  r_finished rc = false -> 0 <= j -> j + Z.of_nat m + 1 < 2 ^ 32 ->
  exists rc',
    process_file_transfer_loop fuel rc
      (List.map Ready (List.map (data_frame file bs) (seqZ j (Z.of_nat m)))
       ++ Ready (eof_pdu n) :: rest)
    = (rc',
       List.map rr_pdu (seqZ j (Z.of_nat m))
       ++ send_final_rr
            (if j + Z.of_nat m >? 0 then j + Z.of_nat m - 1 else 0) 3) /\
    r_finished rc' = true /\ r_eof_received rc' = true /\
    r_expected_seq rc' = j + Z.of_nat m /\
    r_writes rc'
    = r_writes rc
      ++ List.map (fun q => WriteData q (chunk file bs q)) (seqZ j (Z.of_nat m)).
Proof.
  induction m as [|m IH]; intros fuel rc j Hfuel Hwin He Hfin Hj Hmax.
  - destruct fuel as [|fuel]; [lia|].
    change (seqZ j (Z.of_nat 0)) with (@nil Z). cbn [List.map app].
    cbn [process_file_transfer_loop next_poll]. rewrite Hfin.
    rewrite receiver_step_eof by exact Hn.
    set (rc1 := Receiver _ _ _ _ _ _ _ _).
    assert (Hres : process_file_transfer_loop fuel rc1 rest = (rc1, []))
      by (destruct fuel; reflexivity).
    rewrite Hres. exists rc1. unfold rc1.
    cbn [r_finished r_eof_received r_expected_seq r_writes].
    rewrite He, Z.add_0_r, !app_nil_r. auto.
  - destruct fuel as [|fuel]; [lia|].
    replace (Z.of_nat (S m)) with (Z.succ (Z.of_nat m)) by lia.
    rewrite seqZ_cons by lia. rewrite Z.pred_succ.
    cbn [List.map app process_file_transfer_loop next_poll]. rewrite Hfin.
    unfold data_frame at 1.
    rewrite (receiver_step_next_frame ws rc (chunk file bs j) j Hws Hwin He Hj
               ltac:(lia)).
    2:{ unfold chunk. rewrite length_take. unfold MAX_DATA_SIZE in Hbs. lia. }
    set (rc1 := Receiver _ _ _ _ _ _ _ _).
    destruct (IH fuel rc1 (Z.succ j) ltac:(lia) eq_refl ltac:(cbn; lia)
                Hfin ltac:(lia) ltac:(lia))
      as (rc2 & -> & I1 & I2 & I3 & I4).
    exists rc2. split.
    + f_equal. cbn [app].
      replace (Z.succ j + Z.of_nat m) with (j + Z.succ (Z.of_nat m)) by lia.
      reflexivity.
    + split; [exact I1|]. split; [exact I2|]. split; [lia|].
      rewrite I4. unfold rc1. cbn [r_writes]. rewrite <- app_assoc. reflexivity.
Qed.

End EofEnds.

(** X19.  The client ends the transfer at the EOF PDU with the frames
    it has, whatever the number of the EOF PDU: after the frames 0 to
    [k - 1] in order and an EOF PDU numbered [n], for any [n], the client
    has written the first [k] frames of the file and is finished, having
    sent the RR of these frames and three final RR; what arrives later
    is not read. *)
Theorem eof_ends_transfer_any_number file ws bs k n rest :
  0 < ws -> 0 < bs <= MAX_DATA_SIZE -> 0 <= k -> k + 1 < 2 ^ 32 ->
  0 <= n < 2 ^ 32 ->
  let polls := List.map Ready (data_frames file bs k)
               ++ Ready (eof_pdu n) :: rest in
  let res := process_file_transfer ws polls in
  r_finished (fst res) = true /\ r_expected_seq (fst res) = k /\
  sink (r_writes (fst res)) = take (Z.to_nat (k * bs)) file /\
  snd res = List.map rr_pdu (seqZ 0 k)
            ++ send_final_rr (if k >? 0 then k - 1 else 0) 3.
Proof.
  intros Hws Hbs Hk Hmax Hn polls res.
  destruct (in_order_then_eof file ws bs n rest Hws Hbs Hn (Z.to_nat k)
              (15 + length polls) (process_file_transfer_init ws) 0)
    as (rc' & Hres & H1 & H2 & H3 & H4); try reflexivity; try lia.
  { unfold polls. rewrite length_app, !length_map. unfold data_frames.
    rewrite length_map, length_seqZ. cbn [length]. lia. }
  rewrite Z2Nat.id in * by lia. rewrite Z.add_0_l in *.
  unfold res, process_file_transfer. unfold polls, data_frames in *.
  rewrite Hres.
  cbn [fst snd]. split; [exact H1|]. split; [exact H3|].
  split; [|reflexivity].
  rewrite H4. cbn [process_file_transfer_init r_writes app].
  rewrite <- (Z2Nat.id k) at 1 2 by lia. apply sink_chunks. lia.
Qed.

Lemma eof_ends_transfer_any_number_witness :
  let file := [1; 2; 3; 4; 5; 6; 7] in
  let polls := List.map Ready (data_frames file 3 1)
               ++ Ready (eof_pdu 3) :: [Ready (data_frame file 3 1)] in
  let res := process_file_transfer 2 polls in
  r_finished (fst res) = true /\ r_expected_seq (fst res) = 1 /\
  sink (r_writes (fst res)) = take (Z.to_nat (1 * 3)) file /\
  snd res = List.map rr_pdu (seqZ 0 1)
            ++ send_final_rr (if 1 >? 0 then 1 - 1 else 0) 3.
Proof.
  intros file polls.
  apply (eof_ends_transfer_any_number file 2 3 1 3
           [Ready (data_frame file 3 1)]).
  - lia.
  - unfold MAX_DATA_SIZE. lia.
  - lia.
  - lia.
  - lia.
Defined.

(** ** Repeated RR at the sender *)

Section DuplicateRR.
Variables (file : list Z) (bs n : Z).

(** One RR for [base - 1]: the window keeps its frames and its base; the
    RR is counted, and the third one in a row retransmits the frame at
    the base. *)
Lemma duplicate_rr_step rs ms w :
  frames_stored file bs w -> sender_window w n -> 1 <= base w < n ->
  let a := base w - 1 in
  let count := repeat_rr_count rs + 1 in
  exists rs' ms' w' out,
    on_control rs ms w (rr_pdu a) = (rs', ms', w', out) /\
    frames_stored file bs w' /\ sender_window w' n /\ base w' = base w /\
    last_rr_seq rs' = a /\
    (if last_rr_seq rs =? a then
       if count >=? 3
       then repeat_rr_count rs' = 0 /\
            exists d, out = [d] /\ base_resent file bs (base w) d
       else repeat_rr_count rs' = count /\ out = []
     else repeat_rr_count rs' = 1 /\ out = []).
Proof.
  intros Hst Hsw Hb. cbv zeta.
  pose proof Hsw as (Hws & Hlen & Hb0 & Hn & Hfit & Hslots & Hfull).
  rewrite (on_control_rr rs ms w _ (base w - 1))
    by (apply control_frame_rr_pdu; lia).
  unfold on_rr. rewrite (u32_small (base w - 1)) by lia.
  rewrite Z.eqb_refl, andb_true_r.
  assert (Hold : forall st w1, sender_window w1 n -> base w1 = base w ->
            ack_and_slide st w1 (base w - 1)
            = (fst (ack_and_slide st w1 (base w - 1)), w1)).
  { intros st w1 Hsw1 Hb1.
    pose proof (old_rr_window st w1 n (base w - 1) Hsw1 ltac:(lia)
                  ltac:(left; lia)) as H.
    destruct (ack_and_slide st w1 (base w - 1)). cbn [fst snd] in *.
    congruence. }
  destruct (Z.eqb_spec (last_rr_seq rs) (base w - 1)) as [Hlast|Hlast].
  - destruct (Z.geb_spec (repeat_rr_count rs + 1) 3) as [Hc|Hc].
    + assert (Hfind : find_base_pkt w = Some (base w mod window_size w)).
      { unfold find_base_pkt.
        destruct (Hfull (base w) ltac:(lia)) as (-> & ->).
        rewrite Z.eqb_refl. reflexivity. }
      rewrite Hfind.
      set (i := base w mod window_size w) in *.
      assert (Hi : 0 <= i < window_size w) by (apply Z.mod_pos_bound; lia).
      destruct (Hfull (base w) ltac:(lia)) as (Hseq & Hdata). fold i in Hseq, Hdata.
      pose proof (resend_slot_sound file bs w i FLAG_RESENT_TIMEOUT n Hst Hsw Hi
                    Hdata ltac:(auto)) as Hsnd.
      destruct (resend_slot_prefix w i FLAG_RESENT_TIMEOUT n (base w) Hsw Hi)
        as (P1 & P2 & P3).
      destruct (resend_slot w i FLAG_RESENT_TIMEOUT) as [w1 out].
      cbn [fst] in *.
      destruct Hsnd as (Hst1 & d & -> & (Hck & _ & q & _ & Hq & Hpay) & Hfl & Hsq).
      assert (Hsw1 : sender_window w1 n)
        by (unfold sender_window; rewrite P2; exact P1).
      rewrite (Hold ms w1 Hsw1 P2).
      eexists _, _, _, _. split; [reflexivity|].
      split; [exact Hst1|]. split; [exact Hsw1|]. split; [exact P2|].
      split; [exact Hlast|]. split; [reflexivity|].
      exists d. split; [reflexivity|]. unfold base_resent.
      split; [exact Hck|]. split; [exact Hfl|]. split; [congruence|].
      rewrite <- Hseq, <- Hsq, Hq. exact Hpay.
    + rewrite (Hold ms w Hsw eq_refl).
      eexists _, _, _, _. split; [reflexivity|]. auto 10.
  - assert (Hne : negb (base w - 1 =? last_rr_seq rs) = true).
    { apply negb_true_iff, Z.eqb_neq. congruence. }
    rewrite Hne, (Hold ms w Hsw eq_refl).
    eexists _, _, _, _. split; [reflexivity|]. auto 10.
Qed.

End DuplicateRR.

Lemma on_control_count rs ms w d :
  0 <= repeat_rr_count rs ->
  0 <= repeat_rr_count (fst (fst (fst (on_control rs ms w d)))).
Proof.
  intros Hc. unfold on_control.
  destruct (_ >=? _); [|exact Hc]. destruct (negb _); [exact Hc|].
  destruct (_ =? _).
  - unfold on_rr.
    destruct (_ && _).
    + destruct (_ >=? _).
      * destruct (find_base_pkt w).
        -- destruct (resend_slot _ _ _). destruct (ack_and_slide _ _ _).
           cbn. lia.
        -- destruct (ack_and_slide _ _ _). cbn. lia.
      * destruct (ack_and_slide _ _ _). cbn. lia.
    + destruct (negb _); destruct (ack_and_slide _ _ _); cbn; lia.
  - destruct (_ =? _); [|exact Hc]. destruct (on_srej _ _). exact Hc.
Qed.

Lemma handle_timeout_statics s :
  s_rr_acks (fst (handle_timeout s)) = s_rr_acks s /\
  s_rr_main (fst (handle_timeout s)) = s_rr_main s.
Proof. unfold handle_timeout. destruct_matches; cbn; auto. Qed.

Lemma end_iteration_statics s :
  s_rr_acks (end_iteration s) = s_rr_acks s /\
  s_rr_main (end_iteration s) = s_rr_main s.
Proof. unfold end_iteration. destruct_matches; cbn; auto. Qed.

Lemma after_fill_statics s :
  s_rr_acks (fst (after_fill s)) = s_rr_acks s /\
  s_rr_main (fst (after_fill s)) = s_rr_main s.
Proof.
  unfold after_fill. destruct (_ && _); [cbn; auto|].
  destruct (window_full s); [destruct (_ =? _); [destruct (_ >=? _)|]|];
    try (cbn; auto; fail).
  match goal with
  | |- context [handle_timeout ?x] =>
      pose proof (handle_timeout_statics x) as H;
      destruct (handle_timeout x) as [s' out]
  end.
  cbn [fst] in *. destruct H as (H1 & H2).
  destruct (end_iteration_statics s') as (E1 & E2).
  cbn in H1, H2. split; congruence.
Qed.

Lemma sender_step_counts s r :
  rr_counts_ok s -> rr_counts_ok (fst (sender_step s r)).
Proof.
  intros (Ha & Hm). unfold rr_counts_ok, sender_step.
  destruct (s_pc s).
  - unfold fill_step. destruct (_ && _).
    + destruct (_ <=? _); [|cbn; auto].
      match goal with
      | |- context [after_fill ?x] =>
          destruct (after_fill_statics x) as (-> & ->)
      end. cbn. auto.
    + destruct (after_fill_statics s) as (-> & ->). auto.
  - unfold acks_step. destruct r as [d|]; [|cbn; auto].
    pose proof (on_control_count (s_rr_acks s) (s_mark s) (s_win s) d Ha) as H.
    destruct (on_control _ _ _ _) as [[[? ?] ?] ?]. cbn in *. auto.
  - unfold wait_step. destruct r as [d|].
    + pose proof (on_control_count (s_rr_main s) (s_mark s) (s_win s) d Hm) as H.
      destruct (on_control _ _ _ _) as [[[? ?] ?] ?]. cbn [fst] in *.
      match goal with
      | |- context [end_iteration ?x] =>
          destruct (end_iteration_statics x) as (-> & ->)
      end. cbn. auto.
    + destruct (window_full s).
      * destruct (handle_timeout_statics s) as (H1 & H2).
        destruct (handle_timeout s) as [s' out]. cbn [fst] in *.
        destruct (end_iteration_statics s') as (-> & ->).
        rewrite H1, H2. auto.
      * cbn [fst]. destruct (end_iteration_statics s) as (-> & ->). auto.
  - unfold eof_step. destruct (eof_continue _ _); cbn; auto.
  - unfold eof_wait_step. destruct (eof_iteration _ _ _). cbn. auto.
  - cbn. auto.
Qed.

Lemma sender_reachable_counts file ws bs s :
  sender_reachable file ws bs s -> rr_counts_ok s.
Proof.
  induction 1 as [|s r Hr IH].
  - unfold rr_counts_ok. cbn. lia.
  - apply sender_step_counts. exact IH.
Qed.

Section Three.
Variables (file : list Z) (bs n : Z).

Lemma three_duplicate_rr rs ms w :
  frames_stored file bs w -> sender_window w n -> 1 <= base w < n ->
  0 <= repeat_rr_count rs ->
  let a := base w - 1 in
  exists rs1 ms1 w1 out1 rs2 ms2 w2 out2 rs3 ms3 w3 out3,
    on_control rs ms w (rr_pdu a) = (rs1, ms1, w1, out1) /\
    on_control rs1 ms1 w1 (rr_pdu a) = (rs2, ms2, w2, out2) /\
    on_control rs2 ms2 w2 (rr_pdu a) = (rs3, ms3, w3, out3) /\
    base w3 = base w /\
    exists d, out1 ++ out2 ++ out3 = [d] /\ base_resent file bs (base w) d.
Proof.
  intros Hst Hsw Hb Hc. cbv zeta.
  destruct (duplicate_rr_step file bs n rs ms w Hst Hsw Hb)
    as (rs1 & ms1 & w1 & out1 & E1 & Hst1 & Hsw1 & Hb1 & Hl1 & C1).
  destruct (duplicate_rr_step file bs n rs1 ms1 w1 Hst1 Hsw1 ltac:(lia))
    as (rs2 & ms2 & w2 & out2 & E2 & Hst2 & Hsw2 & Hb2 & Hl2 & C2).
  destruct (duplicate_rr_step file bs n rs2 ms2 w2 Hst2 Hsw2 ltac:(lia))
    as (rs3 & ms3 & w3 & out3 & E3 & Hst3 & Hsw3 & Hb3 & Hl3 & C3).
  cbv zeta in *. rewrite Hb1 in *. rewrite Hb2 in *.
  exists rs1, ms1, w1, out1, rs2, ms2, w2, out2, rs3, ms3, w3, out3.
  split; [exact E1|]. split; [exact E2|]. split; [exact E3|].
  split; [lia|].
  rewrite Hl1, Z.eqb_refl in C2. rewrite Hl2, Z.eqb_refl in C3.
  destruct (Z.eqb_spec (last_rr_seq rs) (base w - 1)).
  - destruct (Z.geb_spec (repeat_rr_count rs + 1) 3).
    + destruct C1 as (K1 & d & -> & Hd).
      rewrite K1 in C2. cbn in C2. destruct C2 as (K2 & ->).
      rewrite K2 in C3. cbn in C3. destruct C3 as (K3 & ->).
      exists d. split; [reflexivity|exact Hd].
    + destruct C1 as (K1 & ->). rewrite K1 in C2.
      destruct (Z.geb_spec (repeat_rr_count rs + 1 + 1) 3).
      * destruct C2 as (K2 & d & -> & Hd).
        rewrite K2 in C3. cbn in C3. destruct C3 as (K3 & ->).
        exists d. split; [reflexivity|exact Hd].
      * destruct C2 as (K2 & ->). rewrite K2 in C3.
        destruct (Z.geb_spec (repeat_rr_count rs + 1 + 1 + 1) 3); [|lia].
        destruct C3 as (K3 & d & -> & Hd).
        exists d. split; [reflexivity|exact Hd].
  - destruct C1 as (K1 & ->). rewrite K1 in C2. cbn in C2.
    destruct C2 as (K2 & ->). rewrite K2 in C3. cbn in C3.
    destruct C3 as (K3 & d & -> & Hd).
    exists d. split; [reflexivity|exact Hd].
Qed.

End Three.

(** X20.  Three RR in a row for the frame below the base, read by
    [process_ack_packets] while the frame at the base is outstanding,
    make the sender retransmit the frame at the base once: together the
    three produce one datagram, the frame at the base with the flag
    RESENT_TIMEOUT, a checksum that verifies and its bytes of the file,
    and the base does not move. *)
Theorem third_duplicate_rr_resends_base file ws bs s sent :
  0 < ws < 2 ^ 30 -> 0 < bs -> Z.of_nat (length file) < 2 ^ 31 ->
  sender_trace file ws bs s sent ->
  s_pc s = PcAcks -> 1 <= base (s_win s) < sender_next_seq s ->
  let d := rr_pdu (base (s_win s) - 1) in
  let s1 := sender_step s (Ready d) in
  let s2 := sender_step (fst s1) (Ready d) in
  let s3 := sender_step (fst s2) (Ready d) in
  s_pc (fst s3) = PcAcks /\ base (s_win (fst s3)) = base (s_win s) /\
  exists f, snd s1 ++ snd s2 ++ snd s3 = [f] /\
            base_resent file bs (base (s_win s)) f.
Proof.
  intros Hws Hbs HL Htr Hpc Hb. cbv zeta.
  pose proof (sender_trace_inv file ws bs Hws Hbs HL s sent Htr)
    as ((_ & _ & _ & _ & _ & Hst) & _).
  pose proof (sender_trace_reachable file ws bs s sent Htr) as Hreach.
  pose proof (sender_reachable_inv file ws bs s Hws HL Hreach) as (Hsw & _).
  pose proof (sender_reachable_counts file ws bs s Hreach) as (Hc & _).
  destruct (three_duplicate_rr file bs (sender_next_seq s) (s_rr_acks s)
              (s_mark s) (s_win s) Hst Hsw Hb Hc)
    as (rs1 & ms1 & w1 & out1 & rs2 & ms2 & w2 & out2 & rs3 & ms3 & w3 & out3
        & E1 & E2 & E3 & Hb3 & Hout).
  cbv zeta in E1, E2, E3.
  set (d := rr_pdu (base (s_win s) - 1)) in *.
  assert (Hstep : forall t rs ms w out,
            s_pc t = PcAcks ->
            on_control (s_rr_acks t) (s_mark t) (s_win t) d = (rs, ms, w, out) ->
            let t' := fst (sender_step t (Ready d)) in
            snd (sender_step t (Ready d)) = out /\ s_pc t' = PcAcks /\
            s_rr_acks t' = rs /\ s_mark t' = ms /\ s_win t' = w).
  { intros t rs ms w out Ht E. cbv zeta. unfold sender_step, acks_step.
    rewrite Ht, E. cbn. auto. }
  destruct (Hstep s rs1 ms1 w1 out1 Hpc E1) as (O1 & P1 & R1 & M1 & W1).
  cbv zeta in *.
  set (t1 := fst (sender_step s (Ready d))) in *.
  rewrite <- R1, <- M1, <- W1 in E2.
  destruct (Hstep t1 rs2 ms2 w2 out2 P1 E2) as (O2 & P2 & R2 & M2 & W2).
  cbv zeta in *.
  set (t2 := fst (sender_step t1 (Ready d))) in *.
  rewrite <- R2, <- M2, <- W2 in E3.
  destruct (Hstep t2 rs3 ms3 w3 out3 P2 E3) as (O3 & P3 & R3 & M3 & W3).
  cbv zeta in *.
  rewrite O1, O2, O3, P3, W3.
  split; [reflexivity|]. split; [exact Hb3|exact Hout].
Qed.

Lemma third_duplicate_rr_resends_base_witness :
  let file := [1; 2; 3; 4; 5] in
  let t1 := sender_step (send_data_packets_init file 2 1) Timeout in
  let t2 := sender_step (fst t1) (Ready (rr_pdu 0)) in
  let t3 := sender_step (fst t2) Timeout in
  let t4 := sender_step (fst t3) Timeout in
  let s := fst t4 in
  let d := rr_pdu (base (s_win s) - 1) in
  let s1 := sender_step s (Ready d) in
  let s2 := sender_step (fst s1) (Ready d) in
  let s3 := sender_step (fst s2) (Ready d) in
  (base (s_win s) = 1 /\ snd s1 = [] /\ snd s2 = []) /\
  s_pc (fst s3) = PcAcks /\ base (s_win (fst s3)) = base (s_win s) /\
  exists f, snd s1 ++ snd s2 ++ snd s3 = [f] /\
            base_resent file 1 (base (s_win s)) f.
Proof.
  intros file t1 t2 t3 t4 s d s1 s2 s3.
  split; [vm_compute; auto|].
  apply (third_duplicate_rr_resends_base file 2 1 s
           ((([] ++ snd t1) ++ snd t2) ++ snd t3 ++ snd t4)).
  - lia.
  - lia.
  - simpl. lia.
  - unfold s, t4, t3, t2, t1. rewrite app_assoc.
    apply trace_step, trace_step, trace_step, trace_step, trace_init.
  - vm_compute. reflexivity.
  - vm_compute. split; [discriminate|reflexivity].
Defined.
